(* ===== verification/_CoqProject ===== *)
-Q . S2P
Prelude.v
Auth.v
JsString.v
JsValue.v
Json.v
IconMatcher.v
Sanitizer.v
ImagePool.v
Ledger.v
RemoteApi.v
WordPress.v
Retry.v
IconCatalog.v
MediaFetch.v
Orchestrator.v
PageFetcher.v
Migration.v
