(* ===== verification/Prelude.v ===== *)
(** * Verification of the WordPress page migration scripts

    This development models, in Rocq, the migration script of the
    repository and states what makes it correct:

    - [src/step_1.js] fetches pages of the old site by slug through the
      WordPress REST API and stores them as [pages/<id>.json];
    - [src/step_2.js] is the migration proper.  For every staged page,
      [processPage] assigns service icons ([assignIconsToServices] calling
      [findBestIconMatch]), builds the REST payload
      ([extractFieldsForWordPress] with [sanitizeAcfData]), looks the page
      up in the ledger ([findRecordByOriginId] on [created_pages.json]),
      creates or updates the destination page through the retrying client
      ([createPage], [updatePage] over [fetchWithRetry]), uploads images
      chosen by a Fisher-Yates shuffle ([selectRandomUniqueImages],
      [uploadImage]) and writes its ledger record ([Object.assign] into
      the found record, or [push]).  [main] runs [processPage] on each page
      in a [try]/[catch], so one failing page does not stop the run.
      Before the loop, [loadOrFetchSvgMedia] builds the icon catalogue
      [icon_files.csv] once ([fetchAllSvgMedia] pages through the site's
      media, [saveSvgMediaToCsv] writes the file) and [loadIconLibrary]
      reads it into the icon library the matcher uses.  The files
      between the runs are JSON texts ([JSON.stringify(v, null, 2)] and
      [JSON.parse]): the pages step 1 writes and step 2 reads, and the
      ledger [created_pages.json] that [main] loads before the loop and
      writes back after it.  Both scripts authenticate with a Basic
      [Authorization] header built from the [.env] credentials.

    ** Files, in dependency order

    - [Prelude] (this file): the run monad [M S A = S -> outcome A * S]
      (state passing, a JavaScript exception as the value [Throw msg]),
      its notations in [mig_scope], the frame predicate [keeps R c s]
      (every run of [c] from [s] ends in a state related to [s]) with its
      lemmas, the hint databases [mig] and [mig_rw], and list and
      string lemmas.
    - [Auth]: step_2.js lines 16-18, 37-42 and 734-736, step_1.js lines
      11-17 and 41: the credential checks and the header
      ["Basic " + Buffer.from(`${user}:${pass}`).toString("base64")], with
      UTF-8 and base64 written out on bytes ([Z.shiftr], [Z.land],
      [Z.lor]).
    - [JsString]: the string builtins the code calls, on Latin-1 code
      units: [toLowerCase], the regular expressions of
      [normalizeServiceTitle] ([strip_tags], [collapse_ws]), [trim],
      [split], [join], [includes], [startsWith], [endsWith], and
      [parseInt(s, 10)] ([parseInt10], [None] for [NaN]) with the lemma
      that it reads back [String(n)].
    - [JsValue]: JavaScript values ([val]) as [JSON.parse] produces them,
      plus [undefined], [NaN] and the host objects reached through
      [Object.prototype]; property read ([obj_get], [get], throwing on
      [undefined]/[null]), write ([obj_set]), [delete], [Object.assign],
      truthiness and [String(v)].
    - [Json]: [JSON.stringify(v, null, 2)] ([stringify], the printer
      [jprint] with its two-space layout and string escapes) and
      [JSON.parse] ([json_parse]: a parser by mutual recursion [pv],
      [parr], [pobj] with fuel), used at step_2.js lines 406, 410 and 509
      and step_1.js line 62; [json_valid] recognises the whole JSON
      grammar [JSON.parse] accepts, and contains every text the parser
      reads ([json_parse_valid]).
    - [IconMatcher]: step_2.js lines 77-330, the tables
      [SERVICE_ICON_MAPPINGS], [KEYWORD_ICON_MAPPINGS], [FALLBACK_ICONS],
      and [normalizeServiceTitle], [findAvailableIcon],
      [scoreIconByKeywords], [findBestIconMatch] (its five steps), and
      [assignIconsToServices] with its [usedIconIds] set as a [gset].
    - [Sanitizer]: lines 20-26 and 441-504, [sanitizeAcfData],
      [extractFieldsForWordPress], [trackImageFields].
    - [ImagePool]: lines 420-439; [Math.random] is an oracle
      [rng : nat -> Z] of 53-bit integers ([Math.random() = k / 2^53]),
      consumed from a position that the run threads; the product
      [Math.random() * (i + 1)] is rounded to a double ([round53], to 53
      significant bits, ties to even) before [Math.floor].
    - [Ledger]: lines 400-416 and 617-622, [loadJSON] and [writeJSON]
      on the text of the file,
      [findRecordByOriginId] (returning the index of the record, so that
      the in-place [Object.assign] updates that array element) and [upsert].
    - [RemoteApi]: the interface between the client and the destination
      site: requests, responses, the type class [Server] (a site's
      request handler), the network oracle [net : nat -> net_event]
      deciding for the n-th request whether it is delivered, lost before
      or after the server, or answered by a gateway error, and [fetch] and
      [sleep] (lines 33-35) over the environment [env] (site, network,
      requests sent, delays slept, and the [Authorization] header every
      request carries); [rejects] and [frozen] describe a site that turns
      the header away.
    - [WordPress]: an instance of [Server], modelled from spec section 6
      since the site is not part of the repository: HTTP Basic
      authentication of every request against the site's users (401
      otherwise, decoding the header with [Auth]), pages and media with
      one id counter, [PATCH] merging ACF fields, 404 on unknown ids, the
      media listing by pages of 100 and the page listing by slug.
    - [Retry]: lines 28-73 and 334-396, [fetchWithRetry] as a loop with
      [maxAttempts] as its measure, [createPage], [updatePage],
      [uploadImage]; every theorem but the duplicate example holds for
      any [Server]; against a rejecting site no request succeeds and the
      site is untouched.
    - [Orchestrator]: lines 12-13, 508-627 and 731-797.  The run's state
      [world] holds the request environment, the ledger array
      [jsonRecords] and the random oracle; [prepare_page] is [processPage]
      up to the ledger write, [processPage] adds the write, [main_loop]
      is the [for] loop with its [catch] over parsed pages, [page_runs]
      its reference relation (each page run from the state the previous
      one left).
    - [IconCatalog]: lines 139-181 and 677-710, [loadIconLibrary] on the
      file's content ([None] when it does not exist) and
      [saveSvgMediaToCsv] returning the content written: the stable sort
      by id (stdpp's [merge_sort], stable like V8's TimSort), the id
      filter, the [seenTitles] filter with SameValueZero, the rows and the
      unquoted [join].
    - [MediaFetch]: lines 631-675 and 712-727, [fetchAllSvgMedia] as a
      loop over [GET /media] pages through [fetch], with fuel, and
      [loadOrFetchSvgMedia] on the file's content before and after.
    - [PageFetcher]: all of [src/step_1.js]: [urls.txt] split into URLs,
      [getPageData] (slug, one [fetch] with no retry, the write of
      [path.join(OUTPUT_DIR, `${id}.json`)], the [catch]) over a state
      holding the network environment, the directory as a [gmap] from
      file name to text and the files written elsewhere, and the loop.
      [path.join] is Node's POSIX join ([resolve]); [new URL(url)] and
      the [fetch] of its origin are the runtime's, a parameter (the
      class [UrlParser]) for which every theorem holds.
    - [Migration]: [main] (lines 731-826) over the files of the working
      directory ([disk]: the icon file, the ledger file, [pages/] as
      step 1 leaves it, the image listing): the credential check, the
      catalogue set-up of [MediaFetch] and [IconCatalog], [loadJSON], the
      listing of [pages/] ([readdirSync] sorted, the [.json] filter, the
      [TEST_MODE] slice), the loop that reads, parses and processes each
      file ([main_loop_files]), [writeJSON] and the summary.

    ** Theorems (claims C1-C40)

    - Icon matching: C1 progress (for ordinary titles the matcher never
      throws and returns an unused library icon while one remains), C6
      uniqueness of the icons assigned in one call, C15 exact-match
      precedence, C17 a title such as
      ["Constructor"] throws a TypeError (a finding).
    - Idempotence and the ledger: C2 a page processed successfully is
      never created again on a re-run, C8 a page with a ledger record
      sends no [POST /pages], C3 [upsert] keeps one record per origin id
      and grows the ledger only for a new id, C7 the whole loop keeps the
      ledger well formed, C10 a throwing page leaves the ledger as it was,
      C9 the loop never throws and its results are, in order, those of
      [processPage] on each page from the state the earlier pages left
      ([page_runs]), C20 every
      page that succeeds in a run is in the final ledger whatever the
      other pages did (partial-failure isolation).
    - Retries: C4 exact backoff delays and the final error when every
      request is lost, C11 eventual success, C12 at most [maxAttempts]
      requests, C13 a lost response to [POST /pages] makes the retry
      create a second page (a finding).
    - C5 the sanitizer's output is clean and the sanitizer idempotent;
      C18 the images of a page are distinct files of the pool, C19 the
      shuffle's index stays in range, the product rounded as doubles are;
      C14 for every new page with more image values than the pool has
      files, the image step throws after the page was created and before
      the ledger write, so each of [k] runs creates the page again (a
      finding, against spec section 4.3); C31 every record [processPage]
      writes has the LedgerRecord shape of spec section 3; C32 on a new
      page without image values, [processPage] sends one [POST /pages]
      storing the sanitised payload with its icons under the site's next
      id, and pushes the record of the new page.
    - Icon catalogue: C21 the [seenTitles] filter equals "keep the first
      item of each title", C22 round trip: what [saveSvgMediaToCsv]
      writes, [loadIconLibrary] reads back as the icons of the catalogued
      items' own fields ([icon_of]) when no field holds a comma or
      newline, C23 for every item titled ["Icon=a,b"] the columns shift
      (a finding), C24 termination and result of the media
      pagination, C25 the whole catalogue set-up refines its
      specification [icon_library_spec], C26 a request for page [k] that
      is not delivered ends the pagination silently with the items of
      the pages before it (a finding).
    - Step 1: C27 the URL loop never throws, C28 every file of [pages/]
      is named after its page's id, C29 the loop refines
      [expected_files] for every URL parser, C30 a URL whose last segment
      is not a WordPress slug (the site root, a query string) saves
      nothing, whatever the network does (a finding).
    - Files and runs: C33 [writeJSON] then
      [loadJSON] gives back a well-formed ledger with the same origin ids,
      C34 after a run of [main] in which every page succeeds, the next run
      creates no page (two runs composed through the disk), C35 a ledger
      file that [JSON.parse] rejects ([json_valid] false) aborts the run
      before any page and is left as it was,
      C36 step 1 then step 2: each page file step 2 reads is a page of
      the old site, C37 with [TEST_MODE] a run processes at most one page
      (a finding), C38 two new pages with the same [acf] run one after
      the other are stored with the same [acf], so the same icons, since
      [usedIconIds] is per page (a finding, against spec section 8).
    - Credentials: C16 a run with credentials the site rejects is not
      stopped: every page fails, and a missing icon file is written
      with no icon and kept by every later run (a finding,
      against spec section 7); C39 the server decodes the header back to the
      credentials, C40 the header's length is ["Basic "] plus
      [4 * ceil(m / 3)] for [m] UTF-8 bytes and its characters are base64
      digits or ['=']: no line break can be injected.

    ** Bounds and fuel

    Two definitions use fuel.  The JSON parser [Json.pv] (and the
    recognizer [Json.rv]) is given [1 + length text] ([json_parse]):
    each nested value consumes at least one character, so this is
    enough ([stringify_parse] proves the parse of every printed text
    succeeds with it).  The [while (hasMore)] loop of [fetchAllSvgMedia]
    ([MediaFetch.fetch_loop]), whose termination depends on the site,
    ends with the error [out_of_fuel] when its fuel runs out, never with
    a result.  C24 shows that [n / 100 + 2] iterations are enough on a
    site of [n] media items (one per full or partial page, one for the
    empty page), and [fetchAllSvgMedia_fuel_mono] that more fuel
    changes no result.  Every
    other loop is structural: [fetchWithRetry] recurses on the number of
    attempts left, the shuffle on [i], the page loops on their lists,
    [sanitizeAcfData] on the value.  Numbers are
    integers ([Z]); ids and delays never exceed [2^53] in the code's use,
    so [Z] and JavaScript doubles agree on them.  [Math.random] draws are
    integers [k] with [0 <= k < 2^53], the doubles it returns.

    ** Not modelled

    Console output; the multipart body of [uploadImage] (reduced to file
    name and title); [dotenv]'s parsing of the [.env] file (a library:
    its result is the record [Auth.env_vars] that [Migration.main] and
    [PageFetcher.step1] take) and [process.exit]; the URLs of the
    requests (the site is the one of the environment); the WHATWG URL
    parser of [new URL(url)] (a parameter); in the values read by
    [JSON.parse], numbers other than integers and [\uXXXX] escapes above
    [0xFF], which the Latin-1 strings of the development cannot hold:
    on such a text (never written by [JSON.stringify] of the scripts)
    the model's parser throws where [JSON.parse] would not, and the
    claims on a text [JSON.parse] rejects are stated with [json_valid],
    the full grammar. *)

From stdpp Require Export base list gmap strings pretty.
From Stdlib Require Export ZArith Lia.

(** ** Outcomes: a value or a thrown JavaScript error (its message). *)

Inductive outcome (A : Type) : Type :=
| Ok (a : A)
| Throw (msg : string).
Arguments Ok {A} a.
Arguments Throw {A} msg.

(** What a fuel-bounded model of an unbounded [while] loop ends with when
    its fuel runs out: not a result of the code but the sign that the
    loop would go on.  No code of the program throws this text. *)
Definition out_of_fuel : string := "(out of fuel: the loop would go on)".

(** ** The run monad: explicit state passing in which a thrown error keeps
    the effects performed before it (a request already sent stays sent). *)

Definition M (S A : Type) : Type := S -> outcome A * S.

Definition ret {S A} (a : A) : M S A := fun s => (Ok a, s).

Definition bind {S A B} (c : M S A) (f : A -> M S B) : M S B :=
  fun s => match c s with
           | (Ok a, s') => f a s'
           | (Throw e, s') => (Throw e, s')
           end.

Definition throw {S A} (msg : string) : M S A := fun s => (Throw msg, s).

(** [try { c } catch (e) { h(e.message) }] *)
Definition catch {S A} (c : M S A) (h : string -> M S A) : M S A :=
  fun s => match c s with
           | (Ok a, s') => (Ok a, s')
           | (Throw e, s') => h e s'
           end.

Definition get {S} : M S S := fun s => (Ok s, s).
Definition put {S} (s : S) : M S unit := fun _ => (Ok tt, s).
Definition modify {S} (f : S -> S) : M S unit := fun s => (Ok tt, f s).

(** Lift a pure fallible computation. *)
Definition lift {S A} (o : outcome A) : M S A := fun s => (o, s).

Declare Scope mig_scope.
Delimit Scope mig_scope with mig.
Notation "x <- c1 ;; c2" := (bind c1 (fun x => c2))
  (at level 100, c1 at next level, right associativity) : mig_scope.
Notation "c1 ;;; c2" := (bind c1 (fun _ => c2))
  (at level 100, right associativity) : mig_scope.

(** Sequential loop [for (const x of xs) await f(x)]. *)
Fixpoint mapM {S A B} (f : A -> M S B) (xs : list A) : M S (list B) :=
  match xs with
  | [] => ret []
  | x :: xs' => bind (f x) (fun b => bind (mapM f xs') (fun bs => ret (b :: bs)))
  end.

(** ** Hint database of the development *)

Create HintDb mig discriminated.
Create Rewrite HintDb mig_rw.

Lemma bind_ret_l {S A B} (a : A) (f : A -> M S B) s : bind (ret a) f s = f a s.
Proof. reflexivity. Qed.

Lemma bind_Ok {S A B} (c : M S A) (f : A -> M S B) s a s' :
  c s = (Ok a, s') -> bind c f s = f a s'.
Proof. unfold bind. by intros ->. Qed.

Lemma bind_Throw {S A B} (c : M S A) (f : A -> M S B) s e s' :
  c s = (Throw e, s') -> bind c f s = (Throw e, s').
Proof. unfold bind. by intros ->. Qed.

Lemma catch_Ok {S A} (c : M S A) h s a s' :
  c s = (Ok a, s') -> catch c h s = (Ok a, s').
Proof. unfold catch. by intros ->. Qed.

Lemma catch_Throw {S A} (c : M S A) h s e s' :
  c s = (Throw e, s') -> catch c h s = h e s'.
Proof. unfold catch. by intros ->. Qed.

#[export] Hint Rewrite @bind_ret_l : mig_rw.
#[export] Hint Resolve bind_Ok catch_Ok : mig.

(** The two ways a [bind] can end. *)
Lemma bind_inv {S A B} (c : M S A) (f : A -> M S B) s o s' :
  bind c f s = (o, s') ->
  (exists e, c s = (Throw e, s') /\ o = Throw e) \/ (exists a s1, c s = (Ok a, s1) /\ f a s1 = (o, s')).
Proof.
  unfold bind. destruct (c s) as [[a|e] s1]; [right; eauto|intros [= <- <-]; left; eauto].
Qed.

(** Invert the [bind] at the head of hypothesis [H]. *)
Ltac bind_inv H :=
  apply bind_inv in H as [(?e & ?Hc & ?Ho)|(?a & ?s & ?Hc & H)].

(** Peel the [bind] at the head of [H : bind c f s = (Ok _, _)]: [c]
    returned [x] in state [s'], as [Hc] says. *)
Ltac bind_ok H x s' Hc :=
  apply bind_inv in H as [(? & ? & ?Ho)|(x & s' & Hc & H)]; [discriminate|].

(** Unfold one monadic step and case on the outcome of its first action. *)
Ltac step_bind H :=
  match goal with
  | |- context [bind ?c ?f ?s] =>
      let o := fresh "o" in let s' := fresh "s" in
      destruct (c s) as [o s'] eqn:H; destruct o
  end.

(** ** Frame reasoning: what a computation keeps of the state *)

(** Every run of [c] from [s] ends in a state [R]-related to [s]. *)
Definition keeps {S A} (R : S -> S -> Prop) (c : M S A) (s : S) : Prop :=
  forall o s', c s = (o, s') -> R s s'.

(** The relation "the projection [f] is unchanged". *)
Definition same {S X} (f : S -> X) : S -> S -> Prop := fun s s' => f s' = f s.

Section keeps.
Context {S : Type} (R : S -> S -> Prop) `{!PreOrder R}.

Lemma keeps_ret {A} (a : A) s : keeps R (ret a) s.
Proof. intros o s' [= _ <-]. reflexivity. Qed.

Lemma keeps_lift {A} (o : outcome A) s : keeps R (lift o) s.
Proof. intros o' s' [= _ <-]. reflexivity. Qed.

Lemma keeps_throw {A} m s : keeps R (@throw S A m) s.
Proof. intros o' s' [= _ <-]. reflexivity. Qed.

Lemma keeps_get s : keeps R get s.
Proof. intros o s' [= _ <-]. reflexivity. Qed.

Lemma keeps_bind {A B} (c : M S A) (f : A -> M S B) s :
  keeps R c s -> (forall a s1, c s = (Ok a, s1) -> keeps R (f a) s1) -> keeps R (bind c f) s.
Proof.
  intros Hc Hf o s'. unfold bind. destruct (c s) as [[a|e] s1] eqn:E.
  - intros Hs. etransitivity; [by eapply Hc|]. by eapply Hf.
  - intros [= _ <-]. by eapply Hc.
Qed.

Lemma keeps_catch {A} (c : M S A) h s :
  keeps R c s -> (forall e s1, c s = (Throw e, s1) -> keeps R (h e) s1) -> keeps R (catch c h) s.
Proof.
  intros Hc Hh o s'. unfold catch. destruct (c s) as [[a|e] s1] eqn:E.
  - intros [= _ <-]. by eapply Hc.
  - intros Hs. etransitivity; [by eapply Hc|]. by eapply Hh.
Qed.
End keeps.

#[export] Instance same_preorder {S X} (f : S -> X) : PreOrder (same f).
Proof. split; [by intros ?| intros x y z H1 H2; unfold same in *; congruence]. Qed.

(** A relation read through a projection of the state. *)
Definition via {S T} (g : S -> T) (R : T -> T -> Prop) : S -> S -> Prop := fun s s' => R (g s) (g s').

#[export] Instance via_preorder {S T} (g : S -> T) (R : T -> T -> Prop) `{!PreOrder R} : PreOrder (via g R).
Proof. split; [intros s; unfold via; reflexivity|intros x y z; unfold via; apply transitivity]. Qed.

(** ** Computations that never end normally *)

Definition fails {S A} (c : M S A) (s : S) : Prop := forall o s', c s = (o, s') -> exists m, o = Throw m.

Lemma fails_throw {S A} m (s : S) : fails (@throw S A m) s.
Proof. intros o s' [= <- _]. eauto. Qed.

Lemma fails_bind_l {S A B} (c : M S A) (f : A -> M S B) s : fails c s -> fails (bind c f) s.
Proof.
  intros Hc o s'. unfold bind. destruct (c s) as [[a|e] s1] eqn:E; [|intros [= <- _]; eauto].
  destruct (Hc _ _ E) as [m [=]].
Qed.

Lemma fails_bind_r {S A B} (c : M S A) (f : A -> M S B) s :
  (forall a s1, c s = (Ok a, s1) -> fails (f a) s1) -> fails (bind c f) s.
Proof.
  intros Hf o s'. unfold bind. destruct (c s) as [[a|e] s1] eqn:E; [by apply Hf|intros [= <- _]; eauto].
Qed.

Lemma fails_catch_rethrow {S A} (c : M S A) s : fails c s -> fails (catch c throw) s.
Proof.
  intros Hc o s'. unfold catch. destruct (c s) as [[a|e] s1] eqn:E; [destruct (Hc _ _ E) as [m [=]]|].
  intros [= <- _]. eauto.
Qed.

(** Apply the frame rules through binds, catches and the branches of
    [match] and [if]. *)
Ltac keeps_step :=
  match goal with
  | |- keeps _ (bind _ _) _ => apply keeps_bind; [typeclasses eauto| |intros ? ? ?]
  | |- keeps _ (catch _ _) _ => apply keeps_catch; [typeclasses eauto| |intros ? ? ?]
  | |- keeps _ (ret _) _ => apply keeps_ret; typeclasses eauto
  | |- keeps _ (lift _) _ => apply keeps_lift; typeclasses eauto
  | |- keeps _ (throw _) _ => apply keeps_throw; typeclasses eauto
  | |- keeps _ get _ => apply keeps_get; typeclasses eauto
  | |- keeps _ (match ?x with _ => _ end) _ => destruct x
  | |- keeps _ (if ?b then _ else _) _ => destruct b
  end.

(** The value of an outcome, with a default for a throw. *)
Definition ok_or {A} (d : A) (o : outcome A) : A :=
  match o with Ok a => a | Throw _ => d end.

(** Apply [f] to the last element of a list. *)
Fixpoint on_last {A} (f : A -> A) (l : list A) : list A :=
  match l with
  | [] => []
  | [x] => [f x]
  | x :: r => x :: on_last f r
  end.

Lemma omap_on_last {A B} (f : A -> option B) (g : A -> A) l :
  (forall x, x ∈ l -> f (g x) = f x) -> omap f (on_last g l) = omap f l.
Proof.
  induction l as [|x [|y l] IH]; intros Hl; [done| |].
  - simpl. rewrite Hl by set_solver. done.
  - change (omap f ([x] ++ on_last g (y :: l)) = omap f ([x] ++ y :: l)).
    rewrite !omap_app, IH by set_solver. done.
Qed.

(** A run is determined by its outcome; with the state left as computed,
    a concrete run is checked by evaluating its outcome alone. *)
Lemma run_eq {S A} (c : M S A) s o : fst (c s) = o -> c s = (o, snd (c s)).
Proof. intros <-. apply surjective_pairing. Qed.

(** Inversion of a successful bind. *)
Lemma bind_Ok_inv {S A B} (c : M S A) (f : A -> M S B) s b s' :
  bind c f s = (Ok b, s') -> exists a s1, c s = (Ok a, s1) /\ f a s1 = (Ok b, s').
Proof. unfold bind. destruct (c s) as [[a|e] s1]; [eauto|done]. Qed.

(** Inversion of a failed bind: the first action failed, or it
    succeeded and the continuation failed. *)
Lemma bind_Throw_inv {S A B} (c : M S A) (f : A -> M S B) s e s' :
  bind c f s = (Throw e, s') ->
  c s = (Throw e, s') \/ exists a s1, c s = (Ok a, s1) /\ f a s1 = (Throw e, s').
Proof. unfold bind. destruct (c s) as [[a|e'] s1]; [eauto|intros [= -> ->]; by left]. Qed.

(** ** Generic list lemmas shared by the components *)

Lemma find_Some_in {A} (p : A -> bool) (l : list A) x :
  List.find p l = Some x -> x ∈ l /\ p x = true.
Proof.
  intros H. apply List.find_some in H as [Hin Hp].
  split; [by apply list_elem_of_In | done].
Qed.

Lemma find_None_all {A} (p : A -> bool) (l : list A) :
  List.find p l = None -> forall x, x ∈ l -> p x = false.
Proof.
  intros H x Hx. apply list_elem_of_In in Hx. by eapply List.find_none.
Qed.

Lemma filter_elem_of {A} (p : A -> bool) (l : list A) x :
  x ∈ List.filter p l <-> x ∈ l /\ p x = true.
Proof. rewrite !list_elem_of_In. apply filter_In. Qed.

Lemma filter_all_false {A} (p : A -> bool) (l : list A) :
  (forall x, x ∈ l -> p x = false) -> List.filter p l = [].
Proof.
  induction l as [|x l IH]; simpl; intros H; [done|].
  rewrite H by set_solver. apply IH. set_solver.
Qed.

Lemma omap_zip_cons {A B C} (g : A * B -> option C) a b (l : list A) (k : list B) :
  omap g (zip (a :: l) (b :: k)) =
  match g (a, b) with Some y => y :: omap g (zip l k) | None => omap g (zip l k) end.
Proof. reflexivity. Qed.

(** Two positions selected by [omap] with a duplicate-free image carry
    different values. *)
Lemma NoDup_omap_lookup {A B} (g : A -> option B) (l : list A) i j x y v :
  NoDup (omap g l) -> i <> j -> l !! i = Some x -> l !! j = Some y ->
  g x = Some v -> g y = Some v -> False.
Proof.
  revert i j. induction l as [|a l IH]; intros i j Hnd Hij Hi Hj Hx Hy; [done|].
  simpl in Hnd. destruct i as [|i], j as [|j]; simpl in *; try done.
  - injection Hi as ->. rewrite Hx in Hnd. apply NoDup_cons in Hnd as [Hn _].
    apply Hn, list_elem_of_omap. exists y. split; [|done].
    by eapply list_elem_of_lookup_2.
  - injection Hj as ->. rewrite Hy in Hnd. apply NoDup_cons in Hnd as [Hn _].
    apply Hn, list_elem_of_omap. exists x. split; [|done].
    by eapply list_elem_of_lookup_2.
  - destruct (g a); [apply NoDup_cons in Hnd as [_ Hnd]|];
      eapply (IH i j); eauto.
Qed.

Lemma NoDup_take_l {A} (n : nat) (l : list A) : NoDup l -> NoDup (take n l).
Proof. rewrite <- (take_drop n l) at 1. by intros [? _]%NoDup_app. Qed.

(** Replacing an element by one with the same image keeps an [omap]. *)
Lemma omap_insert_same {A B} (f : A -> option B) (l : list A) j x y :
  l !! j = Some x -> f y = f x -> omap f (<[j:=y]> l) = omap f l.
Proof.
  revert j. induction l as [|z l IH]; intros [|j] Hj Hf; simpl in *; try done.
  - injection Hj as ->. by rewrite Hf.
  - by rewrite IH.
Qed.

#[export] Hint Resolve find_Some_in NoDup_take_l : mig.

(** ** Generic string lemmas: [+:+] does not reduce under [cbn] *)

Lemma app_nil_r_str s : s +:+ "" = s.
Proof. induction s as [|c r IH]; [done|]. change (String c (r +:+ "") = String c r). by rewrite IH. Qed.

Lemma length_app_str s t : String.length (s +:+ t) = (String.length s + String.length t)%nat.
Proof. induction s as [|c r IH]; [done|]. simpl. by rewrite IH. Qed.

Lemma app_cons_str c s t : String c s +:+ t = String c (s +:+ t).
Proof. reflexivity. Qed.

Lemma app_nil_l_str s : "" +:+ s = s.
Proof. reflexivity. Qed.

