(* ===== verification/Auth.v ===== *)
(** * Credentials and the [Authorization] header

    Both scripts authenticate with HTTP Basic authentication:
    - [getAuthHeader] of [src/step_2.js] (lines 37-42) builds
      ["Basic " + Buffer.from(`${STAGING_USER}:${STAGING_PASS}`).toString("base64")];
    - [getPageData] of [src/step_1.js] (line 41) builds the same header from
      [WP_USER] and [WP_PASS].

    [Buffer.from(s)] encodes the string in UTF-8; the strings of the
    development are Latin-1 code units (see [JsString]), so a code unit
    below 0x80 is one byte and one of 0x80-0xFF two bytes.  Bytes are [Z]s
    in [0, 256); [toString("base64")] is the padded base64 of RFC 4648,
    written with [Z.shiftr], [Z.shiftl], [Z.land] and [Z.lor] on the
    groups of three bytes.  A template literal of a missing variable is
    the text ["undefined"].

    The decoder of the header ([basic_credentials]: base64, UTF-8, the
    split at the first colon of RFC 7617) is the server's side; it is not
    code of the repository: the site of [WordPress] authenticates every
    request with it, and C39 states that the header carries the
    credentials. *)

From S2P Require Import Prelude.
From Stdlib Require Import Ascii.
Open Scope Z_scope.
Open Scope string_scope.

Module Auth.

(** ** Configuration *)

(** The variables [dotenv] puts in [process.env]. *)
Record env_vars : Type := mkEnvVars {
  STAGING_URL : option string;
  STAGING_USER : option string;
  STAGING_PASS : option string;
  WP_USER : option string;
  WP_PASS : option string
}.

(** [!x] of a [process.env] value: missing or empty. *)
Definition env_missing (x : option string) : bool :=
  match x with Some s => String.eqb s "" | None => true end.

(** The check at the top of [main] in step 2 (line 734). *)
Definition stagingCredentialsPresent (cfg : env_vars) : bool :=
  negb (env_missing (STAGING_URL cfg) || env_missing (STAGING_USER cfg) || env_missing (STAGING_PASS cfg)).

(** The check at the top of step 1 (line 14). *)
Definition wpCredentialsPresent (cfg : env_vars) : bool :=
  negb (env_missing (WP_USER cfg) || env_missing (WP_PASS cfg)).

(** [`${x}`] of a [process.env] value. *)
Definition template (x : option string) : string :=
  match x with Some s => s | None => "undefined" end.

(** ** [Buffer.from(s)]: UTF-8 of Latin-1 code units *)

Definition utf8_char (c : ascii) : list Z :=
  let n := Z.of_nat (nat_of_ascii c) in
  if (n <? 128)%Z then [n] else [Z.lor 192 (Z.shiftr n 6); Z.lor 128 (Z.land n 63)].

Fixpoint utf8 (s : string) : list Z :=
  match s with
  | EmptyString => []
  | String c r => (utf8_char c ++ utf8 r)%list
  end.

(** ** [buf.toString("base64")] *)

Definition b64_alphabet : string :=
  "ABCDEFGHIJKLMNOPQRSTUVWXYZabcdefghijklmnopqrstuvwxyz0123456789+/".

Definition pad : ascii := "="%char.

Definition b64_digit (n : Z) : ascii :=
  match String.get (Z.to_nat n) b64_alphabet with Some c => c | None => pad end.

(** The four digits of a group of three bytes. *)
Definition d1 (a : Z) : Z := Z.shiftr a 2.
Definition d2 (a b : Z) : Z := Z.lor (Z.shiftl (Z.land a 3) 4) (Z.shiftr b 4).
Definition d3 (b c : Z) : Z := Z.lor (Z.shiftl (Z.land b 15) 2) (Z.shiftr c 6).
Definition d4 (c : Z) : Z := Z.land c 63.

Fixpoint base64 (bs : list Z) : string :=
  match bs with
  | [] => ""
  | [a] => String (b64_digit (d1 a)) (String (b64_digit (d2 a 0)) (String pad (String pad "")))
  | [a; b] => String (b64_digit (d1 a)) (String (b64_digit (d2 a b))
                (String (b64_digit (d3 b 0)) (String pad "")))
  | a :: b :: c :: r => String (b64_digit (d1 a)) (String (b64_digit (d2 a b))
                (String (b64_digit (d3 b c)) (String (b64_digit (d4 c)) (base64 r))))
  end.

(** ["Basic " + Buffer.from(`${user}:${pass}`).toString("base64")] *)
Definition basic_auth (user pass : string) : string :=
  "Basic " +:+ base64 (utf8 (user +:+ ":" +:+ pass)).

(** [getAuthHeader()] of step 2. *)
Definition getAuthHeader (cfg : env_vars) : string :=
  basic_auth (template (STAGING_USER cfg)) (template (STAGING_PASS cfg)).

(** The [Authorization] header of [getPageData] in step 1. *)
Definition wpAuthHeader (cfg : env_vars) : string :=
  basic_auth (template (WP_USER cfg)) (template (WP_PASS cfg)).

(** ** The server's reading of the header *)

Definition b64_val (c : ascii) : option Z :=
  (fix go (n : Z) (s : string) :=
     match s with
     | EmptyString => None
     | String c' r => if Ascii.eqb c c' then Some n else go (n + 1) r
     end) 0 b64_alphabet.

(** The (one to three) bytes of a group of four characters. *)
Definition dec_quad (c1 c2 c3 c4 : ascii) : option (list Z) :=
  match b64_val c1, b64_val c2 with
  | Some x1, Some x2 =>
      let a := Z.lor (Z.shiftl x1 2) (Z.shiftr x2 4) in
      if Ascii.eqb c3 pad then (if Ascii.eqb c4 pad then Some [a] else None) else
      match b64_val c3 with
      | None => None
      | Some x3 =>
          let b := Z.lor (Z.shiftl (Z.land x2 15) 4) (Z.shiftr x3 2) in
          if Ascii.eqb c4 pad then Some [a; b] else
          match b64_val c4 with
          | None => None
          | Some x4 => Some [a; b; Z.lor (Z.shiftl (Z.land x3 3) 6) x4]
          end
      end
  | _, _ => None
  end.

Fixpoint unbase64 (s : string) : option (list Z) :=
  match s with
  | EmptyString => Some []
  | String c1 (String c2 (String c3 (String c4 r))) =>
      match dec_quad c1 c2 c3 c4, unbase64 r with
      | Some q, Some t => Some (q ++ t)%list
      | _, _ => None
      end
  | _ => None
  end.

Fixpoint unutf8 (bs : list Z) : option string :=
  match bs with
  | [] => Some ""
  | b :: r =>
      if (b <? 128)%Z then option_map (String (ascii_of_nat (Z.to_nat b))) (unutf8 r) else
      match r with
      | b' :: r' => option_map (String (ascii_of_nat (Z.to_nat (Z.lor (Z.shiftl (Z.land b 31) 6) (Z.land b' 63)))))
                      (unutf8 r')
      | [] => None
      end
  end.

(** [user-pass] split at its first colon. *)
Fixpoint split_colon (s : string) : option (string * string) :=
  match s with
  | EmptyString => None
  | String c r => if Ascii.eqb c ":" then Some ("", r)
                  else option_map (fun '(u, p) => (String c u, p)) (split_colon r)
  end.

Definition basic_credentials (h : string) : option (string * string) :=
  if String.prefix "Basic " h then
    match unbase64 (String.substring 6 (String.length h - 6)%nat h) with
    | Some bs => match unutf8 bs with Some s => split_colon s | None => None end
    | None => None
    end
  else None.

(** ** Lemmas *)

Definition is_byte (b : Z) : Prop := 0 <= b < 256.

(** Properties of one or two bytes are checked on all of them. *)
Lemma seq_check (k : nat) (f : nat -> bool) :
  forallb f (seq 0 k) = true -> forall n, (n < k)%nat -> f n = true.
Proof. intros Hf n Hn. apply forallb_forall with (x := n) in Hf; [done|]. apply in_seq. lia. Qed.

Lemma byte_check (f : Z -> bool) :
  forallb (fun n => f (Z.of_nat n)) (seq 0 256) = true -> forall a, is_byte a -> f a = true.
Proof. intros Hf a [Ha1 Ha2]. rewrite <- (Z2Nat.id a) by done. apply (seq_check 256 _ Hf). lia. Qed.

Lemma byte_check2 (f : Z -> Z -> bool) :
  forallb (fun n => forallb (fun m => f (Z.of_nat n) (Z.of_nat m)) (seq 0 256)) (seq 0 256) = true ->
  forall a b, is_byte a -> is_byte b -> f a b = true.
Proof. intros Hf a b Ha. apply byte_check. revert a Ha. by apply (byte_check (fun a => forallb _ _)). Qed.

Lemma ascii_check (f : ascii -> bool) :
  forallb (fun n => f (ascii_of_nat n)) (seq 0 256) = true -> forall c, f c = true.
Proof.
  intros Hf c. rewrite <- (ascii_nat_embedding c). apply (seq_check 256 _ Hf), nat_ascii_bounded.
Qed.

(** A statement [forall a b, is_byte a -> is_byte b -> f a b = true],
    by evaluation. *)
Ltac by_bytes2 :=
  match goal with
  | |- forall a b, is_byte a -> is_byte b -> @?f a b = true =>
      exact (byte_check2 f ltac:(vm_compute; reflexivity))
  end.

Definition digit (n : Z) : bool := ((0 <=? n) && (n <? 64))%Z.

Lemma digit_check (f : Z -> bool) :
  forallb (fun k => f (Z.of_nat k)) (seq 0 64) = true -> forall n, digit n = true -> f n = true.
Proof.
  intros Hf n [Hn1 Hn2]%andb_prop. apply Z.leb_le in Hn1. apply Z.ltb_lt in Hn2.
  rewrite <- (Z2Nat.id n) by done. apply (seq_check 64 _ Hf). lia.
Qed.

Lemma b64_val_digit n : digit n = true -> b64_val (b64_digit n) = Some n.
Proof.
  intros Hn. apply (digit_check (fun n => match b64_val (b64_digit n) with Some m => Z.eqb m n | None => false end))
    in Hn; [|vm_compute; reflexivity].
  destruct (b64_val _); [f_equal; by apply Z.eqb_eq|done].
Qed.

Lemma b64_digit_not_pad n : digit n = true -> Ascii.eqb (b64_digit n) pad = false.
Proof.
  intros Hn. apply negb_true_iff. revert n Hn. apply digit_check. vm_compute. reflexivity.
Qed.

(** The digits of a group, and the decoder's arithmetic that inverts
    them, on all pairs of bytes. *)
Lemma group_ab : forall a b, is_byte a -> is_byte b ->
  digit (d1 a) && digit (d2 a b) &&
  Z.eqb (Z.lor (Z.shiftl (d1 a) 2) (Z.shiftr (d2 a b) 4)) a && Z.eqb (Z.land (d2 a b) 15) (Z.shiftr b 4) = true.
Proof. by_bytes2. Qed.

Lemma group_bc : forall b c, is_byte b -> is_byte c ->
  digit (d3 b c) && digit (d4 c) &&
  Z.eqb (Z.lor (Z.shiftl (Z.shiftr b 4) 4) (Z.shiftr (d3 b c) 2)) b &&
  Z.eqb (Z.land (d3 b c) 3) (Z.shiftr c 6) && Z.eqb (Z.lor (Z.shiftl (Z.shiftr c 6) 6) (d4 c)) c = true.
Proof. by_bytes2. Qed.

Ltac groups a b c :=
  let Hab := fresh in let Hbc := fresh in
  pose proof (group_ab a b) as Hab; pose proof (group_bc b c) as Hbc;
  repeat match goal with H : _ -> _ |- _ => specialize (H ltac:(done)) end;
  repeat match goal with H : _ && _ = true |- _ => apply andb_prop in H as [? ?] end;
  repeat match goal with H : Z.eqb _ _ = true |- _ => apply Z.eqb_eq in H end.

Lemma is_byte_0 : is_byte 0.
Proof. split; lia. Qed.

Lemma dec_quad3 a b c : is_byte a -> is_byte b -> is_byte c ->
  dec_quad (b64_digit (d1 a)) (b64_digit (d2 a b)) (b64_digit (d3 b c)) (b64_digit (d4 c)) = Some [a; b; c].
Proof.
  intros Ha Hb Hc. groups a b c. unfold dec_quad.
  rewrite !b64_val_digit, !b64_digit_not_pad by done. cbv zeta. congruence.
Qed.

Lemma dec_quad2 a b : is_byte a -> is_byte b ->
  dec_quad (b64_digit (d1 a)) (b64_digit (d2 a b)) (b64_digit (d3 b 0)) pad = Some [a; b].
Proof.
  intros Ha Hb. pose proof is_byte_0. groups a b 0. unfold dec_quad.
  rewrite !b64_val_digit, !b64_digit_not_pad by done. cbv zeta. rewrite Ascii.eqb_refl. congruence.
Qed.

Lemma dec_quad1 a : is_byte a -> dec_quad (b64_digit (d1 a)) (b64_digit (d2 a 0)) pad pad = Some [a].
Proof.
  intros Ha. pose proof is_byte_0. groups a 0 0. unfold dec_quad.
  rewrite !b64_val_digit by done. cbv zeta. rewrite Ascii.eqb_refl. congruence.
Qed.

(** Base64 decoding inverts [toString("base64")] on bytes. *)
Lemma unbase64_base64 bs : Forall is_byte bs -> unbase64 (base64 bs) = Some bs.
Proof.
  induction bs as [bs IH] using (induction_ltof1 _ (@length Z)); unfold ltof in IH.
  destruct bs as [|a [|b [|c r]]]; intros Hbs; repeat apply Forall_cons in Hbs as [? Hbs]; [done|..].
  - cbn -[dec_quad]. by rewrite dec_quad1.
  - cbn -[dec_quad]. by rewrite dec_quad2.
  - cbn -[dec_quad b64_digit d1 d2 d3 d4]. rewrite dec_quad3, IH by (cbn; lia || done). done.
Qed.

(** UTF-8 of one code unit: bytes that [unutf8] reads back. *)
Lemma utf8_char_spec c :
  Forall is_byte (utf8_char c) /\ forall r, unutf8 (utf8_char c ++ r)%list = option_map (String c) (unutf8 r).
Proof.
  pose proof (ascii_check (fun c =>
    forallb (fun b => (0 <=? b) && (b <? 256))%Z (utf8_char c) &&
    match utf8_char c with
    | [x] => (x <? 128)%Z && Ascii.eqb (ascii_of_nat (Z.to_nat x)) c
    | [x; y] => negb (x <? 128)%Z && Ascii.eqb (ascii_of_nat (Z.to_nat (Z.lor (Z.shiftl (Z.land x 31) 6) (Z.land y 63)))) c
    | _ => false
    end) ltac:(vm_compute; reflexivity) c) as Hc.
  cbv beta in Hc. apply andb_prop in Hc as [Hb Hc]. split.
  - apply Forall_forall. intros b Hin. apply forallb_forall with (x := b) in Hb; [|by apply list_elem_of_In].
    apply andb_prop in Hb as [H1 H2]. split; [by apply Z.leb_le|by apply Z.ltb_lt].
  - intros r. destruct (utf8_char c) as [|x [|y [|]]]; try discriminate;
      apply andb_prop in Hc as [Hx Hc%Ascii.eqb_eq]; cbn [app unutf8].
    + by rewrite Hx, Hc.
    + apply negb_true_iff in Hx. by rewrite Hx, Hc.
Qed.

Lemma utf8_bytes s : Forall is_byte (utf8 s).
Proof. induction s as [|c s IH]; [constructor|]. apply Forall_app. split; [apply utf8_char_spec|done]. Qed.

Lemma unutf8_utf8 s : unutf8 (utf8 s) = Some s.
Proof. induction s as [|c s IH]; [done|]. cbn [utf8]. by rewrite (proj2 (utf8_char_spec c)), IH. Qed.

Lemma split_colon_app u p : ":"%char ∉ String.list_ascii_of_string u -> split_colon (u +:+ String ":" p) = Some (u, p).
Proof.
  induction u as [|c u IH]; intros Hu; [done|]. apply not_elem_of_cons in Hu as [Hc Hu].
  rewrite app_cons_str. cbn [split_colon]. destruct (Ascii.eqb_spec c ":"); [done|]. by rewrite IH.
Qed.

Lemma substring_all t : String.substring 0 (String.length t) t = t.
Proof. induction t; cbn; congruence. Qed.

(** The header carries the credentials: the server recovers user and
    password, when the user name has no colon. *)
Lemma basic_auth_credentials u p :
  ":"%char ∉ String.list_ascii_of_string u -> basic_credentials (basic_auth u p) = Some (u, p).
Proof.
  intros Hu. unfold basic_credentials, basic_auth. remember (base64 _) as t eqn:Ht.
  rewrite !app_cons_str, app_nil_l_str. cbn. rewrite Nat.sub_0_r.
  replace (String.prefix "" t) with true by (by destruct t). subst t. rewrite substring_all, unbase64_base64 by apply utf8_bytes.
  rewrite unutf8_utf8. by apply split_colon_app.
Qed.

Lemma base64_length bs : String.length (base64 bs) = (4 * ((length bs + 2) / 3))%nat.
Proof.
  induction bs as [bs IH] using (induction_ltof1 _ (@length Z)); unfold ltof in IH.
  destruct bs as [|a [|b [|c r]]]; [done..|]. cbn [base64 String.length length].
  rewrite IH by (cbn; lia). replace (S (S (S (length r))) + 2)%nat with (length r + 2 + 1 * 3)%nat by lia.
  rewrite Nat.div_add by lia. lia.
Qed.

Lemma utf8_length s : (String.length s <= length (utf8 s) <= 2 * String.length s)%nat.
Proof.
  induction s as [|c s IH]; [cbn; lia|]. cbn [utf8 String.length]. rewrite length_app.
  unfold utf8_char. destruct (_ <? 128)%Z; cbn [length]; lia.
Qed.

Lemma get_elem (n : nat) (s : string) c : String.get n s = Some c -> c ∈ String.list_ascii_of_string s.
Proof.
  revert n. induction s as [|c' s IH]; intros [|n]; cbn; [done|done|intros [= ->]; left|].
  intros H. right. by apply (IH n).
Qed.

(** The characters of [toString("base64")]. *)
Definition b64_text (t : string) : Prop :=
  Forall (fun c => c ∈ String.list_ascii_of_string b64_alphabet \/ c = pad) (String.list_ascii_of_string t).

Lemma b64_digit_text n r : b64_text r -> b64_text (String (b64_digit n) r).
Proof.
  intros Hr. constructor; [|done]. unfold b64_digit.
  destruct (String.get _ _) eqn:E; [left; by eapply get_elem|by right].
Qed.

Lemma pad_text r : b64_text r -> b64_text (String pad r).
Proof. intros Hr. constructor; [by right|done]. Qed.

Lemma base64_text bs : b64_text (base64 bs).
Proof.
  induction bs as [bs IH] using (induction_ltof1 _ (@length Z)); unfold ltof in IH.
  destruct bs as [|a [|b [|c r]]]; cbn [base64]; repeat (apply b64_digit_text || apply pad_text);
    try constructor. apply IH. cbn. lia.
Qed.

(** ** Properties of the header *)

(** C39: round trip of [getAuthHeader].  The server that reads the
    header (base64 decoding, UTF-8 decoding, split at the first colon)
    recovers [STAGING_USER] and [STAGING_PASS] as the template literal
    wrote them, non-ASCII Latin-1 characters included, whenever the user
    name has no colon. *)
Theorem getAuthHeader_credentials cfg :
  ":"%char ∉ String.list_ascii_of_string (template (STAGING_USER cfg)) ->
  basic_credentials (getAuthHeader cfg) = Some (template (STAGING_USER cfg), template (STAGING_PASS cfg)).
Proof. apply basic_auth_credentials. Qed.

(** C40: the size and the alphabet of [getAuthHeader].  For a
    [user:pass] text of [n] code units the header is ["Basic "] followed
    by [4 * ceil(m / 3)] base64 characters, where [n <= m <= 2n] is the
    length of its UTF-8 encoding, and every character after ["Basic "] is
    a base64 digit or ['=']: no credential can put a line break or any
    other character into the header. *)
Theorem getAuthHeader_bounds cfg :
  let cred := template (STAGING_USER cfg) +:+ ":" +:+ template (STAGING_PASS cfg) in
  exists t, getAuthHeader cfg = "Basic " +:+ t /\ b64_text t /\
    (4 * ((String.length cred + 2) / 3) <= String.length t <= 4 * ((2 * String.length cred + 2) / 3))%nat.
Proof.
  intros cred. exists (base64 (utf8 cred)). split_and!; [done|apply base64_text|..];
    rewrite base64_length; pose proof (utf8_length cred); apply Nat.mul_le_mono_l, Nat.Div0.div_le_mono; lia.
Qed.

(** A configuration whose password has Latin-1 letters (two UTF-8
    bytes each). *)
Definition sample_cfg : env_vars :=
  mkEnvVars (Some "https://staging.example.com") (Some "editor")
            (Some ("p" +:+ String (ascii_of_nat 228) "ss")) None None.

Lemma getAuthHeader_credentials_witness :
  getAuthHeader sample_cfg = "Basic ZWRpdG9yOnDDpHNz" /\
  basic_credentials (getAuthHeader sample_cfg) = Some ("editor", "p" +:+ String (ascii_of_nat 228) "ss").
Proof.
  split; [vm_compute; reflexivity|].
  apply (getAuthHeader_credentials sample_cfg). apply (bool_decide_unpack _). vm_compute. reflexivity.
Defined.

End Auth.
