(* ===== verification/JsString.v ===== *)
(** * JavaScript string primitives used by the migration scripts

    Strings are Stdlib [string]s whose characters are read as Latin-1 code
    units (code points 0-255).  Each definition is the restriction of the
    JavaScript builtin to that range: [toLowerCase] lowers A-Z and the
    Latin-1 capitals, [\s] and [trim] know the Latin-1 white space
    (tab, LF, VT, FF, CR, space, no-break space).  Characters above U+00FF
    are not modelled. *)

From S2P Require Import Prelude.
From Stdlib Require Import Ascii.
Open Scope string_scope.

Module JsString.

(** [\s] restricted to Latin-1: U+0009-U+000D, U+0020, U+00A0. *)
Definition is_ws (c : Ascii.ascii) : bool :=
  let n := Ascii.nat_of_ascii c in
  (((9 <=? n) && (n <=? 13)) || (n =? 32) || (n =? 160))%nat.

(** [String.prototype.toLowerCase] on Latin-1. *)
Definition lower_char (c : Ascii.ascii) : Ascii.ascii :=
  let n := Ascii.nat_of_ascii c in
  if (((65 <=? n) && (n <=? 90)) || ((192 <=? n) && (n <=? 222) && negb (n =? 215)))%nat
  then Ascii.ascii_of_nat (n + 32)%nat else c.

Fixpoint toLowerCase (s : string) : string :=
  match s with
  | "" => ""
  | String c r => String (lower_char c) (toLowerCase r)
  end.

(** [s.replace(/<[^>]*>/g, "")]: a ['<'] starts a match only when a ['>']
    follows it; the match ends at the first ['>'].  [in_tag] is true while
    inside a match.  [has_gt] decides whether a match can start. *)
Fixpoint has_gt (s : string) : bool :=
  match s with
  | "" => false
  | String c r => Ascii.eqb c ">"%char || has_gt r
  end.

Fixpoint strip_tags_go (in_tag : bool) (s : string) : string :=
  match s with
  | "" => ""
  | String c r =>
      if in_tag then
        if Ascii.eqb c ">"%char then strip_tags_go false r else strip_tags_go true r
      else if Ascii.eqb c "<"%char && has_gt r then strip_tags_go true r
      else String c (strip_tags_go false r)
  end.

Definition strip_tags (s : string) : string := strip_tags_go false s.

(** [s.replace(/\s+/g, " ")]: every maximal run of white space becomes one
    space.  [prev_ws] is true just after a white-space character. *)
Fixpoint collapse_ws_go (prev_ws : bool) (s : string) : string :=
  match s with
  | "" => ""
  | String c r =>
      if is_ws c then
        if prev_ws then collapse_ws_go true r else String " "%char (collapse_ws_go true r)
      else String c (collapse_ws_go false r)
  end.

Definition collapse_ws (s : string) : string := collapse_ws_go false s.

(** [String.prototype.trim]. *)
Fixpoint trim_start (s : string) : string :=
  match s with
  | "" => ""
  | String c r => if is_ws c then trim_start r else s
  end.

Fixpoint trim_end (s : string) : string :=
  match s with
  | "" => ""
  | String c r =>
      let r' := trim_end r in
      match r' with
      | "" => if is_ws c then "" else String c ""
      | _ => String c r'
      end
  end.

Definition trim (s : string) : string := trim_end (trim_start s).

(** ASCII decimal digits and their values. *)
Definition is_digit (c : Ascii.ascii) : bool :=
  let n := Ascii.nat_of_ascii c in ((48 <=? n) && (n <=? 57))%nat.

Definition digit_val (c : Ascii.ascii) : N := N.of_nat (Ascii.nat_of_ascii c - 48).

(** The longest prefix of decimal digits, read as a number; [None] when
    the string does not start with a digit. *)
Fixpoint read_dec (s : string) (acc : option N) : option N :=
  match s with
  | "" => acc
  | String c r =>
      if is_digit c then read_dec r (Some (default 0 acc * 10 + digit_val c)%N) else acc
  end.

(** [parseInt(s, 10)]: leading white space, an optional sign, the longest
    prefix of decimal digits; [None] stands for [NaN] (no digit).  The
    result [-0] of ["-0"] is [0], which [Set] and [===] do not tell
    apart from [-0]. *)
Definition parseInt10 (s : string) : option Z :=
  let s1 := trim_start s in
  let '(neg, s2) :=
    match s1 with
    | String c r =>
        if Ascii.eqb c "-"%char then (true, r)
        else if Ascii.eqb c "+"%char then (false, r) else (false, s1)
    | "" => (false, s1)
    end in
  match read_dec s2 None with
  | None => None
  | Some n => Some (if neg then - Z.of_N n else Z.of_N n)%Z
  end.

(** [s.split(sep)] for a one-character separator: always at least one
    piece, [""] for the empty string. *)
Fixpoint split_char (sep : Ascii.ascii) (s : string) : list string :=
  match s with
  | "" => [""]
  | String c r =>
      let rest := split_char sep r in
      if Ascii.eqb c sep then "" :: rest
      else match rest with
           | h :: t => String c h :: t
           | [] => [String c ""]
           end
  end.

(** [pieces.join(sep)]. *)
Fixpoint join (sep : string) (l : list string) : string :=
  match l with
  | [] => ""
  | [x] => x
  | x :: r => x +:+ sep +:+ join sep r
  end.

(** [hay.includes(needle)] and [s.startsWith(p)]. *)
Fixpoint includes (needle hay : string) : bool :=
  String.prefix needle hay ||
  match hay with
  | "" => false
  | String _ r => includes needle r
  end.

Definition startsWith (s p : string) : bool := String.prefix p s.

(** [s.replace(pat, rep)] with a string pattern: the first occurrence only. *)
Fixpoint replace_first (pat rep s : string) : string :=
  if String.prefix pat s then
    rep +:+ String.substring (String.length pat) (String.length s - String.length pat)%nat s
  else match s with
       | "" => ""
       | String c r => String c (replace_first pat rep r)
       end.

(** [s.endsWith(p)] *)
Definition endsWith (s p : string) : bool :=
  ((String.length p <=? String.length s)%nat &&
  String.eqb (String.substring (String.length s - String.length p)%nat (String.length p) s) p).

(** The code units of a string, in order ([[...s]] on Latin-1). *)
Fixpoint chars (s : string) : list Ascii.ascii :=
  match s with
  | "" => []
  | String c r => c :: chars r
  end.

(** ** Lemmas *)

Lemma split_char_nonempty sep s : split_char sep s <> [].
Proof.
  destruct s as [|c r]; simpl; [done|].
  destruct (Ascii.eqb c sep); [done|]. by destruct (split_char sep r).
Qed.

(** Splitting and joining with the same one-character separator are
    inverse. *)
Lemma join_split_char sep s : join (String sep "") (split_char sep s) = s.
Proof.
  induction s as [|c r IH]; [done|]. simpl.
  pose proof (split_char_nonempty sep r) as Hne.
  destruct (Ascii.eqb_spec c sep) as [->|Hc].
  - destruct (split_char sep r) as [|h t]; [done|]. simpl. by rewrite <- IH.
  - destruct (split_char sep r) as [|h [|h' t]]; [done| |]; rewrite <- IH; done.
Qed.

(** A string without the separator is one piece. *)
Lemma split_char_no_sep sep x :
  sep ∉ chars x -> split_char sep x = [x].
Proof.
  induction x as [|c r IH]; simpl; [done|]. intros Hc.
  rewrite IH by set_solver. destruct (Ascii.eqb_spec c sep) as [->|]; [set_solver|done].
Qed.

Lemma split_char_app_sep sep x s :
  sep ∉ chars x -> split_char sep (x +:+ String sep s) = x :: split_char sep s.
Proof.
  induction x as [|c r IH]; simpl; intros Hc.
  - by rewrite Ascii.eqb_refl.
  - rewrite IH by set_solver. destruct (Ascii.eqb_spec c sep) as [->|]; [set_solver|done].
Qed.

(** Splitting undoes joining when no piece holds the separator. *)
Lemma split_char_join sep l :
  l <> [] -> Forall (fun x => sep ∉ chars x) l ->
  split_char sep (join (String sep "") l) = l.
Proof.
  induction l as [|x [|y l] IH]; intros Hne Hl; [done| |].
  - apply Forall_cons in Hl as [Hx _]. by apply split_char_no_sep.
  - apply Forall_cons in Hl as [Hx Hl].
    change (join (String sep "") (x :: y :: l))
      with (x +:+ String sep (join (String sep "") (y :: l))).
    rewrite split_char_app_sep by done. by rewrite IH.
Qed.

Lemma string_app_assoc s t u : s +:+ (t +:+ u) = (s +:+ t) +:+ u.
Proof.
  induction s as [|c r IH]; [done|].
  change (String c (r +:+ (t +:+ u)) = String c ((r +:+ t) +:+ u)). by rewrite IH.
Qed.

Lemma chars_app s t : chars (s +:+ t) = (chars s ++ chars t)%list.
Proof. induction s as [|c r IH]; simpl; [done|]. congruence. Qed.

Lemma chars_trim_end s : chars (trim_end s) ⊆ chars s.
Proof.
  induction s as [|c r IH]; [done|]. change (trim_end (String c r)) with
    (match trim_end r with "" => if is_ws c then "" else String c "" | _ => String c (trim_end r) end).
  destruct (trim_end r) eqn:E; [destruct (is_ws c)|]; simpl in *; set_solver.
Qed.

(** [trim_end] of a string with a line separator after [s]: only the
    part after the last non-white-space character goes. *)
Lemma trim_end_keep c r : is_ws c = false -> trim_end (String c r) = String c (trim_end r).
Proof.
  intros Hc. change (trim_end (String c r)) with
    (match trim_end r with "" => if is_ws c then "" else String c "" | _ => String c (trim_end r) end).
  destruct (trim_end r) eqn:E; [by rewrite Hc|done].
Qed.

Lemma trim_end_cons c r :
  trim_end (String c r) =
  match trim_end r with "" => if is_ws c then "" else String c "" | _ => String c (trim_end r) end.
Proof. reflexivity. Qed.

Lemma trim_end_not_empty t : Exists (fun c => is_ws c = false) (chars t) -> trim_end t <> "".
Proof.
  induction t as [|c r IH]; simpl; intros Ht; [by inversion Ht|].
  destruct (trim_end r) eqn:E; [|done].
  apply Exists_cons in Ht as [->|Hr]; [done|]. by destruct (IH Hr).
Qed.

(** Trimming the end of [s ++ t] touches only [t] when [t] has a
    character that is not white space. *)
Lemma trim_end_app s t :
  Exists (fun c => is_ws c = false) (chars t) -> trim_end (s +:+ t) = s +:+ trim_end t.
Proof.
  intros Ht. induction s as [|c r IH]; [done|].
  change (trim_end (String c (r +:+ t)) = String c (r +:+ trim_end t)).
  rewrite trim_end_cons, IH.
  destruct (r +:+ trim_end t) eqn:E; [|done].
  destruct r; [|discriminate]. simpl in E. by destruct (trim_end_not_empty t Ht).
Qed.

(** ** [parseInt] reads back what [String(n)] prints *)

(** A printed digit is a digit, with its value, and neither white space
    nor a sign. *)
Lemma digit_val_char d :
  (d < 10)%N ->
  is_digit (pretty_N_char d) = true /\ digit_val (pretty_N_char d) = d /\
  is_ws (pretty_N_char d) = false /\
  Ascii.eqb (pretty_N_char d) "-"%char = false /\ Ascii.eqb (pretty_N_char d) "+"%char = false.
Proof.
  intros Hd. assert (d = 0 \/ d = 1 \/ d = 2 \/ d = 3 \/ d = 4 \/ d = 5 \/ d = 6 \/ d = 7 \/ d = 8 \/ d = 9)%N
    as Hcases by lia.
  repeat (destruct Hcases as [->|Hcases]; [split_and!; reflexivity|]). subst d. split_and!; reflexivity.
Qed.

Lemma read_dec_pretty_N_go x s :
  (0 < x)%N -> read_dec (pretty_N_go x s) None = read_dec s (Some x).
Proof.
  revert s. induction (N.lt_wf_0 x) as [x _ IH]; intros s Hx.
  rewrite pretty_N_go_step by done.
  destruct (digit_val_char (x `mod` 10)%N) as (Hdig & Hval & _); [by apply N.mod_lt|].
  pose proof (N.div_mod x 10 ltac:(done)) as Hdm.
  destruct (decide (x `div` 10 = 0)%N) as [H0|H0].
  - rewrite H0, pretty_N_go_0. simpl. rewrite Hdig, Hval. do 2 f_equal. lia.
  - assert (Hpos : (0 < x `div` 10)%N) by (apply N.neq_0_lt_0; exact H0).
    rewrite IH; [|by apply N.div_lt|exact Hpos].
    simpl. rewrite Hdig, Hval. do 2 f_equal. lia.
Qed.

(** The first digit of a positive number is not [0]. *)
Lemma pretty_N_go_head x s :
  (0 < x)%N -> exists d r, (0 < d < 10)%N /\ pretty_N_go x s = String (pretty_N_char d) r.
Proof.
  revert s. induction (N.lt_wf_0 x) as [x _ IH]; intros s Hx.
  rewrite pretty_N_go_step by done.
  destruct (decide (x `div` 10 = 0)%N) as [H0|H0].
  - rewrite H0, pretty_N_go_0. eexists _, _. split; [|done].
    pose proof (N.div_mod x 10 ltac:(done)) as Hdm. pose proof (N.mod_lt x 10 ltac:(done)). lia.
  - apply IH; [by apply N.div_lt|by apply N.neq_0_lt_0].
Qed.

Lemma read_dec_pretty_pos p : read_dec (pretty (Npos p)) None = Some (Npos p).
Proof.
  unfold pretty, pretty_N. rewrite decide_False by done.
  by rewrite read_dec_pretty_N_go.
Qed.

Lemma trim_start_keep c r : is_ws c = false -> trim_start (String c r) = String c r.
Proof. simpl. by intros ->. Qed.

Lemma trim_start_no_ws c r : is_ws c = true -> trim_start (String c r) = trim_start r.
Proof. simpl. by intros ->. Qed.

(** [parseInt(String(n), 10)] is [n] for every integer [n]. *)
Lemma parseInt10_pretty (n : Z) : parseInt10 (pretty n) = Some n.
Proof.
  destruct n as [|p|p]; [reflexivity| |].
  - change (pretty (Zpos p)) with (pretty (Npos p)). unfold parseInt10.
    destruct (pretty_N_go_head (Npos p) "") as (d & r & Hd & Hr); [lia|].
    destruct (digit_val_char d (proj2 Hd)) as (_ & _ & Hws & Hm & Hp).
    assert (Hpr : pretty (Npos p) = String (pretty_N_char d) r).
    { unfold pretty, pretty_N. by rewrite decide_False. }
    rewrite Hpr, trim_start_keep by done. cbv beta iota zeta. rewrite Hm, Hp.
    cbv beta iota zeta. rewrite <- Hpr, read_dec_pretty_pos. done.
  - change (pretty (Zneg p)) with (String "-"%char (pretty (Npos p))). unfold parseInt10.
    rewrite trim_start_keep by done. cbv beta iota zeta. rewrite Ascii.eqb_refl.
    cbv beta iota zeta. rewrite read_dec_pretty_pos. done.
Qed.

(** Splitting at a separator between two texts splits each of them. *)
Lemma split_char_app sep x s :
  split_char sep (x +:+ String sep s) = (split_char sep x ++ split_char sep s)%list.
Proof.
  induction x as [|c r IH]; simpl; [by rewrite Ascii.eqb_refl|]. rewrite IH.
  destruct (Ascii.eqb c sep); [done|].
  destruct (split_char sep r) eqn:E; [by destruct (split_char_nonempty sep r)|done].
Qed.

Lemma length_split_char_pos sep s : (1 <= length (split_char sep s))%nat.
Proof. pose proof (split_char_nonempty sep s). destruct (split_char sep s); [done|simpl; lia]. Qed.

Lemma prefix_app_str p s : String.prefix p (p +:+ s) = true.
Proof.
  induction p as [|c r IH]; [by destruct s|]. simpl. destruct (Ascii.ascii_dec c c); [done|congruence].
Qed.

Lemma substring_app_str p s : String.substring (String.length p) (String.length s) (p +:+ s) = s.
Proof.
  induction p as [|c r IH]; [|exact IH].
  induction s as [|c r IH]; [done|]. exact (f_equal (String c) IH).
Qed.

(** [(p + s).replace(p, r)] is [r + s]. *)
Lemma replace_first_prefix p r s : replace_first p r (p +:+ s) = r +:+ s.
Proof.
  assert (E : forall t, replace_first p r t =
    if String.prefix p t then r +:+ String.substring (String.length p) (String.length t - String.length p) t
    else match t with "" => "" | String c u => String c (replace_first p r u) end) by (intros []; reflexivity).
  rewrite E, prefix_app_str, length_app_str.
  replace (String.length p + String.length s - String.length p)%nat with (String.length s) by lia.
  by rewrite substring_app_str.
Qed.

(** [String(n)] is made of digits and a sign. *)
Lemma chars_pretty_N_go x s c : c ∈ chars (pretty_N_go x s) -> is_digit c = true \/ c ∈ chars s.
Proof.
  revert s. induction (N.lt_wf_0 x) as [x _ IH]; intros s Hc.
  destruct (decide (x = 0%N)) as [->|Hx]; [rewrite pretty_N_go_0 in Hc; by right|].
  rewrite pretty_N_go_step in Hc by lia.
  destruct (IH (x `div` 10)%N ltac:(apply N.div_lt; lia) _ Hc) as [Hd|Hin]; [by left|].
  simpl in Hin. apply elem_of_cons in Hin as [->|Hin]; [|by right].
  left. apply (digit_val_char (x `mod` 10)%N). apply N.mod_lt. lia.
Qed.

Lemma chars_pretty (n : Z) c : c ∈ chars (pretty n) -> is_digit c = true \/ c = "-"%char.
Proof.
  assert (Hp : forall p, c ∈ chars (pretty (Npos p)) -> is_digit c = true).
  { intros p Hc. unfold pretty, pretty_N in Hc. rewrite decide_False in Hc by done.
    by destruct (chars_pretty_N_go _ _ c Hc) as [|Hin%elem_of_nil]. }
  destruct n as [|p|p]; intros Hc.
  - simpl in Hc. apply list_elem_of_singleton in Hc as ->. by left.
  - left. by apply (Hp p).
  - change (c ∈ "-"%char :: chars (pretty (Npos p))) in Hc.
    apply elem_of_cons in Hc as [->|Hc]; [by right|]. left. by apply (Hp p).
Qed.

Lemma comma_not_in_pretty (n : Z) : ","%char ∉ chars (pretty n).
Proof. intros [Hd|Hd]%chars_pretty; discriminate. Qed.

End JsString.
