(* ===== verification/JsValue.v ===== *)
(** * JavaScript values of the migration scripts

    The values the code reads from [JSON.parse] (pages, ledger, REST
    responses) and builds itself (payloads, ledger records), plus
    [undefined], [NaN] (from [parseInt]) and [VOpaque] for the host objects
    a lookup can return through the prototype chain (the functions and the
    prototype object inherited from [Object.prototype]).  Objects are
    association lists in property order; [obj_set] writes in place or
    appends, as JavaScript does for string keys that are not array indices.

    Not modelled: numbers that are not integers (the code only handles
    integer ids), the methods of [String.prototype] and [Array.prototype]
    (no dynamic key of the code reaches them), and the change of prototype
    performed by a write to ["__proto__"] (its effect on own properties,
    none, is modelled). *)

From S2P Require Import Prelude JsString.
From Stdlib Require Import Ascii.
Open Scope string_scope.
#[local] Set Warnings "-clear-no-such-hyp".

Module JsValue.

#[local] Set Warnings "-register-all".

Inductive val : Type :=
| VUndef
| VNull
| VBool (b : bool)
| VNum (n : Z)
| VNaN
| VStr (s : string)
| VArr (l : list val)
| VObj (props : list (string * val))
| VOpaque (what : string).

(** Induction with hypotheses on the elements of arrays and objects. *)
Section val_ind'.
Variable P : val -> Prop.
Hypothesis HUndef : P VUndef.
Hypothesis HNull : P VNull.
Hypothesis HBool : forall b, P (VBool b).
Hypothesis HNum : forall n, P (VNum n).
Hypothesis HNaN : P VNaN.
Hypothesis HStr : forall s, P (VStr s).
Hypothesis HArr : forall l, Forall P l -> P (VArr l).
Hypothesis HObj : forall ps, Forall (fun kv => P kv.2) ps -> P (VObj ps).
Hypothesis HOpaque : forall w, P (VOpaque w).

Fixpoint val_ind' (v : val) : P v :=
  match v with
  | VUndef => HUndef
  | VNull => HNull
  | VBool b => HBool b
  | VNum n => HNum n
  | VNaN => HNaN
  | VStr s => HStr s
  | VArr l =>
      HArr l ((fix go (l : list val) : Forall P l :=
                 match l with
                 | [] => Forall_nil_2 _
                 | x :: r => Forall_cons_2 _ _ _ (val_ind' x) (go r)
                 end) l)
  | VObj ps =>
      HObj ps ((fix go (ps : list (string * val)) : Forall (fun kv => P kv.2) ps :=
                  match ps with
                  | [] => Forall_nil_2 _
                  | kv :: r => Forall_cons_2 _ _ _ (val_ind' kv.2) (go r)
                  end) ps)
  | VOpaque w => HOpaque w
  end.
End val_ind'.

(** The own properties of [Object.prototype]: a read of one of these keys
    on a plain object without that own property returns a host object. *)
Definition object_proto_keys : list string :=
  ["constructor"; "__defineGetter__"; "__defineSetter__"; "hasOwnProperty";
   "__lookupGetter__"; "__lookupSetter__"; "isPrototypeOf";
   "propertyIsEnumerable"; "toString"; "valueOf"; "__proto__";
   "toLocaleString"].

Definition is_proto_key (k : string) : bool :=
  existsb (String.eqb k) object_proto_keys.

(** Own property of an object. *)
Fixpoint own (ps : list (string * val)) (k : string) : option val :=
  match ps with
  | [] => None
  | (k', v) :: r => if String.eqb k k' then Some v else own r k
  end.

(** Inherited lookup, when there is no own property. *)
Definition inherited (k : string) : val :=
  if is_proto_key k then VOpaque k else VUndef.

(** [o[k]] on an object literal or a parsed object. *)
Definition obj_get (ps : list (string * val)) (k : string) : val :=
  match own ps k with
  | Some v => v
  | None => inherited k
  end.

Definition type_error_read (what k : string) : string :=
  "Cannot read properties of " +:+ what +:+ " (reading '" +:+ k +:+ "')".

(** [v[k]] on any value: a TypeError on [undefined] and [null]. *)
Definition get (v : val) (k : string) : outcome val :=
  match v with
  | VUndef => Throw (type_error_read "undefined" k)
  | VNull => Throw (type_error_read "null" k)
  | VObj ps => Ok (obj_get ps k)
  | VArr l =>
      if String.eqb k "length" then Ok (VNum (Z.of_nat (length l)))
      else if String.eqb k "0" then Ok (match l with x :: _ => x | [] => VUndef end)
      else Ok (inherited k)
  | VStr s => if String.eqb k "length" then Ok (VNum (Z.of_nat (String.length s)))
              else Ok (inherited k)
  | _ => Ok (inherited k)
  end.

(** [o[k] = v]: overwrite in place, or append a new property.  A write to
    ["__proto__"] goes to the prototype setter and adds no own property. *)
Fixpoint obj_set_go (ps : list (string * val)) (k : string) (v : val) : list (string * val) :=
  match ps with
  | [] => [(k, v)]
  | (k', v') :: r => if String.eqb k k' then (k', v) :: r else (k', v') :: obj_set_go r k v
  end.

Definition obj_set (ps : list (string * val)) (k : string) (v : val) : list (string * val) :=
  if String.eqb k "__proto__" then ps else obj_set_go ps k v.

(** [delete o[k]] *)
Definition obj_delete (ps : list (string * val)) (k : string) : list (string * val) :=
  List.filter (fun kv => negb (String.eqb kv.1 k)) ps.

(** [Object.assign(target, source)]: the source's own properties in order. *)
Definition obj_assign (target source : list (string * val)) : list (string * val) :=
  fold_left (fun acc kv => obj_set acc kv.1 kv.2) source target.

(** Truthiness ([if (v)], [!v], [v && ...]). *)
Definition truthy (v : val) : bool :=
  match v with
  | VUndef | VNull | VNaN => false
  | VBool b => b
  | VNum n => negb (Z.eqb n 0)
  | VStr s => negb (String.eqb s "")
  | _ => true
  end.

(** [v === null] *)
Definition is_null (v : val) : bool :=
  match v with VNull => true | _ => false end.

(** [typeof v === "object"] *)
Definition is_object_type (v : val) : bool :=
  match v with
  | VNull | VArr _ | VObj _ => true
  | _ => false
  end.

(** [String(v)] for the values the code converts (ids). *)
Fixpoint to_js_string (v : val) : string :=
  match v with
  | VUndef => "undefined"
  | VNull => "null"
  | VBool b => if b then "true" else "false"
  | VNum n => pretty n
  | VNaN => "NaN"
  | VStr s => s
  | VArr l => JsString.join ","
                (map (fun x => match x with VUndef | VNull => "" | _ => to_js_string x end) l)
  | VObj _ => "[object Object]"
  | VOpaque w => "function " +:+ w +:+ "() { [native code] }"
  end.

(** [a === b] where [b] is a string. *)
Definition strict_eq_str (v : val) (s : string) : bool :=
  match v with
  | VStr s' => String.eqb s' s
  | _ => false
  end.

(** Keys of an object are pairwise distinct (true of every object). *)
Definition keys (ps : list (string * val)) : list string := map fst ps.

(** ** Lemmas *)

Lemma own_obj_set_go_eq ps k v : own (obj_set_go ps k v) k = Some v.
Proof.
  induction ps as [|[k' v'] r IH]; simpl; [by rewrite String.eqb_refl|].
  destruct (String.eqb_spec k k') as [->|Hne]; simpl.
  - by rewrite String.eqb_refl.
  - rewrite (proj2 (String.eqb_neq k k') Hne). done.
Qed.

Lemma own_obj_set_go_ne ps k k2 v : k2 <> k -> own (obj_set_go ps k v) k2 = own ps k2.
Proof.
  intros Hne. induction ps as [|[k' v'] r IH]; simpl.
  - by rewrite (proj2 (String.eqb_neq k2 k) Hne).
  - destruct (String.eqb_spec k k') as [->|Hk]; simpl.
    + by rewrite (proj2 (String.eqb_neq k2 k') Hne).
    + by rewrite IH.
Qed.

Lemma keys_obj_set_go ps k v :
  keys (obj_set_go ps k v) = if bool_decide (k ∈ keys ps) then keys ps else (keys ps ++ [k])%list.
Proof.
  induction ps as [|[k' v'] r IH]; simpl; [done|].
  destruct (String.eqb_spec k k') as [->|Hne]; simpl.
  - by rewrite bool_decide_eq_true_2 by set_solver.
  - rewrite IH. case_bool_decide as H1; case_bool_decide as H2; set_solver.
Qed.

Lemma keys_obj_set_NoDup ps k v : NoDup (keys ps) -> NoDup (keys (obj_set ps k v)).
Proof.
  unfold obj_set. destruct (String.eqb k "__proto__"); [done|].
  rewrite keys_obj_set_go. case_bool_decide as H; [done|].
  intros Hnd. apply NoDup_app. split; [done|]. split; [set_solver|]. apply NoDup_singleton.
Qed.

Lemma keys_obj_assign_NoDup t s : NoDup (keys t) -> NoDup (keys (obj_assign t s)).
Proof.
  unfold obj_assign. revert t. induction s as [|kv s IH]; simpl; [done|].
  intros t Ht. apply IH. by apply keys_obj_set_NoDup.
Qed.

Lemma truthy_str s : truthy (VStr s) = true <-> s <> "".
Proof. simpl. destruct (String.eqb_spec s ""); naive_solver. Qed.

Lemma own_obj_set_eq ps k v : String.eqb k "__proto__" = false -> own (obj_set ps k v) k = Some v.
Proof. unfold obj_set. intros ->. apply own_obj_set_go_eq. Qed.

Lemma own_obj_set_ne ps k k2 v : k2 <> k -> own (obj_set ps k v) k2 = own ps k2.
Proof. unfold obj_set. destruct (String.eqb k "__proto__"); [done|]. apply own_obj_set_go_ne. Qed.

Lemma own_obj_assign_notin t s k : k ∉ keys s -> own (obj_assign t s) k = own t k.
Proof.
  unfold obj_assign. revert t. induction s as [|[k' v'] s IH]; simpl; intros t Hk; [done|].
  rewrite IH by set_solver. apply own_obj_set_ne. set_solver.
Qed.

(** [Object.assign] makes the source's own properties those of the target. *)
Lemma own_obj_assign_in t s k v :
  String.eqb k "__proto__" = false -> NoDup (keys s) -> own s k = Some v ->
  own (obj_assign t s) k = Some v.
Proof.
  unfold obj_assign. revert t. induction s as [|[k' v'] s IH]; simpl; intros t Hp Hnd Hs; [done|].
  apply NoDup_cons in Hnd as [Hk' Hnd].
  destruct (String.eqb_spec k k') as [<-|Hne].
  - injection Hs as ->. fold (obj_assign (obj_set t k v) s).
    rewrite own_obj_assign_notin by done. by apply own_obj_set_eq.
  - by apply IH.
Qed.

Lemma keys_obj_set_sub ps k v x : x ∈ keys (obj_set ps k v) -> x ∈ keys ps \/ x = k.
Proof.
  unfold obj_set. destruct (String.eqb k "__proto__"); [by left|].
  rewrite keys_obj_set_go. case_bool_decide; [by left|]. set_solver.
Qed.

Lemma keys_obj_assign_sub t s x : x ∈ keys (obj_assign t s) -> x ∈ keys t \/ x ∈ keys s.
Proof.
  unfold obj_assign. revert t. induction s as [|[k v] s IH]; simpl; intros t Hx; [by left|].
  destruct (IH _ Hx) as [Hin|Hin]; [|right; set_solver].
  destruct (keys_obj_set_sub _ _ _ _ Hin) as [?| ->]; [by left|right; set_solver].
Qed.

#[export] Hint Resolve keys_obj_set_NoDup keys_obj_assign_NoDup : mig.

End JsValue.
