(* ===== verification/Json.v ===== *)
(** * JSON text of the files the scripts write and read

    Both scripts keep their state in JSON files: step 1 writes each page
    with [JSON.stringify(page, null, 2)] ([src/step_1.js], line 63),
    step 2 reads the pages back with [JSON.parse] (line 509 of
    [src/step_2.js]), loads the ledger [created_pages.json] with
    [JSON.parse] ([loadJSON], lines 400-407) and writes it with
    [JSON.stringify(records, null, 2)] ([writeJSON], lines 409-412).

    This file models the two builtins on the values of [JsValue]:
    - [stringify v] is [JSON.stringify(v, null, 2)]: [undefined] and
      functions give no text ([None]) at the top, are skipped as object
      properties and become [null] in arrays; [NaN] is [null]; strings are
      quoted with the escapes of QuoteJSONString; a non-empty array or
      object puts each element on its own line, indented by two spaces
      per level.
    - [json_parse s] is [JSON.parse(s)], [None] standing for the
      [SyntaxError] it throws.  It is a recursive-descent parser whose
      recursion is bounded by fuel; [json_parse] gives it one unit more
      than the length of the text, which is enough (lemma [jsize_le]).
    - [jnorm v] is what [JSON.parse(JSON.stringify(v))] returns: the
      value with [undefined] and function properties dropped, array holes
      and [NaN] turned into [null], and objects rebuilt property by
      property as [JSON.parse] does ([obj_set_go], the last of two equal
      keys wins at the place of the first).

    - [json_valid s] recognises the grammar [JSON.parse] accepts
      (ECMA-404: fractions, exponents, every [\uXXXX] escape).  It
      follows the parser step for step; [json_parse_valid] shows that
      every text the parser reads is valid JSON, so a text outside the
      grammar is rejected by the model as by [JSON.parse].

    The parser applied to a printed value followed by any text [rest]
    returns the normalised value and [rest] ([stringify_parse], the
    serializer/deserializer pattern); the reads of the ledger and of the
    page files in [Ledger] and [Migration] rest on it.

    Modelling limits: numbers are the integers of [JsValue] (printed by
    [pretty], which is [Number.prototype.toString] below [10^21]); the
    parser [json_parse] rejects a fraction or an exponent and a [\u]
    escape above 255 (no Latin-1 code unit), which [stringify] never
    produces but [JSON.parse] accepts: on such a text the model throws
    where the program would go on. *)

From S2P Require Import Prelude JsString JsValue.
From Stdlib Require Import Ascii.
Open Scope string_scope.
#[local] Set Warnings "-clear-no-such-hyp".

Module Json.
Import JsString JsValue.

(** ** Characters *)

Definition ch (n : nat) : ascii := ascii_of_nat n.
Definition dq : ascii := ch 34.
Definition bs : ascii := ch 92.
Definition newline : string := String (ch 10) "".

Fixpoint spaces (n : nat) : string :=
  match n with O => "" | S k => String " " (spaces k) end.

(** The indentation of nesting level [d] with the gap ["  "]. *)
Definition indent (d : nat) : string := spaces (2 * d).

(** ** [JSON.stringify(v, null, 2)] *)

Definition hex_digit (n : nat) : ascii := ch (if (n <? 10)%nat then 48 + n else 87 + n).

(** One code unit of QuoteJSONString. *)
Definition quote_char (c : ascii) : string :=
  let n := nat_of_ascii c in
  if (n =? 34)%nat then String bs (String dq "")
  else if (n =? 92)%nat then String bs (String bs "")
  else if (n =? 8)%nat then String bs "b"
  else if (n =? 9)%nat then String bs "t"
  else if (n =? 10)%nat then String bs "n"
  else if (n =? 12)%nat then String bs "f"
  else if (n =? 13)%nat then String bs "r"
  else if (n <? 32)%nat then String bs ("u00" +:+ String (hex_digit (n / 16)) (String (hex_digit (n mod 16)) ""))
  else String c "".

(** The quoted text after the opening quote, closing quote included. *)
Fixpoint quote_go (s : string) : string :=
  match s with
  | "" => String dq ""
  | String c r => quote_char c +:+ quote_go r
  end.

Definition quote (s : string) : string := String dq (quote_go s).

(** The elements of a non-empty array or object at level [d], each on
    its own line at level [d + 1], separated by commas. *)
Fixpoint items_text (d : nat) (first : bool) (l : list string) : string :=
  match l with
  | [] => ""
  | t :: r => (if first then "" else ",") +:+ newline +:+ indent (S d) +:+ t +:+ items_text d false r
  end.

Fixpoint cat_somes {A} (l : list (option A)) : list A :=
  match l with
  | [] => []
  | Some x :: r => x :: cat_somes r
  | None :: r => cat_somes r
  end.

(** SerializeJSONProperty at nesting level [d]; [None] is [undefined]. *)
Fixpoint jprint (d : nat) (v : val) : option string :=
  match v with
  | VUndef => None
  | VNull | VNaN => Some "null"
  | VBool b => Some (if b then "true" else "false")
  | VNum n => Some (pretty n)
  | VStr s => Some (quote s)
  | VOpaque w => if String.eqb w "__proto__" then Some "{}" else None
  | VArr [] => Some "[]"
  | VArr l =>
      Some ("[" +:+ items_text d true (map (fun x => default "null" (jprint (S d) x)) l)
            +:+ newline +:+ indent d +:+ "]")
  | VObj ps =>
      match cat_somes (map (fun kv => option_map (fun t => quote kv.1 +:+ ": " +:+ t)
                                                 (jprint (S d) kv.2)) ps) with
      | [] => Some "{}"
      | items => Some ("{" +:+ items_text d true items +:+ newline +:+ indent d +:+ "}")
      end
  end.

(** [JSON.stringify(v, null, 2)] *)
Definition stringify (v : val) : option string := jprint 0 v.

(** ** What [JSON.parse(JSON.stringify(v))] returns *)

(** The object [JSON.parse] builds from its members, in order. *)
Definition obj_of_entries (acc es : list (string * val)) : list (string * val) :=
  fold_left (fun acc kv => obj_set_go acc kv.1 kv.2) es acc.

Fixpoint jnorm (v : val) : option val :=
  match v with
  | VUndef => None
  | VOpaque w => if String.eqb w "__proto__" then Some (VObj []) else None
  | VNaN => Some VNull
  | VArr l => Some (VArr (map (fun x => default VNull (jnorm x)) l))
  | VObj ps =>
      Some (VObj (obj_of_entries [] (cat_somes (map (fun kv => option_map (pair kv.1) (jnorm kv.2)) ps))))
  | v => Some v
  end.

(** ** [JSON.parse(text)] *)

Definition json_ws (c : ascii) : bool :=
  let n := nat_of_ascii c in ((n =? 32) || (n =? 9) || (n =? 10) || (n =? 13))%nat.

Fixpoint skip_ws (s : string) : string :=
  match s with
  | String c r => if json_ws c then skip_ws r else s
  | "" => ""
  end.

Definition is_char (c : ascii) (n : nat) : bool := (nat_of_ascii c =? n)%nat.

(** The remainder of [s] after the literal [p]. *)
Fixpoint strip (p s : string) : option string :=
  match p, s with
  | "", _ => Some s
  | String a p', String b s' => if Ascii.eqb a b then strip p' s' else None
  | _, _ => None
  end.

Definition hex_val (c : ascii) : option nat :=
  let n := nat_of_ascii c in
  if ((48 <=? n) && (n <=? 57))%nat then Some (n - 48)
  else if ((97 <=? n) && (n <=? 102))%nat then Some (n - 87)
  else if ((65 <=? n) && (n <=? 70))%nat then Some (n - 55)
  else None.

(** The one-character escapes: quote, backslash, slash, [b], [f], [n],
    [r] and [t]. *)
Definition esc_char (e : ascii) : option ascii :=
  let n := nat_of_ascii e in
  if (n =? 34)%nat then Some dq
  else if (n =? 92)%nat then Some bs
  else if (n =? 47)%nat then Some (ch 47)
  else if (n =? 98)%nat then Some (ch 8)
  else if (n =? 102)%nat then Some (ch 12)
  else if (n =? 110)%nat then Some (ch 10)
  else if (n =? 114)%nat then Some (ch 13)
  else if (n =? 116)%nat then Some (ch 9)
  else None.

Definition cons_str (c : ascii) (o : option (string * string)) : option (string * string) :=
  option_map (fun '(x, rest) => (String c x, rest)) o.

(** The string body after the opening quote: its value and the text
    after the closing quote.  A raw control character is an error. *)
Fixpoint pstr (s : string) : option (string * string) :=
  match s with
  | "" => None
  | String c r =>
      if is_char c 34 then Some ("", r)
      else if is_char c 92 then
        match r with
        | "" => None
        | String e r1 =>
            if is_char e 117 then
              match r1 with
              | String h1 (String h2 (String h3 (String h4 r2))) =>
                  match hex_val h1, hex_val h2, hex_val h3, hex_val h4 with
                  | Some a, Some b, Some c', Some d =>
                      let code := a * 4096 + b * 256 + c' * 16 + d in
                      if (code <? 256)%nat then cons_str (ch code) (pstr r2) else None
                  | _, _, _, _ => None
                  end
              | _ => None
              end
            else match esc_char e with Some c' => cons_str c' (pstr r1) | None => None end
        end
      else if (nat_of_ascii c <? 32)%nat then None
      else cons_str c (pstr r)
  end.

Fixpoint drop_digits (s : string) : string :=
  match s with
  | String c r => if is_digit c then drop_digits r else s
  | "" => ""
  end.

(** A number: [-]? and [0] or a non-zero digit followed by digits; a
    fraction or an exponent is not supported (see the header). *)
Definition pnum (s : string) : option (val * string) :=
  let '(neg, s1) :=
    match s with
    | String c r => if is_char c 45 then (true, r) else (false, s)
    | "" => (false, s)
    end in
  let leading_zero :=
    match s1 with
    | String c (String c' _) => is_char c 48 && is_digit c'
    | _ => false
    end in
  match read_dec s1 None with
  | None => None
  | Some n =>
      let r := drop_digits s1 in
      let bad := match r with
                 | String c _ => is_char c 46 || is_char c 101 || is_char c 69
                 | "" => false
                 end in
      if leading_zero || bad then None
      else Some (VNum (if neg then - Z.of_N n else Z.of_N n)%Z, r)
  end.

Definition lit (w : string) (v : val) (s : string) : option (val * string) :=
  option_map (fun r => (v, r)) (strip w s).

(** A value, the elements of an array after [[] and the members of an
    object after [{]; each call spends one unit of fuel. *)
Fixpoint pv (fuel : nat) (s : string) : option (val * string) :=
  match fuel with
  | O => None
  | S f =>
      match skip_ws s with
      | "" => None
      | String c r =>
          if is_char c 91 then
            match skip_ws r with
            | String c2 r2 => if is_char c2 93 then Some (VArr [], r2) else parr f r []
            | "" => None
            end
          else if is_char c 123 then
            match skip_ws r with
            | String c2 r2 => if is_char c2 125 then Some (VObj [], r2) else pobj f r []
            | "" => None
            end
          else if is_char c 34 then option_map (fun '(x, r') => (VStr x, r')) (pstr r)
          else if is_char c 110 then lit "ull" VNull r
          else if is_char c 116 then lit "rue" (VBool true) r
          else if is_char c 102 then lit "alse" (VBool false) r
          else pnum (String c r)
      end
  end
with parr (fuel : nat) (s : string) (acc : list val) : option (val * string) :=
  match fuel with
  | O => None
  | S f =>
      match pv f s with
      | None => None
      | Some (x, r) =>
          match skip_ws r with
          | String c r' =>
              if is_char c 44 then parr f r' (acc ++ [x])
              else if is_char c 93 then Some (VArr (acc ++ [x]), r')
              else None
          | "" => None
          end
      end
  end
with pobj (fuel : nat) (s : string) (acc : list (string * val)) : option (val * string) :=
  match fuel with
  | O => None
  | S f =>
      match skip_ws s with
      | String c r =>
          if is_char c 34 then
            match pstr r with
            | None => None
            | Some (k, r1) =>
                match skip_ws r1 with
                | String c1 r2 =>
                    if is_char c1 58 then
                      match pv f r2 with
                      | None => None
                      | Some (x, r3) =>
                          let acc' := obj_set_go acc k x in
                          match skip_ws r3 with
                          | String c3 r4 =>
                              if is_char c3 44 then pobj f r4 acc'
                              else if is_char c3 125 then Some (VObj acc', r4)
                              else None
                          | "" => None
                          end
                      end
                    else None
                | "" => None
                end
            end
          else None
      | "" => None
      end
  end.

(** [JSON.parse(text)]: one value, then only white space. *)
Definition json_parse (s : string) : option val :=
  match pv (S (String.length s)) s with
  | Some (v, r) => if String.eqb (skip_ws r) "" then Some v else None
  | None => None
  end.

(** [JSON.parse(text)] in the run: a [SyntaxError] on a text that is not
    JSON. *)
Definition JSON_parse (text : string) : outcome val :=
  match json_parse text with Some v => Ok v | None => Throw "Unexpected token in JSON" end.

(** ** The grammar [JSON.parse] accepts (ECMA-404), as a recognizer

    [rv], [rarr], [robj], [rstr] and [rnum] follow [pv], [parr], [pobj],
    [pstr] and [pnum] step for step, but accept every JSON text: numbers
    with a fraction and an exponent, and every [\uXXXX] escape.  They
    return the text after what they read.  [json_valid s] is the
    question whether [JSON.parse(s)] succeeds. *)

Definition is_hex (c : ascii) : bool := match hex_val c with Some _ => true | None => false end.

Fixpoint rstr (s : string) : option string :=
  match s with
  | "" => None
  | String c r =>
      if is_char c 34 then Some r
      else if is_char c 92 then
        match r with
        | "" => None
        | String e r1 =>
            if is_char e 117 then
              match r1 with
              | String h1 (String h2 (String h3 (String h4 r2))) =>
                  if is_hex h1 && is_hex h2 && is_hex h3 && is_hex h4 then rstr r2 else None
              | _ => None
              end
            else match esc_char e with Some _ => rstr r1 | None => None end
        end
      else if (nat_of_ascii c <? 32)%nat then None
      else rstr r
  end.

(** One digit or more. *)
Definition digits1 (s : string) : option string :=
  match s with String c _ => if is_digit c then Some (drop_digits s) else None | "" => None end.

(** [0 | [1-9][0-9]*] *)
Definition rint (s : string) : option string :=
  match s with String c r => if is_char c 48 then Some r else digits1 s | "" => None end.

(** [(. [0-9]+)?] *)
Definition rfrac (s : string) : option string :=
  match s with String c r => if is_char c 46 then digits1 r else Some s | "" => Some s end.

(** [([eE] [+-]? [0-9]+)?] *)
Definition rexp (s : string) : option string :=
  match s with
  | String c r =>
      if is_char c 101 || is_char c 69 then
        digits1 (match r with String d r' => if is_char d 43 || is_char d 45 then r' else r | "" => r end)
      else Some s
  | "" => Some s
  end.

(** A number: [-]?, the integer part, a fraction and an exponent. *)
Definition rnum (s : string) : option string :=
  let s1 := match s with String c r => if is_char c 45 then r else s | "" => s end in
  match rint s1 with
  | Some r => match rfrac r with Some r2 => rexp r2 | None => None end
  | None => None
  end.

Fixpoint rv (fuel : nat) (s : string) : option string :=
  match fuel with
  | O => None
  | S f =>
      match skip_ws s with
      | "" => None
      | String c r =>
          if is_char c 91 then
            match skip_ws r with
            | String c2 r2 => if is_char c2 93 then Some r2 else rarr f r
            | "" => None
            end
          else if is_char c 123 then
            match skip_ws r with
            | String c2 r2 => if is_char c2 125 then Some r2 else robj f r
            | "" => None
            end
          else if is_char c 34 then rstr r
          else if is_char c 110 then strip "ull" r
          else if is_char c 116 then strip "rue" r
          else if is_char c 102 then strip "alse" r
          else rnum (String c r)
      end
  end
with rarr (fuel : nat) (s : string) : option string :=
  match fuel with
  | O => None
  | S f =>
      match rv f s with
      | None => None
      | Some r =>
          match skip_ws r with
          | String c r' =>
              if is_char c 44 then rarr f r'
              else if is_char c 93 then Some r'
              else None
          | "" => None
          end
      end
  end
with robj (fuel : nat) (s : string) : option string :=
  match fuel with
  | O => None
  | S f =>
      match skip_ws s with
      | String c r =>
          if is_char c 34 then
            match rstr r with
            | None => None
            | Some r1 =>
                match skip_ws r1 with
                | String c1 r2 =>
                    if is_char c1 58 then
                      match rv f r2 with
                      | None => None
                      | Some r3 =>
                          match skip_ws r3 with
                          | String c3 r4 =>
                              if is_char c3 44 then robj f r4
                              else if is_char c3 125 then Some r4
                              else None
                          | "" => None
                          end
                      end
                    else None
                | "" => None
                end
            end
          else None
      | "" => None
      end
  end.

(** [JSON.parse(s)] succeeds: one value, then only white space. *)
Definition json_valid (s : string) : bool :=
  match rv (S (String.length s)) s with
  | Some r => String.eqb (skip_ws r) ""
  | None => false
  end.

(** ** Lemmas on the text *)

Lemma length_spaces n : String.length (spaces n) = n.
Proof. induction n; simpl; auto. Qed.

(** White space of JSON, and what [skip_ws] does with it. *)
Definition all_ws (w : string) : bool := forallb json_ws (chars w).

Lemma skip_ws_app w s : all_ws w = true -> skip_ws (w +:+ s) = skip_ws s.
Proof.
  induction w as [|c r IH]; [done|]. simpl. intros [-> Hr]%andb_prop. by apply IH.
Qed.

Lemma skip_ws_keep c r : json_ws c = false -> skip_ws (String c r) = String c r.
Proof. simpl. by intros ->. Qed.

Lemma all_ws_app w w' : all_ws (w +:+ w') = all_ws w && all_ws w'.
Proof. unfold all_ws. by rewrite chars_app, forallb_app. Qed.

Lemma all_ws_spaces n : all_ws (spaces n) = true.
Proof. induction n; simpl; auto. Qed.

Lemma all_ws_layout d : all_ws (newline +:+ indent d) = true.
Proof. rewrite all_ws_app. apply andb_true_intro. split; [done|apply all_ws_spaces]. Qed.

#[local] Hint Resolve all_ws_layout all_ws_spaces : mig.

(** [pv] and [pobj] skip leading white space. *)
Lemma pv_ws f w s : all_ws w = true -> pv f (w +:+ s) = pv f s.
Proof. intros Hw. destruct f; [done|]. simpl. by rewrite skip_ws_app. Qed.

Lemma pobj_ws f w s acc : all_ws w = true -> pobj f (w +:+ s) acc = pobj f s acc.
Proof. intros Hw. destruct f; [done|]. simpl. by rewrite skip_ws_app. Qed.

(** *** Strings *)

(** Reading one escaped code unit gives it back. *)
Lemma pstr_quote_char c t : pstr (quote_char c +:+ t) = cons_str c (pstr t).
Proof. destruct c as [[] [] [] [] [] [] [] []]; reflexivity. Qed.

(** [pstr] reads back what [quote_go] writes, and stops after it. *)
Lemma pstr_quote s rest : pstr (quote_go s +:+ rest) = Some (s, rest).
Proof.
  induction s as [|c r IH]; [reflexivity|]. simpl.
  rewrite <- string_app_assoc, pstr_quote_char, IH. reflexivity.
Qed.

(** *** Numbers *)

(** The text after a number: not a digit, a point or an exponent. *)
Definition num_stop (rest : string) : bool :=
  match rest with
  | String c _ => negb (is_digit c || is_char c 46 || is_char c 101 || is_char c 69)
  | "" => true
  end.

Lemma drop_digits_pretty_N_go x s :
  (0 < x)%N -> drop_digits (pretty_N_go x s) = drop_digits s.
Proof.
  revert s. induction (N.lt_wf_0 x) as [x _ IH]; intros s Hx.
  rewrite pretty_N_go_step by done.
  destruct (digit_val_char (x `mod` 10)%N) as (Hdig & _); [by apply N.mod_lt|].
  destruct (decide (x `div` 10 = 0)%N) as [H0|H0].
  - rewrite H0, pretty_N_go_0. simpl. by rewrite Hdig.
  - rewrite IH; [|by apply N.div_lt|by apply N.neq_0_lt_0]. simpl. by rewrite Hdig.
Qed.

Lemma read_dec_stop s n : num_stop s = true -> read_dec s (Some n) = Some n.
Proof. destruct s as [|c r]; [done|]. simpl. by destruct (is_digit c). Qed.

Lemma drop_digits_stop s : num_stop s = true -> drop_digits s = s.
Proof. destruct s as [|c r]; [done|]. simpl. by destruct (is_digit c). Qed.

Lemma pretty_N_go_app x s t : pretty_N_go x s +:+ t = pretty_N_go x (s +:+ t).
Proof.
  revert s. induction (N.lt_wf_0 x) as [x _ IH]; intros s.
  destruct (decide (x = 0)%N) as [->|Hx]; [by rewrite !pretty_N_go_0|].
  rewrite (pretty_N_go_step x s), (pretty_N_go_step x (s +:+ t)) by lia.
  rewrite IH; [done|]. apply N.div_lt; lia.
Qed.

Lemma pretty_N_char_code d :
  (d < 10)%N -> nat_of_ascii (pretty_N_char d) = (48 + N.to_nat d)%nat.
Proof.
  intros Hd. assert (d = 0 \/ d = 1 \/ d = 2 \/ d = 3 \/ d = 4 \/ d = 5 \/ d = 6 \/ d = 7 \/ d = 8 \/ d = 9)%N
    as Hcases by lia.
  repeat (destruct Hcases as [->|Hcases]; [reflexivity|]). by subst d.
Qed.

(** The first character of a number is a digit or [-], which [pv] sends
    to [pnum]. *)
Lemma pv_pnum f c r :
  (is_digit c || is_char c 45) = true -> pv (S f) (String c r) = pnum (String c r).
Proof.
  unfold is_digit, is_char. intros Hc.
  assert (Hn : (48 <= nat_of_ascii c <= 57 \/ nat_of_ascii c = 45)%nat).
  { apply orb_true_iff in Hc as [Hc|Hc]; [left|right; by apply Nat.eqb_eq].
    apply andb_true_iff in Hc as [H1 H2]. apply Nat.leb_le in H1, H2. lia. }
  cbn [pv skip_ws]. unfold json_ws, is_char.
  repeat (rewrite (proj2 (Nat.eqb_neq _ _)) by lia; cbn [orb]). reflexivity.
Qed.

(** The digits of a positive number followed by a stop. *)
Lemma pnum_pos (neg : bool) p rest :
  num_stop rest = true ->
  pnum (if neg then String "-" (pretty_N_go (Npos p) rest) else pretty_N_go (Npos p) rest)
  = Some (VNum (if neg then Zneg p else Zpos p), rest).
Proof.
  intros Hr.
  destruct (pretty_N_go_head (Npos p) rest) as (d & r0 & Hd & Hhead); [lia|].
  pose proof (pretty_N_char_code d (proj2 Hd)) as Hcode.
  assert (Hz : is_char (pretty_N_char d) 48 = false /\ is_char (pretty_N_char d) 45 = false).
  { unfold is_char. rewrite Hcode. split; apply Nat.eqb_neq; lia. }
  pose proof (read_dec_pretty_N_go (Npos p) rest ltac:(lia)) as Hrd.
  rewrite read_dec_stop in Hrd by done.
  pose proof (drop_digits_pretty_N_go (Npos p) rest ltac:(lia)) as Hdd.
  rewrite (drop_digits_stop rest) in Hdd by done.
  rewrite Hhead in Hrd, Hdd |- *. unfold pnum.
  destruct neg; cbv beta iota; [change (is_char "-"%char 45) with true|rewrite (proj2 Hz)]; cbv beta iota;
    rewrite Hrd, Hdd; destruct r0; rewrite ?(proj1 Hz);
    destruct rest as [|c' r']; try reflexivity; simpl in Hr |- *;
    apply negb_true_iff in Hr; apply orb_false_iff in Hr as [[[_ ->]%orb_false_iff ->]%orb_false_iff ->];
    reflexivity.
Qed.
Lemma pnum_zero rest : num_stop rest = true -> pnum (String "0" rest) = Some (VNum 0, rest).
Proof.
  destruct rest as [|c r]; [reflexivity|]. unfold num_stop.
  intros Hr%negb_true_iff. apply orb_false_iff in Hr as [[[H1 H2]%orb_false_iff H3]%orb_false_iff H4].
  unfold pnum.
  repeat (first [rewrite H1 | rewrite H2 | rewrite H3 | rewrite H4
                | progress change (is_digit "0") with true
                | progress change (is_char "0" 48) with true
                | progress change (is_char "0" 45) with false
                | progress cbn -[is_digit is_char]]).
  reflexivity.
Qed.

(** [pv] reads back a printed number followed by a stop. *)
Lemma pv_num f n rest : num_stop rest = true -> pv (S f) (pretty n +:+ rest) = Some (VNum n, rest).
Proof.
  intros Hr. destruct n as [|p|p].
  - change (pretty 0%Z +:+ rest) with (String "0" rest).
    rewrite pv_pnum by reflexivity. by apply pnum_zero.
  - change (pretty (Zpos p) +:+ rest) with (pretty_N_go (Npos p) "" +:+ rest).
    rewrite pretty_N_go_app. change ("" +:+ rest) with rest.
    destruct (pretty_N_go_head (Npos p) rest) as (d & r0 & Hd & Hhead); [lia|].
    rewrite Hhead, pv_pnum, <- Hhead; [exact (pnum_pos false p rest Hr)|].
    unfold is_digit. rewrite pretty_N_char_code by lia. apply orb_true_iff; left.
    apply andb_true_iff; split; apply Nat.leb_le; lia.
  - change (pretty (Zneg p) +:+ rest) with (String "-" (pretty_N_go (Npos p) "" +:+ rest)).
    rewrite pretty_N_go_app. change ("" +:+ rest) with rest.
    rewrite pv_pnum by reflexivity. exact (pnum_pos true p rest Hr).
Qed.

(** *** Values *)

(** The fuel a printed value needs: one unit per value and two more per
    element or member that is printed. *)
Fixpoint jsize (v : val) : nat :=
  match v with
  | VArr l => S (sum_list_with (fun x => 2 + jsize x) l)
  | VObj ps => S (sum_list_with (fun kv => match jnorm kv.2 with Some _ => 2 + jsize kv.2 | None => 0 end) ps)
  | _ => 1
  end.

(** [pv] reads [nv] back from [t] followed by any stop, with more fuel
    than [n]. *)
Definition reads (n : nat) (t : string) (nv : val) : Prop :=
  forall fuel rest, n < fuel -> num_stop rest = true -> pv fuel (t +:+ rest) = Some (nv, rest).

(** A printed value starts with a character that is neither white space
    nor a closing bracket. *)
Definition value_head (t : string) : bool :=
  match t with String c _ => negb (json_ws c) && negb (is_char c 93) | "" => false end.

Definition prints (n : nat) (t : string) (nv : val) : Prop :=
  reads n t nv /\ value_head t = true /\ n <= String.length t.

Lemma jprint_is_Some d v : is_Some (jprint d v) <-> is_Some (jnorm v).
Proof.
  destruct v as [| | | | | | l | ps | w]; simpl;
    [..|destruct l|destruct (cat_somes _)|destruct (String.eqb w "__proto__")];
    split; intros [? ?]; eauto; discriminate.
Qed.

Lemma pretty_head (n : Z) : exists c r, pretty n = String c r /\ (is_digit c || is_char c 45) = true.
Proof.
  destruct n as [|p|p]; [by exists "0"%char, ""| |by eexists _, _].
  change (pretty (Zpos p)) with (pretty_N_go (Npos p) "").
  destruct (pretty_N_go_head (Npos p) "") as (d & r & Hd & ->); [lia|]. eexists _, _. split; [done|].
  unfold is_digit. rewrite pretty_N_char_code by lia. apply orb_true_iff; left.
  apply andb_true_iff; split; apply Nat.leb_le; lia.
Qed.

Lemma prints_num (n : Z) : prints 1 (pretty n) (VNum n).
Proof.
  destruct (pretty_head n) as (c & r & Hp & Hc). split_and!.
  - intros [|f] rest Hf Hr; [lia|]. by apply pv_num.
  - rewrite Hp. unfold value_head, json_ws, is_char, is_digit in *.
    apply orb_true_iff in Hc as [[H1 H2]%andb_true_iff|H1%Nat.eqb_eq];
      [apply Nat.leb_le in H1, H2|];
      repeat (rewrite (proj2 (Nat.eqb_neq _ _)) by lia); reflexivity.
  - rewrite Hp. simpl. lia.
Qed.

Lemma prints_lit (t : string) (nv : val) :
  (forall f rest, pv (S f) (t +:+ rest) = Some (nv, rest)) -> value_head t = true -> 1 <= String.length t ->
  prints 1 t nv.
Proof. intros Hpv Hh Hl. split_and!; [|done..]. intros [|f] rest Hf _; [lia|]. apply Hpv. Qed.

Lemma prints_null : prints 1 "null" VNull.
Proof. apply prints_lit; [intros; reflexivity|done|simpl; lia]. Qed.

Lemma prints_str s : prints 1 (quote s) (VStr s).
Proof.
  apply prints_lit; [|done|simpl; lia]. intros f rest. simpl.
  by rewrite pstr_quote.
Qed.

Lemma sum_list_with_cons {A} (g : A -> nat) x l :
  sum_list_with g (x :: l) = (g x + sum_list_with g l)%nat.
Proof. reflexivity. Qed.

Lemma items_text_cons_true d t ts :
  items_text d true (t :: ts) = newline +:+ indent (S d) +:+ t +:+ items_text d false ts.
Proof. reflexivity. Qed.

Lemma items_text_cons_false d t ts :
  items_text d false (t :: ts) = String "," (items_text d true (t :: ts)).
Proof. reflexivity. Qed.

(** After an element: a comma and the next element, or the layout and the
    closing bracket. *)
Lemma num_stop_items d ts s : num_stop (items_text d false ts +:+ newline +:+ s) = true.
Proof. by destruct ts. Qed.

Lemma skip_ws_value d t s :
  value_head t = true -> skip_ws (newline +:+ indent d +:+ t +:+ s) = t +:+ s.
Proof.
  intros Ht. rewrite string_app_assoc, skip_ws_app by auto with mig.
  destruct t as [|c r]; [done|]. apply andb_true_iff in Ht as [Hc _].
  apply skip_ws_keep. by apply negb_true_iff.
Qed.

Lemma skip_ws_close d c s : json_ws c = false -> skip_ws (newline +:+ indent d +:+ String c s) = String c s.
Proof. intros Hc. rewrite string_app_assoc, skip_ws_app by auto with mig. by apply skip_ws_keep. Qed.

Lemma parr_S f s acc :
  parr (S f) s acc =
  match pv f s with
  | None => None
  | Some (x, r) =>
      match skip_ws r with
      | String c r' =>
          if is_char c 44 then parr f r' (acc ++ [x])
          else if is_char c 93 then Some (VArr (acc ++ [x]), r') else None
      | "" => None
      end
  end.
Proof. reflexivity. Qed.

Lemma parr_items d (es : list (nat * string * val)) rest : forall acc fuel,
  es <> [] -> Forall (fun e => reads e.1.1 e.1.2 e.2) es ->
  sum_list_with (fun e => 2 + e.1.1) es <= fuel ->
  parr fuel (items_text d true (map (fun e => e.1.2) es) +:+ newline +:+ indent d +:+ String "]" rest) acc
  = Some (VArr (acc ++ map snd es), rest).
Proof.
  induction es as [|[[n t] nv] es IH]; intros acc fuel Hne Hall Hsum; [done|].
  apply Forall_cons in Hall as [Hr Hall]. rewrite sum_list_with_cons in Hsum. cbn [fst snd] in Hr, Hsum.
  destruct fuel as [|f]; [lia|]. cbn [map fst snd].
  rewrite items_text_cons_true, <- !string_app_assoc, parr_S.
  rewrite (string_app_assoc newline), pv_ws by auto with mig.
  rewrite Hr; [|lia|apply num_stop_items]. cbn [map snd].
  destruct es as [|e' es'].
  - cbn [map items_text]. rewrite app_nil_l_str, skip_ws_close by reflexivity. reflexivity.
  - pose proof (IH (acc ++ [nv])%list f ltac:(done) Hall ltac:(lia)) as IH'.
    cbn [map] in IH' |- *. rewrite items_text_cons_false, app_cons_str. cbn [skip_ws].
    change (json_ws ",") with false. change (is_char "," 44) with true. cbv iota.
    rewrite IH'. by rewrite <- app_assoc.
Qed.

Lemma pobj_member f k t Y acc :
  pobj (S f) (quote k +:+ ": " +:+ t +:+ Y) acc =
  match pv f (t +:+ Y) with
  | None => None
  | Some (x, r3) =>
      match skip_ws r3 with
      | String c3 r4 =>
          if is_char c3 44 then pobj f r4 (obj_set_go acc k x)
          else if is_char c3 125 then Some (VObj (obj_set_go acc k x), r4) else None
      | "" => None
      end
  end.
Proof.
  unfold quote. rewrite app_cons_str. simpl. rewrite pstr_quote. simpl.
  change (String " " (t +:+ Y)) with (" " +:+ (t +:+ Y)). by rewrite pv_ws.
Qed.

Lemma pobj_items d (es : list (string * nat * string * val)) rest : forall acc fuel,
  es <> [] -> Forall (fun e => reads e.1.1.2 e.1.2 e.2) es ->
  sum_list_with (fun e => 2 + e.1.1.2) es <= fuel ->
  pobj fuel (items_text d true (map (fun e => quote e.1.1.1 +:+ ": " +:+ e.1.2) es)
             +:+ newline +:+ indent d +:+ String "}" rest) acc
  = Some (VObj (obj_of_entries acc (map (fun e => (e.1.1.1, e.2)) es)), rest).
Proof.
  induction es as [|[[[k n] t] nv] es IH]; intros acc fuel Hne Hall Hsum; [done|].
  apply Forall_cons in Hall as [Hr Hall]. rewrite sum_list_with_cons in Hsum. cbn [fst snd] in Hr, Hsum.
  destruct fuel as [|f]; [lia|]. cbn [map fst snd].
  rewrite items_text_cons_true, <- !string_app_assoc.
  rewrite (string_app_assoc newline), pobj_ws, pobj_member by auto with mig.
  rewrite Hr; [|lia|apply num_stop_items].
  destruct es as [|e' es'].
  - cbn [map items_text]. rewrite app_nil_l_str, skip_ws_close by reflexivity. reflexivity.
  - pose proof (IH (obj_set_go acc k nv) f ltac:(done) Hall ltac:(lia)) as IH'.
    cbn [map] in IH' |- *. rewrite items_text_cons_false, app_cons_str. cbn [skip_ws].
    change (json_ws ",") with false. change (is_char "," 44) with true. cbv iota.
    rewrite IH'. reflexivity.
Qed.

Lemma pv_arr f d (es : list (nat * string * val)) rest :
  es <> [] -> Forall (fun e => reads e.1.1 e.1.2 e.2 /\ value_head e.1.2 = true) es ->
  sum_list_with (fun e => 2 + e.1.1) es <= f ->
  pv (S f) (String "[" (items_text d true (map (fun e => e.1.2) es) +:+ newline +:+ indent d +:+ String "]" rest))
  = Some (VArr (map snd es), rest).
Proof.
  intros Hne Hall Hs.
  pose proof (parr_items d es rest [] f Hne (Forall_impl _ _ _ Hall (fun e H => proj1 H)) Hs) as Hp.
  destruct es as [|[[n t] nv] es]; [done|]. apply Forall_cons in Hall as [[_ Hh] _]. cbn [fst snd] in Hh.
  cbn [map fst snd] in Hp |- *. rewrite items_text_cons_true, <- !string_app_assoc in Hp |- *.
  cbn [pv skip_ws]. change (json_ws "[") with false. change (is_char "[" 91) with true. cbv iota.
  rewrite skip_ws_value by done. destruct t as [|c r]; [done|].
  apply andb_true_iff in Hh as [_ Hh%negb_true_iff]. rewrite app_cons_str, Hh. exact Hp.
Qed.

Lemma pv_obj f d (es : list (string * nat * string * val)) rest :
  es <> [] -> Forall (fun e => reads e.1.1.2 e.1.2 e.2) es ->
  sum_list_with (fun e => 2 + e.1.1.2) es <= f ->
  pv (S f) (String "{" (items_text d true (map (fun e => quote e.1.1.1 +:+ ": " +:+ e.1.2) es)
                        +:+ newline +:+ indent d +:+ String "}" rest))
  = Some (VObj (obj_of_entries [] (map (fun e => (e.1.1.1, e.2)) es)), rest).
Proof.
  intros Hne Hall Hs. pose proof (pobj_items d es rest [] f Hne Hall Hs) as Hp.
  destruct es as [|[[[k n] t] nv] es]; [done|].
  cbn [map fst snd] in Hp |- *. rewrite items_text_cons_true, <- !string_app_assoc in Hp |- *.
  cbn [pv skip_ws]. change (json_ws "{") with false. change (is_char "{" 91) with false.
  change (is_char "{" 123) with true. cbv iota.
  rewrite skip_ws_value by done. unfold quote. rewrite app_cons_str. exact Hp.
Qed.

Lemma reads_mono n m t nv : reads n t nv -> n <= m -> reads m t nv.
Proof. intros Hr Hnm fuel rest Hf. apply Hr. lia. Qed.

Lemma jsize_pos v : 1 <= jsize v.
Proof. destruct v; simpl; lia. Qed.

Lemma jnorm_None_jsize v : jnorm v = None -> jsize v = 1.
Proof. destruct v; simpl; try done. Qed.

Lemma jprint_jnorm_cases d x :
  (exists t nv, jprint d x = Some t /\ jnorm x = Some nv) \/ (jprint d x = None /\ jnorm x = None).
Proof.
  pose proof (jprint_is_Some d x) as Hiff.
  destruct (jprint d x) as [t|], (jnorm x) as [nv|]; eauto.
  - destruct (proj1 Hiff ltac:(eauto)). discriminate.
  - destruct (proj2 Hiff ltac:(eauto)). discriminate.
Qed.

(** What the induction hypothesis of the round trip says of a value. *)
Definition prints_all (x : val) : Prop :=
  forall d t nv, jprint d x = Some t -> jnorm x = Some nv -> prints (jsize x) t nv.

(** An array element: a value, or [null] for one that prints nothing. *)
Lemma prints_el d x :
  prints_all x -> prints (jsize x) (default "null" (jprint d x)) (default VNull (jnorm x)).
Proof.
  intros IH. destruct (jprint_jnorm_cases d x) as [(t & nv & Ht & Hn)|[Ht Hn]]; rewrite Ht, Hn.
  - exact (IH d t nv Ht Hn).
  - rewrite (jnorm_None_jsize x Hn). exact prints_null.
Qed.

Lemma sum_list_with_mono {A} (g h : A -> nat) l :
  Forall (fun x => g x <= h x) l -> sum_list_with g l <= sum_list_with h l.
Proof. induction 1; rewrite ?sum_list_with_cons; simpl; lia. Qed.

Lemma sum_list_with_map {A B} (g : B -> nat) (h : A -> B) l :
  sum_list_with g (map h l) = sum_list_with (fun x => g (h x)) l.
Proof. induction l as [|x l IH]; [done|]. by rewrite map_cons, !sum_list_with_cons, IH. Qed.

Lemma length_quote k : 2 <= String.length (quote k).
Proof.
  enough (1 <= String.length (quote_go k)) by (simpl; lia).
  induction k as [|c r IH]; [simpl; lia|]. cbn [quote_go]. rewrite length_app_str. lia.
Qed.

Lemma length_items_text d b ts :
  sum_list_with (fun t => 3 + String.length t) ts <= String.length (items_text d b ts).
Proof.
  revert b. induction ts as [|t ts IH]; intros b; [simpl; lia|]. rewrite sum_list_with_cons.
  cbn [items_text]. rewrite !length_app_str. unfold indent. rewrite length_spaces.
  specialize (IH false). change (String.length newline) with 1. destruct b; cbn [String.length]; lia.
Qed.

Lemma length_layout d c : String.length (newline +:+ indent d +:+ String c "") = (2 + 2 * d)%nat.
Proof. rewrite !length_app_str. unfold indent. rewrite length_spaces. simpl. lia. Qed.

(** *** Arrays *)

Lemma prints_arr d x l :
  Forall prints_all (x :: l) ->
  prints (jsize (VArr (x :: l)))
    ("[" +:+ items_text d true (map (fun x => default "null" (jprint (S d) x)) (x :: l))
         +:+ newline +:+ indent d +:+ "]")
    (VArr (map (fun x => default VNull (jnorm x)) (x :: l))).
Proof.
  intros Hall. set (es := map (fun x => (jsize x, default "null" (jprint (S d) x), default VNull (jnorm x))) (x :: l)).
  assert (Hes : Forall (fun e => prints e.1.1 e.1.2 e.2) es).
  { apply Forall_map. eapply Forall_impl; [exact Hall|]. intros y Hy. by apply prints_el. }
  assert (Htext : map (fun e => e.1.2) es = map (fun x => default "null" (jprint (S d) x)) (x :: l))
    by (unfold es; by rewrite map_map).
  assert (Hnorm : map snd es = map (fun x => default VNull (jnorm x)) (x :: l))
    by (unfold es; by rewrite map_map).
  assert (Hsum : sum_list_with (fun e => 2 + e.1.1) es = sum_list_with (fun x => 2 + jsize x) (x :: l)).
  { unfold es. by rewrite sum_list_with_map. }
  cbn [jsize]. split_and!.
  - intros [|f] rest Hf _; [lia|]. rewrite <- !string_app_assoc, !app_cons_str, app_nil_l_str.
    rewrite <- Htext, <- Hnorm. apply pv_arr; [done| |lia].
    eapply Forall_impl; [exact Hes|]. by intros e (? & ? & _).
  - reflexivity.
  - rewrite <- Hsum, <- Htext, !length_app_str.
    pose proof (length_items_text d true (map (fun e => e.1.2) es)) as Hl. rewrite sum_list_with_map in Hl.
    assert (sum_list_with (fun e => 2 + e.1.1) es <= sum_list_with (fun e => 3 + String.length e.1.2) es).
    2:{ change (String.length "[") with 1. change (String.length "]") with 1. lia. }
    apply sum_list_with_mono. eapply Forall_impl; [exact Hes|]. intros e (_ & _ & ?). lia.
Qed.

(** *** Objects *)

(** A member that is printed: key, size, text and value read back. *)
Definition member (d : nat) (kv : string * val) : option (string * nat * string * val) :=
  match jprint (S d) kv.2, jnorm kv.2 with
  | Some t, Some nv => Some (kv.1, jsize kv.2, t, nv)
  | _, _ => None
  end.

Definition members (d : nat) (ps : list (string * val)) := cat_somes (map (member d) ps).

Lemma members_cons d k x ps :
  members d ((k, x) :: ps) =
  match jprint (S d) x, jnorm x with
  | Some t, Some nv => (k, jsize x, t, nv) :: members d ps
  | _, _ => members d ps
  end.
Proof. unfold members, member. cbn [map cat_somes fst snd]. by destruct (jprint (S d) x), (jnorm x). Qed.

(** The three views of the printed members. *)
Lemma members_views d ps :
  map (fun e => quote e.1.1.1 +:+ ": " +:+ e.1.2) (members d ps)
    = cat_somes (map (fun kv => option_map (fun t => quote kv.1 +:+ ": " +:+ t) (jprint (S d) kv.2)) ps) /\
  map (fun e => (e.1.1.1, e.2)) (members d ps)
    = cat_somes (map (fun kv => option_map (pair kv.1) (jnorm kv.2)) ps) /\
  sum_list_with (fun e => 2 + e.1.1.2) (members d ps)
    = sum_list_with (fun kv => match jnorm kv.2 with Some _ => 2 + jsize kv.2 | None => 0 end) ps.
Proof.
  induction ps as [|[k x] ps (IH1 & IH2 & IH3)]; [done|]. rewrite members_cons, sum_list_with_cons.
  cbn [map cat_somes fst snd].
  destruct (jprint_jnorm_cases (S d) x) as [(t & nv & -> & ->)|[-> ->]]; cbn [option_map cat_somes map];
    rewrite ?sum_list_with_cons; cbn [fst snd]; split_and!; try congruence; cbv iota; lia.
Qed.

Lemma members_prints d ps :
  Forall (fun kv => prints_all kv.2) ps -> Forall (fun e => prints e.1.1.2 e.1.2 e.2) (members d ps).
Proof.
  induction 1 as [|[k x] ps Hx _ IH]; [constructor|]. rewrite members_cons.
  destruct (jprint (S d) x) eqn:E1, (jnorm x) eqn:E2; try done. constructor; [|done]. by apply (Hx (S d)).
Qed.

Lemma prints_obj d ps t nv :
  Forall (fun kv => prints_all kv.2) ps ->
  jprint d (VObj ps) = Some t -> jnorm (VObj ps) = Some nv -> prints (jsize (VObj ps)) t nv.
Proof.
  intros Hall Ht Hn. destruct (members_views d ps) as (H1 & H2 & H3).
  pose proof (members_prints d ps Hall) as Hes.
  cbn [jprint] in Ht. cbn [jnorm] in Hn. cbn [jsize]. rewrite <- H1 in Ht. rewrite <- H2 in Hn. rewrite <- H3.
  injection Hn as <-. set (F := fun e : string * nat * string * val => quote e.1.1.1 +:+ ": " +:+ e.1.2) in Ht.
  destruct (decide (members d ps = [])) as [Hm|Hm].
  - rewrite Hm in Ht |- *. injection Ht as <-.
    apply prints_lit; [reflexivity|reflexivity|simpl; lia].
  - destruct (map F (members d ps)) as [|a l'] eqn:E; [by apply map_eq_nil in E|].
    assert (Ht' : t = "{" +:+ items_text d true (a :: l') +:+ newline +:+ indent d +:+ "}")
      by (cbv iota beta in Ht; congruence).
    subst t. rewrite <- E. split_and!.
    + intros [|f] rest Hf _; [lia|]. rewrite <- !string_app_assoc, !app_cons_str, !app_nil_l_str.
      apply pv_obj; [done| |lia]. eapply Forall_impl; [exact Hes|]. by intros e [? _].
    + reflexivity.
    + pose proof (length_items_text d true (map F (members d ps))) as Hl.
      rewrite sum_list_with_map in Hl. rewrite !length_app_str.
      assert (sum_list_with (fun e => 2 + e.1.1.2) (members d ps)
              <= sum_list_with (fun e => 3 + String.length (F e)) (members d ps)).
      { apply sum_list_with_mono. eapply Forall_impl; [exact Hes|]. intros e' (_ & _ & ?).
        unfold F. rewrite !length_app_str. pose proof (length_quote e'.1.1.1).
        change (String.length ": ") with 2. lia. }
      change (String.length "{") with 1. change (String.length "}") with 1. lia.
Qed.

(** The round trip on every value, by induction on it. *)
Lemma jprint_prints v : prints_all v.
Proof.
  induction v as [| |b|n| |s|l IH|ps IH|w] using val_ind'; intros d t nv Ht Hn;
    cbn [jprint jnorm] in Ht, Hn; try discriminate.
  - injection Ht as <-; injection Hn as <-. apply prints_null.
  - injection Ht as <-; injection Hn as <-. destruct b; apply prints_lit; done || (simpl; lia) || (intros; reflexivity).
  - injection Ht as <-; injection Hn as <-. apply prints_num.
  - injection Ht as <-; injection Hn as <-. apply prints_null.
  - injection Ht as <-; injection Hn as <-. apply prints_str.
  - injection Hn as <-. destruct l as [|x l]; injection Ht as <-; [|by apply prints_arr].
    apply prints_lit; [intros; reflexivity|done|simpl; lia].
  - by apply (prints_obj d ps).
  - destruct (String.eqb w "__proto__"); [|discriminate]. injection Ht as <-; injection Hn as <-.
    apply prints_lit; [intros; reflexivity|done|simpl; lia].
Qed.

(** ** JSON data: the values [jnorm] keeps as they are *)

(** No [undefined], [NaN] or function at any depth, and distinct keys
    in every object. *)
Fixpoint is_json (v : val) : bool :=
  match v with
  | VNull | VBool _ | VNum _ | VStr _ => true
  | VArr l => forallb is_json l
  | VObj ps => bool_decide (NoDup (keys ps)) && forallb (fun kv => is_json kv.2) ps
  | VUndef | VNaN | VOpaque _ => false
  end.

Lemma obj_set_go_fresh acc k x : k ∉ keys acc -> obj_set_go acc k x = (acc ++ [(k, x)])%list.
Proof.
  induction acc as [|[k' x'] acc IH]; [done|]. cbn [keys map fst]. intros Hk%not_elem_of_cons.
  simpl. rewrite (proj2 (String.eqb_neq k k')) by naive_solver. f_equal. apply IH. apply Hk.
Qed.

Lemma obj_of_entries_fresh acc ps :
  NoDup (keys (acc ++ ps)) -> obj_of_entries acc ps = (acc ++ ps)%list.
Proof.
  revert acc. induction ps as [|[k x] ps IH]; intros acc Hnd; [by rewrite app_nil_r|].
  unfold obj_of_entries. cbn [fold_left fst snd]. rewrite obj_set_go_fresh.
  - fold (obj_of_entries (acc ++ [(k, x)]) ps). rewrite IH; [by rewrite <- app_assoc|]. by rewrite <- app_assoc.
  - unfold keys in Hnd. rewrite map_app in Hnd. apply NoDup_app in Hnd as (_ & Hdis & _).
    intros Hk. apply (Hdis k Hk). cbn. left.
Qed.

Lemma jnorm_json v : is_json v = true -> jnorm v = Some v.
Proof.
  induction v as [| |b|n| |s|l IH|ps IH|w] using val_ind'; cbn [is_json jnorm]; try done.
  - intros Hl. rewrite forallb_forall in Hl. do 2 f_equal. rewrite <- (map_id l) at 2.
    apply map_ext_in. intros x Hx. rewrite Forall_forall in IH.
    rewrite (IH x (proj2 (list_elem_of_In _ _) Hx) (Hl x Hx)). done.
  - intros [Hnd%bool_decide_eq_true Hps]%andb_prop. rewrite forallb_forall in Hps.
    assert (Hcs : cat_somes (map (fun kv => option_map (pair kv.1) (jnorm kv.2)) ps) = ps).
    { clear Hnd. induction ps as [|[k x] ps IHps]; [done|].
      apply Forall_cons in IH as [Hx IH]. cbn in Hx |- *.
      rewrite (Hx (Hps (k, x) (or_introl eq_refl))). cbn. f_equal.
      apply IHps; [done|]. intros kv Hkv. apply Hps. by right. }
    rewrite Hcs, obj_of_entries_fresh; done.
Qed.

(** ** The round trip *)

Lemma stringify_parse v t : stringify v = Some t -> json_parse t = jnorm v.
Proof.
  unfold stringify. intros Ht.
  destruct (jprint_jnorm_cases 0 v) as [(t' & nv & Ht' & Hn)|[Ht' _]]; [|congruence].
  rewrite Ht in Ht'. injection Ht' as <-. rewrite Hn.
  destruct (jprint_prints v 0 t nv Ht Hn) as (Hr & _ & Hlen).
  pose proof (Hr (S (String.length t)) "" ltac:(lia) eq_refl) as Hp. rewrite app_nil_r_str in Hp.
  unfold json_parse. by rewrite Hp.
Qed.

Lemma stringify_None v : stringify v = None <-> jnorm v = None.
Proof.
  unfold stringify. destruct (jprint_jnorm_cases 0 v) as [(t & nv & -> & ->)|[-> ->]]; done.
Qed.

Lemma stringify_VObj ps : exists t, stringify (VObj ps) = Some t.
Proof.
  unfold stringify. destruct (jprint_jnorm_cases 0 (VObj ps)) as [(t & _ & -> & _)|[_ Hn]]; [eauto|done].
Qed.

(** JSON data is written and read back exactly. *)
Lemma stringify_parse_json v : is_json v = true -> exists t, stringify v = Some t /\ json_parse t = Some v.
Proof.
  intros Hj. pose proof (jnorm_json v Hj) as Hn.
  destruct (stringify v) as [t|] eqn:Ht; [|apply stringify_None in Ht; congruence].
  exists t. split; [done|]. rewrite (stringify_parse v t Ht). exact Hn.
Qed.

(** ** What the parser reads, [JSON.parse] accepts *)

Lemma pstr_rstr n s x r : (String.length s < n)%nat -> pstr s = Some (x, r) -> rstr s = Some r.
Proof.
  revert s x r. induction n as [|n IH]; intros s x r Hn; [lia|].
  destruct s as [|c s']; [done|]. cbn [pstr rstr]. cbn [String.length] in Hn.
  destruct (is_char c 34); [by intros [= _ <-]|].
  destruct (is_char c 92).
  - destruct s' as [|e r1]; [done|].
    destruct (is_char e 117).
    + destruct r1 as [|h1 [|h2 [|h3 [|h4 r2]]]]; try done. cbn [String.length] in Hn.
      unfold is_hex. destruct (hex_val h1), (hex_val h2), (hex_val h3), (hex_val h4); try done. cbn [andb].
      destruct (_ <? 256)%nat; [|done]. unfold cons_str. destruct (pstr r2) as [[y r']|] eqn:E; [|done].
      intros [= _ <-]. apply (IH r2 y); [lia|exact E].
    + destruct (esc_char e); [|done]. unfold cons_str. destruct (pstr r1) as [[y r']|] eqn:E; [|done].
      intros [= _ <-]. cbn [String.length] in Hn. apply (IH r1 y); [lia|exact E].
  - destruct (nat_of_ascii c <? 32)%nat; [done|]. unfold cons_str.
    destruct (pstr s') as [[y r']|] eqn:E; [|done].
    intros [= _ <-]. apply (IH s' y); [lia|exact E].
Qed.

(** An integer as [pnum] reads it is a JSON number. *)
Lemma pnum_core_rnum s1 n :
  read_dec s1 None = Some n ->
  (match s1 with String c (String c' _) => is_char c 48 && is_digit c' | _ => false end) = false ->
  (match drop_digits s1 with String c _ => is_char c 46 || is_char c 101 || is_char c 69 | "" => false end) = false ->
  match rint s1 with Some r => match rfrac r with Some r2 => rexp r2 | None => None end | None => None end
  = Some (drop_digits s1).
Proof.
  intros Hr Hz Hb. destruct s1 as [|c r]; [done|]. cbn [read_dec] in Hr.
  destruct (is_digit c) eqn:Hd; [|done]. cbn [drop_digits] in Hb |- *. rewrite Hd in Hb |- *.
  assert (Hrest : rint (String c r) = Some (drop_digits r)).
  { unfold rint. destruct (is_char c 48) eqn:H0; [|unfold digits1; cbn [drop_digits]; by rewrite Hd].
    f_equal. destruct r as [|c' r']; [done|]. change (is_digit c' = false) in Hz.
    cbn [drop_digits]. by rewrite Hz. }
  rewrite Hrest. destruct (drop_digits r) as [|c1 r1]; [done|].
  apply orb_false_iff in Hb as [Hb He]. apply orb_false_iff in Hb as [Hb He'].
  cbn [rfrac rexp]. rewrite Hb. cbn [rexp]. by rewrite He', He.
Qed.

Lemma pnum_rnum s v r : pnum s = Some (v, r) -> rnum s = Some r.
Proof.
  unfold pnum, rnum.
  assert (Hcore : forall neg s1, (let leading_zero := match s1 with String c (String c' _) => is_char c 48 && is_digit c' | _ => false end in
      match read_dec s1 None with
      | Some n => let r := drop_digits s1 in
                  let bad := match r with String c _ => is_char c 46 || is_char c 101 || is_char c 69 | "" => false end in
                  if leading_zero || bad then None else Some (VNum (if neg:bool then - Z.of_N n else Z.of_N n)%Z, r)
      | None => None
      end) = Some (v, r) ->
      match rint s1 with Some r0 => match rfrac r0 with Some r2 => rexp r2 | None => None end | None => None end = Some r).
  { intros neg s1. cbv zeta. destruct (read_dec s1 None) as [n|] eqn:Hr; [|done].
    destruct (match s1 with String c (String c' _) => _ | _ => false end) eqn:Hz; [done|].
    destruct (match drop_digits s1 with String c _ => _ | "" => false end) eqn:Hb; [done|].
    intros [= _ <-]. exact (pnum_core_rnum s1 n Hr Hz Hb). }
  destruct s as [|c s']; [apply (Hcore false "")|]. destruct (is_char c 45); [apply (Hcore true)|apply (Hcore false)].
Qed.

Lemma parse_in_grammar f :
  (forall s v r, pv f s = Some (v, r) -> rv f s = Some r) /\
  (forall s acc v r, parr f s acc = Some (v, r) -> rarr f s = Some r) /\
  (forall s acc v r, pobj f s acc = Some (v, r) -> robj f s = Some r).
Proof.
  induction f as [|f IH]; [split_and!; done|]. destruct IH as (IHv & IHa & IHo). split_and!.
  - intros s v r. cbn [pv rv]. destruct (skip_ws s) as [|c r0]; [done|].
    destruct (is_char c 91).
    { destruct (skip_ws r0) as [|c2 r2]; [done|]. destruct (is_char c2 93); [by intros [= _ <-]|]. apply IHa. }
    destruct (is_char c 123).
    { destruct (skip_ws r0) as [|c2 r2]; [done|]. destruct (is_char c2 125); [by intros [= _ <-]|]. apply IHo. }
    destruct (is_char c 34).
    { destruct (pstr r0) as [[x r']|] eqn:E; [|done]. intros [= _ <-].
      exact (pstr_rstr (S (String.length r0)) r0 x r' ltac:(lia) E). }
    destruct (is_char c 110); [unfold lit; destruct (strip "ull" r0); [by intros [= _ <-]|done]|].
    destruct (is_char c 116); [unfold lit; destruct (strip "rue" r0); [by intros [= _ <-]|done]|].
    destruct (is_char c 102); [unfold lit; destruct (strip "alse" r0); [by intros [= _ <-]|done]|].
    apply pnum_rnum.
  - intros s acc v r. cbn [parr rarr]. destruct (pv f s) as [[x r1]|] eqn:E; [|done].
    rewrite (IHv _ _ _ E). destruct (skip_ws r1) as [|c r']; [done|].
    destruct (is_char c 44); [apply IHa|]. destruct (is_char c 93); [by intros [= _ <-]|done].
  - intros s acc v r. cbn [pobj robj]. destruct (skip_ws s) as [|c r0]; [done|].
    destruct (is_char c 34); [|done]. destruct (pstr r0) as [[k r1]|] eqn:Ek; [|done].
    rewrite (pstr_rstr (S (String.length r0)) r0 k r1 ltac:(lia) Ek). destruct (skip_ws r1) as [|c1 r2]; [done|].
    destruct (is_char c1 58); [|done]. destruct (pv f r2) as [[x r3]|] eqn:E; [|done].
    rewrite (IHv _ _ _ E). destruct (skip_ws r3) as [|c3 r4]; [done|].
    destruct (is_char c3 44); [apply IHo|]. destruct (is_char c3 125); [by intros [= _ <-]|done].
Qed.

(** The parser of the model reads only texts that [JSON.parse] accepts:
    a text [JSON.parse] rejects is rejected by the model. *)
Lemma json_parse_valid s v : json_parse s = Some v -> json_valid s = true.
Proof.
  unfold json_parse, json_valid. destruct (pv _ s) as [[x r]|] eqn:E; [|done].
  rewrite (proj1 (parse_in_grammar _) _ _ _ E). by destruct (String.eqb (skip_ws r) "").
Qed.

Lemma json_invalid_parse s : json_valid s = false -> json_parse s = None.
Proof. intros Hv. destruct (json_parse s) eqn:E; [|done]. apply json_parse_valid in E. congruence. Qed.

End Json.
