(* ===== verification/IconMatcher.v ===== *)
(** * Icon matcher ([src/step_2.js], lines 77-330)

    The two curated tables, the fallback list, [normalizeServiceTitle],
    [findAvailableIcon], [scoreIconByKeywords], [findBestIconMatch] and
    [assignIconsToServices].  The set [usedIconIds] is a [gset] of icon ids;
    an id is [option Z], [None] standing for the [NaN] that [parseInt]
    returns on a non-numeric CSV cell ([Set] compares with SameValueZero,
    under which NaN equals NaN, as [None] equals [None]).

    Lookups in the two tables are JavaScript property reads on object
    literals: a key such as ["constructor"] is inherited from
    [Object.prototype] and yields a function, on which the code then calls
    [toLowerCase]; the model keeps that TypeError as a [Throw]. *)

From S2P Require Import Prelude JsString JsValue.
From Stdlib Require Import Ascii.
Open Scope string_scope.
#[local] Set Warnings "-clear-no-such-hyp".

Module IconMatcher.
Import JsString JsValue.

(** A row of [icon_files.csv] as built by [loadIconLibrary]. *)
Record icon := mkIcon {
  icon_id : option Z;
  icon_title : string;
  iconName : string;
  icon_filename : string;
  icon_url : string
}.

Definition id_val (o : option Z) : val :=
  match o with Some z => VNum z | None => VNaN end.

Definition used_set := gset (option Z).

(** [SERVICE_ICON_MAPPINGS], in source order. *)
Definition SERVICE_ICON_MAPPINGS : list (string * val) :=
  [("managed it services", VStr "shield-2");
   ("it consulting", VStr "analytics-2");
   ("it helpdesk", VStr "helpdesk");
   ("network support", VStr "Network");
   ("network management", VStr "Network");
   ("cloud services", VStr "Cloud App");
   ("cloud solutions", VStr "cloud-1");
   ("cloud integration", VStr "cloud-connect");
   ("cybersecurity", VStr "firewall");
   ("cybersecurity solutions", VStr "shield-2");
   ("cybersecurity protection", VStr "shield-3");
   ("it support", VStr "headphones");
   ("24/7 it support", VStr "helpdesk");
   ("24/7 live support", VStr "helpdesk-head");
   ("data backup and recovery", VStr "backup-files");
   ("data backup & recovery", VStr "backup-files");
   ("it compliance and audits", VStr "certificate");
   ("compliance solutions", VStr "certificate-2");
   ("voip services", VStr "phone-1");
   ("voip solutions", VStr "phone-2");
   ("strategic it consulting", VStr "business-2");
   ("device management", VStr "Monitoring");
   ("business continuity", VStr "business-3");
   ("help desk", VStr "headphones");
   ("cloud computing", VStr "Cloud Internet");
   ("security", VStr "shield-2");
   ("backup", VStr "backup-files");
   ("disaster recovery", VStr "business-3")].

(** [KEYWORD_ICON_MAPPINGS], in source order. *)
Definition KEYWORD_ICON_MAPPINGS : list (string * val) :=
  [("cloud", VStr "cloud-1"); ("security", VStr "shield-2");
   ("cyber", VStr "firewall"); ("network", VStr "Network");
   ("backup", VStr "backup-files"); ("recovery", VStr "backup-files");
   ("voip", VStr "phone-1"); ("phone", VStr "phone-2");
   ("call", VStr "phone-1"); ("helpdesk", VStr "helpdesk");
   ("support", VStr "headphones"); ("help", VStr "helpdesk-head");
   ("consult", VStr "analytics-2"); ("monitor", VStr "Monitoring");
   ("compliance", VStr "certificate"); ("audit", VStr "certificate-2");
   ("manage", VStr "gear-man"); ("device", VStr "monitor-1");
   ("data", VStr "Folder Data"); ("analytics", VStr "analytics-2");
   ("business", VStr "business-2"); ("continuity", VStr "business-3")].

Definition FALLBACK_ICONS : list string := ["gear-man"; "business-2"; "apps"].

(** [x.toLowerCase()] on a value: a TypeError unless [x] is a string. *)
Definition call_toLowerCase (what : string) (v : val) : outcome string :=
  match v with
  | VStr s => Ok (toLowerCase s)
  | _ => Throw (what +:+ ".toLowerCase is not a function")
  end.

(** [normalizeServiceTitle] *)
Definition normalizeServiceTitle (htmlTitle : val) : string :=
  match htmlTitle with
  | VStr s =>
      if String.eqb s "" then ""
      else trim (collapse_ws (toLowerCase (strip_tags s)))
  | _ => ""
  end.

Definition is_used (used : used_set) (ic : icon) : bool :=
  bool_decide (icon_id ic ∈ used).

(** [findAvailableIcon]: [iconLibrary.find(...)]; the callback evaluates
    [iconName.toLowerCase()] for every icon it visits. *)
Fixpoint findAvailableIcon (name : val) (lib : list icon) (used : used_set)
    : outcome (option icon) :=
  match lib with
  | [] => Ok None
  | ic :: r =>
      match call_toLowerCase "iconName" name with
      | Throw e => Throw e
      | Ok n =>
          if String.eqb (toLowerCase (iconName ic)) n && negb (is_used used ic)
          then Ok (Some ic)
          else findAvailableIcon name r used
      end
  end.

(** The loop of [scoreIconByKeywords] over the words of the title. *)
Fixpoint keyword_score (words : list string) (lname : string) : outcome nat :=
  match words with
  | [] => Ok 0%nat
  | w :: ws =>
      let mapped := obj_get KEYWORD_ICON_MAPPINGS w in
      let here :=
        if truthy mapped then
          match call_toLowerCase "mappedIcon" mapped with
          | Throw e => Throw e
          | Ok m => Ok (if String.eqb m lname then 2%nat else 0%nat)
          end
        else Ok 0%nat in
      match here with
      | Throw e => Throw e
      | Ok h => match keyword_score ws lname with
                | Throw e => Throw e
                | Ok t => Ok (h + t)%nat
                end
      end
  end.

(** [scoreIconByKeywords] *)
Definition scoreIconByKeywords (normalizedTitle name : string) : outcome nat :=
  match keyword_score (split_char " " normalizedTitle) (toLowerCase name) with
  | Throw e => Throw e
  | Ok s => Ok (if includes (toLowerCase name) normalizedTitle then S s else s)
  end.

(** The scoring loop of [findBestIconMatch]: strictly greater scores
    replace the best candidate, so ties keep the first icon. *)
Fixpoint best_loop (normalizedTitle : string) (avail : list icon)
    (best : option icon) (bestScore : nat) : outcome (option icon * nat) :=
  match avail with
  | [] => Ok (best, bestScore)
  | ic :: r =>
      match scoreIconByKeywords normalizedTitle (iconName ic) with
      | Throw e => Throw e
      | Ok sc =>
          if (bestScore <? sc)%nat then best_loop normalizedTitle r (Some ic) sc
          else best_loop normalizedTitle r best bestScore
      end
  end.

(** Step 4: the first fallback name with an available icon. *)
Fixpoint fallback_loop (names : list string) (lib : list icon) (used : used_set)
    : outcome (option icon) :=
  match names with
  | [] => Ok None
  | n :: ns =>
      match findAvailableIcon (VStr n) lib used with
      | Throw e => Throw e
      | Ok (Some ic) => Ok (Some ic)
      | Ok None => fallback_loop ns lib used
      end
  end.

(** Steps 3-5 of [findBestIconMatch]. *)
Definition match_after_exact (normalizedTitle : string) (lib : list icon) (used : used_set)
    : outcome (option icon) :=
  let availableIcons := List.filter (fun ic => negb (is_used used ic)) lib in
  match availableIcons with
  | [] => Ok None
  | first :: _ =>
      match best_loop normalizedTitle availableIcons None 0 with
      | Throw e => Throw e
      | Ok (Some ic, sc) => if (0 <? sc)%nat then Ok (Some ic)
                           else match fallback_loop FALLBACK_ICONS lib used with
                                | Ok None => Ok (Some first)
                                | r => r
                                end
      | Ok (None, _) =>
          match fallback_loop FALLBACK_ICONS lib used with
          | Ok None => Ok (Some first)
          | r => r
          end
      end
  end.

(** [findBestIconMatch] *)
Definition findBestIconMatch (serviceTitle : val) (lib : list icon) (used : used_set)
    : outcome (option icon) :=
  let normalizedTitle := normalizeServiceTitle serviceTitle in
  if String.eqb normalizedTitle "" then Ok None
  else
    let mapped := obj_get SERVICE_ICON_MAPPINGS normalizedTitle in
    if truthy mapped then
      match findAvailableIcon mapped lib used with
      | Throw e => Throw e
      | Ok (Some ic) => Ok (Some ic)
      | Ok None => match_after_exact normalizedTitle lib used
      end
    else match_after_exact normalizedTitle lib used.

(** [service.service_icon = x] on an element of the repeater. *)
Definition set_service_icon (service : val) (x : val) : val :=
  match service with
  | VObj ps => VObj (obj_set ps "service_icon" x)
  | v => v
  end.

Arguments set_service_icon : simpl never.

(** The [for] loop of [assignIconsToServices], threading [usedIconIds]. *)
Fixpoint assign_loop (services : list val) (lib : list icon) (used : used_set)
    : outcome (list val * used_set) :=
  match services with
  | [] => Ok ([], used)
  | service :: rest =>
      match get service "service_title" with
      | Throw e => Throw e
      | Ok title =>
          if negb (truthy title) then
            match assign_loop rest lib used with
            | Throw e => Throw e
            | Ok (out, used') => Ok (service :: out, used')
            end
          else
            match findBestIconMatch title lib used with
            | Throw e => Throw e
            | Ok (Some ic) =>
                match assign_loop rest lib ({[icon_id ic]} ∪ used) with
                | Throw e => Throw e
                | Ok (out, used') => Ok (set_service_icon service (id_val (icon_id ic)) :: out, used')
                end
            | Ok None =>
                match assign_loop rest lib used with
                | Throw e => Throw e
                | Ok (out, used') => Ok (set_service_icon service VNull :: out, used')
                end
            end
      end
  end.

(** [assignIconsToServices]: a fresh [usedIconIds] for every call. *)
Definition assignIconsToServices (services : val) (lib : list icon) : outcome val :=
  match services with
  | VArr ((_ :: _) as l) =>
      match lib with
      | [] => Ok services
      | _ => match assign_loop l lib ∅ with
             | Throw e => Throw e
             | Ok (out, _) => Ok (VArr out)
             end
      end
  | _ => Ok services
  end.

(** ** Lemmas on the steps of the matcher *)

Lemma findAvailableIcon_Some name lib used ic :
  findAvailableIcon name lib used = Ok (Some ic) ->
  ic ∈ lib /\ (icon_id ic ∉ used) /\ call_toLowerCase "iconName" name = Ok (toLowerCase (iconName ic)).
Proof.
  induction lib as [|ic' r IH]; simpl; [done|].
  destruct (call_toLowerCase "iconName" name) as [n|e]; [|done].
  destruct (String.eqb_spec (toLowerCase (iconName ic')) n) as [Hn|Hn];
    unfold is_used; case_bool_decide; simpl; intros H';
    try (destruct (IH H') as (? & ? & ?); split; [set_solver|done]).
  injection H' as <-. subst n. split; [set_solver|done].
Qed.

(** With a string name, [findAvailableIcon] is [Array.prototype.find]. *)
Lemma findAvailableIcon_str name lib used :
  findAvailableIcon (VStr name) lib used =
  Ok (List.find (fun ic => String.eqb (toLowerCase (iconName ic)) (toLowerCase name)
                           && negb (is_used used ic)) lib).
Proof.
  induction lib as [|ic r IH]; simpl; [done|].
  by destruct (_ && _).
Qed.

Lemma findAvailableIcon_all_used name lib used :
  (forall ic, ic ∈ lib -> icon_id ic ∈ used) ->
  findAvailableIcon (VStr name) lib used = Ok None.
Proof.
  induction lib as [|ic r IH]; intros Hall; simpl; [done|].
  unfold is_used. rewrite bool_decide_eq_true_2 by set_solver.
  rewrite andb_false_r. apply IH. set_solver.
Qed.

Lemma fallback_loop_Some names lib used ic :
  fallback_loop names lib used = Ok (Some ic) -> ic ∈ lib /\ icon_id ic ∉ used.
Proof.
  induction names as [|n ns IH]; simpl; [done|].
  destruct (findAvailableIcon (VStr n) lib used) as [[ic'|]|] eqn:E; [|done|done].
  intros [= <-]. by apply findAvailableIcon_Some in E as (? & ? & _).
Qed.

Lemma fallback_loop_ok names lib used : exists r, fallback_loop names lib used = Ok r.
Proof.
  induction names as [|n ns IH]; simpl; [eauto|].
  rewrite findAvailableIcon_str. destruct (List.find _ _); simpl; eauto.
Qed.

Lemma best_loop_in t avail best sc ic sc' :
  best_loop t avail best sc = Ok (Some ic, sc') -> ic ∈ avail \/ best = Some ic.
Proof.
  revert best sc. induction avail as [|a r IH]; simpl; intros best sc.
  - intros [= -> _]. by right.
  - destruct (scoreIconByKeywords t (iconName a)) as [s|e]; [|done].
    destruct (sc <? s)%nat; intros H; destruct (IH _ _ H) as [Hin|Heq]; set_solver.
Qed.

Lemma match_after_exact_Some t lib used ic :
  match_after_exact t lib used = Ok (Some ic) -> ic ∈ lib /\ icon_id ic ∉ used.
Proof.
  unfold match_after_exact.
  destruct (List.filter _ lib) as [|first rest] eqn:Ef; [done|].
  assert (Havail : forall x, x ∈ first :: rest -> x ∈ lib /\ icon_id x ∉ used).
  { intros x Hx. rewrite <- Ef, filter_elem_of in Hx. destruct Hx as [Hx Hu].
    unfold is_used in Hu. case_bool_decide; done. }
  destruct (best_loop t (first :: rest) None 0) as [[[b|] sc]|e] eqn:Eb; [| |done].
  - destruct (0 <? sc)%nat.
    + intros [= <-]. apply best_loop_in in Eb as [Hin|Hin]; [by apply Havail|done].
    + destruct (fallback_loop FALLBACK_ICONS lib used) as [[f|]|e] eqn:Efb; intros H;
        try (injection H as <-); try done;
        [by apply fallback_loop_Some in Efb | apply Havail; set_solver].
  - destruct (fallback_loop FALLBACK_ICONS lib used) as [[f|]|e] eqn:Efb; intros H;
      try (injection H as <-); try done;
      [by apply fallback_loop_Some in Efb | apply Havail; set_solver].
Qed.

Lemma match_after_exact_all_used t lib used :
  (forall ic, ic ∈ lib -> icon_id ic ∈ used) -> match_after_exact t lib used = Ok None.
Proof.
  intros Hall. unfold match_after_exact.
 rewrite filter_all_false; [done|].
  intros ic Hic. unfold is_used. by rewrite bool_decide_eq_true_2 by auto.
Qed.

(** A table whose values are strings answers a string, or nothing. *)
Lemma own_str_table (tbl : list (string * val)) k :
  Forall (fun kv => exists s, kv.2 = VStr s /\ s <> "") tbl ->
  own tbl k = None \/ exists s, own tbl k = Some (VStr s) /\ s <> "".
Proof.
  induction tbl as [|[k' v] r IH]; simpl; intros Hall; [by left|].
  apply Forall_cons in Hall as [[s' [Hs Hne]] Hr]. simpl in Hs; subst v.
  destruct (String.eqb k k'); eauto.
Qed.

Lemma proto_key_in k : is_proto_key k = true -> k ∈ object_proto_keys.
Proof.
  unfold is_proto_key. intros [k' [Hin Heq]]%existsb_exists.
  apply String.eqb_eq in Heq as ->. by apply list_elem_of_In.
Qed.

(** The curated tables only map to strings and define no key of
    [Object.prototype]. *)
Lemma SERVICE_lookup n :
  (is_proto_key n = false ->
     obj_get SERVICE_ICON_MAPPINGS n = VUndef \/
     exists s, obj_get SERVICE_ICON_MAPPINGS n = VStr s /\ s <> "") /\
  (is_proto_key n = true -> obj_get SERVICE_ICON_MAPPINGS n = VOpaque n).
Proof.
  unfold obj_get, inherited. split; intros Hp.
  - destruct (own_str_table SERVICE_ICON_MAPPINGS n) as [->|[s [-> ?]]];
      [repeat constructor; eauto | rewrite Hp; by left | eauto].
  - assert (Hown : own SERVICE_ICON_MAPPINGS n = None).
    { apply proto_key_in, list_elem_of_In in Hp as Hin.
      repeat (destruct Hin as [<-|Hin]; [reflexivity|]); done. }
    by rewrite Hown, Hp.
Qed.

Lemma KEYWORD_lookup w :
  is_proto_key w = false ->
  obj_get KEYWORD_ICON_MAPPINGS w = VUndef \/ exists s, obj_get KEYWORD_ICON_MAPPINGS w = VStr s.
Proof.
  intros Hp. unfold obj_get, inherited.
  destruct (own_str_table KEYWORD_ICON_MAPPINGS w) as [->|[s [-> _]]];
    [repeat constructor; eauto | rewrite Hp; by left | eauto].
Qed.

(** With no word of the title inherited from [Object.prototype], the
    keyword loop does not throw. *)
Lemma keyword_score_ok ws lname :
  Forall (fun w => is_proto_key w = false) ws -> exists n, keyword_score ws lname = Ok n.
Proof.
  induction 1 as [|w ws Hw _ [n IHn]]; simpl; [eauto|].
  rewrite IHn. destruct (KEYWORD_lookup w Hw) as [->|[s ->]]; simpl; eauto.
  destruct (negb _); simpl; eauto.
Qed.

Lemma best_loop_ok t avail best sc :
  (forall name, exists n, scoreIconByKeywords t name = Ok n) ->
  exists r, best_loop t avail best sc = Ok r.
Proof.
  intros Hsc. revert best sc. induction avail as [|a r IH]; intros best sc; simpl; [eauto|].
  destruct (Hsc (iconName a)) as [n ->]. destruct (sc <? n)%nat; apply IH.
Qed.

(** Steps 3-5 give an icon whenever one is unused and scoring does not
    throw: the last resort is the first available icon. *)
Lemma match_after_exact_progress t lib used :
  (forall name, exists n, scoreIconByKeywords t name = Ok n) ->
  (exists ic, ic ∈ lib /\ icon_id ic ∉ used) ->
  exists ic, match_after_exact t lib used = Ok (Some ic).
Proof.
  intros Hsc (ic & Hic & Hu). unfold match_after_exact.
  destruct (List.filter _ lib) as [|first rest] eqn:Ef.
  { assert (Hin : ic ∈ List.filter (fun ic => negb (is_used used ic)) lib).
    { apply filter_elem_of. split; [done|]. unfold is_used. by rewrite bool_decide_eq_false_2. }
    rewrite Ef in Hin. set_solver. }
  destruct (best_loop_ok t (first :: rest) None 0 Hsc) as [[[b|] sc] ->];
    destruct (fallback_loop_ok FALLBACK_ICONS lib used) as [[f|] ->];
    try destruct (0 <? sc)%nat; eauto.
Qed.

(** ** Theorems *)

(** The icon [findBestIconMatch] returns is an icon of the library whose
    id is not yet in [usedIconIds]. *)
Lemma findBestIconMatch_Some t lib used ic :
  findBestIconMatch t lib used = Ok (Some ic) -> ic ∈ lib /\ icon_id ic ∉ used.
Proof.
  unfold findBestIconMatch.
  destruct (String.eqb _ ""); [done|].
  destruct (truthy _); [|apply match_after_exact_Some].
  destruct (findAvailableIcon _ lib used) as [[ic'|]|e] eqn:E; [|apply match_after_exact_Some|done].
  intros [= <-]. by apply findAvailableIcon_Some in E as (? & ? & _).
Qed.

(** C1: progress and soundness of the matcher.  For a title that
    normalises to a non-empty string of which neither the whole nor a
    word is a key of [Object.prototype], [findBestIconMatch] does not
    throw, and while the library has an icon whose id is not in
    [usedIconIds] it returns such an icon (never [null]). *)
Theorem findBestIconMatch_progress t lib used :
  normalizeServiceTitle t <> "" ->
  Forall (fun w => is_proto_key w = false)
         (normalizeServiceTitle t :: split_char " " (normalizeServiceTitle t)) ->
  (exists ic, ic ∈ lib /\ icon_id ic ∉ used) ->
  exists ic, findBestIconMatch t lib used = Ok (Some ic) /\ ic ∈ lib /\ icon_id ic ∉ used.
Proof.
  intros Hne [Hp Hws]%Forall_cons Hex.
  assert (Hsc : forall name, exists n,
             scoreIconByKeywords (normalizeServiceTitle t) name = Ok n).
  { intros name. unfold scoreIconByKeywords.
    destruct (keyword_score_ok _ (toLowerCase name) Hws) as [n ->]. eauto. }
  enough (exists ic, findBestIconMatch t lib used = Ok (Some ic)) as [ic E]
    by (exists ic; split; [done|by apply (findBestIconMatch_Some t lib used ic)]).
  unfold findBestIconMatch. rewrite (proj2 (String.eqb_neq _ _) Hne).
  destruct (proj1 (SERVICE_lookup _) Hp) as [-> | [s [-> Hs]]]; simpl;
    [by apply match_after_exact_progress|].
  destruct (negb (String.eqb s "")); [|by apply match_after_exact_progress].
  rewrite findAvailableIcon_str. destruct (List.find _ _); [eauto|].
  by apply match_after_exact_progress.
Qed.

Lemma SERVICE_str n name : obj_get SERVICE_ICON_MAPPINGS n = VStr name -> name <> "".
Proof.
  destruct (is_proto_key n) eqn:Hp.
  - by rewrite (proj2 (SERVICE_lookup n) Hp).
  - destruct (proj1 (SERVICE_lookup n) Hp) as [->|[s [-> Hs]]]; [done|]. by intros [= <-].
Qed.

(** C15: exact-match precedence.  When the normalised title has a curated
    icon name and the library has an unused icon of that name (compared
    case-insensitively), [findBestIconMatch] returns the first such icon,
    whatever the keyword scores of the other icons. *)
Theorem findBestIconMatch_exact_precedence t lib used name ic :
  obj_get SERVICE_ICON_MAPPINGS (normalizeServiceTitle t) = VStr name ->
  List.find (fun ic => String.eqb (toLowerCase (iconName ic)) (toLowerCase name)
                       && negb (is_used used ic)) lib = Some ic ->
  findBestIconMatch t lib used = Ok (Some ic).
Proof.
  intros Hmap Hfind. unfold findBestIconMatch.
  destruct (String.eqb_spec (normalizeServiceTitle t) "") as [He|_].
  { rewrite He in Hmap. discriminate. }
  rewrite Hmap. apply SERVICE_str in Hmap. apply String.eqb_neq in Hmap.
  simpl. rewrite Hmap. simpl. by rewrite findAvailableIcon_str, Hfind.
Qed.

(** Exhaustion degrades to [null].  When every icon of the library is
    already used, [findBestIconMatch] returns [null] without throwing, for
    every title whose normalised form is not a key of [Object.prototype]. *)
Theorem findBestIconMatch_exhausted t lib used :
  forallb (is_used used) lib = true ->
  is_proto_key (normalizeServiceTitle t) = false ->
  findBestIconMatch t lib used = Ok None.
Proof.
  intros Hall Hp.
  assert (Hall' : forall ic, ic ∈ lib -> icon_id ic ∈ used).
  { intros ic Hic%list_elem_of_In. eapply forallb_forall in Hall; [|done].
    unfold is_used in Hall. by case_bool_decide. }
  unfold findBestIconMatch.
  destruct (String.eqb _ ""); [done|].
  destruct (proj1 (SERVICE_lookup _) Hp) as [-> | [s [-> Hs]]].
  - by apply match_after_exact_all_used.
  - simpl. destruct (negb (String.eqb s "")); [|by apply match_after_exact_all_used].
    rewrite findAvailableIcon_all_used by exact Hall'. by apply match_after_exact_all_used.
Qed.

(** C17: a service title whose normalised form is a key inherited from
    [Object.prototype] (["constructor"], ["__proto__"]) makes
    [findBestIconMatch] throw a TypeError as soon as the library is not
    empty: the table lookup returns a function, and [findAvailableIcon]
    calls [toLowerCase] on it. *)
Theorem findBestIconMatch_proto_throws t lib used :
  is_proto_key (normalizeServiceTitle t) = true -> lib <> [] ->
  findBestIconMatch t lib used = Throw "iconName.toLowerCase is not a function".
Proof.
  intros Hp Hne. unfold findBestIconMatch.
  destruct (String.eqb_spec (normalizeServiceTitle t) "") as [He|_].
  { by rewrite He in Hp. }
  rewrite (proj2 (SERVICE_lookup _) Hp). simpl.
  by destruct lib.
Qed.

(** ** Concrete library used by the witnesses *)

Definition sample_icon (i : Z) (n : string) : icon :=
  mkIcon (Some i) ("Icon=" +:+ n) n (n +:+ ".svg") ("https://example.com/" +:+ n +:+ ".svg").

Definition sample_lib : list icon :=
  [sample_icon 1 "shield-2"; sample_icon 2 "firewall"; sample_icon 3 "gear-man";
   sample_icon 4 "Cloud App"; sample_icon 5 "cloud-1"].

Lemma findBestIconMatch_exact_precedence_witness :
  findBestIconMatch (VStr "<strong>Cybersecurity Solutions</strong>") sample_lib ∅
  = Ok (Some (sample_icon 1 "shield-2")).
Proof. apply (findBestIconMatch_exact_precedence _ _ _ "shield-2"); reflexivity. Defined.

Lemma findBestIconMatch_exhausted_witness :
  findBestIconMatch (VStr "Cloud Services") sample_lib
    {[Some 1%Z; Some 2%Z; Some 3%Z; Some 4%Z; Some 5%Z]} = Ok None.
Proof. apply findBestIconMatch_exhausted; reflexivity. Defined.

Lemma findBestIconMatch_proto_throws_witness :
  findBestIconMatch (VStr "<b>Constructor</b>") sample_lib ∅
  = Throw "iconName.toLowerCase is not a function".
Proof. apply findBestIconMatch_proto_throws; [reflexivity | discriminate]. Defined.

(** ** Uniqueness of the icons assigned within one call *)

(** The icon a service received from the loop: its [service_icon] after
    the loop, when its title was truthy and the icon is not [null]. *)
Definition assigned_icon (p : val * val) : option val :=
  match get p.1 "service_title", get p.2 "service_icon" with
  | Ok t, Ok v => if truthy t && negb (is_null v) then Some v else None
  | _, _ => None
  end.

Lemma truthy_title_obj s t :
  get s "service_title" = Ok t -> truthy t = true -> exists ps, s = VObj ps.
Proof. destruct s; simpl; try (intros [= <-]; done); eauto. Qed.

Lemma get_set_service_icon ps x :
  get (set_service_icon (VObj ps) x) "service_icon" = Ok x.
Proof. unfold set_service_icon. simpl. unfold obj_get, obj_set. simpl. by rewrite own_obj_set_go_eq. Qed.

Lemma get_title_set_service_icon s x :
  get (set_service_icon s x) "service_title" = get s "service_title".
Proof.
  destruct s as [| | | | | | |ps|]; try done. unfold set_service_icon. simpl. unfold obj_get, obj_set. simpl.
  by rewrite own_obj_set_go_ne.
Qed.

Lemma id_val_not_null z : id_val z <> VNull.
Proof. by destruct z. Qed.

Lemma id_val_inj z1 z2 : id_val z1 = id_val z2 -> z1 = z2.
Proof. destruct z1, z2; simpl; congruence. Qed.

Lemma assign_loop_assigned svcs lib used out used' :
  assign_loop svcs lib used = Ok (out, used') ->
  length out = length svcs /\ used ⊆ used' /\
  NoDup (omap assigned_icon (zip svcs out)) /\
  (forall v, v ∈ omap assigned_icon (zip svcs out) ->
     exists z, v = id_val z /\ z ∈ used' /\ z ∉ used).
Proof.
  revert used out used'. induction svcs as [|s svcs IH]; intros used out used'; cbn [assign_loop].
  { intros [= <- <-]. simpl. split_and!; [done|set_solver|constructor|set_solver]. }
  destruct (get s "service_title") as [t|e] eqn:Ht; [|done].
  destruct (truthy t) eqn:Htr; cbn [negb].
  - destruct (findBestIconMatch t lib used) as [[ic|]|e] eqn:Ef; [| |done].
    + destruct (assign_loop svcs lib ({[icon_id ic]} ∪ used)) as [[o used2]|e] eqn:El; [|done].
      intros [= <- <-]. destruct (IH _ _ _ El) as (Hlen & Hsub & Hnd & Hin).
      apply findBestIconMatch_Some in Ef as [_ Hfresh].
      destruct (truthy_title_obj s t Ht Htr) as [ps ->].
      assert (Ha : assigned_icon (VObj ps, set_service_icon (VObj ps) (id_val (icon_id ic)))
                   = Some (id_val (icon_id ic))).
      { unfold assigned_icon. simpl fst; simpl snd. rewrite Ht, get_set_service_icon, Htr.
        by destruct (icon_id ic). }
      rewrite omap_zip_cons, Ha.
      split_and!; [simpl; by rewrite Hlen|set_solver| |].
      * apply NoDup_cons. split; [|done]. intros (z & Hz & Hzu & Hzn)%Hin.
        apply id_val_inj in Hz. subst z. set_solver.
      * intros v [->|(z & -> & ? & ?)%Hin]%elem_of_cons; [exists (icon_id ic)|exists z];
          split_and!; set_solver.
    + destruct (assign_loop svcs lib used) as [[o used2]|e] eqn:El; [|done].
      intros [= <- <-]. destruct (IH _ _ _ El) as (Hlen & Hsub & Hnd & Hin).
      destruct (truthy_title_obj s t Ht Htr) as [ps ->].
      assert (Ha : assigned_icon (VObj ps, set_service_icon (VObj ps) VNull) = None).
      { unfold assigned_icon. simpl fst; simpl snd. rewrite Ht, get_set_service_icon.
        by rewrite andb_false_r. }
      rewrite omap_zip_cons, Ha. split_and!; [simpl; by rewrite Hlen|done|done|done].
  - destruct (assign_loop svcs lib used) as [[o used2]|e] eqn:El; [|done].
    intros [= <- <-]. destruct (IH _ _ _ El) as (Hlen & Hsub & Hnd & Hin).
    assert (Ha : assigned_icon (s, s) = None).
    { unfold assigned_icon. simpl fst; simpl snd. rewrite Ht, Htr.
      by destruct (get s "service_icon"). }
    rewrite omap_zip_cons, Ha. split_and!; [simpl; by rewrite Hlen|done|done|done].
Qed.

(** C6: within one call of [assignIconsToServices] on a non-empty
    library, no two services with a truthy title end with the same
    non-null [service_icon]. *)
Theorem assignIconsToServices_unique services lib out i j s1 s2 o1 o2 t1 t2 v :
  lib <> [] ->
  assignIconsToServices (VArr services) lib = Ok (VArr out) ->
  i <> j ->
  services !! i = Some s1 -> out !! i = Some o1 ->
  services !! j = Some s2 -> out !! j = Some o2 ->
  get s1 "service_title" = Ok t1 -> truthy t1 = true ->
  get s2 "service_title" = Ok t2 -> truthy t2 = true ->
  get o1 "service_icon" = Ok v -> v <> VNull ->
  get o2 "service_icon" <> Ok v.
Proof.
  intros Hlib Hrun Hij Hs1 Ho1 Hs2 Ho2 Ht1 Htr1 Ht2 Htr2 Hv1 Hnn Hv2.
  unfold assignIconsToServices in Hrun.
  destruct services as [|s0 rest]; [done|]. destruct lib as [|ic0 lib']; [done|].
  destruct (assign_loop (s0 :: rest) _ ∅) as [[o used']|e] eqn:El; [|done].
  injection Hrun as <-.
  destruct (assign_loop_assigned _ _ _ _ _ El) as (_ & _ & Hnd & _).
  apply (NoDup_omap_lookup assigned_icon (zip (s0 :: rest) o) i j (s1, o1) (s2, o2) v Hnd Hij);
    [by apply lookup_zip_Some | by apply lookup_zip_Some | |];
    unfold assigned_icon; simpl;
    [rewrite Ht1, Hv1, Htr1 | rewrite Ht2, Hv2, Htr2];
    by destruct v.
Qed.

Definition sample_services : list val :=
  [VObj [("service_title", VStr "Security")]; VObj [("service_title", VStr "<p>Security</p>")]].

Lemma assignIconsToServices_unique_witness :
  get (VObj [("service_title", VStr "<p>Security</p>"); ("service_icon", VNum 3)]) "service_icon"
  <> Ok (VNum 1).
Proof.
  apply (assignIconsToServices_unique sample_services sample_lib
           [VObj [("service_title", VStr "Security"); ("service_icon", VNum 1)];
            VObj [("service_title", VStr "<p>Security</p>"); ("service_icon", VNum 3)]]
           0 1 (VObj [("service_title", VStr "Security")])
           (VObj [("service_title", VStr "<p>Security</p>")])
           (VObj [("service_title", VStr "Security"); ("service_icon", VNum 1)])
           (VObj [("service_title", VStr "<p>Security</p>"); ("service_icon", VNum 3)])
           (VStr "Security") (VStr "<p>Security</p>"));
    try reflexivity; discriminate.
Defined.

Lemma findBestIconMatch_progress_witness :
  exists ic, findBestIconMatch (VStr "Managed Services") sample_lib {[Some 1%Z]} = Ok (Some ic) /\
    ic ∈ sample_lib /\ icon_id ic ∉ ({[Some 1%Z]} : used_set).
Proof.
  apply findBestIconMatch_progress.
  - vm_compute. discriminate.
  - vm_compute. repeat constructor.
  - exists (sample_icon 3 "gear-man"). split.
    + apply list_elem_of_In. simpl. auto 10.
    + rewrite elem_of_singleton. discriminate.
Defined.

End IconMatcher.
