(* ===== verification/Sanitizer.v ===== *)
(** * Payload builder ([src/step_2.js], lines 20-26, 441-504)

    [sanitizeAcfData] walks the ACF value: arrays element-wise; objects
    rebuilt key by key into a fresh object, dropping ["icon"] always and
    ["interlinks"] when [CLEAR_INTERLINKING], turning [""] into [null] and
    recursing into values whose [typeof] is ["object"] ([null] included,
    which comes back unchanged); every other value is returned as is.
    [extractFieldsForWordPress] spreads [pageData.acf] into a fresh object
    ([{...x}] of an array or a string copies its indices), sanitizes it,
    adds [disable_automatic_interlinking: false] and projects the page.
    [trackImageFields] lists the [IMAGE_FIELDS] with a truthy value. *)

From S2P Require Import Prelude JsString JsValue.
Open Scope string_scope.
#[local] Set Warnings "-clear-no-such-hyp".

Module Sanitizer.
Import JsString JsValue.

Definition CLEAR_INTERLINKING : bool := true.

Definition IMAGE_FIELDS : list string :=
  ["image_text_section_1_image"; "image_text_section_2_image";
   "image_text_section_3_image"; "image_text_section_4_image"; "about_us_image"].

(** [value === ""] *)
Definition is_empty_str (v : val) : bool :=
  match v with VStr s => String.eqb s "" | _ => false end.

(** One iteration of the [for ... of Object.entries(acfData)] loop, given
    the sanitized value [sx] of [x]. *)
Definition sanitize_entry (acc : list (string * val)) (k : string) (x sx : val)
    : list (string * val) :=
  if String.eqb k "icon" then acc
  else if CLEAR_INTERLINKING && String.eqb k "interlinks" then acc
  else if is_empty_str x then obj_set acc k VNull
  else if is_object_type x then obj_set acc k sx
  else obj_set acc k x.

(** The loop over the entries of an object, [f] sanitizing values. *)
Fixpoint sanitize_props (f : val -> val) (ps acc : list (string * val)) : list (string * val) :=
  match ps with
  | [] => acc
  | (k, x) :: r => sanitize_props f r (sanitize_entry acc k x (f x))
  end.

(** [sanitizeAcfData] *)
Fixpoint sanitizeAcfData (v : val) : val :=
  match v with
  | VArr l => VArr (map sanitizeAcfData l)
  | VObj ps => VObj (sanitize_props sanitizeAcfData ps [])
  | _ => v
  end.

(** [{...v}] *)
Definition spread (v : val) : list (string * val) :=
  match v with
  | VObj ps => ps
  | VArr l => zip (map (fun i => pretty i) (seq 0 (length l))) l
  | VStr s => zip (map (fun i => pretty i) (seq 0 (String.length s)))
                  (map (fun c => VStr (String c "")) (chars s))
  | _ => []
  end.

(** [a.b.c] *)
Definition get2 (v : val) (k1 k2 : string) : outcome val :=
  match get v k1 with Ok x => get x k2 | Throw e => Throw e end.

(** [extractFieldsForWordPress] *)
Definition extractFieldsForWordPress (pageData : val) : outcome val :=
  match get pageData "acf" with
  | Throw e => Throw e
  | Ok acf =>
      let sanitizedAcf :=
        match sanitizeAcfData (VObj (spread acf)) with
        | VObj ps => obj_set ps "disable_automatic_interlinking" (VBool false)
        | _ => []
        end in
      match get2 pageData "title" "rendered", get pageData "slug", get pageData "status",
            get2 pageData "content" "rendered" with
      | Ok t, Ok sl, Ok st, Ok c =>
          Ok (VObj [("title", t); ("slug", sl); ("status", st); ("content", c);
                    ("page-category", VArr [VNum 10]); ("acf", VObj sanitizedAcf)])
      | Throw e, _, _, _ | _, Throw e, _, _ | _, _, Throw e, _ | _, _, _, Throw e => Throw e
      end
  end.

(** [trackImageFields] *)
Definition trackImageFields (pageData : val) : outcome (list string) :=
  match get pageData "acf" with
  | Throw e => Throw e
  | Ok acf =>
      if truthy acf then
        (fix go (fs : list string) : outcome (list string) :=
           match fs with
           | [] => Ok []
           | f :: r =>
               match get acf f, go r with
               | Throw e, _ | _, Throw e => Throw e
               | Ok x, Ok rest => Ok (if truthy x then f :: rest else rest)
               end
           end) IMAGE_FIELDS
      else Ok []
  end.

(** The fields [trackImageFields] reports are image fields. *)
Lemma trackImageFields_sub p fs : trackImageFields p = Ok fs -> forall f, f ∈ fs -> f ∈ IMAGE_FIELDS.
Proof.
  unfold trackImageFields. destruct (get p "acf") as [acf|e]; [|done].
  destruct (truthy acf); [|intros [= <-]; set_solver].
  generalize IMAGE_FIELDS as fields. intros fields.
  revert fs. induction fields as [|g gs IH]; simpl; intros out; [intros [= <-]; set_solver|].
  destruct (get acf g) as [x|e]; [|done].
  destruct ((fix go (fs : list string) : outcome (list string) := _) gs) as [rest|e] eqn:E; [|done].
  intros [= <-] f Hf. specialize (IH rest eq_refl).
  destruct (truthy x); [apply elem_of_cons in Hf as [->|Hf]|]; set_solver.
Qed.

(** ** The sanitizer's output and its fixed points *)

(** Keys the sanitizer never lets through. *)
Definition dropped_key (k : string) : bool :=
  String.eqb k "icon" || (CLEAR_INTERLINKING && String.eqb k "interlinks")
  || String.eqb k "__proto__".

(** A value the sanitizer leaves unchanged: objects have distinct keys,
    no dropped key and no [""] value, at every depth. *)
Fixpoint clean (v : val) : bool :=
  match v with
  | VArr l => forallb clean l
  | VObj ps =>
      bool_decide (NoDup (keys ps)) &&
      forallb (fun kv => negb (dropped_key kv.1) && negb (is_empty_str kv.2) && clean kv.2) ps
  | _ => true
  end.

Lemma obj_set_fresh acc k x :
  k ∉ keys acc -> String.eqb k "__proto__" = false -> obj_set acc k x = (acc ++ [(k, x)])%list.
Proof.
  intros Hk Hp. unfold obj_set. rewrite Hp. clear Hp.
  induction acc as [|[k' x'] acc IH]; simpl in *; [done|].
  destruct (String.eqb_spec k k') as [->|Hne]; [set_solver|]. rewrite IH; set_solver.
Qed.

(** The keys of the result of the loop: those of the accumulator, then
    new ones. *)
Lemma sanitize_props_keys f ps acc :
  NoDup (keys acc) -> NoDup (keys (sanitize_props f ps acc)).
Proof.
  revert acc. induction ps as [|[k x] r IH]; simpl; intros acc Hnd; [done|].
  apply IH. unfold sanitize_entry.
  repeat case_match; try done; by apply keys_obj_set_NoDup.
Qed.

Lemma Forall_obj_set (P : string * val -> Prop) acc k v :
  Forall P acc -> (String.eqb k "__proto__" = false -> P (k, v)) -> Forall P (obj_set acc k v).
Proof.
  intros Hacc Hkv. unfold obj_set. destruct (String.eqb k "__proto__") eqn:Hp; [done|].
  specialize (Hkv eq_refl). clear Hp.
  induction acc as [|[k' v'] r IH]; simpl; [by constructor|].
  apply Forall_cons in Hacc as [Hh Hr].
  destruct (String.eqb_spec k k') as [<-|_]; constructor; auto.
Qed.

(** The entry predicate of [clean] on objects. *)
Definition clean_entry (kv : string * val) : bool :=
  negb (dropped_key kv.1) && negb (is_empty_str kv.2) && clean kv.2.

Lemma clean_obj ps :
  clean (VObj ps) = bool_decide (NoDup (keys ps)) && forallb clean_entry ps.
Proof. reflexivity. Qed.

Lemma sanitize_not_empty v : is_object_type v = true -> is_empty_str (sanitizeAcfData v) = false.
Proof. by destruct v. Qed.

(** The loop keeps every entry clean, given clean sanitized values. *)
Lemma sanitize_props_clean ps acc :
  Forall (fun kv => clean (sanitizeAcfData kv.2) = true) ps ->
  Forall (fun kv => clean_entry kv = true) acc ->
  Forall (fun kv => clean_entry kv = true) (sanitize_props sanitizeAcfData ps acc).
Proof.
  revert acc. induction ps as [|[k x] r IH]; simpl; intros acc Hps Hacc; [done|].
  apply Forall_cons in Hps as [Hx Hr]. apply IH; [done|].
  unfold sanitize_entry.
  destruct (String.eqb k "icon") eqn:Hi; [done|].
  destruct (CLEAR_INTERLINKING && String.eqb k "interlinks") eqn:Hl; [done|].
  destruct (is_empty_str x) eqn:He; [|destruct (is_object_type x) eqn:Ho];
    apply Forall_obj_set; try done; intros Hp;
    unfold clean_entry, dropped_key; simpl in Hl |- *; rewrite Hi, Hl, Hp; simpl.
  - done.
  - simpl in Hx. by rewrite sanitize_not_empty, Hx.
  - rewrite He. destruct x; simpl in Ho; try discriminate; done.
Qed.

(** The sanitizer's output is clean. *)
Lemma sanitizeAcfData_clean v : clean (sanitizeAcfData v) = true.
Proof.
  induction v as [| | | | | | l IH | ps IH |] using val_ind'; try done.
  - simpl. apply forallb_forall. intros x [y [<- Hy]]%in_map_iff.
    apply list_elem_of_In in Hy. by eapply Forall_forall in IH.
  - simpl sanitizeAcfData. rewrite clean_obj. apply andb_true_intro. split.
    + apply bool_decide_eq_true_2, sanitize_props_keys. constructor.
    + apply forallb_forall. intros kv Hkv%list_elem_of_In. revert kv Hkv.
      apply Forall_forall, sanitize_props_clean; [|constructor].
      eapply Forall_impl; [exact IH|]. done.
Qed.

(** On a clean object, the loop copies the entries. *)
Lemma sanitize_props_fix ps acc :
  Forall (fun kv => sanitizeAcfData kv.2 = kv.2) ps ->
  Forall (fun kv => clean_entry kv = true) ps ->
  NoDup (keys ps) -> keys ps ## keys acc ->
  sanitize_props sanitizeAcfData ps acc = (acc ++ ps)%list.
Proof.
  revert acc. induction ps as [|[k x] r IH]; simpl; intros acc Hfix Hcl Hnd Hdis.
  { by rewrite app_nil_r. }
  apply Forall_cons in Hfix as [Hx Hfix]. apply Forall_cons in Hcl as [Hk Hcl].
  apply NoDup_cons in Hnd as [Hkr Hnd].
  unfold clean_entry, dropped_key in Hk. simpl in Hk.
  destruct (String.eqb k "icon") eqn:Hi; [done|].
  destruct (String.eqb k "interlinks") eqn:Hl; [done|].
  destruct (String.eqb k "__proto__") eqn:Hp; [done|].
  destruct (is_empty_str x) eqn:He; [done|]. simpl in Hx.
  assert (Hstep : sanitize_entry acc k x (sanitizeAcfData x) = (acc ++ [(k, x)])%list).
  { unfold sanitize_entry, CLEAR_INTERLINKING. cbn [andb]. rewrite Hi, Hl, He, Hx.
    destruct (is_object_type x); apply obj_set_fresh; set_solver. }
  rewrite Hstep, IH; [by rewrite <- app_assoc| done | done | done |].
  unfold keys. rewrite map_app. simpl. set_solver.
Qed.

(** Clean values are fixed points of the sanitizer. *)
Lemma sanitizeAcfData_fix v : clean v = true -> sanitizeAcfData v = v.
Proof.
  induction v as [| | | | | | l IH | ps IH |] using val_ind'; try done.
  - simpl. intros Hl. f_equal. induction l as [|x l IHl]; [done|].
    apply Forall_cons in IH as [Hx IH]. simpl in Hl. apply andb_prop in Hl as [Hxc Hl].
    simpl. by rewrite Hx, IHl.
  - rewrite clean_obj. intros [Hnd Hall]%andb_prop.
    apply bool_decide_eq_true_1 in Hnd.
    assert (Hcl : Forall (fun kv => clean_entry kv = true) ps).
    { apply Forall_forall. intros kv Hkv%list_elem_of_In. by eapply forallb_forall in Hall. }
    simpl. f_equal. apply sanitize_props_fix; [| done | done | set_solver].
    apply Forall_forall. intros kv Hkv.
    eapply Forall_forall in IH; [|done]. eapply Forall_forall in Hcl; [|done].
    apply IH. unfold clean_entry in Hcl. by apply andb_prop in Hcl as [_ ?].
Qed.

(** C5: the sanitizer's output is clean (no object at any depth has the
    key ["icon"], ["interlinks"] or ["__proto__"], a repeated key, or an
    empty-string value), and the sanitizer is idempotent: sanitizing its
    own output changes nothing. *)
Theorem sanitizeAcfData_idempotent v :
  clean (sanitizeAcfData v) = true /\ sanitizeAcfData (sanitizeAcfData v) = sanitizeAcfData v.
Proof.
  pose proof (sanitizeAcfData_clean v) as Hc. split; [exact Hc|]. by apply sanitizeAcfData_fix.
Qed.

End Sanitizer.
