(* ===== verification/ImagePool.v ===== *)
(** * Image pool ([src/step_2.js], lines 420-439)

    [loadImagePool] keeps the [.webp] entries of the [images] directory
    listing and joins them to the directory; [selectRandomUniqueImages]
    copies the pool, runs the Fisher-Yates loop
    [for (i = len-1; i > 0; i--) { j = floor(random() * (i+1)); swap }] and
    takes the first [count] entries.

    [Math.random()] is an oracle [rng : nat -> Z] read at a position that
    the run advances by one per draw; a draw [k < 2^53] stands for the
    double [k / 2^53] (V8's draws are such fractions).  The product
    [Math.random() * (i + 1)] is a double: the one nearest to the exact
    product [k * (i+1) / 2^53], ties to even (IEEE 754 roundTiesToEven;
    scaling by [2^53] is exact, so this is [round53 (k * (i+1)) / 2^53]
    with [round53] the rounding of an integer to 53 significant bits),
    and [Math.floor] takes its integer part.  Rounding can move the
    product up; [rand_index_bound] shows that it never reaches [i + 1]. *)

From S2P Require Import Prelude JsString.
Open Scope string_scope.
#[local] Set Warnings "-clear-no-such-hyp".

Module ImagePool.
Import JsString.

Definition two53 : Z := (2 ^ 53)%Z.

(** The double nearest to the integer [x >= 0], as an integer: [x]
    below [2^53]; otherwise [x] keeps its 53 leading bits, rounded to
    nearest, ties to the even significand. *)
Definition round53 (x : Z) : Z :=
  let e := (Z.log2 x - 52)%Z in
  if (e <=? 0)%Z then x
  else
    let q := Z.shiftr x e in
    let r := (x - Z.shiftl q e)%Z in
    let half := Z.shiftl 1 (e - 1) in
    Z.shiftl (if orb (half <? r)%Z (andb (r =? half)%Z (Z.odd q)) then q + 1 else q)%Z e.

(** [Math.floor(Math.random() * (i + 1))] for the draw [k]. *)
Definition rand_index (k : Z) (i : nat) : nat :=
  Z.to_nat (round53 (k * Z.of_nat (S i)) / two53).

(** [[shuffled[i], shuffled[j]] = [shuffled[j], shuffled[i]]]: the right
    side is read first, then [shuffled[i]] and [shuffled[j]] are written
    in that order. *)
Definition swap (l : list string) (i j : nat) : list string :=
  match l !! i, l !! j with
  | Some xi, Some xj => <[j := xi]> (<[i := xj]> l)
  | _, _ => l
  end.

(** The loop from index [i] down to 1; returns the array and the next
    oracle position. *)
Fixpoint fy_loop (i : nat) (l : list string) (rng : nat -> Z) (pos : nat) : list string * nat :=
  match i with
  | O => (l, pos)
  | S i' => fy_loop i' (swap l i (rand_index (rng pos) i)) rng (S pos)
  end.

(** [selectRandomUniqueImages(count)] over [imagePool]. *)
Definition selectRandomUniqueImages (imagePool : list string) (count : nat)
    (rng : nat -> Z) (pos : nat) : list string * nat :=
  let (shuffled, pos') := fy_loop (length imagePool - 1) imagePool rng pos in
  (take count shuffled, pos').

(** [loadImagePool]: [readdirSync(dir).filter(f => f.endsWith(".webp"))
    .map(f => path.join(dir, f))]. *)
Definition loadImagePool (imagesDir : string) (entries : list string) : list string :=
  map (fun f => imagesDir +:+ "/" +:+ f) (List.filter (fun f => endsWith f ".webp") entries).

(** ** Lemmas and theorems *)

Lemma round53_nonneg x : (0 <= x)%Z -> (0 <= round53 x)%Z.
Proof.
  intros Hx. unfold round53. destruct (Z.leb_spec (Z.log2 x - 52) 0) as [He|He]; [lia|].
  rewrite Z.shiftr_div_pow2, Z.shiftl_mul_pow2 by lia.
  apply Z.mul_nonneg_nonneg; [|apply Z.pow_nonneg; lia].
  assert (0 <= x / 2 ^ (Z.log2 x - 52))%Z by (apply Z.div_pos; [lia|apply Z.pow_pos_nonneg; lia]).
  destruct (orb _ _); lia.
Qed.

(** Rounding the product of a draw and [n] stays below [2^53 * n]: the
    nearest double to a value at least [n] below a multiple of the
    spacing is below it. *)
Lemma round53_below k n :
  (0 <= k < 2 ^ 53)%Z -> (1 <= n <= 2 ^ 53)%Z -> (round53 (k * n) < 2 ^ 53 * n)%Z.
Proof.
  intros Hk Hn. unfold round53. set (x := (k * n)%Z).
  assert (Hx : (0 <= x <= 2 ^ 53 * n - n)%Z) by (subst x; nia).
  destruct (Z.leb_spec (Z.log2 x - 52) 0) as [He|He]; [lia|].
  assert (Hx0 : (0 < x)%Z) by (destruct (Z.eq_dec x 0) as [E|]; [rewrite E in He; simpl in He; lia|lia]).
  set (e := (Z.log2 x - 52)%Z) in *.
  destruct (Z.log2_spec x Hx0) as [Hlo Hhi].
  assert (He53 : (e <= 53)%Z).
  { assert (Hlt : (2 ^ Z.log2 x < 2 ^ 106)%Z).
    { eapply Z.le_lt_trans; [exact Hlo|]. replace (2 ^ 106)%Z with (2 ^ 53 * 2 ^ 53)%Z by reflexivity. nia. }
    apply Z.pow_lt_mono_r_iff in Hlt; lia. }
  rewrite Z.shiftr_div_pow2, !Z.shiftl_mul_pow2, Z.mul_1_l by lia.
  set (half := (2 ^ (e - 1))%Z).
  assert (HP : (2 ^ e = 2 * half)%Z) by (subst half; rewrite <- Z.pow_succ_r by lia; f_equal; lia).
  assert (Hlo' : (half * 2 ^ 53 <= x)%Z).
  { subst half. rewrite <- Z.pow_add_r by lia. replace (e - 1 + 53)%Z with (Z.log2 x) by lia. exact Hlo. }
  set (m := (2 ^ (53 - e) * n)%Z).
  assert (HN : (2 ^ 53 * n = 2 ^ e * m)%Z)
    by (subst m; rewrite Z.mul_assoc, <- Z.pow_add_r by lia; f_equal; f_equal; lia).
  assert (Hhalf : (0 < half)%Z) by (subst half; apply Z.pow_pos_nonneg; lia).
  set (P := (2 ^ e)%Z) in *. set (q := (x / P)%Z).
  pose proof (Z.div_mod x P ltac:(lia)) as Hdm. pose proof (Z.mod_pos_bound x P ltac:(lia)) as Hmod.
  fold q in Hdm.
  assert (Hqm : (q < m)%Z) by (apply Z.div_lt_upper_bound; lia).
  destruct (orb (half <? x - q * P)%Z (andb (x - q * P =? half)%Z (Z.odd q))) eqn:Hup.
  - assert (Hr : (half <= x - q * P)%Z).
    { apply Bool.orb_true_iff in Hup as [H1|H1].
      - apply Z.ltb_lt in H1. lia.
      - apply Bool.andb_true_iff in H1 as [H1 _]. apply Z.eqb_eq in H1. lia. }
    destruct (Z.lt_ge_cases (q + 1) m) as [Hlt|Hge]; [nia|].
    assert (Hq : (q + 1 = m)%Z) by lia. exfalso. nia.
  - nia.
Qed.

(** C19 (bounds): for every draw of [Math.random()] and every index [i]
    of an array (length at most [2^53]), [Math.floor] of the rounded
    double product [Math.random() * (i + 1)] is at most [i]: rounding
    never lifts the product to [i + 1], so the swap stays inside the
    array. *)
Theorem rand_index_bound k i :
  (0 <= k < two53)%Z -> (Z.of_nat (S i) <= two53)%Z -> (rand_index k i <= i)%nat.
Proof.
  intros Hk Hi. unfold rand_index, two53 in *.
  pose proof (round53_below k (Z.of_nat (S i)) Hk ltac:(lia)) as Hb.
  assert (Hr0 : (0 <= round53 (k * Z.of_nat (S i)))%Z) by (apply round53_nonneg; lia).
  assert (Hq : (round53 (k * Z.of_nat (S i)) / 2 ^ 53 < Z.of_nat (S i))%Z).
  { apply Z.div_lt_upper_bound; [lia|]. lia. }
  assert (Hq0 : (0 <= round53 (k * Z.of_nat (S i)) / 2 ^ 53)%Z) by (apply Z.div_pos; lia).
  lia.
Qed.

Lemma swap_perm l i j : swap l i j ≡ₚ l.
Proof.
  unfold swap. destruct (l !! i) as [xi|] eqn:Hi, (l !! j) as [xj|] eqn:Hj; try done.
  by apply Permutation_insert_swap.
Qed.

Lemma fy_loop_perm i l rng pos : (fy_loop i l rng pos).1 ≡ₚ l.
Proof.
  revert l pos. induction i as [|i IH]; intros l pos; simpl; [done|].
  by rewrite IH, swap_perm.
Qed.

Lemma fy_loop_pos i l rng pos : (fy_loop i l rng pos).2 = (pos + i)%nat.
Proof.
  revert l pos. induction i as [|i IH]; intros l pos; simpl; [lia|]. rewrite IH. lia.
Qed.

(** C18: the images chosen for one page are distinct files of the pool
    (when the pool lists each file once), there are [min count |pool|] of
    them, and the loop consumes [|pool| - 1] draws. *)
Theorem selectRandomUniqueImages_spec pool count rng pos :
  NoDup pool ->
  let (sel, pos') := selectRandomUniqueImages pool count rng pos in
  NoDup sel /\ (forall x, x ∈ sel -> x ∈ pool) /\
  length sel = Nat.min count (length pool) /\ pos' = (pos + (length pool - 1))%nat.
Proof.
  intros Hnd. unfold selectRandomUniqueImages.
  pose proof (fy_loop_perm (length pool - 1) pool rng pos) as Hp.
  pose proof (fy_loop_pos (length pool - 1) pool rng pos) as Hpos.
  destruct (fy_loop _ _ _ _) as [sh pos']. simpl in *.
  split_and!.
  - apply NoDup_take_l. by rewrite Hp.
  - intros x (i & Hi & _)%elem_of_take.
    rewrite <- Hp. by eapply list_elem_of_lookup_2.
  - by rewrite length_take, Hp.
  - done.
Qed.

Definition sample_pool : list string := ["images/a.webp"; "images/b.webp"; "images/c.webp"].

Lemma selectRandomUniqueImages_spec_witness :
  let (sel, pos') := selectRandomUniqueImages sample_pool 2 (fun p => Z.of_nat p * 3000000000000000)%Z 0 in
  NoDup sel /\ (forall x, x ∈ sel -> x ∈ sample_pool) /\
  length sel = Nat.min 2 (length sample_pool) /\ pos' = (0 + (length sample_pool - 1))%nat.
Proof.
  apply (selectRandomUniqueImages_spec sample_pool 2 _ 0).
  apply NoDup_cons; split; [set_solver|]. apply NoDup_cons; split; [set_solver|].
  apply NoDup_singleton.
Defined.

(** The largest draw, [1 - 2^-53], times 3: the product rounds down
    to the double below 3 and the index is 2. *)
Lemma rand_index_bound_witness : (rand_index (two53 - 1) 2 <= 2)%nat.
Proof. apply rand_index_bound; unfold two53; lia. Defined.

End ImagePool.
