(* ===== verification/Ledger.v ===== *)
(** * Migration ledger ([src/step_2.js], lines 400-416 and 608-622)

    The ledger is the value parsed from [created_pages.json]: an array of
    record objects.  [findRecordByOriginId] is [records.find(r =>
    r.originId === String(originId))]; the model returns the record with
    its index, so that the in-place [Object.assign(existingRecord, ...)]
    of [processPage] updates that element of the array (the record found
    and the array element are one object).  [upsert] is the last step of
    [processPage]: assign into the found record, or push a new one.
    [loadJSON] and [writeJSON] work on the text of the file through
    [Json]; a well-formed ledger survives the round trip through the file
    with its origin ids. *)

From S2P Require Import Prelude JsString JsValue Json.
Open Scope string_scope.
#[local] Set Warnings "-clear-no-such-hyp".

Module Ledger.
Import JsValue Json.

(** [loadJSON(filePath)] on the content of the file ([None] when it
    does not exist): [[]], or [JSON.parse] of the text. *)
Definition loadJSON (file : option string) : outcome val :=
  match file with None => Ok (VArr []) | Some text => JSON_parse text end.

(** [writeJSON(filePath, records)]: the text written,
    [JSON.stringify(records, null, 2)]; [writeFileSync] throws when it is
    [undefined]. *)
Definition writeJSON (records : val) : outcome string :=
  match stringify records with
  | Some text => Ok text
  | None => Throw "The data argument must be of type string. Received undefined"
  end.

Fixpoint find_record (records : list val) (key : string) (i : nat)
    : outcome (option (nat * val)) :=
  match records with
  | [] => Ok None
  | r :: rs =>
      match get r "originId" with
      | Throw e => Throw e
      | Ok o => if strict_eq_str o key then Ok (Some (i, r)) else find_record rs key (S i)
      end
  end.

(** [findRecordByOriginId(records, originId)] *)
Definition findRecordByOriginId (records originId : val) : outcome (option (nat * val)) :=
  match records with
  | VArr l => find_record l (to_js_string originId) 0
  | _ => Throw "records.find is not a function"
  end.

(** [Object.assign(existingRecord, jsonRecord)] or
    [jsonRecords.push(jsonRecord)]. *)
Definition upsert (records : val) (existing : option (nat * val)) (rec : list (string * val)) : val :=
  match existing, records with
  | Some (i, VObj ps), VArr l => VArr (<[i := VObj (obj_assign ps rec)]> l)
  | None, VArr l => VArr (l ++ [VObj rec])%list
  | _, _ => records
  end.

(** ** Invariant: one record per origin id *)

(** The origin id of a record, when it is a string. *)
Definition origin_of (r : val) : option string :=
  match r with
  | VObj ps => match obj_get ps "originId" with VStr s => Some s | _ => None end
  | _ => None
  end.

Arguments origin_of : simpl never.

(** The origin ids the ledger records. *)
Definition ledger_origins (records : val) : list string :=
  match records with VArr l => omap origin_of l | _ => [] end.

(** A well-formed ledger: an array of objects with string origin ids,
    pairwise distinct. *)
Definition ledger_ok (records : val) : Prop :=
  match records with
  | VArr l => Forall (fun r => is_Some (origin_of r)) l /\ NoDup (omap origin_of l)
  | _ => False
  end.

Lemma find_record_app l l' key i :
  find_record (l ++ l') key i =
  match find_record l key i with Ok None => find_record l' key (i + length l) | r => r end.
Proof.
  revert i. induction l as [|r l IH]; intros i; cbn [app find_record length]; [by rewrite Nat.add_0_r|].
  destruct (get r "originId"); [|done]. destruct (strict_eq_str _ key); [done|].
  rewrite IH. by replace (S i + length l)%nat with (i + S (length l))%nat by lia.
Qed.

Lemma find_record_Some l key i j r :
  find_record l key i = Ok (Some (j, r)) ->
  (i <= j)%nat /\ l !! (j - i)%nat = Some r /\ get r "originId" = Ok (VStr key).
Proof.
  revert i. induction l as [|r' l IH]; simpl; intros i; [done|].
  destruct (get r' "originId") as [o|e] eqn:Ho; [|done].
  destruct (strict_eq_str o key) eqn:Hs.
  - intros [= <- <-]. rewrite Nat.sub_diag. split_and!; [lia|done|].
    destruct o; try done. simpl in Hs. by apply String.eqb_eq in Hs as <-.
  - intros H. destruct (IH _ H) as (Hij & Hl & Hg). split_and!; [lia| |done].
    replace (j - i)%nat with (S (j - S i)) by lia. done.
Qed.

Lemma find_record_None l key i :
  find_record l key i = Ok None -> Forall (fun r => origin_of r <> Some key) l.
Proof.
  revert i. induction l as [|r l IH]; simpl; intros i; [constructor|].
  destruct (get r "originId") as [o|e] eqn:Ho; [|done].
  destruct (strict_eq_str o key) eqn:Hs; [done|]. intros H. constructor; [|by eapply IH].
  destruct r; try done. simpl in Ho. injection Ho as Ho. unfold origin_of. simpl. rewrite Ho.
  destruct o; try done. simpl in Hs. intros [= ->]. by rewrite String.eqb_refl in Hs.
Qed.

Lemma origin_of_assign ps rec key :
  NoDup (keys rec) -> own rec "originId" = Some (VStr key) ->
  origin_of (VObj (obj_assign ps rec)) = Some key.
Proof.
  intros Hnd Hown. unfold origin_of, obj_get.
  by rewrite (own_obj_assign_in _ _ _ (VStr key)).
Qed.

Lemma origin_of_new rec key :
  own rec "originId" = Some (VStr key) -> origin_of (VObj rec) = Some key.
Proof. intros H. unfold origin_of, obj_get. by rewrite H. Qed.

(** [upsert] keeps the ledger well formed and records [key]. *)
Lemma upsert_wf records key existing rec :
  ledger_ok records ->
  find_record (match records with VArr l => l | _ => [] end) key 0 = Ok existing ->
  NoDup (keys rec) -> own rec "originId" = Some (VStr key) ->
  ledger_ok (upsert records existing rec) /\
  key ∈ omap origin_of (match upsert records existing rec with VArr l => l | _ => [] end).
Proof.
  destruct records as [| | | | | |l| |]; try done. intros [Hall Hnd] Hfind Hk Ho.
  destruct existing as [[j r]|].
  - apply find_record_Some in Hfind as (_ & Hj & Hg). rewrite Nat.sub_0_r in Hj.
    destruct r as [| | | | | | |ps|]; try done.
    assert (Hor : origin_of (VObj ps) = Some key).
    { unfold origin_of. simpl in Hg. injection Hg as Hg. by rewrite Hg. }
    pose proof (origin_of_assign ps rec key Hk Ho) as Hnew.
    simpl. rewrite (omap_insert_same _ _ _ _ _ Hj) by congruence. split_and!; [|done|].
    + apply Forall_insert; [done|]. by rewrite Hnew.
    + apply list_elem_of_omap. exists (VObj ps). split; [by eapply list_elem_of_lookup_2|done].
  - apply find_record_None in Hfind. simpl.
    rewrite omap_app. simpl. rewrite (origin_of_new rec key Ho). split_and!.
    + apply Forall_app. split; [done|]. constructor; [by rewrite (origin_of_new rec key Ho)|constructor].
    + apply NoDup_app. split_and!; [done| |apply NoDup_singleton].
      intros x Hx ->%list_elem_of_singleton. apply list_elem_of_omap in Hx as (r & Hr & Hor).
      by eapply Forall_forall in Hfind.
    + set_solver.
Qed.

(** [upsert] forgets no origin id. *)
Lemma upsert_origins_sub records key existing rec :
  find_record (match records with VArr l => l | _ => [] end) key 0 = Ok existing ->
  NoDup (keys rec) -> own rec "originId" = Some (VStr key) ->
  ledger_origins records ⊆ ledger_origins (upsert records existing rec).
Proof.
  intros Hfind Hk Ho.
  destruct records as [| | | | | |l| |]; try (destruct existing as [[? []]|]; set_solver).
  destruct existing as [[j r]|].
  - apply find_record_Some in Hfind as (_ & Hj & Hg). rewrite Nat.sub_0_r in Hj.
    destruct r as [| | | | | | |ps|]; try set_solver.
    assert (Hor : origin_of (VObj ps) = Some key).
    { unfold origin_of. simpl in Hg. injection Hg as Hg. by rewrite Hg. }
    simpl. rewrite (omap_insert_same _ _ _ _ _ Hj); [set_solver|].
    by rewrite Hor, (origin_of_assign ps rec key Hk Ho).
  - simpl. rewrite omap_app. set_solver.
Qed.

(** C3: [upsert] keeps one record per origin id.  When the ledger is
    well formed, the lookup for [key] returned [existing], and the new
    record (with distinct keys) carries [originId: key], the ledger after
    [upsert] is well formed, has a record for [key], and grows by one
    record exactly when there was no record for [key]. *)
Theorem upsert_ledger_ok l key existing rec :
  ledger_ok (VArr l) -> find_record l key 0 = Ok existing ->
  NoDup (keys rec) -> own rec "originId" = Some (VStr key) ->
  exists l', upsert (VArr l) existing rec = VArr l' /\ ledger_ok (VArr l') /\
    key ∈ omap origin_of l' /\
    length l' = match existing with Some _ => length l | None => S (length l) end.
Proof.
  intros Hok Hfind Hk Ho.
  destruct (upsert_wf (VArr l) key existing rec Hok Hfind Hk Ho) as [Hok' Hin].
  destruct existing as [[j r]|].
  - apply find_record_Some in Hfind as (_ & Hj & Hg). rewrite Nat.sub_0_r in Hj.
    destruct r as [| | | | | | |ps|]; try done.
    eexists; split_and!; [done|done|done|]. apply length_insert.
  - eexists; split_and!; [done|done|done|]. rewrite length_app. simpl. lia.
Qed.

(** In a well-formed ledger, a key that has a record is found. *)
Lemma find_record_found l key i :
  Forall (fun r => is_Some (origin_of r)) l -> key ∈ omap origin_of l ->
  exists j r, find_record l key i = Ok (Some (j, r)).
Proof.
  revert i. induction l as [|r l IH]; intros i Hall Hin; simpl in *; [set_solver|].
  apply Forall_cons in Hall as [[o Ho] Hall].
  destruct r as [| | | | | | |ps|]; try (by inversion Ho).
  unfold origin_of in Ho; simpl in Ho. simpl.
  destruct (obj_get ps "originId") as [| | | | |s| | |] eqn:Hg; try discriminate.
  injection Ho as <-. simpl in Hin.
  unfold origin_of in Hin. simpl in Hin. rewrite Hg in Hin.
  cbn [strict_eq_str]. destruct (String.eqb_spec s key) as [->|Hne]; [eauto|].
  apply IH; [done|]. set_solver.
Qed.

(** ** The ledger file: what [writeJSON] writes, [loadJSON] reads back *)

(** Every record has distinct keys, as every object [JSON.parse] builds. *)
Definition record_keys_ok (r : val) : Prop :=
  match r with VObj ps => NoDup (keys ps) | _ => True end.

Definition ledger_wf (records : val) : Prop :=
  ledger_ok records /\ match records with VArr l => Forall record_keys_ok l | _ => True end.

(** The members [JSON.parse(JSON.stringify(o))] keeps. *)
Definition kept (ps : list (string * val)) : list (string * val) :=
  cat_somes (map (fun kv => option_map (pair kv.1) (jnorm kv.2)) ps).

Lemma kept_keys ps : NoDup (keys ps) -> NoDup (keys (kept ps)) /\ keys (kept ps) ⊆ keys ps.
Proof.
  induction ps as [|[k x] ps IH]; [done|]. cbn [keys map fst]. intros [Hk Hnd]%NoDup_cons.
  destruct (IH Hnd) as [IH1 IH2]. unfold kept. cbn [map cat_somes fst snd].
  destruct (jnorm x); cbn [cat_somes option_map]; fold (kept ps); cbn [keys map fst].
  - split; [apply NoDup_cons; split; [set_solver|done]|set_solver].
  - set_solver.
Qed.

Lemma own_kept ps k v v' :
  NoDup (keys ps) -> own ps k = Some v -> jnorm v = Some v' -> own (kept ps) k = Some v'.
Proof.
  induction ps as [|[k0 x] ps IH]; [done|]. cbn [keys map fst]. intros [Hk Hnd]%NoDup_cons.
  unfold kept. cbn [map cat_somes fst snd own]. fold (kept ps).
  destruct (String.eqb_spec k k0) as [->|Hne].
  - intros [= ->] ->. cbn [option_map cat_somes own]. by rewrite String.eqb_refl.
  - intros Ho Hv. destruct (jnorm x); cbn [option_map cat_somes own]; [|by apply IH].
    rewrite (proj2 (String.eqb_neq _ _) Hne). by apply IH.
Qed.

(** A record of a well-formed ledger keeps its origin id and its
    distinct keys through the file. *)
Lemma jnorm_record r s :
  record_keys_ok r -> origin_of r = Some s ->
  exists r', jnorm r = Some r' /\ record_keys_ok r' /\ origin_of r' = Some s.
Proof.
  destruct r as [| | | | | | |ps|]; try done. cbn [record_keys_ok]. intros Hnd Hor.
  destruct (kept_keys ps Hnd) as [Hnd' _].
  exists (VObj (kept ps)). split_and!; [|done|].
  - cbn [jnorm]. fold (kept ps). by rewrite obj_of_entries_fresh.
  - unfold origin_of, obj_get in *. destruct (own ps "originId") as [o|] eqn:Ho; [|done].
    destruct o; try done. injection Hor as ->. by rewrite (own_kept ps "originId" (VStr s) (VStr s)).
Qed.

Lemma jnorm_ledger l :
  ledger_wf (VArr l) ->
  exists l', jnorm (VArr l) = Some (VArr l') /\ ledger_wf (VArr l') /\ omap origin_of l' = omap origin_of l.
Proof.
  intros [[Hall Hnd] Hkeys]. cbn [jnorm].
  enough (Hrec : Forall (fun r => is_Some (origin_of r)) (map (fun x => default VNull (jnorm x)) l) /\
                 Forall record_keys_ok (map (fun x => default VNull (jnorm x)) l) /\
                 omap origin_of (map (fun x => default VNull (jnorm x)) l) = omap origin_of l).
  { destruct Hrec as (H1 & H2 & H3). eexists. split; [reflexivity|].
    split; [split; [split; [done|by rewrite H3]|done]|done]. }
  clear Hnd. induction l as [|r l IH]; [done|].
  apply Forall_cons in Hall as [[s Hs] Hall], Hkeys as [Hr Hkeys].
  destruct (jnorm_record r s Hr Hs) as (r' & Hj & Hr' & Hs').
  destruct (IH Hall Hkeys) as (IH1 & IH2 & IH3). cbn [map]. rewrite Hj.
  change (default VNull (Some r')) with r'.
  split_and!; [constructor; [cbv beta; rewrite Hs'; by eexists|done]|by constructor|].
  change (r' :: map (fun x => default VNull (jnorm x)) l) with ([r'] ++ map (fun x => default VNull (jnorm x)) l)%list.
  change (r :: l) with ([r] ++ l)%list. rewrite !omap_app, IH3. simpl. by rewrite Hs', Hs.
Qed.

(** [upsert] keeps every record's keys distinct. *)
Lemma upsert_keys_ok l key existing rec :
  Forall record_keys_ok l -> find_record l key 0 = Ok existing -> NoDup (keys rec) ->
  match upsert (VArr l) existing rec with VArr l' => Forall record_keys_ok l' | _ => True end.
Proof.
  intros Hall Hfind Hk. destruct existing as [[j r]|].
  - apply find_record_Some in Hfind as (_ & Hj & _). rewrite Nat.sub_0_r in Hj.
    destruct r as [| | | | | | |ps|]; cbn [upsert]; try done.
    apply Forall_insert; [done|]. cbn [record_keys_ok]. apply keys_obj_assign_NoDup.
    by eapply (Forall_lookup_1 _ _ _ _ Hall Hj).
  - cbn [upsert]. apply Forall_app. by split; [|constructor].
Qed.

(** What [writeJSON] writes, [loadJSON] reads back as a well-formed
    ledger with the same origin ids, in the same order. *)
Lemma ledger_file records :
  ledger_wf records ->
  exists text records', writeJSON records = Ok text /\ loadJSON (Some text) = Ok records' /\
    ledger_wf records' /\ ledger_origins records' = ledger_origins records.
Proof.
  intros Hwf. destruct records as [| | | | | |l| |]; try (by destruct Hwf as [[] _]).
  destruct (jnorm_ledger l Hwf) as (l' & Hj & Hwf' & Ho).
  destruct (stringify (VArr l)) as [text|] eqn:Ht; [|apply stringify_None in Ht; congruence].
  exists text, (VArr l'). unfold writeJSON, loadJSON, JSON_parse. rewrite Ht, (stringify_parse _ _ Ht), Hj.
  by split_and!.
Qed.

(** A ledger with the record of page 7; the re-run's record replaces its
    fields in place. *)
Lemma upsert_ledger_ok_witness :
  exists l', upsert (VArr [VObj [("originId", VStr "7"); ("newPageId", VNum 100)]])
               (Some (0%nat, VObj [("originId", VStr "7"); ("newPageId", VNum 100)]))
               [("originId", VStr "7"); ("newPageId", VNum 100); ("about_us_image", VNum 101)]
             = VArr l' /\ ledger_ok (VArr l') /\ "7" ∈ omap origin_of l' /\ length l' = 1%nat.
Proof.
  apply (upsert_ledger_ok [VObj [("originId", VStr "7"); ("newPageId", VNum 100)]] "7").
  - split; [repeat constructor; eexists; reflexivity|apply NoDup_singleton].
  - reflexivity.
  - apply NoDup_cons_2; [set_solver|apply NoDup_cons_2; [set_solver|apply NoDup_singleton]].
  - reflexivity.
Defined.

(** C33: the ledger survives its file.  What [writeJSON] writes at the
    end of a run from a well-formed ledger (string origin ids, pairwise
    distinct, records with distinct keys), the next run's [loadJSON]
    reads back as a well-formed ledger with the same origin ids in the
    same order; only [undefined] fields of a record are lost. *)
Theorem ledger_file_roundtrip records :
  ledger_wf records ->
  exists text records', writeJSON records = Ok text /\ loadJSON (Some text) = Ok records' /\
    ledger_wf records' /\ ledger_origins records' = ledger_origins records.
Proof. apply ledger_file. Qed.

(** A ledger whose record has an [undefined] title. *)
Lemma ledger_file_roundtrip_witness :
  exists text records',
    writeJSON (VArr [VObj [("originId", VStr "7"); ("pageId", VNum 100); ("title", VUndef)]]) = Ok text /\
    loadJSON (Some text) = Ok records' /\ ledger_wf records' /\
    ledger_origins records' = ledger_origins (VArr [VObj [("originId", VStr "7"); ("pageId", VNum 100); ("title", VUndef)]]).
Proof.
  apply ledger_file_roundtrip. split; [split|].
  - repeat constructor. eexists. reflexivity.
  - apply NoDup_singleton.
  - repeat constructor; set_solver.
Defined.

End Ledger.
