(* ===== verification/RemoteApi.v ===== *)
(** * Interface of the remote WordPress REST API and of the network

    The scripts talk to the destination site only through [fetch].  This
    file states what the client side may assume of the other side:

    - [request]: the calls the code makes ([POST /pages], [PATCH
      /pages/<id>], [POST /media], [GET /media?per_page=100&page=k] of
      step 2 and [GET /pages?slug=s] of step 1), with their bodies;
    - [response]: a status, the raw text of the body and its parse as
      JSON ([None] when [response.json()] would reject);
    - [Server]: a class with one operation [handle] that answers a
      request, sent with an [Authorization] header, and moves the server
      to a new state.  Client theorems are proved for every instance;
      [WordPress] gives the concrete one, which authenticates the header;
    - [net_event]: what the network does to one [fetch]: deliver it,
      lose the request, lose the response after the server acted, or
      answer with an error status without reaching the application.  The
      network is an oracle [nat -> net_event] indexed by the number of
      requests sent so far, so it is infinite and fixed in advance;
    - [env]: the state a run threads through [fetch]: the server, the
      oracle, the count of requests sent, the list of [sleep] delays and
      the [Authorization] header every request of the script carries
      ([getAuthHeader()] in step 2, the [WP_USER] header in step 1: both
      are fixed once [dotenv.config()] has run).
    - [zoom]: runs a computation on [env] inside a larger run state. *)

From S2P Require Import Prelude JsString JsValue.
Open Scope string_scope.

Module RemoteApi.
Import JsValue.

Inductive request : Type :=
| ReqCreatePage (payload : val)
| ReqUpdatePage (pageId : val) (payload : val)
| ReqUploadMedia (fileName : string) (title : string)
| ReqListMedia (page : nat)
| ReqPagesBySlug (slug : string).

Record response : Type := mkResponse {
  status : Z;
  resp_text : string;
  resp_json : option val
}.

(** [response.ok] *)
Definition resp_ok (r : response) : bool := (200 <=? status r)%Z && (status r <=? 299)%Z.

Class Server (St : Type) := handle : string -> request -> St -> response * St.

Inductive net_event : Type :=
| Deliver
| LoseRequest (msg : string)
| LoseResponse (msg : string)
| GatewayError (code : Z) (text : string).

Record env (St : Type) : Type := mkEnv {
  srv : St;
  net : nat -> net_event;
  sent : nat;
  slept : list Z;
  hdr : string
}.
Arguments mkEnv {St} _ _ _ _ _.
Arguments srv {St} _.
Arguments net {St} _.
Arguments sent {St} _.
Arguments slept {St} _.
Arguments hdr {St} _.

(** [await sleep(ms)] *)
Definition sleep {St} (ms : Z) : M (env St) unit :=
  modify (fun e => mkEnv (srv e) (net e) (sent e) (slept e ++ [ms])%list (hdr e)).

(** One [await fetch(url, { headers: { Authorization: ... }, ... })]:
    the oracle decides the fate of the request numbered [sent]. *)
Definition fetch {St} `{Server St} (req : request) : M (env St) response :=
  fun e =>
    let e1 := mkEnv (srv e) (net e) (S (sent e)) (slept e) (hdr e) in
    match net e (sent e) with
    | Deliver =>
        let (r, s') := handle (hdr e) req (srv e) in
        (Ok r, mkEnv s' (net e) (sent e1) (slept e) (hdr e))
    | LoseRequest msg => (Throw msg, e1)
    | LoseResponse msg =>
        let (_, s') := handle (hdr e) req (srv e) in
        (Throw msg, mkEnv s' (net e) (sent e1) (slept e) (hdr e))
    | GatewayError code text => (Ok (mkResponse code text None), e1)
    end.

(** Run a computation with the header of the script's credentials. *)
Definition set_hdr {St} (h : string) (e : env St) : env St :=
  mkEnv (srv e) (net e) (sent e) (slept e) h.

(** Run a computation on the [env] part of a larger state. *)
Definition zoom {W E A} (view : W -> E) (update : E -> W -> W) (c : M E A) : M W A :=
  fun w => let (o, e') := c (view w) in (o, update e' w).

(** A site that turns every request of the header [hdr e] away: the
    answer is not [ok] and the site is unchanged. *)
Definition rejects {St} `{Server St} (e : env St) : Prop :=
  forall req, resp_ok (fst (handle (hdr e) req (srv e))) = false /\ snd (handle (hdr e) req (srv e)) = srv e.

(** From a rejecting site, the site and the header stay as they were. *)
Definition frozen {St} `{Server St} (e e' : env St) : Prop :=
  rejects e -> srv e' = srv e /\ hdr e' = hdr e.

(** ** Lemmas *)

Lemma fetch_sent {St} `{Server St} req e o e' :
  fetch req e = (o, e') -> sent e' = S (sent e) /\ slept e' = slept e /\ hdr e' = hdr e.
Proof.
  unfold fetch. destruct (net e (sent e)); try destruct (handle (hdr e) req (srv e));
    intros [= <- <-]; done.
Qed.

Lemma sleep_env {St} ms (e : env St) :
  sleep ms e = (Ok tt, mkEnv (srv e) (net e) (sent e) (slept e ++ [ms])%list (hdr e)).
Proof. reflexivity. Qed.

Lemma rejects_frozen {St} `{Server St} (e e' : env St) : rejects e -> frozen e e' -> rejects e'.
Proof. intros Hr Hf req. destruct (Hf Hr) as [-> ->]. apply Hr. Qed.

#[export] Instance frozen_preorder {St} `{Server St} : PreOrder (@frozen St _).
Proof.
  split; [by intros e _|]. intros e1 e2 e3 H12 H23 Hr.
  destruct (H12 Hr) as [Hs Hh]. destruct (H23 (rejects_frozen _ _ Hr H12)) as [Hs' Hh']. split; congruence.
Qed.

(** Every [fetch] keeps a rejecting site; what it answers is not [ok]
    or has no JSON body. *)
Lemma fetch_frozen {St} `{Server St} req e o e' :
  fetch req e = (o, e') -> frozen e e' /\
    (rejects e -> forall r, o = Ok r -> resp_ok r = false \/ resp_json r = None).
Proof.
  unfold fetch. intros Hf. destruct (net e (sent e)) eqn:Hn.
  - destruct (handle (hdr e) req (srv e)) as [r s'] eqn:Hh. injection Hf as <- <-.
    split; intros Hr; specialize (Hr req); rewrite Hh in Hr; cbn in Hr |- *.
    + by destruct Hr as [_ ->].
    + intros r' [= <-]. left. apply Hr.
  - injection Hf as <- <-. split; [by intros _|]. intros _ r [=].
  - destruct (handle (hdr e) req (srv e)) as [r s'] eqn:Hh. injection Hf as <- <-.
    split; [|intros _ r' [=]]. intros Hr. specialize (Hr req). rewrite Hh in Hr. cbn in Hr |- *.
    by destruct Hr as [_ ->].
  - injection Hf as <- <-. split; [by intros _|]. intros _ r [= <-]. by right.
Qed.

End RemoteApi.
