(* ===== verification/WordPress.v ===== *)
(** * A model of the destination WordPress site (spec section 6)

    The remote content API is not part of the repository: this instance
    of [RemoteApi.Server] follows the operations the spec names
    ([createRecord], [updateRecord], [createMedia]).  Posts and media share
    one id counter, as in WordPress.  [GET /media] lists 100 items a page
    in upload order and answers an empty page past the end; [GET /pages
    ?slug=] lists the pages with that slug.  [PATCH /pages/<id>] replaces the
    top-level fields it sends and merges its [acf] object into the stored
    one (ACF updates only the fields present); an unknown id answers 404.

    Every request is authenticated first (spec section 6: HTTP Basic):
    the site decodes the [Authorization] header ([Auth.basic_credentials])
    and answers 401 without acting when the user is unknown
    ([invalid_username]) or the password wrong ([incorrect_password]), as
    WordPress does for Basic credentials it cannot verify, whatever the
    route. *)

From S2P Require Import Prelude Auth JsString JsValue RemoteApi.
From Stdlib Require Import Ascii.
Open Scope string_scope.

Module WordPress.
Import Auth JsString JsValue RemoteApi.

Record wp : Type := mkWp {
  wp_pages : list (Z * val);
  wp_media : list (Z * string * string);
  wp_next : Z;
  wp_base : string;
  wp_users : list (string * string)   (** user name and application password *)
}.

Definition page_link (base : string) (id : Z) : string := base +:+ "/?page_id=" +:+ pretty id.

Definition page_response (code : Z) (base : string) (id : Z) : response :=
  mkResponse code "" (Some (VObj [("id", VNum id); ("link", VStr (page_link base id))])).

(** The stored page after a [PATCH]: top-level fields replaced, [acf]
    merged. *)
Definition patch_page (old payload : val) : val :=
  match old, payload with
  | VObj o, VObj p =>
      let merged := obj_assign o p in
      match obj_get o "acf", obj_get p "acf" with
      | VObj oa, VObj pa => VObj (obj_set merged "acf" (VObj (obj_assign oa pa)))
      | _, _ => VObj merged
      end
  | _, _ => payload
  end.

Fixpoint find_page (pages : list (Z * val)) (key : string) : option Z :=
  match pages with
  | [] => None
  | (id, _) :: r => if String.eqb (pretty id) key then Some id else find_page r key
  end.

(** A media item as [GET /media] lists it; the upload sent the title as
    title and alternative text. *)
Definition media_fields (base : string) (m : Z * string * string) : list (string * val) :=
  let '(id, name, title) := m in
  [("id", VNum id); ("title", VObj [("rendered", VStr title)]);
   ("mime_type", VStr (if endsWith name ".svg" then "image/svg+xml" else "image/webp"));
   ("source_url", VStr (base +:+ "/wp-content/uploads/" +:+ name));
   ("alt_text", VStr title)].

Definition media_val (base : string) (m : Z * string * string) : val := VObj (media_fields base m).

(** Page [k] (from 1) of the media list, 100 per page; past the end the
    page is empty (spec section 6: [listMedia] terminates on an empty
    page). *)
Definition media_page (s : wp) (k : nat) : list val :=
  take 100 (drop ((k - 1) * 100) (map (media_val (wp_base s)) (wp_media s))).

(** A stored page as [GET /pages] returns it: its id, then its fields. *)
Definition page_json (p : Z * val) : val :=
  match p.2 with VObj ps => VObj (("id", VNum p.1) :: ps) | v => v end.

Definition slug_is (slug : string) (p : Z * val) : bool :=
  match p.2 with VObj ps => strict_eq_str (obj_get ps "slug") slug | _ => false end.

(** The answer to a request once it is authenticated. *)
Definition wp_route (req : request) (s : wp) : response * wp :=
  match req with
  | ReqCreatePage payload =>
      let id := wp_next s in
      (page_response 201 (wp_base s) id,
       mkWp (wp_pages s ++ [(id, payload)])%list (wp_media s) (id + 1)%Z (wp_base s) (wp_users s))
  | ReqUpdatePage pageId payload =>
      match find_page (wp_pages s) (to_js_string pageId) with
      | Some id =>
          (page_response 200 (wp_base s) id,
           mkWp (map (fun kv => if Z.eqb kv.1 id then (id, patch_page kv.2 payload) else kv)
                     (wp_pages s)) (wp_media s) (wp_next s) (wp_base s) (wp_users s))
      | None =>
          (mkResponse 404 "rest_post_invalid_id: Invalid post ID."
             (Some (VObj [("code", VStr "rest_post_invalid_id")])), s)
      end
  | ReqUploadMedia name title =>
      let id := wp_next s in
      (mkResponse 201 "" (Some (VObj [("id", VNum id);
                                     ("source_url", VStr (wp_base s +:+ "/wp-content/uploads/" +:+ name))])),
       mkWp (wp_pages s) (wp_media s ++ [(id, name, title)])%list (id + 1)%Z (wp_base s) (wp_users s))
  | ReqListMedia k => (mkResponse 200 "" (Some (VArr (media_page s k))), s)
  | ReqPagesBySlug slug =>
      (mkResponse 200 "" (Some (VArr (map page_json (List.filter (slug_is slug) (wp_pages s))))), s)
  end.

(** The 401 answer to credentials the site does not accept, or [None]. *)
Definition wp_authenticate (h : string) (s : wp) : option response :=
  let deny code msg := Some (mkResponse 401 (code +:+ ": " +:+ msg) (Some (VObj [("code", VStr code)]))) in
  match basic_credentials h with
  | Some (u, p) =>
      if existsb (fun up => String.eqb up.1 u && String.eqb up.2 p) (wp_users s) then None
      else if existsb (fun up => String.eqb up.1 u) (wp_users s)
      then deny "incorrect_password" "The provided password is an invalid application password."
      else deny "invalid_username" "Unknown username. Check again or try your email address."
  | None => deny "rest_not_logged_in" "You are not currently logged in."
  end.

Definition wp_handle (h : string) (req : request) (s : wp) : response * wp :=
  match wp_authenticate h s with
  | Some r => (r, s)
  | None => wp_route req s
  end.

#[export] Instance wp_server : Server wp := wp_handle.

(** The slugs WordPress stores ([sanitize_title]): lower-case letters,
    digits, [-], [_] and the [%] of a percent-encoded character. *)
Definition slug_char (c : ascii) : bool :=
  let n := nat_of_ascii c in
  ((97 <=? n) && (n <=? 122) || (48 <=? n) && (n <=? 57) || (n =? 45) || (n =? 95) || (n =? 37))%nat.

Definition slug_ok (k : string) : bool := forallb slug_char (chars k).

(** Every page of the site that has a string slug has a WordPress slug. *)
Definition slugs_ok (s : wp) : bool :=
  forallb (fun p => match p.2 with
                    | VObj ps => match obj_get ps "slug" with VStr k => slug_ok k | _ => true end
                    | _ => true
                    end) (wp_pages s).

(** Only [POST /pages] adds a page. *)
Lemma wp_update_pages h pid payload s :
  length (wp_pages (snd (wp_handle h (ReqUpdatePage pid payload) s))) = length (wp_pages s).
Proof.
  unfold wp_handle. destruct (wp_authenticate h s); [done|].
  simpl. destruct (find_page _ _); simpl; [by rewrite length_map|done].
Qed.

Lemma wp_upload_pages h name title s :
  length (wp_pages (snd (wp_handle h (ReqUploadMedia name title) s))) = length (wp_pages s).
Proof. unfold wp_handle. by destruct (wp_authenticate h s). Qed.

(** Listing requests change nothing. *)
Lemma wp_list_media_keeps h k s : snd (wp_handle h (ReqListMedia k) s) = s.
Proof. unfold wp_handle. by destruct (wp_authenticate h s). Qed.

(** No request changes the users of the site. *)
Lemma wp_handle_users h req s : wp_users (snd (wp_handle h req s)) = wp_users s.
Proof.
  unfold wp_handle. destruct (wp_authenticate h s); [done|].
  destruct req; simpl; try done. by destruct (find_page _ _).
Qed.

(** Authentication depends on the users only. *)
Lemma wp_authenticate_users h s s' : wp_users s' = wp_users s -> wp_authenticate h s' = wp_authenticate h s.
Proof. intros Hu. unfold wp_authenticate. by rewrite Hu. Qed.

(** A request with accepted credentials is routed. *)
Lemma wp_handle_accepted h req s : wp_authenticate h s = None -> wp_handle h req s = wp_route req s.
Proof. intros Ha. unfold wp_handle. by rewrite Ha. Qed.

(** What the site refuses, it refuses with a 401. *)
Lemma wp_authenticate_status h s r : wp_authenticate h s = Some r -> status r = 401%Z.
Proof.
  unfold wp_authenticate. destruct (basic_credentials h) as [[u p]|];
    [destruct (existsb _ (wp_users s)); [discriminate|destruct (existsb _ (wp_users s))]|];
    intros [= <-]; reflexivity.
Qed.

(** Credentials the site does not accept: every request is turned away
    and changes nothing. *)
Lemma wp_rejects (e : env wp) : wp_authenticate (hdr e) (srv e) <> None -> rejects e.
Proof.
  intros Ha req. change (handle (hdr e) req (srv e)) with (wp_handle (hdr e) req (srv e)). unfold wp_handle.
  destruct (wp_authenticate (hdr e) (srv e)) as [r|] eqn:E; [|congruence]. cbn [fst snd].
  split; [|reflexivity]. unfold resp_ok. rewrite (wp_authenticate_status _ _ _ E). reflexivity.
Qed.

(** The header the scripts build from a user of the site and its
    password is accepted, when the user name has no colon. *)
Lemma wp_accepts_basic u p s :
  (u, p) ∈ wp_users s -> ":"%char ∉ String.list_ascii_of_string u -> wp_authenticate (basic_auth u p) s = None.
Proof.
  intros Hin Hu. unfold wp_authenticate. rewrite basic_auth_credentials by done.
  replace (existsb _ (wp_users s)) with true; [done|]. symmetry. apply existsb_exists.
  exists (u, p). split; [by apply list_elem_of_In|]. cbn. by rewrite !String.eqb_refl.
Qed.

(** No page of such a site answers [GET /pages?slug=k] for a [k] that is
    not a WordPress slug. *)
Lemma filter_slug_nil s k : slugs_ok s = true -> slug_ok k = false -> List.filter (slug_is k) (wp_pages s) = [].
Proof.
  unfold slugs_ok. induction (wp_pages s) as [|[id v] l IH]; intros Hs Hk; [done|].
  cbn [forallb] in Hs. apply andb_prop in Hs as [Hp Hs]. cbn [List.filter]. rewrite (IH Hs Hk).
  unfold slug_is. cbn [snd] in Hp |- *. destruct v; try done.
  destruct (obj_get _ "slug"); try done. cbn [strict_eq_str].
  destruct (String.eqb_spec s0 k); [subst; congruence|done].
Qed.

(** The staging site's user and its application password. *)
Definition staging_user : string := "editor".
Definition staging_password : string := "abcd EFGH 1234 ijkl".

(** The header the scripts send with these credentials. *)
Definition staging_header : string := basic_auth staging_user staging_password.

Definition staging_users : list (string * string) := [(staging_user, staging_password)].

(** An empty staging site. *)
Definition empty_site : wp := mkWp [] [] 100 "https://staging.example.com" staging_users.

(** A network that delivers everything. *)
Definition reliable : nat -> net_event := fun _ => Deliver.

Definition fresh_env (n : nat -> net_event) : env wp := mkEnv empty_site n 0 [] staging_header.

End WordPress.
