(* ===== verification/Retry.v ===== *)
(** * Retrying request client and REST wrappers ([src/step_2.js], 28-73, 334-396)

    [fetchWithRetry] for every [Server] instance: a [for] loop over the
    attempts, each a [try] around [fetch] and [response.json()] or
    [response.text()], whose [catch] records the error and sleeps
    [INITIAL_RETRY_DELAY * 2^(attempt-1)] before the next attempt; then
    [createPage], [updatePage] and [uploadImage], which catch, log and
    rethrow.  [fs.readFileSync] of a path that is not a string is kept as
    the TypeError it raises; reading an existing file is not modelled (the
    request carries the file's base name). *)

From S2P Require Import Prelude JsString JsValue RemoteApi WordPress.
From Stdlib Require Import Ascii.
Open Scope string_scope.
#[local] Set Warnings "-clear-no-such-hyp".

Module Retry.
Import JsString JsValue RemoteApi.

Definition MAX_RETRIES : nat := 3.
Definition INITIAL_RETRY_DELAY : Z := 1000.

(** The message of the error [response.json()] rejects with. *)
Definition json_error : string := "invalid json response body".

Definition path_type_error : string :=
  "The path argument must be of type string or an instance of Buffer or URL".

Section Client.
Context {St : Type} `{Server St}.

(** The [try] block of one attempt. *)
Definition attempt_once (req : request) : M (env St) val :=
  fun e =>
    match fetch req e with
    | (Throw m, e') => (Throw m, e')
    | (Ok r, e') =>
        if resp_ok r then
          match resp_json r with
          | Some v => (Ok v, e')
          | None => (Throw json_error, e')
          end
        else (Throw ("HTTP " +:+ pretty (status r) +:+ ": " +:+ resp_text r), e')
    end.

(** The delay slept after a failed attempt number [attempt]. *)
Definition backoff (attempt : nat) : Z :=
  (INITIAL_RETRY_DELAY * 2 ^ (Z.of_nat attempt - 1))%Z.

(** The loop, [n] attempts left, the next one numbered [attempt]. *)
Fixpoint retry_loop (n attempt maxAttempts : nat) (req : request)
    (lastError : option string) : M (env St) val :=
  match n with
  | O =>
      match lastError with
      | Some m => throw ("Failed after " +:+ pretty maxAttempts +:+ " attempts: " +:+ m)
      | None => throw (type_error_read "undefined" "message")
      end
  | S n' =>
      catch (attempt_once req)
        (fun m => fun e =>
           let e' := if (attempt <? maxAttempts)%nat then snd (sleep (backoff attempt) e) else e in
           retry_loop n' (S attempt) maxAttempts req (Some m) e')
  end.

(** [fetchWithRetry(url, options, maxAttempts)] *)
Definition fetchWithRetry (req : request) (maxAttempts : nat) : M (env St) val :=
  retry_loop maxAttempts 1 maxAttempts req None.

(** [createPage], [updatePage]: log and rethrow. *)
Definition createPage (payload : val) : M (env St) val :=
  catch (fetchWithRetry (ReqCreatePage payload) MAX_RETRIES) throw.

Definition updatePage (pageId payload : val) : M (env St) val :=
  catch (fetchWithRetry (ReqUpdatePage pageId payload) MAX_RETRIES) throw.

(** [path.basename] of a path without trailing slash. *)
Definition basename (p : string) : string := List.last (split_char "/"%char p) "".

(** [uploadImage(imagePath, title)]: returns [response.id]. *)
Definition uploadImage (imagePath title : val) : M (env St) val :=
  catch
    (match imagePath with
     | VStr p =>
         bind (fetchWithRetry (ReqUploadMedia (basename p) (to_js_string title)) MAX_RETRIES)
              (fun resp => lift (get resp "id"))
     | _ => throw path_type_error
     end) throw.

(** The delays slept by attempts [from .. from + count - 1]. *)
Definition backoff_delays (from count : nat) : list Z := map backoff (seq from count).

(** ** Lemmas and theorems of the client *)

Lemma retry_loop_S n a max req last :
  retry_loop (S n) a max req last =
  catch (attempt_once req)
    (fun m e => retry_loop n (S a) max req (Some m)
                  (if (a <? max)%nat then snd (sleep (backoff a) e) else e)).
Proof. reflexivity. Qed.

(** An environment after one more request, the server unchanged. *)
Definition bump (e : env St) : env St := mkEnv (srv e) (net e) (S (sent e)) (slept e) (hdr e).

Lemma attempt_once_lost req e m :
  net e (sent e) = LoseRequest m -> attempt_once req e = (Throw m, bump e).
Proof. intros Hn. unfold attempt_once, fetch. by rewrite Hn. Qed.

Lemma attempt_once_ok req e r s' v :
  net e (sent e) = Deliver -> handle (hdr e) req (srv e) = (r, s') ->
  resp_ok r = true -> resp_json r = Some v ->
  attempt_once req e = (Ok v, mkEnv s' (net e) (S (sent e)) (slept e) (hdr e)).
Proof. intros Hn Hh Hok Hj. unfold attempt_once, fetch. rewrite Hn, Hh. simpl. by rewrite Hok, Hj. Qed.

(** A request the network delivers and the site answers [ok] with JSON
    succeeds at the first attempt. *)
Lemma fetchWithRetry_delivered req n e r s' v :
  net e (sent e) = Deliver -> handle (hdr e) req (srv e) = (r, s') ->
  resp_ok r = true -> resp_json r = Some v -> (1 <= n)%nat ->
  fetchWithRetry req n e = (Ok v, mkEnv s' (net e) (S (sent e)) (slept e) (hdr e)).
Proof.
  intros Hn Hh Hok Hj Hm. destruct n as [|n]; [lia|]. unfold fetchWithRetry. rewrite retry_loop_S.
  unfold catch. by rewrite (attempt_once_ok req e r s' v).
Qed.

Lemma backoff_delays_S a k : backoff_delays a (S k) = backoff a :: backoff_delays (S a) k.
Proof. reflexivity. Qed.

(** Every remaining attempt is lost: the loop sleeps after each attempt
    but the last and throws with the attempt count. *)
Lemma retry_loop_all_lost req m n a max last e :
  (forall i, sent e <= i -> net e i = LoseRequest m) -> (a + S n = S max)%nat ->
  retry_loop (S n) a max req last e =
  (Throw ("Failed after " +:+ pretty max +:+ " attempts: " +:+ m),
   mkEnv (srv e) (net e) (sent e + S n) (slept e ++ backoff_delays a n)%list (hdr e)).
Proof.
  revert a last e. induction n as [|n IH]; intros a last e Hnet Ha; rewrite retry_loop_S;
    unfold catch; rewrite (attempt_once_lost req e m) by (apply Hnet; lia).
  - replace (a <? max)%nat with false by (symmetry; apply Nat.ltb_ge; lia).
    unfold bump, throw. simpl. by rewrite Nat.add_1_r, app_nil_r.
  - replace (a <? max)%nat with true by (symmetry; apply Nat.ltb_lt; lia).
    rewrite (IH (S a) (Some m)); [| intros i Hi; apply Hnet; simpl in Hi; lia | lia].
    simpl. f_equal. f_equal; [lia | by rewrite <- app_assoc].
Qed.

(** C4: backoff timing.  When the network loses every request,
    [fetchWithRetry] with [n >= 1] attempts sends [n] requests, sleeps
    [1000 * 2^(k-1)] ms after every failed attempt [k < n], and throws
    ["Failed after n attempts: "] followed by the last error's message. *)
Theorem fetchWithRetry_all_lost req m n e :
  (1 <= n)%nat ->
  (forall i, sent e <= i -> net e i = LoseRequest m) ->
  fetchWithRetry req n e =
  (Throw ("Failed after " +:+ pretty n +:+ " attempts: " +:+ m),
   mkEnv (srv e) (net e) (sent e + n) (slept e ++ backoff_delays 1 (n - 1))%list (hdr e)).
Proof.
  intros Hn Hnet. destruct n as [|n]; [lia|]. unfold fetchWithRetry.
  rewrite (retry_loop_all_lost req m) by (done || lia). by rewrite Nat.sub_1_r.
Qed.

(** The attempts before a success are all lost: the loop returns the
    body of the first successful response. *)
Lemma retry_loop_first_success req k n a max last e r s' v :
  (forall i, sent e <= i < sent e + k -> exists m, net e i = LoseRequest m) ->
  net e (sent e + k) = Deliver -> handle (hdr e) req (srv e) = (r, s') ->
  resp_ok r = true -> resp_json r = Some v ->
  (k < n)%nat -> (a + n = S max)%nat ->
  retry_loop n a max req last e =
  (Ok v, mkEnv s' (net e) (sent e + S k) (slept e ++ backoff_delays a k)%list (hdr e)).
Proof.
  revert n a last e. induction k as [|k IH]; intros n a last e Hlost Hd Hh Hok Hj Hk Ha.
  - destruct n as [|n]; [lia|]. rewrite retry_loop_S. unfold catch.
    rewrite Nat.add_0_r in Hd. rewrite (attempt_once_ok req e r s' v) by done.
    by rewrite Nat.add_1_r, app_nil_r.
  - destruct n as [|n]; [lia|]. rewrite retry_loop_S. unfold catch.
    destruct (Hlost (sent e)) as [m Hm]; [lia|].
    rewrite (attempt_once_lost req e m) by done.
    replace (a <? max)%nat with true by (symmetry; apply Nat.ltb_lt; lia).
    rewrite (IH n (S a) (Some m)); simpl; try done; try lia.
    + f_equal. f_equal; [lia | by rewrite <- app_assoc].
    + intros i Hi. apply Hlost. lia.
    + by rewrite <- Nat.add_succ_r.
Qed.

(** C11: eventual success.  When the first [k] requests are lost and the
    next one reaches a server that answers with a success status and a
    JSON body, [fetchWithRetry] with more than [k] attempts returns that
    body after [k + 1] requests and the [k] backoff delays
    [1000, 2000, ..., 1000 * 2^(k-1)]. *)
Theorem fetchWithRetry_first_success req k n e r s' v :
  (forall i, sent e <= i < sent e + k -> exists m, net e i = LoseRequest m) ->
  net e (sent e + k) = Deliver -> handle (hdr e) req (srv e) = (r, s') ->
  resp_ok r = true -> resp_json r = Some v -> (k < n)%nat ->
  fetchWithRetry req n e =
  (Ok v, mkEnv s' (net e) (sent e + S k) (slept e ++ backoff_delays 1 k)%list (hdr e)).
Proof. intros Hl Hd Hh Hok Hj Hk. unfold fetchWithRetry. by apply (retry_loop_first_success req k n 1 n None e r s' v). Qed.

(** The loop sends at most one request per attempt left. *)
Lemma retry_loop_sent n a max req last e o e' :
  retry_loop n a max req last e = (o, e') -> (sent e <= sent e' <= sent e + n)%nat.
Proof.
  revert a last e. induction n as [|n IH]; intros a last e; [|rewrite retry_loop_S].
  - simpl. destruct last; intros [= _ <-]; lia.
  - unfold catch. destruct (attempt_once req e) as [[v|m] e1] eqn:E.
    + intros [= _ <-]. unfold attempt_once in E.
      destruct (fetch req e) as [[rr|mm] e2] eqn:F; apply fetch_sent in F as [F _];
        [destruct (resp_ok rr); [destruct (resp_json rr)|]|]; injection E as _ <-; lia.
    + intros Hl. apply IH in Hl. unfold attempt_once in E.
      destruct (fetch req e) as [[rr|mm] e2] eqn:F; apply fetch_sent in F as [F _];
        [destruct (resp_ok rr); [destruct (resp_json rr)|]|]; injection E as _ <-;
        destruct (a <? max)%nat; simpl in Hl; lia.
Qed.

(** C12: bound on retries.  Whatever the network and the server do,
    [fetchWithRetry] with [n] attempts sends at most [n] requests. *)
Theorem fetchWithRetry_sent_bound req n e o e' :
  fetchWithRetry req n e = (o, e') -> (sent e' <= sent e + n)%nat.
Proof. intros Hrun. apply retry_loop_sent in Hrun. lia. Qed.

(** ** Frame lemmas: what the client cannot change *)

(** The wrappers keep every preorder on the environment that [fetch]
    and [sleep] keep. *)
Section FrameR.
Context (R : env St -> env St -> Prop) `{!PreOrder R}.
Context (Rsleep : forall ms e, keeps R (sleep ms) e).

Lemma keeps_attempt_once_gen req e : (forall e, keeps R (fetch req) e) -> keeps R (attempt_once req) e.
Proof.
  intros Hf o e' Hrun. unfold attempt_once in Hrun.
  destruct (fetch req e) as [[r|m] e1] eqn:F; apply Hf in F;
    [destruct (resp_ok r); [destruct (resp_json r)|]|]; by injection Hrun as _ <-.
Qed.

Lemma keeps_retry_loop_gen req n a max last e :
  (forall e, keeps R (fetch req) e) -> keeps R (retry_loop n a max req last) e.
Proof.
  intros Hf. revert a last e. induction n as [|n IH]; intros a last e.
  - simpl. destruct last; apply keeps_throw; typeclasses eauto.
  - rewrite retry_loop_S. apply keeps_catch; [typeclasses eauto|by apply keeps_attempt_once_gen|].
    intros m e1 _ o e2 Hrun. apply IH in Hrun. destruct (a <? max)%nat; [|done].
    etransitivity; [|exact Hrun]. apply (Rsleep (backoff a) e1 (fst (sleep (backoff a) e1))).
    apply surjective_pairing.
Qed.

Lemma keeps_fetchWithRetry_gen req n e :
  (forall e, keeps R (fetch req) e) -> keeps R (fetchWithRetry req n) e.
Proof. apply keeps_retry_loop_gen. Qed.

Lemma keeps_createPage_gen payload e :
  (forall e, keeps R (fetch (ReqCreatePage payload)) e) -> keeps R (createPage payload) e.
Proof.
  intros Hf. apply keeps_catch; [typeclasses eauto|by apply keeps_fetchWithRetry_gen|].
  intros. apply keeps_throw; typeclasses eauto.
Qed.

Lemma keeps_updatePage_gen pid payload e :
  (forall e, keeps R (fetch (ReqUpdatePage pid payload)) e) -> keeps R (updatePage pid payload) e.
Proof.
  intros Hf. apply keeps_catch; [typeclasses eauto|by apply keeps_fetchWithRetry_gen|].
  intros. apply keeps_throw; typeclasses eauto.
Qed.

Lemma keeps_uploadImage_gen path title e :
  (forall name t e, keeps R (fetch (ReqUploadMedia name t)) e) -> keeps R (uploadImage path title) e.
Proof.
  intros Hf. unfold uploadImage.
  apply keeps_catch; [typeclasses eauto| |intros; apply keeps_throw; typeclasses eauto].
  destruct path; try (apply keeps_throw; typeclasses eauto).
  apply keeps_bind; [typeclasses eauto|by apply keeps_fetchWithRetry_gen|].
  intros. apply keeps_lift; typeclasses eauto.
Qed.
End FrameR.

(** What a request cannot change on the server. *)
Section Frame.
Context {X : Type} (f : St -> X).
Abbreviation Rsrv := (same (fun e : env St => f (srv e))).

Lemma keeps_sleep ms e : keeps Rsrv (sleep ms) e.
Proof. intros o e' [= _ <-]. reflexivity. Qed.

Lemma keeps_fetch req e :
  (forall h s, f (snd (handle h req s)) = f s) -> keeps Rsrv (fetch req) e.
Proof.
  intros Hreq o e'. unfold fetch, same.
  destruct (net e (sent e)); try destruct (handle (hdr e) req (srv e)) as [r s'] eqn:Hh;
    intros [= _ <-]; simpl; try done;
    by rewrite <- (Hreq (hdr e) (srv e)), Hh.
Qed.

Lemma keeps_fetchWithRetry req n e :
  (forall h s, f (snd (handle h req s)) = f s) -> keeps Rsrv (fetchWithRetry req n) e.
Proof. intros Hreq. apply keeps_fetchWithRetry_gen; [typeclasses eauto|apply keeps_sleep|intros; by apply keeps_fetch]. Qed.

Lemma keeps_updatePage pid payload e :
  (forall h s, f (snd (handle h (ReqUpdatePage pid payload) s)) = f s) ->
  keeps Rsrv (updatePage pid payload) e.
Proof. intros Hreq. apply keeps_updatePage_gen; [typeclasses eauto|apply keeps_sleep|intros; by apply keeps_fetch]. Qed.

Lemma keeps_uploadImage path title e :
  (forall h name t s, f (snd (handle h (ReqUploadMedia name t) s)) = f s) ->
  keeps Rsrv (uploadImage path title) e.
Proof. intros Hreq. apply keeps_uploadImage_gen; [typeclasses eauto|apply keeps_sleep|intros; by apply keeps_fetch]. Qed.
End Frame.

(** ** A site that rejects the credentials *)

Lemma keeps_sleep_frozen ms e : keeps frozen (sleep ms) e.
Proof. intros o e' [= _ <-]. by intros _. Qed.

Lemma keeps_fetch_frozen req e : keeps frozen (fetch req) e.
Proof. intros o e' F. exact (proj1 (fetch_frozen _ _ _ _ F)). Qed.

#[local] Hint Resolve keeps_sleep_frozen keeps_fetch_frozen : mig.

(** No attempt succeeds against a rejecting site. *)
Lemma attempt_once_rejected req e : rejects e -> fails (attempt_once req) e.
Proof.
  intros Hr o e' Hrun. unfold attempt_once in Hrun.
  destruct (fetch req e) as [[r|m] e1] eqn:F; [|injection Hrun as <- _; eauto].
  destruct (proj2 (fetch_frozen _ _ _ _ F) Hr r eq_refl) as [Hok|Hj].
  - rewrite Hok in Hrun. injection Hrun as <- _. eauto.
  - destruct (resp_ok r); [rewrite Hj in Hrun|]; injection Hrun as <- _; eauto.
Qed.

(** Against a rejecting site every attempt fails, so the loop throws
    its final error, and the site is untouched. *)
Lemma retry_loop_rejected req n a max last e : rejects e -> fails (retry_loop n a max req last) e.
Proof.
  revert a last e. induction n as [|n IH]; intros a last e Hr.
  - simpl. destruct last; apply fails_throw.
  - rewrite retry_loop_S. intros o e' Hrun. unfold catch in Hrun.
    destruct (attempt_once req e) as [[v|m] e1] eqn:E.
    { destruct (attempt_once_rejected req e Hr _ _ E) as [m [=]]. }
    assert (He1 : frozen e e1) by (eapply keeps_attempt_once_gen; eauto with mig; typeclasses eauto).
    revert Hrun. apply IH. destruct (a <? max)%nat; [|by eapply rejects_frozen].
    eapply rejects_frozen; [exact Hr|]. etransitivity; [exact He1|].
    apply (keeps_sleep_frozen (backoff a) e1 (fst (sleep (backoff a) e1))). apply surjective_pairing.
Qed.

Lemma fetchWithRetry_rejected req n e : rejects e -> fails (fetchWithRetry req n) e.
Proof. apply retry_loop_rejected. Qed.

Lemma createPage_rejected payload e : rejects e -> fails (createPage payload) e.
Proof. intros Hr. by apply fails_catch_rethrow, fetchWithRetry_rejected. Qed.

Lemma updatePage_rejected pid payload e : rejects e -> fails (updatePage pid payload) e.
Proof. intros Hr. by apply fails_catch_rethrow, fetchWithRetry_rejected. Qed.

Lemma keeps_createPage_frozen payload e : keeps frozen (createPage payload) e.
Proof. apply keeps_createPage_gen; [typeclasses eauto|auto with mig..]. Qed.

Lemma keeps_updatePage_frozen pid payload e : keeps frozen (updatePage pid payload) e.
Proof. apply keeps_updatePage_gen; [typeclasses eauto|auto with mig..]. Qed.

Lemma keeps_uploadImage_frozen path title e : keeps frozen (uploadImage path title) e.
Proof. apply keeps_uploadImage_gen; [typeclasses eauto|auto with mig..]. Qed.

End Client.

(** ** Witnesses on the WordPress model *)

Import WordPress.

(** ** Requests to a site that accepts the script's credentials *)

(** The site accepts the header, and the network delivers every request. *)
Definition accepts (e : env wp) : Prop :=
  wp_authenticate (hdr e) (srv e) = None /\ forall i, net e i = Deliver.

Lemma fetchWithRetry_wp req e r s' v :
  accepts e -> wp_route req (srv e) = (r, s') -> resp_ok r = true -> resp_json r = Some v ->
  fetchWithRetry req MAX_RETRIES e = (Ok v, mkEnv s' (net e) (S (sent e)) (slept e) (hdr e)) /\
  accepts (mkEnv s' (net e) (S (sent e)) (slept e) (hdr e)).
Proof.
  intros [Ha Hn] Hr Hok Hj. split.
  - apply (fetchWithRetry_delivered req MAX_RETRIES e r s' v); [done| |done|done|unfold MAX_RETRIES; lia].
    cbn [handle wp_server]. by rewrite wp_handle_accepted.
  - split; [|done]. cbn [srv hdr]. rewrite (wp_authenticate_users _ (srv e)); [exact Ha|].
    change s' with (snd (r, s')). rewrite <- Hr, <- (wp_handle_accepted (hdr e) req _ Ha). apply wp_handle_users.
Qed.

(** [createPage] adds one page and answers its id and link. *)
Lemma createPage_wp payload e :
  accepts e -> exists id link e', createPage payload e = (Ok (VObj [("id", VNum id); ("link", VStr link)]), e') /\
    accepts e' /\ length (wp_pages (srv e')) = S (length (wp_pages (srv e))).
Proof.
  intros Hacc. destruct (fetchWithRetry_wp (ReqCreatePage payload) e _ _ _ Hacc eq_refl eq_refl eq_refl) as [Hf Hacc'].
  eexists _, _, _. split; [unfold createPage; by rewrite (catch_Ok _ _ _ _ _ Hf)|]. split; [exact Hacc'|].
  cbn [srv wp_route wp_pages]. rewrite length_app. cbn. lia.
Qed.

(** The same, exactly: the page is stored under the next id with the
    payload sent, and the answer carries that id and its link. *)
Lemma createPage_wp_spec payload e :
  accepts e -> let s := srv e in let id := wp_next s in
  exists e', createPage payload e = (Ok (VObj [("id", VNum id); ("link", VStr (page_link (wp_base s) id))]), e') /\
    accepts e' /\ wp_pages (srv e') = (wp_pages s ++ [(id, payload)])%list /\
    wp_next (srv e') = (id + 1)%Z /\ wp_base (srv e') = wp_base s.
Proof.
  intros Hacc. destruct (fetchWithRetry_wp (ReqCreatePage payload) e _ _ _ Hacc eq_refl eq_refl eq_refl) as [Hf Hacc'].
  eexists. split; [unfold createPage; by rewrite (catch_Ok _ _ _ _ _ Hf)|]. by split.
Qed.

(** [uploadImage] of a file adds a media item and no page. *)
Lemma uploadImage_wp p title e :
  accepts e -> exists v e', uploadImage (VStr p) title e = (Ok v, e') /\
    accepts e' /\ length (wp_pages (srv e')) = length (wp_pages (srv e)).
Proof.
  intros Hacc.
  destruct (fetchWithRetry_wp (ReqUploadMedia (basename p) (to_js_string title)) e _ _ _ Hacc eq_refl eq_refl eq_refl)
    as [Hf Hacc'].
  eexists _, _. split; [|split; [exact Hacc'|reflexivity]].
  unfold uploadImage. apply catch_Ok. unfold bind. rewrite Hf. reflexivity.
Qed.


Lemma fetchWithRetry_all_lost_witness :
  fetchWithRetry (ReqCreatePage (VObj [])) 3 (WordPress.fresh_env (fun _ => LoseRequest "ECONNRESET"))
  = (Throw "Failed after 3 attempts: ECONNRESET",
     mkEnv WordPress.empty_site (fun _ => LoseRequest "ECONNRESET") 3 [1000%Z; 2000%Z] staging_header).
Proof. rewrite (fetchWithRetry_all_lost _ "ECONNRESET" 3); [reflexivity | lia | reflexivity]. Defined.

Definition two_lost : nat -> net_event :=
  fun i => if (i <? 2)%nat then LoseRequest "ETIMEDOUT" else Deliver.

Lemma fetchWithRetry_first_success_witness :
  fetchWithRetry (ReqCreatePage (VObj [])) 3 (WordPress.fresh_env two_lost)
  = (Ok (VObj [("id", VNum 100); ("link", VStr "https://staging.example.com/?page_id=100")]),
     mkEnv (WordPress.mkWp [(100%Z, VObj [])] [] 101 "https://staging.example.com" staging_users)
       two_lost 3 [1000%Z; 2000%Z] staging_header).
Proof.
  rewrite (fetchWithRetry_first_success _ 2 3 _
             (WordPress.page_response 201 "https://staging.example.com" 100)
             (WordPress.mkWp [(100%Z, VObj [])] [] 101 "https://staging.example.com" staging_users)
             (VObj [("id", VNum 100); ("link", VStr "https://staging.example.com/?page_id=100")]));
    try reflexivity; [|lia].
  intros i Hi. exists "ETIMEDOUT". simpl. unfold two_lost. simpl in Hi.
  replace (i <? 2)%nat with true by (symmetry; apply Nat.ltb_lt; lia). reflexivity.
Defined.

Lemma fetchWithRetry_sent_bound_witness : (3 <= 0 + 3)%nat.
Proof.
  exact (fetchWithRetry_sent_bound (ReqCreatePage (VObj [])) 3
           (WordPress.fresh_env (fun _ => LoseRequest "ECONNRESET")) _ _ eq_refl).
Defined.

(** C13: retrying a [POST] is not idempotent.  When the response to the
    first [createPage] request is lost after the site created the page
    (a reset connection, or a body [response.json()] rejects) and the
    retry goes through, [createPage] succeeds having created two pages
    with the same payload; the caller only learns the id of the second. *)
Theorem createPage_lost_response_duplicates payload m e :
  wp_authenticate (hdr e) (srv e) = None ->
  net e (sent e) = LoseResponse m -> net e (S (sent e)) = Deliver ->
  exists v e', createPage payload e = (Ok v, e') /\
    wp_pages (srv e') = (wp_pages (srv e) ++
      [(wp_next (srv e), payload); ((wp_next (srv e) + 1)%Z, payload)])%list /\
    obj_get (match v with VObj ps => ps | _ => [] end) "id" = VNum (wp_next (srv e) + 1).
Proof.
  intros Ha H1 H2. unfold createPage, fetchWithRetry, MAX_RETRIES.
  rewrite !retry_loop_S. unfold catch, attempt_once, fetch. rewrite H1.
  cbn [handle wp_server]. rewrite wp_handle_accepted by done. cbn.
  unfold catch, attempt_once, fetch. cbn [srv net sent slept hdr]. rewrite H2. cbn [handle wp_server]. rewrite wp_handle_accepted by (by rewrite (wp_authenticate_users _ (srv e))).
  cbn. eexists _, _. split; [reflexivity|]. cbn.
  split; [by rewrite <- app_assoc|reflexivity].
Qed.

Definition lose_first : nat -> net_event :=
  fun i => if (i =? 0)%nat then LoseResponse "socket hang up" else Deliver.

Lemma createPage_lost_response_duplicates_witness :
  exists v e', createPage (VObj [("title", VStr "Home")]) (fresh_env lose_first) = (Ok v, e') /\
    wp_pages (srv e') = [(100%Z, VObj [("title", VStr "Home")]); (101%Z, VObj [("title", VStr "Home")])] /\
    obj_get (match v with VObj ps => ps | _ => [] end) "id" = VNum 101.
Proof.
  apply (createPage_lost_response_duplicates (VObj [("title", VStr "Home")]) "socket hang up" (fresh_env lose_first));
    vm_compute; reflexivity.
Defined.

End Retry.
