(* ===== verification/IconCatalog.v ===== *)
(** * Icon catalogue file ([src/step_2.js], lines 139-181 and 677-710)

    [saveSvgMediaToCsv] writes [icon_files.csv] from the media items of
    the site: a stable sort by [id] ([Array.prototype.sort] is TimSort in
    V8, a stable merge sort; stdpp's [merge_sort] is one too, and both
    give the same order for a comparator that is a total preorder), the
    items with [id >= 20813], the first item of each title (a [Set] of the
    titles seen, compared by SameValueZero), one row per item, fields
    joined by [","] and rows by a newline, without quoting.
    [loadIconLibrary] reads it back: [trim], split on newlines, drop the
    header, split each line on [","], keep the rows whose title starts
    with ["Icon="].  [icon_of] is the icon an item should give, built
    from the item's own fields (its id, title, the last segment of its
    [source_url] and the url), independently of the row written, so
    that the round trip compares the file with the items themselves.

    The items are the objects that [fetchAllSvgMedia] keeps (its filter
    reads [item.mime_type], which only objects can pass), so an item is
    an association list.  Ids are compared as numbers when both are
    numbers; the comparator [a.id - b.id] is [NaN] otherwise, which the
    sort treats as [0]. *)

From S2P Require Import Prelude JsString JsValue IconMatcher.
From stdpp Require Import sorting.
From Stdlib Require Import Ascii.
Open Scope string_scope.
#[local] Set Warnings "-clear-no-such-hyp".

Module IconCatalog.
Import JsString JsValue IconMatcher.

(** A media item of the REST API, as parsed. *)
Definition media := list (string * val).

(** [item.id] as a number, when it is one. *)
Definition media_num_id (m : media) : option Z :=
  match obj_get m "id" with VNum n => Some n | _ => None end.

(** [(a, b) => a.id - b.id <= 0]: [a] may stay before [b]. *)
Definition id_le (a b : media) : bool :=
  match media_num_id a, media_num_id b with
  | Some x, Some y => (x <=? y)%Z
  | _, _ => true
  end.

#[export] Instance id_le_dec : RelDecision (fun a b : media => id_le a b = true) :=
  fun a b => decide (id_le a b = true).

(** [[...mediaItems].sort((a, b) => a.id - b.id)] *)
Definition sort_by_id (items : list media) : list media :=
  merge_sort (fun a b => id_le a b = true) items.

(** [item.id >= 20813] *)
Definition MIN_ICON_ID : Z := 20813.

Definition id_at_least (m : media) : bool :=
  match media_num_id m with Some n => (MIN_ICON_ID <=? n)%Z | None => false end.

(** [item.title?.rendered || ""] *)
Definition title_of (m : media) : val :=
  let r := match obj_get m "title" with
           | VUndef | VNull => VUndef
           | t => match get t "rendered" with Ok v => v | Throw _ => VUndef end
           end in
  if truthy r then r else VStr "".

(** SameValueZero, the equality of [Set]: objects and arrays parsed from
    JSON are distinct references, so two of them are never equal. *)
Definition svz (a b : val) : bool :=
  match a, b with
  | VUndef, VUndef | VNull, VNull | VNaN, VNaN => true
  | VBool x, VBool y => Bool.eqb x y
  | VNum x, VNum y => (x =? y)%Z
  | VStr x, VStr y => String.eqb x y
  | VOpaque x, VOpaque y => String.eqb x y
  | _, _ => false
  end.

(** [filteredItems.filter(...)] with the set [seenTitles]. *)
Fixpoint dedup_titles (seen : list val) (items : list media) : list media :=
  match items with
  | [] => []
  | m :: r =>
      let t := title_of m in
      if existsb (svz t) seen then dedup_titles seen r
      else m :: dedup_titles (t :: seen) r
  end.

(** [x || ""] then [String(x)] as [join] does ([null] and [undefined]
    give the empty string). *)
Definition csv_field (v : val) : string :=
  match v with VUndef | VNull => "" | _ => to_js_string v end.

Definition or_empty (v : val) : val := if truthy v then v else VStr "".

(** [item.source_url?.split("/").pop() || ""] *)
Definition file_name_of (su : val) : outcome string :=
  match su with
  | VUndef | VNull => Ok ""
  | VStr s => Ok (List.last (split_char "/"%char s) "")
  | _ => Throw "item.source_url?.split is not a function"
  end.

(** The row of one item: [[id, title, filename, url, alt_text]]. *)
Definition media_row (m : media) : outcome (list string) :=
  match file_name_of (obj_get m "source_url") with
  | Throw e => Throw e
  | Ok fname =>
      Ok [csv_field (obj_get m "id"); csv_field (title_of m); fname;
          csv_field (or_empty (obj_get m "source_url"));
          csv_field (or_empty (obj_get m "alt_text"))]
  end.

Fixpoint media_rows (items : list media) : outcome (list (list string)) :=
  match items with
  | [] => Ok []
  | m :: r =>
      match media_row m with
      | Throw e => Throw e
      | Ok row => match media_rows r with Throw e => Throw e | Ok rows => Ok (row :: rows) end
      end
  end.

Definition csv_header : list string := ["id"; "title"; "filename"; "url"; "alt_text"].

Definition nl : string := String (ascii_of_nat 10) "".

(** The items that get a row. *)
Definition catalogue_items (items : list media) : list media :=
  dedup_titles [] (List.filter id_at_least (sort_by_id items)).

(** [saveSvgMediaToCsv(mediaItems, filePath)]: the content written. *)
Definition saveSvgMediaToCsv (items : list media) : outcome string :=
  match media_rows (catalogue_items items) with
  | Throw e => Throw e
  | Ok rows => Ok (join nl (map (join ",") (csv_header :: rows)))
  end.

(** [filename ? filename.trim() : ""] *)
Definition trim_opt (f : option string) : string :=
  match f with Some x => trim x | None => "" end.

(** The [map] callback of [loadIconLibrary] on one line. *)
Definition parse_line (line : string) : option icon :=
  let fs := split_char ","%char line in
  match nth_error fs 1 with
  | None => None
  | Some title =>
      if String.eqb title "" || negb (startsWith title "Icon=") then None
      else Some (mkIcon (parseInt10 (default "undefined" (nth_error fs 0)))
                        (trim title) (trim (replace_first "Icon=" "" title))
                        (trim_opt (nth_error fs 2)) (trim_opt (nth_error fs 3)))
  end.

(** [loadIconLibrary()]; [None] when [icon_files.csv] does not exist. *)
Definition loadIconLibrary (file : option string) : list icon :=
  match file with
  | None => []
  | Some content => omap parse_line (tail (split_char (ascii_of_nat 10) (trim content)))
  end.

(** ** Reference definitions for the theorems *)

(** The specification of the title filter: an item is kept when no
    earlier item (kept or not) has a SameValueZero-equal title. *)
Fixpoint keep_first_go (before items : list media) : list media :=
  match items with
  | [] => []
  | m :: r =>
      if existsb (fun m' => svz (title_of m') (title_of m)) before
      then keep_first_go (before ++ [m]) r
      else m :: keep_first_go (before ++ [m]) r
  end.

Definition keep_first (items : list media) : list media := keep_first_go [] items.

(** A field that the file format can carry: no comma, no newline. *)
Definition field_safe (f : string) : bool :=
  negb (existsb (fun c => Ascii.eqb c ","%char || Ascii.eqb c (ascii_of_nat 10)) (chars f)).

(** A field that the file keeps on its line: no newline. *)
Definition nl_free (f : string) : bool :=
  negb (existsb (fun c => Ascii.eqb c (ascii_of_nat 10)) (chars f)).

(** An item whose row the file keeps on one line. *)
Definition row_safe (m : media) : bool :=
  match media_row m with Ok row => forallb nl_free row | Throw _ => false end.

(** An item whose row survives the file field by field: a numeric id
    and fields without comma or newline. *)
Definition csv_safe (m : media) : bool :=
  bool_decide (is_Some (media_num_id m)) &&
  match media_row m with Ok row => forallb field_safe row | Throw _ => false end.

(** The icon the catalogue should give for the fields of a row. *)
Definition icon_fields (id : option Z) (t f u : string) : option icon :=
  if String.eqb t "" || negb (startsWith t "Icon=") then None
  else Some (mkIcon id (trim t) (trim (replace_first "Icon=" "" t)) (trim f) (trim u)).

(** [item.source_url] as a string, [""] when it is absent. *)
Definition source_url_text (m : media) : string :=
  match obj_get m "source_url" with VStr u => u | _ => "" end.

(** The file name of an item: the last [/]-separated segment of its url. *)
Definition file_name_text (m : media) : string := List.last (split_char "/"%char (source_url_text m)) "".

(** The icon expected from an item, read off the item itself: its
    numeric id, its title as a string, its file name and its url; none
    when the title does not start with ["Icon="]. *)
Definition icon_of (m : media) : option icon :=
  icon_fields (media_num_id m) (to_js_string (title_of m)) (file_name_text m) (source_url_text m).

(** The row written for an item. *)
Definition row_of (m : media) : list string := ok_or [] (media_row m).

(** A media item of an SVG icon as the REST API lists it. *)
Definition sample_media (id : Z) (title name : string) : media :=
  [("id", VNum id); ("title", VObj [("rendered", VStr title)]);
   ("mime_type", VStr "image/svg+xml");
   ("source_url", VStr ("https://staging.example.com/wp-content/uploads/" +:+ name));
   ("alt_text", VStr "")].

(** Items in listing order: an old icon below the id threshold, two
    icons titled alike, a [Typer=] item. *)
Definition sample_catalogue : list media :=
  [sample_media 20950 "Icon=Shield" "shield-2.svg"; sample_media 20814 "Icon=Cloud App" "cloud.svg";
   sample_media 120 "Icon=Old" "old.svg"; sample_media 20900 "Icon=Shield" "shield.svg";
   sample_media 20999 "Typer=Big" "typer.svg"].

(** An icon titled ["Icon=Cloud, Backup"]: read back, its name is
    ["Cloud"], its file name ["Backup"] and its url ["cloud.svg"]. *)
Definition comma_media : media := sample_media 20814 "Icon=Cloud, Backup" "cloud.svg".

(** ** Lemmas *)

Lemma svz_sym a b : svz a b = svz b a.
Proof.
  destruct a, b; simpl; try done;
    [by destruct b, b0 | apply Z.eqb_sym | apply String.eqb_sym | apply String.eqb_sym].
Qed.

Lemma svz_trans a b c : svz a b = true -> svz b c = true -> svz a c = true.
Proof.
  destruct a, b, c; simpl; try done.
  - intros ->%Bool.eqb_prop ->%Bool.eqb_prop. by destruct b1.
  - intros ->%Z.eqb_eq ->%Z.eqb_eq. apply Z.eqb_refl.
  - intros ->%String.eqb_eq ->%String.eqb_eq. apply String.eqb_refl.
  - intros ->%String.eqb_eq ->%String.eqb_eq. apply String.eqb_refl.
Qed.

(** The set of titles seen answers as the list of all earlier items. *)
Lemma dedup_titles_keep_first_go seen before items :
  (forall t, existsb (svz t) seen = existsb (fun m' => svz (title_of m') t) before) ->
  dedup_titles seen items = keep_first_go before items.
Proof.
  revert seen before. induction items as [|m r IH]; intros seen before Hinv; [done|].
  cbn [dedup_titles keep_first_go].
  rewrite <- Hinv. destruct (existsb (svz (title_of m)) seen) eqn:Ein.
  - apply IH. intros t. rewrite existsb_app. simpl. rewrite <- Hinv, orb_false_r.
    destruct (svz (title_of m) t) eqn:Et; [|by rewrite orb_false_r].
    rewrite orb_true_r. apply existsb_exists in Ein as (s & Hs & Hts).
    apply existsb_exists. exists s. split; [done|].
    rewrite svz_sym in Et. by apply (svz_trans _ (title_of m)).
  - f_equal. apply IH. intros t. rewrite existsb_app. simpl. rewrite <- Hinv, orb_false_r.
    by rewrite svz_sym, orb_comm.
Qed.

Lemma field_safe_spec f :
  field_safe f = true -> (","%char ∉ chars f) /\ (ascii_of_nat 10 ∉ chars f).
Proof.
  unfold field_safe. intros Hf%negb_true_iff. rewrite <- not_true_iff_false in Hf.
  split; intros Hin; apply list_elem_of_In in Hin; apply Hf, existsb_exists;
    (eexists; split; [exact Hin|]); rewrite Ascii.eqb_refl; [done|apply orb_true_r].
Qed.

Lemma field_safe_trim_end f : field_safe f = true -> field_safe (trim_end f) = true.
Proof.
  unfold field_safe. intros Hf. apply negb_true_iff, not_true_iff_false.
  intros (c & Hc & Hcc)%existsb_exists. apply negb_true_iff, not_true_iff_false in Hf. apply Hf.
  apply existsb_exists. exists c. split; [|done].
  apply list_elem_of_In, chars_trim_end, list_elem_of_In in Hc. exact Hc.
Qed.

Lemma nl_free_spec f : nl_free f = true -> ascii_of_nat 10 ∉ chars f.
Proof.
  unfold nl_free. intros Hf%negb_true_iff Hin. apply list_elem_of_In in Hin.
  rewrite <- not_true_iff_false in Hf. apply Hf, existsb_exists. exists (ascii_of_nat 10).
  split; [done|]. apply Ascii.eqb_refl.
Qed.

Lemma field_safe_nl_free f : field_safe f = true -> nl_free f = true.
Proof.
  intros Hf. apply negb_true_iff, not_true_iff_false. intros (c & Hc & Hcc)%existsb_exists.
  apply Ascii.eqb_eq in Hcc. subst c. apply list_elem_of_In in Hc. by apply (proj2 (field_safe_spec f Hf)).
Qed.

(** [String(x || "")] of a title is its string. *)
Lemma csv_field_title m : csv_field (title_of m) = to_js_string (title_of m).
Proof.
  unfold title_of. cbv zeta.
  match goal with |- context [truthy ?r] => destruct (truthy r) eqn:E; [destruct r|] end; done.
Qed.

(** The five fields of a row, as read off the item. *)
Lemma media_row_fields m row :
  media_row m = Ok row ->
  exists a, row = [csv_field (obj_get m "id"); to_js_string (title_of m); file_name_text m; source_url_text m; a].
Proof.
  unfold media_row, file_name_text, source_url_text. rewrite csv_field_title.
  destruct (obj_get m "source_url") as [| | | | |u| | |]; cbn [file_name_of]; intros Hr; try discriminate;
    injection Hr as <-; eexists; [reflexivity|reflexivity|].
  unfold or_empty, truthy. destruct (String.eqb_spec u ""); subst; reflexivity.
Qed.

(** The rows of items whose rows exist. *)
Lemma media_rows_ok l : forallb row_safe l = true -> media_rows l = Ok (map row_of l).
Proof.
  induction l as [|m l IH]; simpl; [done|]. intros [Hm Hl]%andb_prop.
  unfold row_safe in Hm. unfold row_of.
  destruct (media_row m); [|done]. by rewrite IH.
Qed.

Lemma csv_safe_row_safe m : csv_safe m = true -> row_safe m = true.
Proof.
  unfold csv_safe, row_safe. intros [_ Hr]%andb_prop. destruct (media_row m); [|done].
  apply forallb_forall. intros f Hf. by apply field_safe_nl_free, (proj1 (forallb_forall _ _) Hr).
Qed.

(** A safe item's row: five safe fields, the first printing its id. *)
Lemma csv_safe_row m :
  csv_safe m = true ->
  exists n t f u a, media_num_id m = Some n /\ row_of m = [pretty n; t; f; u; a] /\
    media_row m = Ok [pretty n; t; f; u; a] /\ forallb field_safe [pretty n; t; f; u; a] = true.
Proof.
  unfold csv_safe. intros [Hid Hrow]%andb_prop. apply bool_decide_eq_true_1 in Hid as [n Hn].
  unfold row_of. destruct (media_row m) as [row|] eqn:Er; [|done].
  unfold media_row in Er. destruct (file_name_of _); [|done]. injection Er as <-.
  unfold media_num_id in Hn |- *. destruct (obj_get m "id"); try done. injection Hn as ->.
  eexists _, _, _, _, _. split_and!; [reflexivity|reflexivity|reflexivity|exact Hrow].
Qed.

Lemma join5 a b c d e :
  join "," [a; b; c; d; e] = join "," [a; b; c; d] +:+ ("," +:+ e).
Proof.
  cbn [join]. rewrite !string_app_assoc. reflexivity.
Qed.

(** [loadIconLibrary] reads the first four fields of a line only. *)
Lemma parse_line_tail p e e' :
  (4 <= length (split_char ","%char p))%nat ->
  parse_line (p +:+ String ","%char e) = parse_line (p +:+ String ","%char e').
Proof. intros Hp. unfold parse_line. cbv zeta. rewrite !split_char_app, !nth_error_app1 by lia. reflexivity. Qed.

Lemma split_join4 a b c d : (4 <= length (split_char ","%char (join "," [a; b; c; d])))%nat.
Proof.
  change (join "," [a; b; c; d]) with (a +:+ String ","%char (b +:+ String ","%char (c +:+ String ","%char d))).
  rewrite !split_char_app, !length_app.
  pose proof (length_split_char_pos ","%char a). pose proof (length_split_char_pos ","%char b).
  pose proof (length_split_char_pos ","%char c). pose proof (length_split_char_pos ","%char d). lia.
Qed.

(** A line of five safe fields parses to the icon of its fields. *)
Lemma parse_line_row a b c d e :
  forallb field_safe [a; b; c; d; e] = true ->
  parse_line (join "," [a; b; c; d; e]) = icon_fields (parseInt10 a) b c d.
Proof.
  intros Hs. pose proof (proj1 (forallb_forall _ _) Hs) as Hall.
  unfold parse_line. rewrite split_char_join; [reflexivity|done|].
  repeat constructor; apply field_safe_spec, Hall; simpl; tauto.
Qed.

Definition non_ws_in (x : string) : Prop := Exists (fun c => is_ws c = false) (chars x).

(** The line of an item whose row has no newline: one line of the file,
    with a character that is not white space, which [trim_end] does not
    change for [loadIconLibrary]. *)
Lemma row_safe_line m :
  row_safe m = true ->
  parse_line (trim_end (join "," (row_of m))) = parse_line (join "," (row_of m)) /\
  non_ws_in (join "," (row_of m)) /\ ascii_of_nat 10 ∉ chars (join "," (row_of m)).
Proof.
  unfold row_safe, row_of. destruct (media_row m) as [row|] eqn:Er; [|done]. intros Hs. cbn [ok_or].
  destruct (media_row_fields m row Er) as [a ->].
  pose proof (fun x Hx => nl_free_spec x (proj1 (forallb_forall _ _) Hs x Hx)) as Hno.
  rewrite join5. split_and!.
  - rewrite trim_end_app by (simpl; by left).
    change (trim_end ("," +:+ a)) with (trim_end (String ","%char a)).
    rewrite trim_end_keep by done. apply parse_line_tail, split_join4.
  - unfold non_ws_in. rewrite chars_app. apply Exists_app. right. simpl. by left.
  - assert (Hnl : ascii_of_nat 10 <> ","%char) by (compute; discriminate).
    rewrite <- join5. cbn [join]. rewrite !chars_app. simpl.
    pose proof (Hno (csv_field (obj_get m "id")) ltac:(simpl; tauto)).
    pose proof (Hno (to_js_string (title_of m)) ltac:(simpl; tauto)).
    pose proof (Hno (file_name_text m) ltac:(simpl; tauto)).
    pose proof (Hno (source_url_text m) ltac:(simpl; tauto)).
    pose proof (Hno a ltac:(simpl; tauto)). set_solver.
Qed.

(** The line of a safe item parses to the icon of the item. *)
Lemma row_icon m : csv_safe m = true -> parse_line (join "," (row_of m)) = icon_of m.
Proof.
  intros Hm. destruct (csv_safe_row m Hm) as (n & t & f & u & a & Hid & Hrow & Hmr & Hs).
  destruct (media_row_fields m _ Hmr) as [a' [= _ -> -> -> _]].
  rewrite Hrow, parse_line_row, parseInt10_pretty by done. unfold icon_of. by rewrite Hid.
Qed.

(** The line of an item whose title holds a comma: the title is cut at
    the comma and the fields after it move one place. *)
Lemma comma_line m n a b :
  row_safe m = true -> media_num_id m = Some n ->
  to_js_string (title_of m) = "Icon=" +:+ a +:+ String ","%char b ->
  field_safe a = true -> field_safe b = true -> field_safe (file_name_text m) = true ->
  parse_line (join "," (row_of m)) =
    Some (mkIcon (Some n) (trim ("Icon=" +:+ a)) (trim a) (trim b) (trim (file_name_text m))).
Proof.
  intros Hr Hid Ht Ha Hb Hf. unfold row_safe, row_of in *. destruct (media_row m) as [row|] eqn:Er; [|done].
  cbn [ok_or]. destruct (media_row_fields m row Er) as [al ->].
  assert (Hi : csv_field (obj_get m "id") = pretty n).
  { unfold media_num_id in Hid. destruct (obj_get m "id"); try done. by injection Hid as ->. }
  rewrite Hi, Ht, string_app_assoc.
  change (join "," [pretty n; ("Icon=" +:+ a) +:+ String ","%char b; file_name_text m; source_url_text m; al])
    with (pretty n +:+ String ","%char ((("Icon=" +:+ a) +:+ String ","%char b) +:+ String ","%char
           (file_name_text m +:+ String ","%char (source_url_text m +:+ String ","%char al)))).
  assert (Hia : ","%char ∉ chars ("Icon=" +:+ a)).
  { rewrite chars_app. intros [Hin|Hin]%elem_of_app; [|by apply (proj1 (field_safe_spec a Ha))].
    apply list_elem_of_In in Hin. vm_compute in Hin. intuition discriminate. }
  unfold parse_line. cbv zeta. rewrite !split_char_app.
  rewrite (split_char_no_sep _ (pretty n)) by apply comma_not_in_pretty.
  rewrite (split_char_no_sep _ ("Icon=" +:+ a)), (split_char_no_sep _ b), (split_char_no_sep _ (file_name_text m))
    by (done || apply (proj1 (field_safe_spec _ Hb)) || apply (proj1 (field_safe_spec _ Hf))).
  cbn [app nth_error default trim_opt].
  assert (E1 : String.eqb ("Icon=" +:+ a) "" = false) by reflexivity.
  unfold startsWith. rewrite E1, prefix_app_str. cbn [negb orb].
  cbv [id]. by rewrite parseInt10_pretty, replace_first_prefix.
Qed.

Lemma omap_row_icon l :
  forallb csv_safe l = true -> omap (fun m => parse_line (join "," (row_of m))) l = omap icon_of l.
Proof.
  intros Hs. apply list_omap_ext. induction l as [|m l IH]; [constructor|].
  apply andb_prop in Hs as [Hm Hl]. constructor; [by apply row_icon|by apply IH].
Qed.

(** [trim_end] of lines joined by newlines trims the last line only,
    when every line has a character that is not white space. *)
Lemma trim_end_lines L :
  Forall non_ws_in L -> trim_end (join nl L) = join nl (on_last trim_end L).
Proof.
  induction L as [|x [|y L] IH]; intros HL; [done|done|].
  apply Forall_cons in HL as [Hx HL].
  change (join nl (x :: y :: L)) with (x +:+ String (ascii_of_nat 10) (join nl (y :: L))).
  change (on_last trim_end (x :: y :: L)) with (x :: on_last trim_end (y :: L)).
  assert (Hy : non_ws_in (join nl (y :: L))).
  { apply Forall_cons in HL as [Hy _]. destruct L; [done|].
    change (join nl (y :: s :: L)) with (y +:+ nl +:+ join nl (s :: L)).
    unfold non_ws_in. rewrite chars_app. by apply Exists_app; left. }
  rewrite trim_end_app by (simpl; by right).
  assert (Hj : trim_end (String (ascii_of_nat 10) (join nl (y :: L))) =
               String (ascii_of_nat 10) (trim_end (join nl (y :: L)))).
  { rewrite trim_end_cons. destruct (trim_end (join nl (y :: L))) eqn:E; [|done].
    by destruct (trim_end_not_empty _ Hy). }
  rewrite Hj, IH by done. destruct (on_last trim_end (y :: L)) eqn:Em; [by destruct L|].
  reflexivity.
Qed.

Lemma trim_start_csv L : trim_start (join nl (join "," csv_header :: L)) = join nl (join "," csv_header :: L).
Proof. by destruct L. Qed.

Lemma tail_on_last {A} (f : A -> A) x l : tail (on_last f (x :: l)) = on_last f l.
Proof. by destruct l. Qed.

Lemma on_last_no_nl L :
  Forall (fun x => ascii_of_nat 10 ∉ chars x) L ->
  Forall (fun x => ascii_of_nat 10 ∉ chars x) (on_last trim_end L).
Proof.
  induction L as [|x [|y L] IH]; intros HL; [done| |].
  - apply Forall_cons in HL as [Hx _]. constructor; [|done]. intros Hin%chars_trim_end. done.
  - apply Forall_cons in HL as [Hx HL]. change (on_last trim_end (x :: y :: L)) with
      (x :: on_last trim_end (y :: L)). constructor; [done|]. by apply IH.
Qed.

Lemma omap_map_comp {A B C} (f : B -> option C) (g : A -> B) l :
  omap f (map g l) = omap (fun x => f (g x)) l.
Proof. apply list_omap_ext. induction l; simpl; by constructor. Qed.

(** C21: the [seenTitles] filter of [saveSvgMediaToCsv] keeps exactly the
    items whose title no earlier item has (compared by SameValueZero):
    the loop with its [Set] is equivalent to the reference definition. *)
Theorem dedup_titles_spec items : dedup_titles [] items = keep_first items.
Proof. by apply dedup_titles_keep_first_go. Qed.

(** Save then load, line by line: when no field of a catalogued item
    holds a newline, [loadIconLibrary] reads one line per item, parsed
    as written. *)
Lemma csv_lines items :
  forallb row_safe (catalogue_items items) = true ->
  exists csv, saveSvgMediaToCsv items = Ok csv /\
    loadIconLibrary (Some csv) = omap (fun m => parse_line (join "," (row_of m))) (catalogue_items items).
Proof.
  intros Hs. unfold saveSvgMediaToCsv. rewrite media_rows_ok by done.
  eexists; split; [reflexivity|].
  assert (Hall : Forall (fun m => row_safe m = true) (catalogue_items items)).
  { apply Forall_forall. intros m Hm%list_elem_of_In. by apply (proj1 (forallb_forall _ _) Hs). }
  set (cat := catalogue_items items) in *. cbn [loadIconLibrary map].
  set (L := map (join ",") (map row_of cat)).
  assert (HL : Forall (fun x => non_ws_in x /\ ascii_of_nat 10 ∉ chars x) L).
  { apply Forall_map, Forall_map. eapply Forall_impl; [exact Hall|].
    intros m Hm. by destruct (row_safe_line m Hm) as (_ & ? & ?). }
  unfold trim. rewrite trim_start_csv, trim_end_lines.
  2: { constructor; [unfold non_ws_in; vm_compute; by constructor|].
       eapply Forall_impl; [exact HL|]. by intros ? []. }
  unfold nl at 1. rewrite split_char_join.
  2: { by destruct L. }
  2: { apply on_last_no_nl. constructor.
       { intros Hin%list_elem_of_In. vm_compute in Hin. intuition discriminate. }
       eapply Forall_impl; [exact HL|]. by intros ? []. }
  rewrite tail_on_last, omap_on_last.
  - unfold L. by rewrite omap_map_comp, omap_map_comp.
  - intros x Hx. apply list_elem_of_In, in_map_iff in Hx as (r & <- & Hr).
    apply in_map_iff in Hr as (m & <- & Hm). apply list_elem_of_In in Hm.
    eapply Forall_forall in Hall; [|exact Hm]. exact (proj1 (row_safe_line m Hall)).
Qed.

(** Save then load, on items whose fields the format can carry. *)
Lemma csv_roundtrip items :
  forallb csv_safe (catalogue_items items) = true ->
  exists csv, saveSvgMediaToCsv items = Ok csv /\
    loadIconLibrary (Some csv) = omap icon_of (catalogue_items items).
Proof.
  intros Hs. destruct (csv_lines items) as (csv & Hsave & Hload).
  { apply forallb_forall. intros m Hm. by apply csv_safe_row_safe, (proj1 (forallb_forall _ _) Hs). }
  exists csv. split; [done|]. rewrite Hload. by apply omap_row_icon.
Qed.

(** C22: round trip of the icon catalogue.  When every item that gets a
    row has a numeric id and fields without comma or newline,
    [saveSvgMediaToCsv] succeeds and [loadIconLibrary] reads back, in
    order, for each of those items whose title starts with ["Icon="],
    the icon of the item's own fields: its id, its trimmed title, the
    name after the prefix, the last segment of its [source_url] as file
    name, and the [source_url] as url. *)
Theorem saveSvgMediaToCsv_roundtrip items :
  forallb csv_safe (catalogue_items items) = true ->
  exists csv, saveSvgMediaToCsv items = Ok csv /\
    loadIconLibrary (Some csv) = omap icon_of (catalogue_items items).
Proof. apply csv_roundtrip. Qed.

Lemma saveSvgMediaToCsv_roundtrip_witness :
  exists csv, saveSvgMediaToCsv sample_catalogue = Ok csv /\
    loadIconLibrary (Some csv) = omap icon_of (catalogue_items sample_catalogue).
Proof. apply saveSvgMediaToCsv_roundtrip. vm_compute. reflexivity. Defined.

(** C23: the file is written without quoting, so a comma in an icon's
    title moves the fields after it.  For every catalogued item with
    numeric id [n] whose title is ["Icon=" ++ a ++ "," ++ b], with no
    comma or newline in [a], [b] and its file name, the catalogue read
    back holds the icon titled ["Icon=" ++ a] (trimmed) and named [a],
    with [b] as its file name and the item's file name as its url. *)
Theorem comma_title_shifts_fields items m n a b :
  forallb row_safe (catalogue_items items) = true -> m ∈ catalogue_items items ->
  media_num_id m = Some n -> to_js_string (title_of m) = "Icon=" +:+ a +:+ String ","%char b ->
  field_safe a = true -> field_safe b = true -> field_safe (file_name_text m) = true ->
  exists csv, saveSvgMediaToCsv items = Ok csv /\
    mkIcon (Some n) (trim ("Icon=" +:+ a)) (trim a) (trim b) (trim (file_name_text m))
      ∈ loadIconLibrary (Some csv).
Proof.
  intros Hs Hm Hid Ht Ha Hb Hf. destruct (csv_lines items Hs) as (csv & Hsave & Hload).
  exists csv. split; [done|]. rewrite Hload. apply list_elem_of_omap. exists m. split; [done|].
  apply comma_line; [|done..]. apply (proj1 (forallb_forall _ _) Hs). by apply list_elem_of_In.
Qed.

Lemma comma_title_shifts_fields_witness :
  exists csv, saveSvgMediaToCsv [comma_media] = Ok csv /\
    mkIcon (Some 20814%Z) "Icon=Cloud" "Cloud" "Backup" "cloud.svg" ∈ loadIconLibrary (Some csv).
Proof.
  refine (comma_title_shifts_fields [comma_media] comma_media 20814 "Cloud" " Backup" _ _ _ _ _ _ _);
    try (vm_compute; reflexivity).
  apply list_elem_of_In. vm_compute. left. reflexivity.
Defined.

End IconCatalog.
