(* ===== verification/MediaFetch.v ===== *)
(** * Fetching the icon catalogue ([src/step_2.js], lines 631-674 and 712-727)

    [fetchAllSvgMedia] pages through [GET /media?per_page=100&page=k] with
    plain [fetch] (no retry): a page that is empty ends the loop; the SVG
    items of a page whose title starts with ["Typer="] or ["Icon="] are
    appended; any error (network, HTTP status, a body that is not an
    array, an item that is [null]) is caught, logged, and also ends the
    loop, keeping what was fetched.  [loadOrFetchSvgMedia] runs it and
    writes [icon_files.csv] only when the file does not exist yet.

    The [while (hasMore)] loop has no bound in the code: it stops because
    the site eventually answers an empty page or an error.  It is modelled
    with a fuel argument, and running out of fuel ends the run with the
    error [out_of_fuel] (as a bounded interpreter answers "no result
    yet"), never with the items gathered so far: a loop that would not
    stop is told apart from one that stops.  [fetchAllSvgMedia_terminates]
    shows that on a site with [n] media items a fuel of [n / 100 + 2]
    iterations is enough to reach the end, and
    [fetchAllSvgMedia_fuel_mono] that a run that returns gives the same
    result with any larger fuel. *)

From S2P Require Import Prelude JsString JsValue IconMatcher IconCatalog RemoteApi WordPress Retry.
Open Scope string_scope.
#[local] Set Warnings "-clear-no-such-hyp".

Module MediaFetch.
Import JsString JsValue IconMatcher IconCatalog RemoteApi WordPress.

Section Client.
Context {St : Type} `{Server St}.

(** The filter callback: [item.mime_type !== "image/svg+xml"], then
    [title.startsWith("Typer=") || title.startsWith("Icon=")] on
    [item.title?.rendered || ""].  Only objects have a [mime_type]. *)
Definition svg_keep (item : val) : outcome bool :=
  match get item "mime_type" with
  | Throw e => Throw e
  | Ok mt =>
      if negb (strict_eq_str mt "image/svg+xml") then Ok false
      else match item with
           | VObj ps =>
               match title_of ps with
               | VStr t => Ok (startsWith t "Typer=" || startsWith t "Icon=")
               | _ => Throw "title.startsWith is not a function"
               end
           | _ => Ok false
           end
  end.

Fixpoint svg_filter_list (items : list val) : outcome (list media) :=
  match items with
  | [] => Ok []
  | it :: r =>
      match svg_keep it with
      | Throw e => Throw e
      | Ok keep =>
          match svg_filter_list r with
          | Throw e => Throw e
          | Ok kept => Ok (match it with VObj ps => if keep then ps :: kept else kept | _ => kept end)
          end
      end
  end.

(** [mediaItems.filter(...)] *)
Definition svg_filter (items : val) : outcome (list media) :=
  match items with
  | VArr l => svg_filter_list l
  | _ => Throw "mediaItems.filter is not a function"
  end.

(** The [try] block of one iteration: [None] when the page is empty,
    the SVG items of the page otherwise. *)
Definition fetch_media_page (page : nat) : M (env St) (option (list media)) :=
  bind (fetch (ReqListMedia page)) (fun response =>
  if negb (resp_ok response) then throw ("HTTP " +:+ pretty (status response))
  else match resp_json response with
       | None => throw Retry.json_error
       | Some mediaItems =>
           match get mediaItems "length" with
           | Throw e => throw e
           | Ok len =>
               if match len with VNum 0 => true | _ => false end then ret None
               else match svg_filter mediaItems with
                    | Ok l => ret (Some l)
                    | Throw e => throw e
                    end
           end
       end).

(** The [while (hasMore)] loop, with [fuel] iterations at most.  The
    code has no bound: running out of fuel is not a result of the loop
    but the sign that it would go on, so it ends the run with
    [out_of_fuel] (no caller of [fetchAllSvgMedia] is inside a [try]). *)
Fixpoint fetch_loop (fuel page : nat) (acc : list media) : M (env St) (list media) :=
  match fuel with
  | O => throw out_of_fuel
  | S f =>
      bind (catch (fetch_media_page page) (fun _ => ret None)) (fun r =>
      match r with
      | None => ret acc
      | Some svgItems => fetch_loop f (S page) (acc ++ svgItems)%list
      end)
  end.

(** [fetchAllSvgMedia()] *)
Definition fetchAllSvgMedia (fuel : nat) : M (env St) (list media) := fetch_loop fuel 1 [].

(** [loadOrFetchSvgMedia()]: the content of [icon_files.csv] after it,
    given its content before ([None]: the file does not exist). *)
Definition loadOrFetchSvgMedia (fuel : nat) (file : option string) : M (env St) (option string) :=
  match file with
  | Some c => ret (Some c)
  | None =>
      bind (fetchAllSvgMedia fuel) (fun svgMedia =>
      match saveSvgMediaToCsv svgMedia with
      | Ok csv => ret (Some csv)
      | Throw e => throw e
      end)
  end.

End Client.

(** ** Against a site that rejects the credentials *)

Section Rejected.
Context {St : Type} `{Server St}.

Lemma keeps_fetch_media_page_frozen k (e : env St) : keeps frozen (fetch_media_page k) e.
Proof.
  unfold fetch_media_page. apply keeps_bind; [typeclasses eauto|apply Retry.keeps_fetch_frozen|].
  intros; repeat keeps_step.
Qed.

Lemma fetch_media_page_rejected k (e : env St) : rejects e -> fails (fetch_media_page k) e.
Proof.
  intros Hr. unfold fetch_media_page. apply fails_bind_r. intros r e1 F.
  destruct (proj2 (fetch_frozen _ _ _ _ F) Hr r eq_refl) as [Hok|Hj].
  - rewrite Hok. apply fails_throw.
  - destruct (negb (resp_ok r)); [apply fails_throw|]. rewrite Hj. apply fails_throw.
Qed.

Lemma keeps_loadOrFetchSvgMedia_frozen fuel file (e : env St) : keeps frozen (loadOrFetchSvgMedia fuel file) e.
Proof.
  destruct file as [c|]; cbn [loadOrFetchSvgMedia]; [apply keeps_ret; typeclasses eauto|].
  apply keeps_bind; [typeclasses eauto| |intros; repeat keeps_step].
  unfold fetchAllSvgMedia. generalize 1%nat (@nil media) e. clear e.
  induction fuel as [|f IH]; intros k acc e; cbn [fetch_loop]; [apply keeps_throw; typeclasses eauto|].
  apply keeps_bind; [typeclasses eauto| |intros [r|] e1 _; [apply IH|apply keeps_ret; typeclasses eauto]].
  apply keeps_catch; [typeclasses eauto|apply keeps_fetch_media_page_frozen|intros; apply keeps_ret; typeclasses eauto].
Qed.

(** The first page of the media listing fails, the loop stops and the
    catalogue is empty. *)
Lemma fetch_loop_rejected f k acc (e : env St) :
  rejects e -> exists e', fetch_loop (S f) k acc e = (Ok acc, e') /\ frozen e e'.
Proof.
  intros Hr. cbn [fetch_loop]. unfold bind at 1, catch.
  destruct (fetch_media_page k e) as [[r|m] e1] eqn:E.
  - destruct (fetch_media_page_rejected k e Hr _ _ E) as [m [=]].
  - exists e1. split; [reflexivity|]. exact (keeps_fetch_media_page_frozen k e _ _ E).
Qed.

(** The catalogue written from a site that rejects the credentials: the
    CSV header alone, an empty icon library. *)
Lemma loadOrFetchSvgMedia_rejected fuel (e : env St) :
  rejects e -> exists csv e', loadOrFetchSvgMedia (S fuel) None e = (Ok (Some csv), e') /\
    loadIconLibrary (Some csv) = [] /\ frozen e e'.
Proof.
  intros Hr. destruct (fetch_loop_rejected fuel 1 [] e Hr) as (e' & Hl & Hf).
  cbn [loadOrFetchSvgMedia]. unfold fetchAllSvgMedia, bind at 1. rewrite Hl.
  eexists _, e'. split_and!; [reflexivity|vm_compute; reflexivity|exact Hf].
Qed.

End Rejected.

(** ** On the WordPress model *)

(** The SVG items a site holds whose title starts with ["Typer="] or
    ["Icon="], in listing order: what [fetchAllSvgMedia] should return. *)
Definition svg_media_of (base : string) (m : Z * string * string) : option media :=
  let '(_, name, title) := m in
  if endsWith name ".svg" && (startsWith title "Typer=" || startsWith title "Icon=")
  then Some (media_fields base m) else None.

Definition site_svg_media (s : wp) : list media := omap (svg_media_of (wp_base s)) (wp_media s).

(** The same, for the first [a] items. *)
Definition site_svg_prefix (s : wp) (a : nat) : list media :=
  omap (svg_media_of (wp_base s)) (take a (wp_media s)).

Lemma svg_filter_list_wp base ms :
  svg_filter_list (map (media_val base) ms) = Ok (omap (svg_media_of base) ms).
Proof.
  induction ms as [|[[id name] title] ms IH]; [done|]. cbn [map svg_filter_list].
  rewrite IH. unfold svg_keep, media_val, svg_media_of. cbn -[endsWith startsWith].
  destruct (endsWith name ".svg"); cbn -[startsWith]; [|done].
  unfold title_of. cbn -[startsWith].
  destruct (String.eqb_spec title "") as [->|Hne]; cbn -[startsWith]; [done|].
  by destruct (startsWith title "Typer=" || startsWith title "Icon=").
Qed.

(** A staging site holding 101 SVG icons and one uploaded image: two
    full pages of media and an empty third. *)
Definition icon_site : wp :=
  mkWp [] (map (fun i : nat => ((20814 + Z.of_nat i)%Z, "icon-" +:+ pretty i +:+ ".svg",
                               "Icon=Glyph " +:+ pretty i)) (seq 0 101)
           ++ [(21000%Z, "office.webp", "Office")])%list
       21001 "https://staging.example.com" staging_users.

(** A network that loses the second request (page 2 of the media). *)
Definition lose_page_two : nat -> net_event :=
  fun i => if Nat.eqb i 1 then LoseRequest "ECONNRESET" else Deliver.

Lemma media_page_map s k :
  media_page s k = map (media_val (wp_base s)) (take 100 (drop ((k - 1) * 100) (wp_media s))).
Proof. unfold media_page. by rewrite skipn_map, firstn_map. Qed.

(** One iteration whose request the network delivers: page [k] is
    empty exactly when the earlier pages hold every item. *)
Lemma fetch_media_page_wp s nt k n sl h :
  wp_authenticate h s = None -> nt n = Deliver ->
  fetch_media_page k (mkEnv s nt n sl h) =
  (Ok (if decide (length (wp_media s) <= (k - 1) * 100)%nat then None
       else Some (omap (svg_media_of (wp_base s)) (take 100 (drop ((k - 1) * 100) (wp_media s))))),
   mkEnv s nt (S n) sl h).
Proof.
  intros Ha Hd. unfold fetch_media_page, bind, fetch.
  cbn [net srv sent slept hdr handle wp_server]. rewrite Hd, wp_handle_accepted by done.
  cbn [wp_route resp_ok status negb resp_json].
  rewrite media_page_map. cbn [get String.eqb].
  rewrite length_map, length_take, length_drop.
  destruct (decide (length (wp_media s) <= (k - 1) * 100)%nat) as [Hle|Hgt].
  - by replace (Nat.min 100 (length (wp_media s) - (k - 1) * 100)) with 0%nat by lia.
  - destruct (Nat.min 100 (length (wp_media s) - (k - 1) * 100)) eqn:E; [lia|].
    cbn [svg_filter]. by rewrite svg_filter_list_wp.
Qed.

(** An iteration whose request fails in any way ends the loop: the
    error is caught and the items gathered so far are the result. *)
Lemma fetch_loop_failed f k acc (e : env wp) :
  net e (sent e) <> Deliver -> exists e', fetch_loop (S f) k acc e = (Ok acc, e').
Proof.
  intros Hn. cbn [fetch_loop]. unfold bind at 1, catch.
  destruct (fetch_media_page k e) as [[r|m] e1] eqn:E; [|by eexists].
  exfalso. revert E. unfold fetch_media_page, bind at 1, fetch.
  destruct (net e (sent e)) as [|m|m|code text]; [done|intros [=]| |].
  - destruct (handle _ _ _). intros [=].
  - cbn [resp_ok status resp_json]. destruct (negb _); intros [=].
Qed.

(** The loop from page [k], with the SVG items of the earlier pages
    gathered, on a network that delivers the requests of pages
    [k .. j] where page [j] is the first empty one, reaches the end
    while its fuel covers these pages. *)
Lemma fetch_loop_wp s nt f k n sl h :
  wp_authenticate h s = None ->
  (forall i, (n <= i < n + f)%nat -> nt i = Deliver) ->
  (1 <= k)%nat -> (1 <= f)%nat -> (length (wp_media s) <= (k + f - 2) * 100)%nat ->
  fst (fetch_loop f k (site_svg_prefix s ((k - 1) * 100)) (mkEnv s nt n sl h))
  = Ok (site_svg_media s).
Proof.
  intros Ha. revert k n. induction f as [|f IH]; intros k n Hd Hk Hf Hlen; [lia|].
  cbn [fetch_loop]. unfold bind at 1, catch. rewrite fetch_media_page_wp by (done || apply Hd; lia).
  destruct (decide _) as [Hle|Hgt].
  - simpl. unfold site_svg_prefix, site_svg_media. by rewrite take_ge by lia.
  - unfold site_svg_prefix. rewrite <- omap_app, take_take_drop.
    replace ((k - 1) * 100 + 100)%nat with ((S k - 1) * 100)%nat by lia.
    apply IH; [intros i Hi; apply Hd; lia|lia|lia|lia].
Qed.

(** The loop from page [k] when the request of page [j >= k] is the
    first the network does not deliver and the pages before it are not
    empty: the items of pages [1 .. j - 1] and nothing more. *)
Lemma fetch_loop_lost s nt f k j n sl h :
  wp_authenticate h s = None -> (1 <= k <= j)%nat -> (j - k < f)%nat ->
  (forall i, (n <= i < n + (j - k))%nat -> nt i = Deliver) -> nt (n + (j - k))%nat <> Deliver ->
  ((j - 2) * 100 < length (wp_media s))%nat ->
  fst (fetch_loop f k (site_svg_prefix s ((k - 1) * 100)) (mkEnv s nt n sl h))
  = Ok (site_svg_prefix s ((j - 1) * 100)).
Proof.
  intros Ha. revert k n. induction f as [|f IH]; intros k n Hkj Hf Hd Hl Hlen; [lia|].
  destruct (decide (k = j)) as [->|Hne].
  - replace (n + (j - j))%nat with n in Hl by lia.
    by destruct (fetch_loop_failed f j (site_svg_prefix s ((j - 1) * 100)) (mkEnv s nt n sl h) Hl) as [e' ->].
  - cbn [fetch_loop]. unfold bind at 1, catch. rewrite fetch_media_page_wp by (done || apply Hd; lia).
    destruct (decide _) as [Hle|Hgt]; [lia|].
    unfold site_svg_prefix. rewrite <- omap_app, take_take_drop.
    replace ((k - 1) * 100 + 100)%nat with ((S k - 1) * 100)%nat by lia.
    apply IH; [lia|lia|intros i Hi; apply Hd; lia|by replace (S n + (j - S k))%nat with (n + (j - k))%nat by lia|lia].
Qed.

(** The loop's result does not depend on its fuel once it has one:
    with more fuel it gives the same result and the same state. *)
Lemma fetch_loop_mono {St} `{Server St} f d k acc (e : env St) r e' :
  fetch_loop f k acc e = (Ok r, e') -> fetch_loop (f + d) k acc e = (Ok r, e').
Proof.
  revert k acc e. induction f as [|f IH]; intros k acc e; [by intros [=]|].
  cbn [fetch_loop plus]. unfold bind.
  destruct (catch (fetch_media_page k) (fun _ => ret None) e) as [[[l|]|m] e1]; [apply IH|done|done].
Qed.

Lemma fuel_enough n fuel : (n / 100 + 2 <= fuel)%nat -> (n <= (1 + fuel - 2) * 100)%nat.
Proof.
  intros Hf. pose proof (Nat.div_mod n 100 ltac:(lia)). pose proof (Nat.mod_upper_bound n 100 ltac:(lia)).
  nia.
Qed.

Lemma fetch_all_wp s fuel n sl h :
  wp_authenticate h s = None -> (length (wp_media s) / 100 + 2 <= fuel)%nat ->
  fst (fetchAllSvgMedia fuel (mkEnv s reliable n sl h)) = Ok (site_svg_media s).
Proof. intros Ha Hf. apply (fetch_loop_wp s reliable fuel 1); [done|done|lia|lia|by apply fuel_enough]. Qed.

(** The icon library the catalogue of a site should give: of its
    [Typer=]/[Icon=] SVG items sorted by id (stably), those with id at
    least 20813, the first of each title (the reference [keep_first]),
    the icon of each whose title starts with [Icon=], read off the
    item's own fields. *)
Definition catalogue_spec (items : list media) : list media :=
  keep_first (List.filter id_at_least (sort_by_id items)).

Definition icon_library_spec (s : wp) : list icon :=
  omap icon_of (catalogue_spec (site_svg_media s)).

Lemma catalogue_items_spec items : catalogue_items items = catalogue_spec items.
Proof. by apply dedup_titles_keep_first_go. Qed.

(** C24: termination of the media pagination loop.  On a site with [n]
    media items that accepts the script's credentials and a reliable
    network, [fetchAllSvgMedia] given
    [n / 100 + 2] iterations or more reaches the empty page and returns
    every SVG item of the site titled [Typer=...] or [Icon=...], in
    listing order; further fuel changes nothing. *)
Theorem fetchAllSvgMedia_terminates s fuel n sl h :
  wp_authenticate h s = None -> (length (wp_media s) / 100 + 2 <= fuel)%nat ->
  fst (fetchAllSvgMedia fuel (mkEnv s reliable n sl h)) = Ok (site_svg_media s).
Proof. apply fetch_all_wp. Qed.

(** C25: the catalogue set-up refines its specification.  With no
    [icon_files.csv], accepted credentials, a reliable network and
    enough iterations, [loadOrFetchSvgMedia] followed by
    [loadIconLibrary] yields exactly [icon_library_spec]: of all the
    site's SVG items titled [Typer=]/[Icon=], sorted by id, those with id
    at least 20813 whose title no earlier one has, the [Icon=] ones, each
    as the icon of its own id, title, file name and url; provided these
    fields can be written in the file (no comma or newline). *)
Theorem catalogue_setup_refines s fuel n sl h :
  wp_authenticate h s = None -> (length (wp_media s) / 100 + 2 <= fuel)%nat ->
  forallb csv_safe (catalogue_spec (site_svg_media s)) = true ->
  exists csv, fst (loadOrFetchSvgMedia fuel None (mkEnv s reliable n sl h)) = Ok (Some csv) /\
    loadIconLibrary (Some csv) = icon_library_spec s.
Proof.
  intros Ha Hf Hs. rewrite <- catalogue_items_spec in Hs.
  destruct (csv_roundtrip _ Hs) as (csv & Hsave & Hload).
  exists csv. split; [|unfold icon_library_spec; by rewrite <- catalogue_items_spec].
  cbn [loadOrFetchSvgMedia]. unfold bind at 1.
  pose proof (fetch_all_wp s fuel n sl h Ha Hf) as Hfetch.
  destruct (fetchAllSvgMedia fuel _) as [o e'] eqn:E. simpl in Hfetch. subst o.
  by rewrite Hsave.
Qed.

Lemma fetchAllSvgMedia_terminates_witness :
  fst (fetchAllSvgMedia 3 (mkEnv icon_site reliable 0 [] staging_header)) = Ok (site_svg_media icon_site).
Proof. apply fetchAllSvgMedia_terminates; [vm_compute; reflexivity|]. apply Nat.leb_le. vm_compute. reflexivity. Defined.

Lemma catalogue_setup_refines_witness :
  exists csv, fst (loadOrFetchSvgMedia 3 None (mkEnv icon_site reliable 0 [] staging_header)) = Ok (Some csv) /\
    loadIconLibrary (Some csv) = icon_library_spec icon_site.
Proof.
  apply catalogue_setup_refines; [vm_compute; reflexivity|apply Nat.leb_le; vm_compute; reflexivity|].
  vm_compute. reflexivity.
Defined.

(** C26: a failed request ends the pagination silently.  When the
    request for media page [k >= 2] is the first one the network does not
    deliver (lost, or answered by a gateway error) and the pages before
    it are not empty, [fetchAllSvgMedia] returns normally with the SVG
    items of pages [1 .. k - 1] only: the items of the later pages are
    missing from the catalogue, with no error. *)
Theorem truncated_catalogue s nt fuel k sl h :
  wp_authenticate h s = None -> (2 <= k <= fuel)%nat ->
  (forall i, (i < k - 1)%nat -> nt i = Deliver) -> nt (k - 1)%nat <> Deliver ->
  ((k - 2) * 100 < length (wp_media s))%nat ->
  fst (fetchAllSvgMedia fuel (mkEnv s nt 0 sl h)) = Ok (site_svg_prefix s ((k - 1) * 100)).
Proof.
  intros Ha Hk Hd Hl Hlen. apply (fetch_loop_lost s nt fuel 1 k 0); [done|lia|lia| |done|done].
  intros i Hi. apply Hd. lia.
Qed.

Lemma truncated_catalogue_witness :
  fst (fetchAllSvgMedia 5 (mkEnv icon_site lose_page_two 0 [] staging_header))
  = Ok (site_svg_prefix icon_site 100).
Proof.
  apply (truncated_catalogue icon_site lose_page_two 5 2); [vm_compute; reflexivity|lia| | |].
  - intros i Hi. destruct i as [|i]; [reflexivity|lia].
  - discriminate.
  - apply Nat.ltb_lt. vm_compute. reflexivity.
Defined.

(** Fuel adequacy of the media pagination.  Running out of fuel is
    never a result: a run of the loop that returns has the same result
    and leaves the same state with any larger fuel. *)
Lemma fetchAllSvgMedia_fuel_mono {St} `{Server St} fuel d (e : env St) r e' :
  fetchAllSvgMedia fuel e = (Ok r, e') -> fetchAllSvgMedia (fuel + d) e = (Ok r, e').
Proof. apply fetch_loop_mono. Qed.

End MediaFetch.
