(* ===== verification/Orchestrator.v ===== *)
(** * Migration orchestrator ([src/step_2.js], lines 506-627 and 774-792)

    [processPage] runs, in the order of the code: read [id] and
    [title.rendered]; look the origin id up in the ledger; assign service
    icons; build the payload; list the image fields with a value; delete
    them from the payload; [updatePage] the recorded page or [createPage];
    read [response.id] and [response.link]; decide whether to upload
    images ([UPLOAD_NEW_IMAGES || !isUpdate || (isUpdate &&
    !hasExistingMedia)]); upload one shuffled pool image per field and
    [updatePage] with the new media ids, or carry the recorded ids over;
    build the ledger record and assign it into the found record or push
    it.  [main_loop] is the loop of [main] on parsed pages: it runs
    [processPage] on every page, turning a thrown error into a failed
    result and going on.  [main] itself, which reads and parses the page
    files, is in [Migration].

    The run state [world] holds the network environment of [RemoteApi],
    the ledger array and the position in the [Math.random] oracle;
    console output is dropped.  Section [Run] holds the theorems for
    every [Server]; [Idempotence], [LateFailure] and [NewPages] run the
    code against the WordPress model ([WordPress]) on a site that
    accepts the credentials: a page with a ledger record is never
    created, a page whose images fail after its creation is created
    again on every run, a new page is created with its own payload, and
    two new pages with the same [acf] get the same icons. *)

From S2P Require Import Prelude JsString JsValue IconMatcher Sanitizer ImagePool Ledger.
From S2P Require Import RemoteApi WordPress Retry.
Open Scope string_scope.
#[local] Set Warnings "-clear-no-such-hyp".

Module Orchestrator.
Import JsString JsValue IconMatcher Sanitizer ImagePool Ledger RemoteApi Retry.

Definition TEST_MODE : bool := true.
Definition UPLOAD_NEW_IMAGES : bool := false.

Record world (St : Type) : Type := mkWorld {
  w_env : env St;
  w_ledger : val;
  w_rng : nat -> Z;
  w_rpos : nat
}.
Arguments mkWorld {St} _ _ _ _.
Arguments w_env {St} _.
Arguments w_ledger {St} _.
Arguments w_rng {St} _.
Arguments w_rpos {St} _.

Section Run.
Context {St : Type} `{Server St}.
Context (iconLibrary : list icon) (imagePool : list string).

Abbreviation W := (world St).

(** A request-level computation inside the run. *)
Definition net {A} (c : M (env St) A) : M W A :=
  zoom w_env (fun e w => mkWorld e (w_ledger w) (w_rng w) (w_rpos w)) c.

(** [pageData.acf.services_repeater = assignIconsToServices(...)] when
    [pageData.acf && pageData.acf.services_repeater]. *)
Definition assign_page_icons (pageData : val) : outcome val :=
  match get pageData "acf" with
  | Throw e => Throw e
  | Ok acf =>
      if truthy acf then
        match get acf "services_repeater" with
        | Throw e => Throw e
        | Ok sr =>
            if truthy sr then
              match assignIconsToServices sr iconLibrary with
              | Throw e => Throw e
              | Ok sr' =>
                  match pageData, acf with
                  | VObj ps, VObj aps => Ok (VObj (obj_set ps "acf" (VObj (obj_set aps "services_repeater" sr'))))
                  | _, _ => Ok pageData
                  end
              end
            else Ok pageData
        end
      else Ok pageData
  end.

(** [IMAGE_FIELDS.forEach(f => { if (payload.acf && payload.acf[f] !== undefined)
    delete payload.acf[f]; })] *)
Definition strip_image_fields (payload : val) : val :=
  match payload with
  | VObj ps =>
      match obj_get ps "acf" with
      | VObj a =>
          VObj (obj_set ps "acf"
                  (VObj (fold_left (fun a f => match obj_get a f with
                                               | VUndef => a
                                               | _ => obj_delete a f
                                               end) IMAGE_FIELDS a)))
      | _ => payload
      end
  | _ => payload
  end.

(** [selectRandomUniqueImages(n)], advancing the random oracle. *)
Definition select_images (count : nat) : M W (list string) :=
  fun w =>
    let (sel, pos') := selectRandomUniqueImages imagePool count (w_rng w) (w_rpos w) in
    (Ok sel, mkWorld (w_env w) (w_ledger w) (w_rng w) pos').

(** The upload loop: [selectedImages[i]] is [undefined] past the end. *)
Fixpoint upload_loop (fields sel : list string) (pageTitle : val) (mediaIds : list (string * val))
    : M W (list (string * val)) :=
  match fields with
  | [] => ret mediaIds
  | f :: fs =>
      bind (net (uploadImage (match sel with p :: _ => VStr p | [] => VUndef end) pageTitle))
        (fun mediaId => upload_loop fs (tail sel) pageTitle (obj_set mediaIds f mediaId))
  end.

(** [IMAGE_FIELDS.some(field => existingRecord[field])] *)
Definition hasExistingMedia (existing : option (nat * val)) : bool :=
  match existing with
  | Some (_, VObj r) => existsb (fun f => truthy (obj_get r f)) IMAGE_FIELDS
  | _ => false
  end.

(** The "preserve existing media ids" branch. *)
Definition preserve_media (existing : option (nat * val)) : list (string * val) :=
  match existing with
  | Some (_, VObj r) =>
      fold_left (fun m f => if truthy (obj_get r f) then obj_set m f (obj_get r f) else m)
                IMAGE_FIELDS []
  | _ => []
  end.

(** [{ originId, pageId, title, url, ...mediaIds }] *)
Definition json_record (originId newPageId pageTitle newPageUrl : val)
    (mediaIds : list (string * val)) : list (string * val) :=
  obj_assign [("originId", VStr (to_js_string originId));
              ("pageId", VStr (to_js_string newPageId));
              ("title", pageTitle); ("url", newPageUrl)] mediaIds.

(** Everything of [processPage] before the ledger write; returns the
    lookup result and the record to write. *)
Definition prepare_page (pageData : val) : M W (option (nat * val) * list (string * val)) :=
  bind (lift (get pageData "id")) (fun originId =>
  bind (lift (get2 pageData "title" "rendered")) (fun pageTitle =>
  bind Prelude.get (fun w =>
  bind (lift (findRecordByOriginId (w_ledger w) originId)) (fun existing =>
  let isUpdate := bool_decide (is_Some existing) in
  bind (lift (assign_page_icons pageData)) (fun pageData =>
  bind (lift (extractFieldsForWordPress pageData)) (fun payload =>
  bind (lift (trackImageFields pageData)) (fun imageFieldsWithValues =>
  let payload := strip_image_fields payload in
  bind (match existing with
        | Some (_, r) => bind (lift (get r "pageId")) (fun pid => net (updatePage pid payload))
        | None => net (createPage payload)
        end) (fun response =>
  bind (lift (get response "id")) (fun newPageId =>
  bind (lift (get response "link")) (fun newPageUrl =>
  let hasMedia := hasExistingMedia existing in
  let shouldUploadImages := UPLOAD_NEW_IMAGES || negb isUpdate || (isUpdate && negb hasMedia) in
  bind (if shouldUploadImages && negb (bool_decide (imageFieldsWithValues = [])) then
          bind (select_images (length imageFieldsWithValues)) (fun selected =>
          bind (upload_loop imageFieldsWithValues selected pageTitle []) (fun mediaIds =>
          bind (net (updatePage newPageId (VObj [("acf", VObj mediaIds)]))) (fun _ =>
          ret mediaIds)))
        else if isUpdate && hasMedia then ret (preserve_media existing)
        else ret []) (fun mediaIds =>
  ret (existing, json_record originId newPageId pageTitle newPageUrl mediaIds)))))))))))).

(** [processPage] *)
Definition processPage (pageData : val) : M W (list (string * val)) :=
  bind (prepare_page pageData) (fun '(existing, jsonRecord) =>
  bind (modify (fun w => mkWorld (w_env w) (upsert (w_ledger w) existing jsonRecord)
                                 (w_rng w) (w_rpos w))) (fun _ =>
  ret jsonRecord)).

(** The [for] loop of [main]: [try { processPage } catch { failure }]. *)
Fixpoint main_loop (pages : list val) : M W (list (outcome (list (string * val)))) :=
  match pages with
  | [] => ret []
  | p :: ps =>
      bind (catch (bind (processPage p) (fun r => ret (Ok r))) (fun e => ret (Throw e)))
        (fun r => bind (main_loop ps) (fun rs => ret (r :: rs)))
  end.

(** The reference run of the loop: [rs] are the outcomes of
    [processPage] on [pages] in order, each page starting from the state
    the previous one left, and [w'] is the state after the last. *)
Fixpoint page_runs (pages : list val) (w : W) (rs : list (outcome (list (string * val)))) (w' : W) : Prop :=
  match pages, rs with
  | [], [] => w' = w
  | p :: ps, r :: rs' => exists w1, processPage p w = (r, w1) /\ page_runs ps w1 rs' w'
  | _, _ => False
  end.

(** ** Frame lemmas of the run *)

Lemma keeps_net_ledger {A} (c : M (env St) A) w : keeps (same w_ledger) (net c) w.
Proof. intros o w'. unfold net, zoom. destruct (c (w_env w)). by intros [= _ <-]. Qed.

Lemma keeps_net_env {A X} (g : env St -> X) (c : M (env St) A) w :
  keeps (same g) c (w_env w) -> keeps (same (fun w : W => g (w_env w))) (net c) w.
Proof.
  intros Hc o w'. unfold net, zoom. destruct (c (w_env w)) as [o' e'] eqn:E.
  intros [= _ <-]. by apply Hc in E.
Qed.

Lemma keeps_select_images {X} (g : W -> X) n w :
  (forall w pos, g (mkWorld (w_env w) (w_ledger w) (w_rng w) pos) = g w) ->
  keeps (same g) (select_images n) w.
Proof.
  intros Hg o w'. unfold select_images. destruct (selectRandomUniqueImages _ _ _ _).
  intros [= _ <-]. apply Hg.
Qed.

Lemma keeps_upload_loop (R : W -> W -> Prop) `{!PreOrder R} fields sel title m w :
  (forall p w, keeps R (net (uploadImage p title)) w) ->
  keeps R (upload_loop fields sel title m) w.
Proof.
  intros Hup. revert sel m w. induction fields as [|f fs IH]; intros sel m w; simpl.
  - by apply keeps_ret.
  - apply keeps_bind; [done|apply Hup|]. intros. apply IH.
Qed.

(** [prepare_page] never writes the ledger. *)
Lemma prepare_page_ledger p w : keeps (same w_ledger) (prepare_page p) w.
Proof.
  unfold prepare_page. repeat keeps_step;
    try apply keeps_net_ledger; try (apply keeps_select_images; done);
    try (apply keeps_upload_loop; [typeclasses eauto|intros; apply keeps_net_ledger]).
Qed.

(** A page that throws does not reach the ledger write. *)
Lemma processPage_throw_ledger p w e w' :
  processPage p w = (Throw e, w') -> w_ledger w' = w_ledger w.
Proof.
  unfold processPage. intros [Hp|([ex rec] & w1 & Hp & Hrest)]%bind_Throw_inv.
  - by apply prepare_page_ledger in Hp.
  - unfold bind, modify, ret in Hrest. discriminate.
Qed.

(** C10: a page whose processing throws leaves the ledger as it was: its
    record is neither added nor changed, whatever step failed (including a
    failure after the page was created on the site). *)
Theorem processPage_throw_keeps_ledger p w e w' :
  processPage p w = (Throw e, w') -> w_ledger w' = w_ledger w.
Proof. apply processPage_throw_ledger. Qed.

(** ** What [prepare_page] returns *)

(** The fields of a ledger record (spec section 3): a string [pageId],
    and no key but [originId], [pageId], [title], [url] and the image
    fields. *)
Definition rec_fields_ok (rec : list (string * val)) : Prop :=
  (exists d, own rec "pageId" = Some (VStr d)) /\
  (forall k, k ∈ keys rec -> k ∈ ["originId"; "pageId"; "title"; "url"] \/ k ∈ IMAGE_FIELDS).

Lemma upload_loop_keys fields sel title m w m' w' :
  upload_loop fields sel title m w = (Ok m', w') ->
  forall k, k ∈ keys m' -> k ∈ keys m \/ k ∈ fields.
Proof.
  revert sel m w. induction fields as [|f fs IH]; intros sel m w; simpl.
  - intros [= <- _]. by left.
  - intros (mid & w1 & _ & Hrest)%bind_Ok_inv k Hk.
    destruct (IH _ _ _ Hrest k Hk) as [Hm|Hf]; [|set_solver].
    apply keys_obj_set_sub in Hm as [Hm| ->]; set_solver.
Qed.

Lemma preserve_media_keys ex k : k ∈ keys (preserve_media ex) -> k ∈ IMAGE_FIELDS.
Proof.
  unfold preserve_media. destruct ex as [[i [| | | | | | |r|]]|]; try set_solver.
  assert (Hgen : forall fs m, (forall k, k ∈ keys m -> k ∈ IMAGE_FIELDS) ->
            (forall f, f ∈ fs -> f ∈ IMAGE_FIELDS) ->
            forall k, k ∈ keys (fold_left (fun m f => if truthy (obj_get r f)
                                                     then obj_set m f (obj_get r f) else m) fs m) ->
                      k ∈ IMAGE_FIELDS).
  { induction fs as [|f fs IH]; simpl; intros m Hm Hfs; [done|].
    apply IH; [|set_solver]. destruct (truthy _); [|done].
    intros x [Hx| ->]%keys_obj_set_sub; set_solver. }
  apply Hgen; set_solver.
Qed.

Lemma json_record_spec originId pid title url m :
  (forall k, k ∈ keys m -> k ∈ IMAGE_FIELDS) ->
  NoDup (keys (json_record originId pid title url m)) /\
  own (json_record originId pid title url m) "originId" = Some (VStr (to_js_string originId)) /\
  rec_fields_ok (json_record originId pid title url m).
Proof.
  intros Hm. unfold json_record.
  assert (Hnot : forall k, k ∈ ["originId"; "pageId"] -> k ∉ keys m).
  { intros k Hk Hin%Hm. vm_compute in Hin.
    apply elem_of_cons in Hk as [->|Hk]; [|apply list_elem_of_singleton in Hk as ->];
      repeat (apply elem_of_cons in Hin as [Hin|Hin]; [discriminate|]);
      by apply not_elem_of_nil in Hin. }
  split_and!.
  - apply keys_obj_assign_NoDup. apply (bool_decide_unpack _). vm_compute. reflexivity.
  - rewrite own_obj_assign_notin; [done|]. apply Hnot. set_solver.
  - split.
    + exists (to_js_string pid). rewrite own_obj_assign_notin; [reflexivity|]. apply Hnot. set_solver.
    + intros k [Hk|Hk]%keys_obj_assign_sub; [left|right; by apply Hm].
      revert Hk. vm_compute. intros Hk. set_solver.
Qed.

(** The record [prepare_page] hands to the ledger write is keyed by the
    page's [String(id)], has distinct keys, and [existing] is the lookup
    of that id in the ledger the page started with. *)
Lemma prepare_page_result p w ex rec w' :
  prepare_page p w = (Ok (ex, rec), w') ->
  exists originId, get p "id" = Ok originId /\
    findRecordByOriginId (w_ledger w) originId = Ok ex /\
    NoDup (keys rec) /\ own rec "originId" = Some (VStr (to_js_string originId)) /\
    rec_fields_ok rec.
Proof.
  unfold prepare_page. intros Hrun.
  apply bind_Ok_inv in Hrun as (originId & w1 & H1 & Hrun). injection H1 as H1 <-.
  apply bind_Ok_inv in Hrun as (title & w2 & H2 & Hrun). injection H2 as H2 <-.
  apply bind_Ok_inv in Hrun as (w3 & w4 & H3 & Hrun). injection H3 as <- <-.
  apply bind_Ok_inv in Hrun as (existing & w5 & H4 & Hrun). injection H4 as Hfind <-.
  apply bind_Ok_inv in Hrun as (pd & w6 & H5 & Hrun). injection H5 as _ <-.
  apply bind_Ok_inv in Hrun as (payload & w7 & H6 & Hrun). injection H6 as _ <-.
  apply bind_Ok_inv in Hrun as (fields & w8 & H7 & Hrun). injection H7 as Htrack <-.
  apply bind_Ok_inv in Hrun as (resp & w9 & _ & Hrun).
  apply bind_Ok_inv in Hrun as (pid & w10 & H9 & Hrun). injection H9 as _ <-.
  apply bind_Ok_inv in Hrun as (url & w11 & H10 & Hrun). injection H10 as _ <-.
  apply bind_Ok_inv in Hrun as (m & w12 & Hm & Hrun). injection Hrun as <- <- _.
  exists originId. split_and!; [done|done| | |];
    apply json_record_spec; intros k Hk; revert Hm.
  all: destruct (_ && _); [|destruct (_ && _); [intros [= <- _]; by apply preserve_media_keys in Hk|intros [= <- _]; set_solver]].
  all: intros (sel & w13 & _ & Hu)%bind_Ok_inv; apply bind_Ok_inv in Hu as (m' & w14 & Hu & Hr);
       apply bind_Ok_inv in Hr as (x & w15 & _ & Hr); injection Hr as <- _;
       destruct (upload_loop_keys _ _ _ _ _ _ _ Hu k Hk) as [Hk'|Hk']; [set_solver|];
       by eapply trackImageFields_sub.
Qed.

(** The ledger after a page that succeeded is the [upsert] of its record
    at the lookup of its id. *)
Lemma processPage_ok p w rec w' :
  processPage p w = (Ok rec, w') ->
  exists originId ex, get p "id" = Ok originId /\
    findRecordByOriginId (w_ledger w) originId = Ok ex /\
    NoDup (keys rec) /\ own rec "originId" = Some (VStr (to_js_string originId)) /\
    rec_fields_ok rec /\ w_ledger w' = upsert (w_ledger w) ex rec.
Proof.
  unfold processPage. intros ([ex rec'] & w1 & Hp & Hrest)%bind_Ok_inv.
  pose proof (prepare_page_ledger p w _ _ Hp) as Hl. unfold same in Hl.
  apply prepare_page_result in Hp as (originId & Hid & Hfind & Hnd & Hown & Hshape).
  unfold bind, modify, ret in Hrest. injection Hrest as <- <-.
  exists originId, ex. simpl. by rewrite Hl.
Qed.

(** C31: every record [processPage] returns (and writes to the ledger)
    has the shape of a LedgerRecord (spec section 3): distinct keys, a
    string [originId] and [pageId], and no key but [originId], [pageId],
    [title], [url] and the image fields. *)
Theorem processPage_record_type p w rec w' :
  processPage p w = (Ok rec, w') ->
  NoDup (keys rec) /\ (exists o, own rec "originId" = Some (VStr o)) /\ rec_fields_ok rec.
Proof.
  intros (originId & ex & _ & _ & Hnd & Hown & Hshape & _)%processPage_ok. eauto.
Qed.

(** The loop runs [processPage] on each page in order, from the state
    the previous pages left, and records its outcome. *)
Lemma main_loop_runs pages w :
  exists rs w', main_loop pages w = (Ok rs, w') /\ page_runs pages w rs w'.
Proof.
  revert w. induction pages as [|p ps IH]; intros w; [by eexists _, _|].
  cbn [main_loop]. unfold bind at 1, catch, bind at 1.
  destruct (processPage p w) as [[x|e] w1] eqn:E; unfold ret;
    destruct (IH w1) as (rs & w2 & Hrun & Hr); unfold bind; rewrite Hrun;
    (eexists _, _; split; [reflexivity|]); cbn [page_runs]; eauto.
Qed.

(** C9: failure isolation, in order.  [main_loop] never throws, and its
    results are, one per page and in the order of the pages, the outcome
    of [processPage] on that page (the record, or the message it threw)
    run from the state the earlier pages left. *)
Theorem main_loop_total pages w :
  exists rs w', main_loop pages w = (Ok rs, w') /\ page_runs pages w rs w'.
Proof. apply main_loop_runs. Qed.

(** One page keeps the ledger well formed. *)
Lemma processPage_ledger_ok p w o w' :
  ledger_ok (w_ledger w) -> processPage p w = (o, w') -> ledger_ok (w_ledger w').
Proof.
  intros Hok Hrun. destruct o as [rec|e].
  - apply processPage_ok in Hrun as (originId & ex & _ & Hfind & Hnd & Hown & _ & ->).
    destruct (w_ledger w) as [| | | | | |l| |] eqn:El; try done.
    eapply (upsert_wf (VArr l)); eauto.
  - by rewrite (processPage_throw_ledger _ _ _ _ Hrun).
Qed.

(** One page keeps every record's keys distinct. *)
Lemma processPage_ledger_wf p w o w' :
  ledger_wf (w_ledger w) -> processPage p w = (o, w') -> ledger_wf (w_ledger w').
Proof.
  intros [Hok Hk] Hrun. split; [by eapply processPage_ledger_ok|]. destruct o as [rec|e].
  - apply processPage_ok in Hrun as (originId & ex & _ & Hfind & Hnd & _ & _ & ->).
    destruct (w_ledger w) as [| | | | | |l| |]; try done. by eapply upsert_keys_ok.
  - by rewrite (processPage_throw_ledger _ _ _ _ Hrun).
Qed.

Lemma main_loop_ledger_wf pages w o w' :
  ledger_wf (w_ledger w) -> main_loop pages w = (o, w') -> ledger_wf (w_ledger w').
Proof.
  revert w o w'. induction pages as [|p ps IH]; intros w o w' Hwf; cbn [main_loop].
  - by intros [= _ <-].
  - unfold bind at 1, catch, bind at 1.
    destruct (processPage p w) as [r w1] eqn:Ep. pose proof (processPage_ledger_wf _ _ _ _ Hwf Ep) as Hwf1.
    destruct (main_loop ps w1) as [o2 w2] eqn:E. pose proof (IH _ _ _ Hwf1 E).
    destruct r; unfold ret, bind; rewrite E; destruct o2; by intros [= _ <-].
Qed.

(** C7: across a whole run, the ledger keeps exactly one record per
    origin id: a well-formed ledger stays well formed whatever pages are
    processed and whatever fails. *)
Theorem main_loop_ledger_ok pages w o w' :
  ledger_ok (w_ledger w) -> main_loop pages w = (o, w') -> ledger_ok (w_ledger w').
Proof.
  revert w o. induction pages as [|p ps IH]; intros w o Hok; simpl.
  - by intros [= _ <-].
  - unfold bind at 1, catch.
    destruct (bind (processPage p) (fun r => ret (Ok r)) w) as [[r|e] w1] eqn:E;
      assert (Hok1 : ledger_ok (w_ledger w1));
      try (unfold bind at 1 in E; destruct (processPage p w) as [[x|m] w0] eqn:Ep;
           unfold ret in E; injection E as _ <-; by eapply processPage_ledger_ok);
      unfold bind, ret; destruct (main_loop ps w1) as [[rs|m] w2] eqn:Er;
      intros [= _ <-]; by eapply IH.
Qed.

(** One step of the loop: the page's outcome, then the rest. *)
Lemma main_loop_cons_inv p ps w outs w' :
  main_loop (p :: ps) w = (Ok outs, w') ->
  exists r w1 rs, processPage p w = (r, w1) /\ main_loop ps w1 = (Ok rs, w') /\ outs = r :: rs.
Proof.
  cbn [main_loop]. unfold bind at 1, catch, bind at 1.
  destruct (processPage p w) as [[x|e] w1]; unfold ret;
    destruct (main_loop ps w1) as [[rs|m] w2] eqn:E; unfold bind, ret; rewrite E;
    intros [=]; subst; eauto 10.
Qed.

(** A page forgets no origin id of the ledger. *)
Lemma processPage_origins p w o w' :
  ledger_ok (w_ledger w) -> processPage p w = (o, w') ->
  ledger_origins (w_ledger w) ⊆ ledger_origins (w_ledger w').
Proof.
  intros Hok Hrun. destruct o as [rec|e].
  - apply processPage_ok in Hrun as (originId & ex & _ & Hfind & Hnd & Hown & _ & ->).
    destruct (w_ledger w) as [| | | | | |l| |]; try done.
    by apply (upsert_origins_sub (VArr l) (to_js_string originId)).
  - by rewrite (processPage_throw_ledger _ _ _ _ Hrun).
Qed.

Lemma main_loop_origins pages w o w' :
  ledger_ok (w_ledger w) -> main_loop pages w = (o, w') ->
  ledger_origins (w_ledger w) ⊆ ledger_origins (w_ledger w').
Proof.
  revert w o w'. induction pages as [|p ps IH]; intros w o w' Hok; cbn [main_loop].
  - by intros [= _ <-].
  - unfold bind at 1, catch, bind at 1.
    destruct (processPage p w) as [r w1] eqn:Ep.
    pose proof (processPage_origins _ _ _ _ Hok Ep) as Hsub.
    pose proof (processPage_ledger_ok _ _ _ _ Hok Ep) as Hok1.
    destruct (main_loop ps w1) as [o2 w2] eqn:E. pose proof (IH _ _ _ Hok1 E) as Hrest.
    destruct r; unfold ret, bind; rewrite E; destruct o2; intros [= _ <-]; set_solver.
Qed.

(** A page that succeeds records its origin id. *)
Lemma processPage_Ok_origin p w rec w' :
  ledger_ok (w_ledger w) -> processPage p w = (Ok rec, w') ->
  exists originId, get p "id" = Ok originId /\
    to_js_string originId ∈ ledger_origins (w_ledger w').
Proof.
  intros Hok Hrun.
  apply processPage_ok in Hrun as (originId & ex & Hid & Hfind & Hnd & Hown & _ & ->).
  exists originId. split; [done|].
  destruct (w_ledger w) as [| | | | | |l| |]; try done.
  destruct (upsert_wf (VArr l) (to_js_string originId) ex rec Hok Hfind Hnd Hown) as [_ Hin].
  revert Hin. unfold ledger_origins. destruct (upsert (VArr l) ex rec); simpl; set_solver.
Qed.

(** C20: partial-failure isolation (spec section 8).  In a run from a
    well-formed ledger, every page whose result is a success has its
    origin id in the ledger written at the end, whatever the pages before
    and after it did. *)
Theorem main_loop_success_recorded pages w outs w' i p rec :
  ledger_ok (w_ledger w) -> main_loop pages w = (Ok outs, w') ->
  pages !! i = Some p -> outs !! i = Some (Ok rec) ->
  exists originId, get p "id" = Ok originId /\
    to_js_string originId ∈ ledger_origins (w_ledger w').
Proof.
  revert w outs i. induction pages as [|q ps IH]; intros w outs i Hok Hrun Hp Ho; [done|].
  apply main_loop_cons_inv in Hrun as (r & w1 & rs & Ep & Er & ->).
  pose proof (processPage_ledger_ok _ _ _ _ Hok Ep) as Hok1.
  destruct i as [|i]; simpl in Hp, Ho.
  - injection Hp as <-. injection Ho as ->.
    destruct (processPage_Ok_origin _ _ _ _ Hok Ep) as (originId & Hid & Hin).
    exists originId. split; [done|]. by eapply main_loop_origins.
  - by eapply IH.
Qed.

(** ** A site that rejects the credentials *)

(** The site and the header of a rejecting site stay as they were. *)
Abbreviation Wfrozen := (via w_env frozen).

Lemma keeps_net_via (R : env St -> env St -> Prop) {A} (c : M (env St) A) w :
  keeps R c (w_env w) -> keeps (via w_env R) (net c) w.
Proof.
  intros Hc o w'. unfold net, zoom. destruct (c (w_env w)) as [o' e'] eqn:E.
  intros [= _ <-]. exact (Hc _ _ E).
Qed.

Lemma fails_net {A} (c : M (env St) A) w : fails c (w_env w) -> fails (net c) w.
Proof.
  intros Hc o w'. unfold net, zoom. destruct (c (w_env w)) as [o' e'] eqn:E.
  intros [= <- _]. exact (Hc _ _ E).
Qed.

Lemma keeps_select_images_via (R : env St -> env St -> Prop) `{!PreOrder R} n w :
  keeps (via w_env R) (select_images n) w.
Proof.
  intros o w'. unfold select_images. destruct (selectRandomUniqueImages _ _ _ _).
  intros [= _ <-]. unfold via. cbn [w_env]. reflexivity.
Qed.

Lemma prepare_page_frozen p w : keeps Wfrozen (prepare_page p) w.
Proof.
  unfold prepare_page. cbv zeta. repeat keeps_step;
    try (apply keeps_net_via; first [apply keeps_createPage_frozen|apply keeps_updatePage_frozen]);
    try (apply keeps_select_images_via; typeclasses eauto);
    try (apply keeps_upload_loop; [typeclasses eauto|intros; apply keeps_net_via, keeps_uploadImage_frozen]).
Qed.

Lemma processPage_frozen p w : keeps Wfrozen (processPage p) w.
Proof.
  unfold processPage. apply keeps_bind; [typeclasses eauto|apply prepare_page_frozen|].
  intros [ex rec] w1 _. repeat keeps_step. intros o w' [= _ <-]. unfold via. cbn [w_env]. reflexivity.
Qed.

(** Past the pure steps, the page is created or updated, and against a
    rejecting site that request fails: no page succeeds. *)
Lemma prepare_page_rejected p w : rejects (w_env w) -> fails (prepare_page p) w.
Proof.
  intros Hr. unfold prepare_page. cbv zeta.
  do 7 (apply fails_bind_r; let H := fresh in intros ? ? H; cbv [lift Prelude.get] in H; injection H; intros; subst).
  apply fails_bind_l. destruct (_ : option (nat * val)) as [[j r]|].
  - apply fails_bind_r. intros pid w1 [= _ <-]. apply fails_net, updatePage_rejected, Hr.
  - apply fails_net, createPage_rejected, Hr.
Qed.

Lemma processPage_rejected p w : rejects (w_env w) -> fails (processPage p) w.
Proof. intros Hr. apply fails_bind_l, prepare_page_rejected, Hr. Qed.

End Run.

(** ** Idempotent re-runs on the WordPress model *)

Section Idempotence.
Import WordPress.
Context (iconLibrary : list icon) (imagePool : list string).

Definition page_count (w : world wp) : nat := length (wp_pages (srv (w_env w))).

Lemma keeps_update_count pid payload w :
  keeps (same page_count) (net (updatePage pid payload)) w.
Proof.
  apply (keeps_net_env (fun e => length (wp_pages (srv e)))).
  apply (keeps_updatePage (fun s => length (wp_pages s))). intros h s. apply wp_update_pages.
Qed.

Lemma keeps_upload_count path title w :
  keeps (same page_count) (net (uploadImage path title)) w.
Proof.
  apply (keeps_net_env (fun e => length (wp_pages (srv e)))).
  apply (keeps_uploadImage (fun s => length (wp_pages s))). intros h name t s. apply wp_upload_pages.
Qed.

(** With a record for the page's id in the ledger, [prepare_page] only
    sends [PATCH /pages] and [POST /media] requests. *)
Lemma prepare_page_recorded p w originId j r :
  get p "id" = Ok originId ->
  findRecordByOriginId (w_ledger w) originId = Ok (Some (j, r)) ->
  keeps (same page_count) (prepare_page iconLibrary imagePool p) w.
Proof.
  intros Hid Hfind. unfold prepare_page.
  apply keeps_bind; [typeclasses eauto|apply keeps_lift; typeclasses eauto|].
  intros o w1 [= Ho <-]. rewrite Hid in Ho. injection Ho as <-.
  apply keeps_bind; [typeclasses eauto|apply keeps_lift; typeclasses eauto|].
  intros t w2 [= _ <-].
  apply keeps_bind; [typeclasses eauto|apply keeps_get; typeclasses eauto|].
  intros w3 w4 [= <- <-].
  apply keeps_bind; [typeclasses eauto|apply keeps_lift; typeclasses eauto|].
  intros ex w5 [= Hex <-]. rewrite Hfind in Hex. injection Hex as <-.
  cbv beta iota zeta.
  repeat keeps_step; try apply keeps_update_count;
    try (apply keeps_select_images; done);
    try (apply keeps_upload_loop; [typeclasses eauto|intros; apply keeps_upload_count]).
Qed.

Lemma processPage_recorded p w originId j r :
  get p "id" = Ok originId ->
  findRecordByOriginId (w_ledger w) originId = Ok (Some (j, r)) ->
  keeps (same page_count) (processPage iconLibrary imagePool p) w.
Proof.
  intros Hid Hfind o w'. unfold processPage, bind at 1.
  destruct (prepare_page iconLibrary imagePool p w) as [o1 w1] eqn:E.
  pose proof (prepare_page_recorded p w originId j r Hid Hfind _ _ E) as Hw1.
  destruct o1 as [[ex rec]|e]; [|by intros [= _ <-]].
  unfold bind, modify, ret. intros [= _ <-]. exact Hw1.
Qed.

(** A loop over pages whose ids are all in the ledger creates no page. *)
Lemma main_loop_recorded pages w o w' :
  ledger_ok (w_ledger w) ->
  Forall (fun p => exists originId, get p "id" = Ok originId /\
                   to_js_string originId ∈ ledger_origins (w_ledger w)) pages ->
  main_loop iconLibrary imagePool pages w = (o, w') -> page_count w' = page_count w.
Proof.
  revert w o w'. induction pages as [|p ps IH]; intros w o w' Hok Hall; cbn [main_loop].
  - by intros [= _ <-].
  - apply Forall_cons in Hall as [(originId & Hid & Hin) Hall].
    unfold bind at 1, catch, bind at 1.
    destruct (processPage iconLibrary imagePool p w) as [r w1] eqn:Ep.
    assert (Hc1 : page_count w1 = page_count w).
    { destruct (w_ledger w) as [| | | | | |l| |] eqn:El; try done.
      destruct (find_record_found l (to_js_string originId) 0 (proj1 Hok) Hin) as (j & rr & Hf).
      eapply processPage_recorded; [exact Hid| |exact Ep]. rewrite El. exact Hf. }
    pose proof (processPage_origins _ _ _ _ _ _ Hok Ep) as Hsub.
    pose proof (processPage_ledger_ok _ _ _ _ _ _ Hok Ep) as Hok1.
    destruct (main_loop iconLibrary imagePool ps w1) as [o2 w2] eqn:E.
    assert (Hall1 : Forall (fun p => exists originId, get p "id" = Ok originId /\
                              to_js_string originId ∈ ledger_origins (w_ledger w1)) ps).
    { eapply Forall_impl; [exact Hall|]. intros q (i & Hq & Hi). exists i. split; [done|]. set_solver. }
    pose proof (IH _ _ _ Hok1 Hall1 E) as Hc2.
    destruct r; unfold ret, bind; rewrite E; destruct o2; intros [= _ <-]; congruence.
Qed.

(** C8: a page whose id is in the ledger is never created again:
    [processPage] sends no [POST /pages], so the site keeps its number
    of pages, whether the page succeeds or fails. *)
Theorem processPage_recorded_no_create p w originId j r o w' :
  get p "id" = Ok originId ->
  findRecordByOriginId (w_ledger w) originId = Ok (Some (j, r)) ->
  processPage iconLibrary imagePool p w = (o, w') -> page_count w' = page_count w.
Proof. intros Hid Hfind. exact (processPage_recorded p w originId j r Hid Hfind o w'). Qed.

(** C2: idempotent re-run.  Starting from a well-formed ledger, once
    [processPage] has succeeded for a page, processing the same page
    again (same run or a later run on the written ledger) creates no page
    on the site: it takes the update path. *)
Theorem processPage_rerun_no_create p w rec w1 o w2 :
  ledger_ok (w_ledger w) ->
  processPage iconLibrary imagePool p w = (Ok rec, w1) ->
  processPage iconLibrary imagePool p w1 = (o, w2) ->
  page_count w2 = page_count w1.
Proof.
  intros Hok Hrun1 Hrun2.
  apply processPage_ok in Hrun1 as (originId & ex & Hid & Hfind & Hnd & Hown & _ & Hl).
  destruct (w_ledger w) as [| | | | | |l| |] eqn:El; try done.
  destruct (upsert_wf (VArr l) (to_js_string originId) ex rec Hok Hfind Hnd Hown)
    as [Hok' Hin].
  rewrite <- Hl in Hin, Hok'. destruct (w_ledger w1) as [| | | | | |l1| |] eqn:El1; try done.
  destruct Hok' as [Hall _].
  destruct (find_record_found l1 (to_js_string originId) 0 Hall Hin) as (j & r & Hf).
  eapply processPage_recorded; [exact Hid| |exact Hrun2].
  rewrite El1. exact Hf.
Qed.

End Idempotence.

(** ** A failure after the page was created *)

Section LateFailure.
Import WordPress.
Context (iconLibrary : list icon) (imagePool : list string).

Lemma net_step {A} (c : M (env wp) A) (w : world wp) o e' :
  c (w_env w) = (o, e') -> net c w = (o, mkWorld e' (w_ledger w) (w_rng w) (w_rpos w)).
Proof. intros Hc. unfold net, zoom. by rewrite Hc. Qed.

(** The upload loop with fewer selected files than image fields: the
    files are uploaded, then [uploadImage(undefined)] throws in
    [path.basename] before any request. *)
Lemma upload_loop_short fields sel title ids (w : world wp) :
  accepts (w_env w) -> (length sel < length fields)%nat ->
  exists w', upload_loop fields sel title ids w = (Throw path_type_error, w') /\
    accepts (w_env w') /\ page_count w' = page_count w /\ w_ledger w' = w_ledger w.
Proof.
  revert sel ids w. induction fields as [|f fs IH]; intros sel ids w Hacc Hlen; [simpl in Hlen; lia|].
  destruct sel as [|p ps]; cbn [upload_loop].
  - eexists. split; [reflexivity|]. done.
  - destruct (uploadImage_wp p title (w_env w) Hacc) as (v & e' & Hu & Hacc' & Hp).
    unfold bind. rewrite (net_step _ _ _ _ Hu). cbn [tail].
    destruct (IH ps (obj_set ids f v) (mkWorld e' (w_ledger w) (w_rng w) (w_rpos w)) Hacc') as (w' & Hr & H1 & H2 & H3);
      [simpl in Hlen |- *; lia|].
    rewrite Hr. eexists. split; [reflexivity|]. split_and!; [done| |done].
    rewrite H2. unfold page_count. cbn [w_env]. exact Hp.
Qed.

(** A new page with more image fields than the pool has files: the
    page is created, the image step throws, and the ledger is left as
    it was. *)
Lemma processPage_late_failure p (w : world wp) originId title page' payload fields :
  get p "id" = Ok originId -> get2 p "title" "rendered" = Ok title ->
  findRecordByOriginId (w_ledger w) originId = Ok None ->
  assign_page_icons iconLibrary p = Ok page' -> extractFieldsForWordPress page' = Ok payload ->
  trackImageFields page' = Ok fields -> (length imagePool < length fields)%nat ->
  accepts (w_env w) ->
  exists w', processPage iconLibrary imagePool p w = (Throw path_type_error, w') /\
    accepts (w_env w') /\ w_ledger w' = w_ledger w /\ page_count w' = S (page_count w).
Proof.
  intros Hid Ht Hf Hic Hex Htr Hlen Hacc.
  assert (Hne : fields <> []) by (intros ->; simpl in Hlen; lia).
  unfold processPage, prepare_page. cbv [lift Prelude.get]. rewrite Hid, Ht, Hic.
  cbv [bind]. rewrite Hf. cbv iota beta. rewrite Hex, Htr.
  destruct (createPage_wp (strip_image_fields payload) (w_env w) Hacc) as (id & link & e1 & Hc & Hacc1 & Hp1).
  rewrite (net_step _ _ _ _ Hc).
  assert (G1 : get (VObj [("id", VNum id); ("link", VStr link)]) "id" = Ok (VNum id)) by reflexivity.
  assert (G2 : get (VObj [("id", VNum id); ("link", VStr link)]) "link" = Ok (VStr link)) by reflexivity.
  rewrite G1, G2.
  rewrite (bool_decide_eq_false_2 (fields = [])) by done.
  rewrite (bool_decide_eq_false_2 (is_Some (@None (nat * val)))) by (by intros [? ?]).
  cbv [UPLOAD_NEW_IMAGES orb andb negb select_images]. cbn [w_rng w_rpos w_env w_ledger].
  destruct (selectRandomUniqueImages imagePool (length fields) (w_rng w) (w_rpos w)) as [sel pos'] eqn:Es.
  assert (Hsel : (length sel < length fields)%nat).
  { unfold selectRandomUniqueImages in Es.
    pose proof (Permutation_length (fy_loop_perm (length imagePool - 1) imagePool (w_rng w) (w_rpos w))) as Hl.
    destruct (fy_loop _ _ _ _) as [sh q]. injection Es as <- _. cbn [fst] in Hl.
    rewrite length_take. lia. }
  destruct (upload_loop_short fields sel title [] (mkWorld e1 (w_ledger w) (w_rng w) pos') Hacc1 Hsel)
    as (w' & Hu & Hacc' & Hp' & Hl'). rewrite Hu.
  exists w'. split_and!; [reflexivity|done|done|]. rewrite Hp'. unfold page_count. exact Hp1.
Qed.

(** Runs of such a page, one after the other, each create it again. *)
Lemma main_loop_late_failure p (w : world wp) k originId title page' payload fields :
  get p "id" = Ok originId -> get2 p "title" "rendered" = Ok title ->
  findRecordByOriginId (w_ledger w) originId = Ok None ->
  assign_page_icons iconLibrary p = Ok page' -> extractFieldsForWordPress page' = Ok payload ->
  trackImageFields page' = Ok fields -> (length imagePool < length fields)%nat ->
  accepts (w_env w) ->
  exists w', main_loop iconLibrary imagePool (repeat p k) w = (Ok (repeat (Throw path_type_error) k), w') /\
    w_ledger w' = w_ledger w /\ page_count w' = (page_count w + k)%nat.
Proof.
  intros Hid Ht Hf Hic Hex Htr Hlen. revert w Hf. induction k as [|k IH]; intros w Hf Hacc.
  - exists w. split_and!; [reflexivity|reflexivity|lia].
  - destruct (processPage_late_failure p w _ _ _ _ _ Hid Ht Hf Hic Hex Htr Hlen Hacc) as (w1 & Hp & Hacc1 & Hl1 & Hc1).
    destruct (IH w1) as (w2 & Hr & Hl2 & Hc2); [by rewrite Hl1|done|].
    cbn [repeat main_loop]. unfold bind at 1, catch, bind at 1. rewrite Hp. unfold ret, bind. rewrite Hr.
    exists w2. split_and!; [reflexivity|congruence|lia].
Qed.

(** C14: a failure after the page was created duplicates it.  For a
    page whose id the ledger does not record and which has more image
    fields with a value than the image pool has files, on a site that
    accepts the credentials and a network that delivers: [createPage]
    succeeds, [selectedImages[i]] is [undefined] for the first field past
    the pool, [uploadImage] throws in [path.basename] before the ledger
    write, so the ledger keeps no record and every run of the page, [k]
    runs in a row, creates it again: [k] more pages on the site and [k]
    failures (spec section 4.3 expects a partial ledger entry, which
    would make the next run an update). *)
Theorem image_failure_duplicates p (w : world wp) k originId title page' payload fields :
  get p "id" = Ok originId -> get2 p "title" "rendered" = Ok title ->
  findRecordByOriginId (w_ledger w) originId = Ok None ->
  assign_page_icons iconLibrary p = Ok page' -> extractFieldsForWordPress page' = Ok payload ->
  trackImageFields page' = Ok fields -> (length imagePool < length fields)%nat ->
  accepts (w_env w) ->
  exists w', main_loop iconLibrary imagePool (repeat p k) w = (Ok (repeat (Throw path_type_error) k), w') /\
    w_ledger w' = w_ledger w /\ page_count w' = (page_count w + k)%nat.
Proof. apply main_loop_late_failure. Qed.

End LateFailure.

(** ** New pages on a site that accepts the credentials *)

Section NewPages.
Import WordPress.
Context (iconLibrary : list icon) (imagePool : list string).

(** [processPage] on a page the ledger does not record and with no
    image field that has a value: one [POST /pages] with the payload,
    then the record of the new page pushed onto the ledger. *)
Lemma processPage_create p (w : world wp) originId title page' payload :
  get p "id" = Ok originId -> get2 p "title" "rendered" = Ok title ->
  findRecordByOriginId (w_ledger w) originId = Ok None ->
  assign_page_icons iconLibrary p = Ok page' -> extractFieldsForWordPress page' = Ok payload ->
  trackImageFields page' = Ok [] -> accepts (w_env w) ->
  let s := srv (w_env w) in let n := wp_next s in
  let rec := json_record originId (VNum n) title (VStr (page_link (wp_base s) n)) [] in
  exists w', processPage iconLibrary imagePool p w = (Ok rec, w') /\ accepts (w_env w') /\
    wp_pages (srv (w_env w')) = (wp_pages s ++ [(n, strip_image_fields payload)])%list /\
    wp_next (srv (w_env w')) = (n + 1)%Z /\ wp_base (srv (w_env w')) = wp_base s /\
    w_ledger w' = upsert (w_ledger w) None rec.
Proof.
  intros Hid Ht Hf Hic Hex Htr Hacc s n rec.
  unfold processPage, prepare_page. cbv [lift Prelude.get]. rewrite Hid, Ht, Hic.
  cbv [bind]. rewrite Hf. cbv iota beta. rewrite Hex, Htr.
  destruct (createPage_wp_spec (strip_image_fields payload) (w_env w) Hacc) as (e1 & Hc & Hacc1 & Hp1 & Hn1 & Hb1).
  rewrite (net_step _ _ _ _ Hc).
  rewrite (bool_decide_eq_true_2 (@nil string = [])) by done.
  rewrite (bool_decide_eq_false_2 (is_Some (@None (nat * val)))) by (by intros [? ?]).
  cbv [UPLOAD_NEW_IMAGES orb andb negb hasExistingMedia ret modify].
  eexists. split; [reflexivity|]. cbn [w_env w_ledger]. by split_and!.
Qed.

(** After [processPage] pushed the record of [originId], a page with
    another id is still not recorded. *)
Lemma find_after_push L idp idq n t u :
  findRecordByOriginId L idq = Ok None -> to_js_string idp <> to_js_string idq ->
  findRecordByOriginId (upsert L None (json_record idp n t u [])) idq = Ok None.
Proof.
  destruct L as [| | | | | |l| |]; try done. cbn [upsert findRecordByOriginId].
  intros H Hne. rewrite find_record_app, H. cbn. by rewrite (proj2 (String.eqb_neq _ _) Hne).
Qed.

Lemma get_acf_obj v aps : get v "acf" = Ok (VObj aps) -> exists ps, v = VObj ps.
Proof. destruct v; vm_compute; try discriminate; eauto. Qed.

Lemma get_set_acf ps x : get (VObj (obj_set ps "acf" x)) "acf" = Ok x.
Proof. cbn [get]. unfold obj_get. by rewrite own_obj_set_eq. Qed.

(** The [acf] of a page after the icon step is a function of the [acf]
    it had: nothing outside the page enters. *)
Lemma assign_acf_result p acf sr' p' :
  get p "acf" = Ok acf ->
  (match p, acf with
   | VObj ps, VObj aps => Ok (VObj (obj_set ps "acf" (VObj (obj_set aps "services_repeater" sr'))))
   | _, _ => Ok p
   end) = Ok p' ->
  get p' "acf" = Ok (match acf with VObj aps => VObj (obj_set aps "services_repeater" sr') | _ => acf end).
Proof.
  intros Ea H. destruct acf; try (destruct p; injection H as <-; exact Ea).
  apply get_acf_obj in Ea as [ps ->]. injection H as <-. apply get_set_acf.
Qed.

Lemma assign_page_icons_acf p q p' q' :
  get p "acf" = get q "acf" ->
  assign_page_icons iconLibrary p = Ok p' -> assign_page_icons iconLibrary q = Ok q' ->
  get p' "acf" = get q' "acf".
Proof.
  intros Hpq Hp Hq. unfold assign_page_icons in Hp, Hq. rewrite <- Hpq in Hq.
  destruct (get p "acf") as [acf|e] eqn:Ea; [|done].
  destruct (truthy acf); [|injection Hp as <-; injection Hq as <-; congruence].
  destruct (get acf "services_repeater") as [sr|e]; [|done].
  destruct (truthy sr); [|injection Hp as <-; injection Hq as <-; congruence].
  destruct (assignIconsToServices sr iconLibrary) as [sr'|e]; [|done].
  rewrite (assign_acf_result _ _ _ _ Ea Hp). symmetry. exact (assign_acf_result _ _ _ _ (eq_sym Hpq) Hq).
Qed.

(** The [acf] the site stores is a function of the page's [acf]. *)
Lemma stored_acf P Q pl ql :
  get P "acf" = get Q "acf" ->
  extractFieldsForWordPress P = Ok pl -> extractFieldsForWordPress Q = Ok ql ->
  get (strip_image_fields pl) "acf" = get (strip_image_fields ql) "acf".
Proof.
  intros Hpq Hp Hq. unfold extractFieldsForWordPress in Hp, Hq. rewrite <- Hpq in Hq.
  destruct (get P "acf") as [acf|e]; [|done].
  destruct (get2 P "title" "rendered"), (get P "slug"), (get P "status"), (get2 P "content" "rendered");
    try done; injection Hp as <-.
  destruct (get2 Q "title" "rendered"), (get Q "slug"), (get Q "status"), (get2 Q "content" "rendered");
    try done; injection Hq as <-.
  reflexivity.
Qed.

(** C32: [processPage] on a new page.  For a page whose id the ledger
    does not record and none of whose image fields has a value, on a
    site that accepts the credentials and a network that delivers,
    [processPage] sends one [POST /pages]: the site stores, under its
    next id [n], the payload of [extractFieldsForWordPress] on the page
    with its icons assigned and its image fields deleted; the record
    [{originId, pageId: String(n), title, url: link}] is returned and
    pushed onto the ledger. *)
Theorem processPage_creates_page p (w : world wp) originId title page' payload :
  get p "id" = Ok originId -> get2 p "title" "rendered" = Ok title ->
  findRecordByOriginId (w_ledger w) originId = Ok None ->
  assign_page_icons iconLibrary p = Ok page' -> extractFieldsForWordPress page' = Ok payload ->
  trackImageFields page' = Ok [] -> accepts (w_env w) ->
  let s := srv (w_env w) in let n := wp_next s in
  let rec := json_record originId (VNum n) title (VStr (page_link (wp_base s) n)) [] in
  exists w', processPage iconLibrary imagePool p w = (Ok rec, w') /\ accepts (w_env w') /\
    wp_pages (srv (w_env w')) = (wp_pages s ++ [(n, strip_image_fields payload)])%list /\
    wp_next (srv (w_env w')) = (n + 1)%Z /\ wp_base (srv (w_env w')) = wp_base s /\
    w_ledger w' = upsert (w_ledger w) None rec.
Proof. apply processPage_create. Qed.

(** C38: icon uniqueness is per page, not per run.  [usedIconIds] is a
    fresh [Set] in each call of [assignIconsToServices] (line 298): two
    new pages [p] and [q] with the same [acf], run one after the other
    by the page loop of [main], are both created, and the site stores
    for [q] the same [acf], so the same [service_icon]s, as for [p]:
    the icons [p]'s services took are given again to [q]'s.  Spec
    section 8 requires that no two services of one run receive the same
    icon. *)
Theorem icons_reused_across_pages p q (w : world wp) idp idq tp tq p' q' pl ql :
  get p "id" = Ok idp -> get2 p "title" "rendered" = Ok tp ->
  get q "id" = Ok idq -> get2 q "title" "rendered" = Ok tq -> to_js_string idp <> to_js_string idq ->
  findRecordByOriginId (w_ledger w) idp = Ok None -> findRecordByOriginId (w_ledger w) idq = Ok None ->
  assign_page_icons iconLibrary p = Ok p' -> assign_page_icons iconLibrary q = Ok q' ->
  extractFieldsForWordPress p' = Ok pl -> extractFieldsForWordPress q' = Ok ql ->
  trackImageFields p' = Ok [] -> trackImageFields q' = Ok [] ->
  get p "acf" = get q "acf" -> accepts (w_env w) ->
  let n := wp_next (srv (w_env w)) in
  exists r1 r2 w', main_loop iconLibrary imagePool [p; q] w = (Ok [Ok r1; Ok r2], w') /\
    wp_pages (srv (w_env w')) =
      (wp_pages (srv (w_env w)) ++ [(n, strip_image_fields pl); ((n + 1)%Z, strip_image_fields ql)])%list /\
    get (strip_image_fields pl) "acf" = get (strip_image_fields ql) "acf".
Proof.
  intros Hid Ht Hidq Htq Hne Hfp Hfq Hip Hiq Hep Heq Htp Htq' Hacf Hacc n.
  destruct (processPage_create p w idp tp p' pl Hid Ht Hfp Hip Hep Htp Hacc) as (w1 & Hr1 & Hacc1 & Hp1 & Hn1 & _ & Hl1).
  assert (Hfq1 : findRecordByOriginId (w_ledger w1) idq = Ok None) by (rewrite Hl1; by apply find_after_push).
  destruct (processPage_create q w1 idq tq q' ql Hidq Htq Hfq1 Hiq Heq Htq' Hacc1) as (w2 & Hr2 & _ & Hp2 & _).
  eexists _, _, w2. split_and!.
  - cbn [main_loop]. unfold catch, bind, ret. rewrite Hr1. cbv beta iota. rewrite Hr2. reflexivity.
  - rewrite Hp2, Hp1, Hn1, <- app_assoc. reflexivity.
  - apply (stored_acf p' q'); [apply (assign_page_icons_acf p q)|..]; assumption.
Qed.

End NewPages.

(** ** Concrete runs on the WordPress model *)

Section Samples.
Import WordPress.

(** A source page with a service, an image field, an interlinking field
    and an empty field. *)
Definition sample_page : val :=
  VObj [("id", VNum 7); ("slug", VStr "home"); ("status", VStr "publish");
        ("title", VObj [("rendered", VStr "Home")]);
        ("content", VObj [("rendered", VStr "<p>Welcome</p>")]);
        ("acf", VObj [("services_repeater",
                       VArr [VObj [("service_title", VStr "Cloud Services"); ("icon", VNum 3)]]);
                      ("about_us_image", VNum 55); ("interlinks", VStr "a");
                      ("hero", VStr "")])].

Definition sample_pool : list string := ["images/office.webp"].

(** An empty site, a reliable network, an empty ledger. *)
Definition sample_world : world wp := mkWorld (fresh_env reliable) (VArr []) (fun _ => 0%Z) 0.

(** Two new pages with the same service and no image: the home page
    and the about page. *)
Definition services_page (id : Z) (slug title : string) : val :=
  VObj [("id", VNum id); ("slug", VStr slug); ("status", VStr "publish");
        ("title", VObj [("rendered", VStr title)]);
        ("content", VObj [("rendered", VStr "<p>Services</p>")]);
        ("acf", VObj [("services_repeater",
                       VArr [VObj [("service_title", VStr "Cloud Services"); ("service_icon", VNum 3)]])])].

(** A staged page without a title: [pageData.title.rendered] throws. *)
Definition broken_page : val := VObj [("id", VNum 8); ("slug", VStr "broken")].

(** The page results of a run over the broken page, then the sample. *)
Definition isolation_run : outcome (list (outcome (list (string * val)))) * world wp :=
  main_loop sample_lib sample_pool [broken_page; sample_page] sample_world.

(** The world after the page was migrated once. *)
Definition migrated_world : world wp :=
  Eval vm_compute in snd (processPage sample_lib sample_pool sample_page sample_world).

Lemma processPage_throw_keeps_ledger_witness :
  w_ledger (snd (processPage sample_lib [] sample_page sample_world)) = VArr [].
Proof.
  apply (processPage_throw_keeps_ledger sample_lib [] sample_page sample_world path_type_error).
  apply run_eq. vm_compute. reflexivity.
Defined.

Lemma processPage_record_type_witness :
  rec_fields_ok (ok_or [] (fst (processPage sample_lib sample_pool sample_page sample_world))).
Proof.
  apply (processPage_record_type sample_lib sample_pool sample_page sample_world _ migrated_world).
  apply run_eq. vm_compute. reflexivity.
Defined.

Lemma main_loop_ledger_ok_witness :
  ledger_ok (w_ledger (snd (main_loop sample_lib sample_pool [sample_page; sample_page] sample_world))).
Proof.
  apply (main_loop_ledger_ok sample_lib sample_pool [sample_page; sample_page] sample_world
           (fst (main_loop sample_lib sample_pool [sample_page; sample_page] sample_world)));
    [split; constructor|apply surjective_pairing].
Defined.

Lemma processPage_recorded_no_create_witness :
  page_count (snd (processPage sample_lib sample_pool sample_page migrated_world))
  = page_count migrated_world.
Proof.
  apply (processPage_recorded_no_create sample_lib sample_pool sample_page migrated_world
           (VNum 7) 0 (default VUndef (option_map snd (ok_or None
              (findRecordByOriginId (w_ledger migrated_world) (VNum 7)))))
           (fst (processPage sample_lib sample_pool sample_page migrated_world)));
    [reflexivity|vm_compute; reflexivity|apply surjective_pairing].
Defined.

Lemma processPage_rerun_no_create_witness :
  let w1 := snd (processPage sample_lib sample_pool sample_page sample_world) in
  page_count (snd (processPage sample_lib sample_pool sample_page w1)) = page_count w1 /\
  page_count w1 = 1%nat.
Proof.
  intros w1. split; [|subst w1; vm_compute; reflexivity].
  apply (processPage_rerun_no_create sample_lib sample_pool sample_page sample_world
           (ok_or [] (fst (processPage sample_lib sample_pool sample_page sample_world))) w1
           (fst (processPage sample_lib sample_pool sample_page w1)));
    [split; constructor|apply run_eq; vm_compute; reflexivity|apply surjective_pairing].
Defined.

Lemma main_loop_success_recorded_witness :
  exists originId, get sample_page "id" = Ok originId /\
    to_js_string originId ∈ ledger_origins (w_ledger (snd isolation_run)).
Proof.
  apply (main_loop_success_recorded sample_lib sample_pool [broken_page; sample_page]
           sample_world (ok_or [] (fst isolation_run)) (snd isolation_run) 1 sample_page
           (ok_or [] (default (Throw "none") (ok_or [] (fst isolation_run) !! 1%nat)))).
  - split; constructor.
  - apply run_eq. vm_compute. reflexivity.
  - reflexivity.
  - vm_compute. reflexivity.
Defined.

Lemma image_failure_duplicates_witness :
  exists w', main_loop sample_lib [] (repeat sample_page 2) sample_world
             = (Ok (repeat (Throw path_type_error) 2), w') /\
    w_ledger w' = w_ledger sample_world /\ page_count w' = (page_count sample_world + 2)%nat.
Proof.
  apply (image_failure_duplicates sample_lib [] sample_page sample_world 2
           (ok_or VUndef (get sample_page "id")) (ok_or VUndef (get2 sample_page "title" "rendered"))
           (ok_or VUndef (assign_page_icons sample_lib sample_page))
           (ok_or VUndef (extractFieldsForWordPress (ok_or VUndef (assign_page_icons sample_lib sample_page))))
           (ok_or [] (trackImageFields (ok_or VUndef (assign_page_icons sample_lib sample_page)))));
    try (vm_compute; reflexivity).
  all: first [apply Nat.ltb_lt; vm_compute; reflexivity | split; [vm_compute; reflexivity|intros i; reflexivity]].
Defined.

Lemma processPage_creates_page_witness :
  exists w', processPage sample_lib [] (services_page 7 "home" "Home") sample_world =
    (Ok (json_record (VNum 7) (VNum 100) (VStr "Home") (VStr (page_link "https://staging.example.com" 100)) []), w').
Proof.
  edestruct (processPage_creates_page sample_lib [] (services_page 7 "home" "Home") sample_world
    (VNum 7) (VStr "Home") (ok_or VUndef (assign_page_icons sample_lib (services_page 7 "home" "Home")))
    (ok_or VUndef (extractFieldsForWordPress (ok_or VUndef (assign_page_icons sample_lib (services_page 7 "home" "Home"))))))
    as (w' & Hr & _); try (vm_compute; reflexivity).
  - split; [vm_compute; reflexivity|intros i; reflexivity].
  - exists w'. exact Hr.
Defined.

(** Both pages get the icon [4] of the library: the stored [acf] of the
    about page is that of the home page. *)
Lemma icons_reused_across_pages_witness :
  exists r1 r2 w', main_loop sample_lib [] [services_page 7 "home" "Home"; services_page 8 "about" "About"] sample_world
    = (Ok [Ok r1; Ok r2], w') /\
    map (fun ip => get ip.2 "acf") (wp_pages (srv (w_env w'))) =
      [Ok (VObj [("services_repeater", VArr [VObj [("service_title", VStr "Cloud Services"); ("service_icon", VNum 4)]]);
                 ("disable_automatic_interlinking", VBool false)]);
       Ok (VObj [("services_repeater", VArr [VObj [("service_title", VStr "Cloud Services"); ("service_icon", VNum 4)]]);
                 ("disable_automatic_interlinking", VBool false)])].
Proof.
  edestruct (icons_reused_across_pages sample_lib [] (services_page 7 "home" "Home") (services_page 8 "about" "About")
    sample_world (VNum 7) (VNum 8) (VStr "Home") (VStr "About")
    (ok_or VUndef (assign_page_icons sample_lib (services_page 7 "home" "Home")))
    (ok_or VUndef (assign_page_icons sample_lib (services_page 8 "about" "About")))
    (ok_or VUndef (extractFieldsForWordPress (ok_or VUndef (assign_page_icons sample_lib (services_page 7 "home" "Home")))))
    (ok_or VUndef (extractFieldsForWordPress (ok_or VUndef (assign_page_icons sample_lib (services_page 8 "about" "About"))))))
    as (r1 & r2 & w' & Hr & Hp & _); try (vm_compute; reflexivity).
  - vm_compute. discriminate.
  - split; [vm_compute; reflexivity|intros i; reflexivity].
  - exists r1, r2, w'. split; [exact Hr|]. rewrite Hp. vm_compute. reflexivity.
Defined.

End Samples.

End Orchestrator.
