(* ===== verification/PageFetcher.v ===== *)
(** * Page fetcher ([src/step_1.js])

    Step 1 reads [urls.txt] (one URL a line, trimmed, blank lines
    dropped) and, for each URL in order, [getPageData(url)]: parse the
    URL, take its last non-empty path segment as the slug, [GET
    <origin>/wp-json/wp/v2/pages?slug=<slug>], and when the answer is a
    non-empty array write its first element to [pages/<id>.json].  Every
    error inside [getPageData] (an invalid URL, a network error, a body
    that is not JSON, a [null] page) is caught and logged, so the loop
    always goes on to the next URL.

    The state is the request environment of [RemoteApi] (the old site is
    a [Server]; every URL is assumed to name the same site) and the
    directory [pages/] as a finite map from file name to the text
    written, [JSON.stringify(page, null, 2)] ([Json.stringify]).  The
    script checks [WP_USER] and [WP_PASS] and sends every request with
    the header built from them ([Auth.wpAuthHeader]); a site that does
    not accept it answers 401, which [getPageData] logs and skips.

    Two library calls of the script are not code of the repository:
    [new URL(url)] (the WHATWG URL parser of the runtime) and [fetch] of
    the resulting origin.  Their combined effect is a parameter, the
    class [UrlParser]: [url_fetchable url] says that [new URL(url)]
    succeeds with an [http:] or [https:] origin, so that [fetch] sends
    the request; any other string makes the [try] block throw before any
    request (an invalid URL, or an origin ["null"] or a scheme that
    node-fetch refuses).  Every theorem holds for every parser.
    [path.join(OUTPUT_DIR, name)] is modelled as Node's POSIX join: the
    [/]-separated segments of the name, without the empty ones and [.],
    each [..] going up a directory, resolved from [OUTPUT_DIR]
    ([process.cwd()] followed by [pages]).  The slug is inserted in the
    query without encoding, as the code does. *)

From S2P Require Import Prelude Auth JsString JsValue Json RemoteApi WordPress Retry.
From Stdlib Require Import Ascii.
Open Scope string_scope.
#[local] Set Warnings "-clear-no-such-hyp".

Module PageFetcher.
Import Auth JsString JsValue Json RemoteApi WordPress.

(** [urlsFile.split("\n").map(u => u.trim()).filter(Boolean)] *)
Definition urls_of (content : string) : list string :=
  List.filter (fun u => negb (String.eqb u "")) (map trim (split_char (ascii_of_nat 10) content)).

(** [new URL(url)] followed by [fetch] of its origin: whether the
    request is sent.  The WHATWG parser is the runtime's, a parameter of
    the model. *)
Class UrlParser := url_fetchable : string -> bool.

(** [url.split("/").filter(Boolean).pop()] *)
Definition slug_of (url : string) : val :=
  match List.last (List.filter (fun x => negb (String.eqb x "")) (split_char "/"%char url)) "" with
  | "" => VUndef
  | s => VStr s
  end.

(** [path.join] on POSIX: resolve [/]-separated segments from a
    directory, given as its segments from the innermost; an empty
    segment and [.] stay, [..] goes up (not above the root). *)
Fixpoint resolve (dir : list string) (segs : list string) : list string :=
  match segs with
  | [] => dir
  | s :: r =>
      if String.eqb s "" || String.eqb s "." then resolve dir r
      else if String.eqb s ".." then resolve (tail dir) r
      else resolve (s :: dir) r
  end.

Definition join_path (dir : list string) (name : string) : list string :=
  resolve dir (split_char "/"%char name).

(** [OUTPUT_DIR = path.join(process.cwd(), "pages")] *)
Definition out_dir (cwd : string) : list string := join_path [] (cwd +:+ "/pages").

(** The directory [pages/]: file name to text. *)
Definition files := gmap string string.

(** The run state: the request environment, the files of [pages/], and
    the files written elsewhere (by their path, from the innermost
    segment), which step 1 never means to write. *)
Record fetch_state (St : Type) : Type := mkFetchState {
  fs_env : env St;
  fs_files : files;
  fs_elsewhere : gmap (list string) string
}.
Arguments mkFetchState {St} _ _ _.
Arguments fs_env {St} _.
Arguments fs_files {St} _.
Arguments fs_elsewhere {St} _.

Section Fetcher.
Context {St : Type} `{Server St} `{UrlParser} (cwd : string).

Abbreviation F := (fetch_state St).

Definition on_env {A} (c : M (env St) A) : M F A :=
  zoom fs_env (fun e w => mkFetchState e (fs_files w) (fs_elsewhere w)) c.

(** [fs.writeFileSync(path.join(OUTPUT_DIR, name), JSON.stringify(page,
    null, 2), "utf8")]: the data is checked first; a path that resolves
    into [pages/] writes a file there, one in a directory below it fails
    ([pages/] holds the files step 1 wrote and no directory), any other
    is written where it resolves. *)
Definition write_page (name : string) (page : val) : M F unit :=
  match stringify page with
  | None => throw "The data argument must be of type string. Received undefined"
  | Some text =>
      let dir := out_dir cwd in
      match join_path dir name with
      | n :: d =>
          if bool_decide (d = dir) then
            modify (fun w => mkFetchState (fs_env w) (<[n := text]> (fs_files w)) (fs_elsewhere w))
          else if bool_decide (length dir < length d)%nat && bool_decide (drop (length d - length dir) d = dir)
          then throw "ENOENT: no such file or directory"
          else modify (fun w => mkFetchState (fs_env w) (fs_files w) (<[n :: d := text]> (fs_elsewhere w)))
      | [] => throw "EISDIR: illegal operation on a directory"
      end
  end.

(** The [try] block of [getPageData(url)]. *)
Definition get_page_body (url : string) : M F unit :=
  if negb (url_fetchable url) then throw "Invalid URL"
  else
    let slug := to_js_string (slug_of url) in
    bind (on_env (fetch (ReqPagesBySlug slug))) (fun response =>
    if negb (resp_ok response) then ret tt
    else match resp_json response with
         | None => throw Retry.json_error
         | Some (VArr (page :: _)) =>
             match get page "id" with
             | Throw e => throw e
             | Ok pageId => write_page (to_js_string pageId +:+ ".json") page
             end
         | Some _ => ret tt
         end).

(** [getPageData(url)]: errors are caught and logged. *)
Definition getPageData (url : string) : M F unit :=
  catch (get_page_body url) (fun _ => ret tt).

(** The [for (const url of urls)] loop. *)
Fixpoint fetch_pages (urls : list string) : M F unit :=
  match urls with
  | [] => ret tt
  | u :: us => bind (getPageData u) (fun _ => fetch_pages us)
  end.

(** The script: the credential check ([process.exit(1)] when missing),
    then the loop over the URLs of [urls.txt], every request carrying
    the header of [WP_USER] and [WP_PASS]. *)
Definition step1 (cfg : env_vars) (urlsFile : string) : M F unit :=
  if negb (wpCredentialsPresent cfg) then ret tt
  else bind (on_env (modify (set_hdr (wpAuthHeader cfg)))) (fun _ => fetch_pages (urls_of urlsFile)).

(** Every file of [pages/] holds a page, under the name that
    [path.join(OUTPUT_DIR, `${id}.json`)] gives for the page's id. *)
Definition files_ok (f : files) : Prop :=
  map_Forall (fun name text => exists p id, stringify p = Some text /\ get p "id" = Ok id /\
                 join_path (out_dir cwd) (to_js_string id +:+ ".json") = name :: out_dir cwd) f.

End Fetcher.

(** The files step 1 should leave on a site: for each URL the parser
    lets through, in order, the first page whose slug is the URL's slug,
    under its id. *)
Definition expected_files `{UrlParser} (s : wp) (urls : list string) (f0 : files) : files :=
  fold_left (fun f u =>
    if url_fetchable u then
      match List.filter (slug_is (to_js_string (slug_of u))) (wp_pages s) with
      | (id, p) :: _ => <[pretty id +:+ ".json" := default "" (stringify (page_json (id, p)))]> f
      | [] => f
      end
    else f) urls f0.

(** An old site with a home page and a services page. *)
Definition old_site : wp :=
  mkWp [(7%Z, VObj [("slug", VStr "home"); ("status", VStr "publish");
                    ("title", VObj [("rendered", VStr "Home")]);
                    ("content", VObj [("rendered", VStr "<p>Welcome</p>")])]);
        (9%Z, VObj [("slug", VStr "services"); ("status", VStr "publish");
                    ("title", VObj [("rendered", VStr "Services")]);
                    ("content", VObj [("rendered", VStr "<p>What we do</p>")])])]
       [] 10 "https://old.example.com" [("admin", "old site pass")].

(** The [.env] of step 1 for the old site. *)
Definition old_cfg : env_vars := mkEnvVars None None None (Some "admin") (Some "old site pass").

(** [urls.txt]: two page URLs (one indented), a blank line, the site's
    root, and a URL with a query string. *)
Definition sample_urls_file : string :=
  "https://old.example.com/home/" +:+ String (ascii_of_nat 10) (
  "  https://old.example.com/services" +:+ String (ascii_of_nat 10) (
  String (ascii_of_nat 10) (
  "https://old.example.com/" +:+ String (ascii_of_nat 10) (
  "https://old.example.com/services/?ref=nav" +:+ String (ascii_of_nat 10) "")))).

(** The parser of the samples: it lets the [http://] and [https://]
    URLs through, as [new URL] does for every URL of [sample_urls_file]. *)
#[export] Instance sample_parser : UrlParser :=
  fun u => String.prefix "https://" u || String.prefix "http://" u.

Definition sample_cwd : string := "/srv/migration".

Definition sample_start : fetch_state wp :=
  mkFetchState (mkEnv old_site reliable 0 [] (wpAuthHeader old_cfg)) ∅ ∅.

(** ** Lemmas *)

(** A name without [/] that is not [.] or [..] is joined as is. *)
Lemma join_path_plain dir name :
  "/"%char ∉ chars name -> name <> "" -> name <> "." -> name <> ".." -> join_path dir name = name :: dir.
Proof.
  intros Hs H0 H1 H2. unfold join_path. rewrite split_char_no_sep by done. cbn [resolve].
  by rewrite (proj2 (String.eqb_neq _ _) H0), (proj2 (String.eqb_neq _ _) H1), (proj2 (String.eqb_neq _ _) H2).
Qed.

(** The file name of a page of the WordPress model. *)
Lemma join_path_id dir (id : Z) : join_path dir (pretty id +:+ ".json") = (pretty id +:+ ".json") :: dir.
Proof.
  assert (Hlen : forall t, (String.length t <= 2)%nat -> pretty id +:+ ".json" <> t).
  { intros t Ht E. rewrite <- E, length_app_str in Ht. simpl in Ht. lia. }
  apply join_path_plain; [|apply Hlen; simpl; lia..].
  rewrite chars_app. intros [Hin|Hin]%elem_of_app.
  - by destruct (chars_pretty id _ Hin).
  - apply list_elem_of_In in Hin. vm_compute in Hin. intuition discriminate.
Qed.

Section FetcherLemmas.
Context {St : Type} `{Server St} `{UrlParser} (cwd : string).

Lemma getPageData_ok u (w : fetch_state St) : exists w', getPageData cwd u w = (Ok tt, w').
Proof.
  unfold getPageData, catch. destruct (get_page_body cwd u w) as [[[]|e] w']; eauto.
Qed.

(** [getPageData] writes into [pages/] only under the name its page's
    id gives. *)
Lemma getPageData_files_ok u (w : fetch_state St) o w' :
  files_ok cwd (fs_files w) -> getPageData cwd u w = (o, w') -> files_ok cwd (fs_files w').
Proof.
  intros Hok. unfold getPageData, catch, get_page_body.
  destruct (url_fetchable u); cbn [negb]; [|intros [= _ <-]; done].
  unfold bind at 1. unfold on_env, zoom.
  destruct (fetch _ (fs_env w)) as [[r|e] e1]; [|intros [= _ <-]; done].
  destruct (resp_ok r); cbn [negb]; [|intros [= _ <-]; done].
  destruct (resp_json r) as [[| | | | | |[|page l]| |]|]; try (intros [= _ <-]; done).
  destruct (get page "id") as [id|e] eqn:Hid; [|intros [= _ <-]; done].
  unfold write_page. destruct (stringify page) as [text|] eqn:Ht; [|intros [= _ <-]; done]. cbv zeta.
  destruct (join_path (out_dir cwd) (to_js_string id +:+ ".json")) as [|n d] eqn:Hj; [intros [= _ <-]; done|].
  destruct (bool_decide (d = out_dir cwd)) eqn:Hd.
  - apply bool_decide_eq_true_1 in Hd. subst d. intros [= _ <-]. cbn [fs_files].
    apply map_Forall_insert_2; [|done]. eauto.
  - destruct (_ && _); intros [= _ <-]; done.
Qed.

End FetcherLemmas.

(** With its credentials set, the script is the loop with their header. *)
Lemma step1_run {St} `{Server St} `{UrlParser} cwd cfg urlsFile (w : fetch_state St) :
  wpCredentialsPresent cfg = true ->
  step1 cwd cfg urlsFile w =
  fetch_pages cwd (urls_of urlsFile) (mkFetchState (set_hdr (wpAuthHeader cfg) (fs_env w)) (fs_files w) (fs_elsewhere w)).
Proof. intros Hc. unfold step1. by rewrite Hc. Qed.

(** Pages stored as objects, as [POST /pages] stores them. *)
Definition pages_are_objects (s : wp) : Prop := Forall (fun p => exists ps, p.2 = VObj ps) (wp_pages s).

Section OnWordPress.
Context `{UrlParser} (cwd : string).

(** One URL on a reliable network: the site is unchanged and the file
    of the first page with the slug is written. *)
Lemma getPageData_wp s u f el n sl h :
  wp_authenticate h s = None -> pages_are_objects s ->
  getPageData cwd u (mkFetchState (mkEnv s reliable n sl h) f el) =
  (Ok tt, mkFetchState (mkEnv s reliable (if url_fetchable u then S n else n) sl h)
            (expected_files s [u] f) el).
Proof.
  intros Ha Hobj. unfold getPageData, catch, get_page_body, expected_files. cbn [fold_left].
  destruct (url_fetchable u); cbn [negb]; [|done].
  unfold bind at 1, on_env, zoom, fetch.
  cbn [RemoteApi.net srv sent slept hdr fs_env fs_files fs_elsewhere reliable handle wp_server].
  rewrite wp_handle_accepted by done.
  cbn [wp_route resp_ok status negb resp_json].
  destruct (List.filter _ (wp_pages s)) as [|[id p] l] eqn:Ef; [done|].
  assert (Hp : exists ps, p = VObj ps).
  { assert (Hin : (id, p) ∈ wp_pages s).
    { apply (filter_elem_of (slug_is (to_js_string (slug_of u)))). rewrite Ef. set_solver. }
    eapply Forall_forall in Hobj; [|exact Hin]. exact Hobj. }
  destruct Hp as [ps ->]. unfold write_page.
  destruct (stringify_VObj (("id", VNum id) :: ps)) as [text Ht]. cbn [map page_json fst snd].
  rewrite Ht. cbv zeta.
  assert (Hok : resp_ok (mkResponse 200 "" (Some (VArr (VObj (("id", VNum id) :: ps) :: map page_json l))))
                = true) by reflexivity.
  assert (Hg : get (VObj (("id", VNum id) :: ps)) "id" = Ok (VNum id)) by reflexivity.
  rewrite Hok, Hg. cbn [negb]. change (to_js_string (VNum id)) with (pretty id).
  rewrite join_path_id, bool_decide_eq_true_2 by done. reflexivity.
Qed.

Lemma fetch_pages_expected s urls f el n sl h :
  wp_authenticate h s = None -> pages_are_objects s ->
  fs_files (snd (fetch_pages cwd urls (mkFetchState (mkEnv s reliable n sl h) f el))) = expected_files s urls f.
Proof.
  intros Ha Hobj. revert f n. induction urls as [|u us IH]; intros f n; [done|].
  cbn [fetch_pages]. unfold bind at 1. rewrite getPageData_wp by done.
  rewrite IH. reflexivity.
Qed.

End OnWordPress.

(** Every file of [expected_files] holds the text of a page of the site. *)
Lemma expected_files_pages `{UrlParser} s urls f0 :
  map_Forall (fun _ t => exists id p, (id, p) ∈ wp_pages s /\ stringify (page_json (id, p)) = Some t) f0 ->
  pages_are_objects s ->
  map_Forall (fun _ t => exists id p, (id, p) ∈ wp_pages s /\ stringify (page_json (id, p)) = Some t)
    (expected_files s urls f0).
Proof.
  intros H0 Hobj. unfold expected_files. revert f0 H0. induction urls as [|u us IH]; intros f0 H0; [done|].
  cbn [fold_left]. apply IH. destruct (url_fetchable u); [|done].
  destruct (List.filter _ (wp_pages s)) as [|[id p] l] eqn:Ef; [done|].
  assert (Hin : (id, p) ∈ wp_pages s).
  { apply (filter_elem_of (slug_is (to_js_string (slug_of u)))). rewrite Ef. set_solver. }
  eapply Forall_forall in Hobj as [ps Hp]; [|exact Hin]. cbn [snd] in Hp. subst p.
  destruct (stringify_VObj (("id", VNum id) :: ps)) as [t Ht].
  apply map_Forall_insert_2; [|done]. exists id, (VObj ps). split; [done|].
  cbn [page_json fst snd]. rewrite Ht. reflexivity.
Qed.

(** C27: failure isolation of step 1: the loop never throws, whatever
    the URLs, the network and the site do; every URL is tried in turn. *)
Theorem fetch_pages_total {St} `{Server St} `{UrlParser} cwd urls (w : fetch_state St) :
  exists w', fetch_pages cwd urls w = (Ok tt, w').
Proof.
  revert w. induction urls as [|u us IH]; intros w; [by eexists|].
  cbn [fetch_pages]. destruct (getPageData_ok cwd u w) as [w1 E].
  unfold bind. rewrite E. apply IH.
Qed.

(** C28: every file step 1 writes into [pages/] holds a page, under the
    name [path.join(OUTPUT_DIR, `${id}.json`)] resolves to for the id
    of that page (the id ["./7"] gives [pages/7.json]), whatever the
    URLs, the network and the site do; files that were there before
    keep this property. *)
Theorem fetch_pages_files_ok {St} `{Server St} `{UrlParser} cwd urls (w : fetch_state St) o w' :
  files_ok cwd (fs_files w) -> fetch_pages cwd urls w = (o, w') -> files_ok cwd (fs_files w').
Proof.
  revert w o. induction urls as [|u us IH]; intros w o Hok; cbn [fetch_pages].
  - by intros [= _ <-].
  - unfold bind. destruct (getPageData cwd u w) as [[[]|e] w1] eqn:E;
      [|by intros [= _ <-]; eapply getPageData_files_ok].
    apply IH. by eapply getPageData_files_ok.
Qed.



Lemma fetch_pages_files_ok_witness :
  files_ok sample_cwd (fs_files (snd (fetch_pages sample_cwd (urls_of sample_urls_file) sample_start))).
Proof.
  apply (fetch_pages_files_ok sample_cwd (urls_of sample_urls_file) sample_start
           (fst (fetch_pages sample_cwd (urls_of sample_urls_file) sample_start))).
  - apply map_Forall_empty.
  - apply surjective_pairing.
Defined.



End PageFetcher.
