(* ===== verification/Migration.v ===== *)
(** * A run of the migration over the disk ([src/step_2.js], [main])

    [main] (lines 731-826) ties the components together through the
    files of the working directory:
    - it checks the credentials (a [throw] that [main().catch] turns into
      [process.exit(1)]), and every request after it carries
      [getAuthHeader()] ([main] sets the header of the environment from
      the configuration, [main_body] is the rest);
    - [loadOrFetchSvgMedia] writes [icon_files.csv] when it is missing
      ([MediaFetch]), and [loadIconLibrary] reads it ([IconCatalog]);
    - [loadImagePool] lists [images/] ([ImagePool]);
    - [loadJSON] reads [created_pages.json] ([Ledger]; a text that
      [JSON.parse] rejects makes it throw, which ends the run);
    - the [.json] entries of [pages/] (only the first in [TEST_MODE]) are
      processed in a loop whose body reads and parses the file and runs
      [processPage] ([Orchestrator]) inside [try]/[catch];
    - [writeJSON] writes the ledger back, and the summary counts the
      successes and the failures.

    The state of a run is the [world] of [Orchestrator] (network
    environment, ledger in memory, [Math.random] oracle) and the
    [disk]: the texts of [icon_files.csv], [created_pages.json] and of
    the files of [pages/], and the entries of [images/].  The directory
    [pages/] is the one step 1 writes ([PageFetcher.files]), so a run of
    step 1 followed by a run of step 2 is a composition of the two
    models.  [fs.readdirSync] lists a directory in ascending code-unit
    order (libuv sorts the entries).

    The theorems compose the component results: the pages step 2
    processes are the pages step 1 fetched, read back through their JSON
    files; a second run on the disk the first one left creates no page;
    a ledger file outside the JSON grammar aborts the run before any
    page is touched and leaves the file as it was; credentials the site
    rejects fail every page and write an icon catalogue with no icon,
    which every later run keeps. *)

From S2P Require Import Prelude Auth JsString JsValue Json IconMatcher ImagePool Ledger.
From S2P Require Import RemoteApi WordPress Retry IconCatalog MediaFetch Orchestrator PageFetcher.
From stdpp Require Import sorting.
Open Scope string_scope.
#[local] Set Warnings "-clear-no-such-hyp".

Module Migration.
Import Auth JsString JsValue Json IconMatcher ImagePool Ledger RemoteApi WordPress IconCatalog MediaFetch Orchestrator PageFetcher.

(** The files the script reads and writes. *)
Record disk : Type := mkDisk {
  d_icons : option string;        (** [icon_files.csv] *)
  d_ledger : option string;       (** [created_pages.json] *)
  d_pages : PageFetcher.files;    (** [pages/]: file name to text *)
  d_images : list string          (** the entries of [images/] *)
}.

#[export] Instance string_leb_dec : RelDecision (fun a b : string => String.leb a b = true) :=
  fun a b => decide (String.leb a b = true).

(** [fs.readdirSync(dir)]: the names in ascending order. *)
Definition readdir (d : PageFetcher.files) : list string :=
  merge_sort (fun a b => String.leb a b = true) (map fst (map_to_list d)).

(** [jsonFiles]: the [.json] entries of [pages/]; [jsonFiles.slice(0, 1)]
    in [TEST_MODE]. *)
Definition json_files (d : PageFetcher.files) : list string :=
  let fs := List.filter (fun f => endsWith f ".json") (readdir d) in
  if TEST_MODE then take 1 fs else fs.

(** [fs.readFileSync(jsonFile, "utf8")] of each listed file. *)
Definition page_texts (d : PageFetcher.files) : list string :=
  map (fun f => default "" (d !! f)) (json_files d).

(** The summary: [results.filter(r => r.success).length] and
    [results.filter(r => !r.success).length]. *)
Definition is_success {A} (r : outcome A) : bool := match r with Ok _ => true | Throw _ => false end.

Definition summary {A} (results : list (outcome A)) : nat * nat :=
  (length (List.filter is_success results), length (List.filter (fun r => negb (is_success r)) results)).

Section Program.
Context {St : Type} `{Server St}.
(** The bound on the pages of the media listing, and [process.cwd()]. *)
Context (fuel : nat) (cwd : string).

Record state : Type := mkState {
  s_world : world St;
  s_disk : disk
}.

Definition on_world {A} (c : M (world St) A) : M state A :=
  zoom s_world (fun w s => mkState w (s_disk s)) c.

Definition set_disk (f : disk -> disk) : M state unit :=
  modify (fun s => mkState (s_world s) (f (s_disk s))).

(** [processPage(jsonFile, ...)]: [JSON.parse(fs.readFileSync(jsonFile))]
    (line 509) then the rest of [processPage]. *)
Definition processPageFile (lib : list icon) (pool : list string) (text : string)
    : M (world St) (list (string * val)) :=
  bind (lift (JSON_parse text)) (processPage lib pool).

(** The [for] loop of [main] over the page files. *)
Fixpoint main_loop_files (lib : list icon) (pool : list string) (texts : list string)
    : M (world St) (list (outcome (list (string * val)))) :=
  match texts with
  | [] => ret []
  | t :: ts =>
      bind (catch (bind (processPageFile lib pool t) (fun r => ret (Ok r))) (fun e => ret (Throw e)))
        (fun r => bind (main_loop_files lib pool ts) (fun rs => ret (r :: rs)))
  end.

(** The body of [main()] after the credential check.  The
    [console.log] of [jsonRecords.length] (line 760) reads a property of
    the parsed ledger, which throws when the file holds [null]. *)
Definition main_body : M state (list (outcome (list (string * val)))) :=
    bind Prelude.get (fun s0 =>
    bind (on_world (net (loadOrFetchSvgMedia fuel (d_icons (s_disk s0))))) (fun icons =>
    bind (set_disk (fun d => mkDisk icons (d_ledger d) (d_pages d) (d_images d))) (fun _ =>
    let iconLibrary := loadIconLibrary icons in
    let imagePool := loadImagePool (cwd +:+ "/images") (d_images (s_disk s0)) in
    bind (lift (loadJSON (d_ledger (s_disk s0)))) (fun jsonRecords =>
    bind (lift (get jsonRecords "length")) (fun _ =>
    bind (on_world (modify (fun w => mkWorld (w_env w) jsonRecords (w_rng w) (w_rpos w)))) (fun _ =>
    bind (on_world (main_loop_files iconLibrary imagePool (page_texts (d_pages (s_disk s0))))) (fun results =>
    bind Prelude.get (fun s1 =>
    bind (lift (writeJSON (w_ledger (s_world s1)))) (fun text =>
    bind (set_disk (fun d => mkDisk (d_icons d) (Some text) (d_pages d) (d_images d))) (fun _ =>
    ret results)))))))))).

(** [main()]: its results, or the error that ends the process.  After
    the credential check every request carries [getAuthHeader()]. *)
Definition main (cfg : env_vars) : M state (list (outcome (list (string * val)))) :=
  if negb (stagingCredentialsPresent cfg) then throw "Missing environment variables. Check .env file."
  else bind (on_world (net (modify (set_hdr (getAuthHeader cfg))))) (fun _ => main_body).

End Program.

(** ** The loop over the page files *)

Section Loop.
Context {St : Type} `{Server St}.
Context (lib : list icon) (pool : list string).

(** A file that parses is processed as its page. *)
Lemma processPageFile_parsed t p : JSON_parse t = Ok p -> processPageFile lib pool t = processPage lib pool p.
Proof. intros Hp. unfold processPageFile. by rewrite Hp. Qed.

Lemma processPageFile_inv t (w : world St) o w' :
  processPageFile lib pool t w = (o, w') ->
  (exists e, JSON_parse t = Throw e /\ o = Throw e /\ w' = w) \/
  (exists p, JSON_parse t = Ok p /\ processPage lib pool p w = (o, w')).
Proof.
  unfold processPageFile, bind, lift. destruct (JSON_parse t) as [p|e]; [by right; eauto|].
  intros [= <- <-]. left. eauto.
Qed.

(** Files that all parse: the loop is [main_loop] on their pages. *)
Lemma main_loop_files_parsed texts pages :
  Forall2 (fun t p => JSON_parse t = Ok p) texts pages ->
  main_loop_files lib pool texts = main_loop lib pool pages.
Proof.
  induction 1 as [|t p ts ps Hp _ IH]; [done|]. cbn [main_loop_files main_loop].
  by rewrite (processPageFile_parsed t p Hp), IH.
Qed.

(** What a page file does to the ledger: a file that does not parse
    leaves it alone, a page is [processPage]. *)
Lemma processPageFile_ledger t (w : world St) o w' :
  ledger_wf (w_ledger w) -> processPageFile lib pool t w = (o, w') ->
  ledger_wf (w_ledger w') /\ ledger_origins (w_ledger w) ⊆ ledger_origins (w_ledger w') /\
  (forall rec, o = Ok rec -> exists p originId, JSON_parse t = Ok p /\ get p "id" = Ok originId /\
                 to_js_string originId ∈ ledger_origins (w_ledger w')).
Proof.
  intros Hwf Hrun. apply processPageFile_inv in Hrun as [(e & _ & -> & ->)|(p & Hp & Hrun)].
  - split_and!; [done|done|discriminate].
  - split_and!.
    + by eapply processPage_ledger_wf.
    + eapply processPage_origins; [apply Hwf|exact Hrun].
    + intros rec ->. destruct (processPage_Ok_origin _ _ _ _ _ _ (proj1 Hwf) Hrun) as (i & Hi & Hin).
      eauto.
Qed.

(** The loop keeps the ledger well formed and forgets no origin id. *)
Lemma main_loop_files_ledger texts (w : world St) o w' :
  ledger_wf (w_ledger w) -> main_loop_files lib pool texts w = (o, w') ->
  ledger_wf (w_ledger w') /\ ledger_origins (w_ledger w) ⊆ ledger_origins (w_ledger w').
Proof.
  revert w o w'. induction texts as [|t ts IH]; intros w o w' Hwf; cbn [main_loop_files].
  - by intros [= _ <-].
  - unfold bind at 1, catch, bind at 1.
    destruct (processPageFile lib pool t w) as [r w1] eqn:Ep.
    destruct (processPageFile_ledger t w r w1 Hwf Ep) as (Hwf1 & Hsub & _).
    destruct (main_loop_files lib pool ts w1) as [o2 w2] eqn:E. destruct (IH _ _ _ Hwf1 E).
    destruct r; unfold ret, bind; rewrite E; destruct o2; intros [= _ <-]; split; set_solver.
Qed.

(** A loop whose files all succeed: every file is a page whose origin id
    is in the ledger at the end, and the ledger stays well formed. *)
Lemma main_loop_files_success texts (w : world St) outs w' :
  ledger_wf (w_ledger w) -> main_loop_files lib pool texts w = (Ok outs, w') ->
  Forall (fun r => is_success r = true) outs ->
  ledger_wf (w_ledger w') /\
  Forall (fun t => exists p originId, JSON_parse t = Ok p /\ get p "id" = Ok originId /\
                     to_js_string originId ∈ ledger_origins (w_ledger w')) texts.
Proof.
  revert w outs. induction texts as [|t ts IH]; intros w outs Hwf; cbn [main_loop_files].
  - intros [= _ <-] _. done.
  - unfold bind at 1, catch, bind at 1.
    destruct (processPageFile lib pool t w) as [r w1] eqn:Ep.
    destruct (processPageFile_ledger t w r w1 Hwf Ep) as (Hwf1 & Hsub & Hrec).
    destruct (main_loop_files lib pool ts w1) as [[rs|m] w2] eqn:E;
      destruct r as [rec|e]; unfold ret, bind; rewrite E; intros [= <- <-]; intros Hall;
      apply Forall_cons in Hall as [Hr Hall]; try discriminate.
    destruct (IH w1 rs Hwf1 E Hall) as [Hwf2 Hts]. split; [done|]. constructor; [|done].
    destruct (Hrec rec eq_refl) as (p & i & Hp & Hi & Hin). exists p, i. split_and!; [done|done|].
    pose proof (proj2 (main_loop_files_ledger ts w1 _ _ Hwf1 E)). set_solver.
Qed.

Lemma main_loop_files_length texts (w : world St) rs w' :
  main_loop_files lib pool texts w = (Ok rs, w') -> length rs = length texts.
Proof.
  revert w rs w'. induction texts as [|t ts IH]; intros w rs w'; cbn [main_loop_files].
  - by intros [= <- _].
  - unfold bind at 1, catch, bind at 1.
    destruct (processPageFile lib pool t w) as [[r|e] w1]; unfold ret, bind;
      destruct (main_loop_files lib pool ts w1) as [[rs'|m] w2] eqn:E; intros [= <- _];
      cbn [length]; by rewrite (IH _ _ _ E).
Qed.

(** Against a site that rejects the credentials, no page file
    succeeds, and the site and the header stay as they were. *)
Lemma processPageFile_frozen t (w : world St) : keeps (via w_env frozen) (processPageFile lib pool t) w.
Proof.
  unfold processPageFile. apply keeps_bind; [typeclasses eauto|apply keeps_lift; typeclasses eauto|].
  intros. apply processPage_frozen.
Qed.

Lemma processPageFile_rejected t (w : world St) : rejects (w_env w) -> fails (processPageFile lib pool t) w.
Proof.
  intros Hr. apply fails_bind_r. intros p w2 Hp. cbv [lift] in Hp. injection Hp as _ <-.
  by apply processPage_rejected.
Qed.

Lemma main_loop_files_rejected texts (w : world St) o w' :
  rejects (w_env w) -> main_loop_files lib pool texts w = (o, w') ->
  via w_env frozen w w' /\ forall rs, o = Ok rs -> Forall (fun r => is_success r = false) rs.
Proof.
  revert w o w'. induction texts as [|t ts IH]; intros w o w' Hr; cbn [main_loop_files].
  - intros [= <- <-]. split; [reflexivity|]. by intros rs [= <-].
  - unfold bind at 1, catch, bind at 1.
    destruct (processPageFile lib pool t w) as [[r|e] w1] eqn:Ep.
    { destruct (processPageFile_rejected t w Hr _ _ Ep) as [m [=]]. }
    pose proof (processPageFile_frozen t w _ _ Ep) as Hf1.
    destruct (main_loop_files lib pool ts w1) as [o2 w2] eqn:E.
    destruct (IH w1 o2 w2 (rejects_frozen _ _ Hr Hf1) E) as [Hf2 Hrs].
    unfold ret, bind. rewrite E. destruct o2 as [rs|m]; intros [= <- <-]; (split; [by etransitivity|]).
    + intros rs' [= <-]. constructor; [done|]. by apply Hrs.
    + discriminate.
Qed.

Lemma keeps_main_loop_files_frozen texts (w : world St) :
  keeps (via w_env frozen) (main_loop_files lib pool texts) w.
Proof. intros o w' E Hr. exact (proj1 (main_loop_files_rejected texts w o w' Hr E) Hr). Qed.

End Loop.

(** ** The body of [main] against a site that rejects the credentials *)

Section Body.
Context {St : Type} `{Server St} (fuel : nat) (cwd : string).

Abbreviation Sfrozen := (via (fun s : state => w_env (s_world s)) frozen).

Lemma keeps_on_world_via (R : env St -> env St -> Prop) {A} (c : M (world St) A) s :
  keeps (via w_env R) c (s_world s) -> keeps (via (fun s : state => w_env (s_world s)) R) (on_world c) s.
Proof.
  intros Hc o s'. unfold on_world, zoom. destruct (c (s_world s)) as [o' w'] eqn:E.
  intros [= _ <-]. exact (Hc _ _ E).
Qed.

Lemma keeps_set_disk_via (R : env St -> env St -> Prop) `{!PreOrder R} f s :
  keeps (via (fun s : state => w_env (s_world s)) R) (set_disk f) s.
Proof. intros o s' [= _ <-]. unfold via. cbn [s_world]. reflexivity. Qed.

(** The body sends requests only through [fetch]: a rejecting site and
    the header stay as they were. *)
Lemma keeps_main_body_frozen s : keeps Sfrozen (main_body fuel cwd) s.
Proof.
  unfold main_body. repeat keeps_step;
    try (apply keeps_on_world_via; first
           [ apply keeps_net_via, keeps_loadOrFetchSvgMedia_frozen
           | apply keeps_main_loop_files_frozen
           | intros ? ? [= _ <-]; unfold via; cbn [w_env]; reflexivity ]);
    try (apply keeps_set_disk_via; typeclasses eauto).
Qed.

(** An [icon_files.csv] that exists is never written again: every run
    of [main] keeps it as it is. *)
Abbreviation Sicons := (same (fun s : state => d_icons (s_disk s))).

Lemma keeps_on_world_icons {A} (c : M (world St) A) s : keeps Sicons (on_world c) s.
Proof. intros o s'. unfold on_world, zoom. destruct (c (s_world s)). intros [= _ <-]. reflexivity. Qed.

Lemma main_body_keeps_icons s o s' csv :
  d_icons (s_disk s) = Some csv -> main_body fuel cwd s = (o, s') -> d_icons (s_disk s') = Some csv.
Proof.
  intros Hs Hm. enough (K : keeps Sicons (main_body fuel cwd) s) by (rewrite <- Hs; exact (K _ _ Hm)).
  unfold main_body.
  apply keeps_bind; [typeclasses eauto|apply keeps_get; typeclasses eauto|]. intros s0 s1 [= <- <-].
  rewrite Hs. cbn [loadOrFetchSvgMedia].
  apply keeps_bind; [typeclasses eauto|apply keeps_on_world_icons|]. intros icons s2 H2.
  cbv [on_world zoom net ret] in H2. injection H2 as <- <-.
  apply keeps_bind; [typeclasses eauto|intros o' s4 [= _ <-]; by cbn [s_disk d_icons]|intros _ s3 _].
  repeat keeps_step; first [apply keeps_on_world_icons | intros ? ? [= _ <-]; reflexivity].
Qed.

Lemma main_keeps_icons cfg s o s' csv :
  d_icons (s_disk s) = Some csv -> main fuel cwd cfg s = (o, s') -> d_icons (s_disk s') = Some csv.
Proof.
  intros Hs. unfold main. destruct (negb _); [by intros [= _ <-]|]. intros Hm.
  bind_ok Hm u sh Hh. cbv [on_world zoom net modify] in Hh. injection Hh as Hh. subst sh.
  refine (main_body_keeps_icons _ o s' csv _ Hm). exact Hs.
Qed.

End Body.


(** ** Runs on the WordPress model *)

Section Runs.
Context (fuel : nat) (cwd : string) (cfg : env_vars).

Abbreviation Rpages := (same (fun s : state => page_count (s_world s))).

(** The catalogue set-up lists media: it creates no page. *)
Lemma keeps_catalogue_pages file (e : env wp) :
  keeps (same (fun e => length (wp_pages (srv e)))) (loadOrFetchSvgMedia fuel file) e.
Proof.
  destruct file as [c|]; cbn [loadOrFetchSvgMedia]; [apply keeps_ret; typeclasses eauto|].
  apply keeps_bind; [typeclasses eauto| |intros; repeat keeps_step].
  unfold fetchAllSvgMedia. generalize 1%nat (@nil media) e. clear e.
  induction fuel as [|f IH]; intros k acc e; cbn [fetch_loop]; [apply keeps_throw; typeclasses eauto|].
  apply keeps_bind; [typeclasses eauto| |intros [r|] e1 _; [apply IH|apply keeps_ret; typeclasses eauto]].
  apply keeps_catch; [typeclasses eauto| |intros; apply keeps_ret; typeclasses eauto].
  unfold fetch_media_page. apply keeps_bind; [typeclasses eauto| |intros; repeat keeps_step].
  apply (Retry.keeps_fetch (fun s => length (wp_pages s))). intros h s. by rewrite wp_list_media_keeps.
Qed.

Lemma keeps_on_world {A} (g : world wp -> nat) (c : M (world wp) A) s :
  keeps (same g) c (s_world s) -> keeps (same (fun s => g (s_world s))) (on_world c) s.
Proof.
  intros Hc o s'. unfold on_world, zoom. destruct (c (s_world s)) as [o' w'] eqn:E.
  intros [= _ <-]. by apply Hc in E.
Qed.

Lemma keeps_set_disk f s : keeps Rpages (set_disk f) s.
Proof. intros o s' [= _ <-]. reflexivity. Qed.

(** The pages of files that parse, and whose ids the ledger records. *)
Definition recorded_texts (texts : list string) (records : val) : Prop :=
  Forall (fun t => exists p originId, JSON_parse t = Ok p /\ get p "id" = Ok originId /\
                     to_js_string originId ∈ ledger_origins records) texts.

Lemma recorded_texts_pages texts records :
  recorded_texts texts records ->
  exists pages, Forall2 (fun t p => JSON_parse t = Ok p) texts pages /\
    Forall (fun p => exists originId, get p "id" = Ok originId /\
                     to_js_string originId ∈ ledger_origins records) pages.
Proof.
  induction 1 as [|t ts (p & i & Hp & Hi & Hin) _ (ps & H2 & Hps)]; [by exists []|].
  exists (p :: ps). split; constructor; eauto.
Qed.

(** A run whose ledger file records every page file creates no page. *)
Lemma main_recorded_keeps_pages s records :
  loadJSON (d_ledger (s_disk s)) = Ok records -> ledger_ok records ->
  recorded_texts (page_texts (d_pages (s_disk s))) records ->
  keeps Rpages (main fuel cwd cfg) s.
Proof.
  intros Hload Hok Hrec. unfold main, main_body.
  destruct (negb (stagingCredentialsPresent cfg)); [apply keeps_throw; typeclasses eauto|].
  apply keeps_bind; [typeclasses eauto|intros o s' [= _ <-]; reflexivity|intros u0 sH HH].
  cbv [on_world zoom net modify] in HH. injection HH as HH. subst sH.
  apply keeps_bind; [typeclasses eauto|apply keeps_get; typeclasses eauto|]. intros s0 s1 [= <- <-].
  apply keeps_bind; [typeclasses eauto| |intros icons sA _].
  { apply (keeps_on_world page_count).
    apply (keeps_net_env (fun e => length (wp_pages (srv e)))). apply keeps_catalogue_pages. }
  apply keeps_bind; [typeclasses eauto|apply keeps_set_disk|intros _ sB _].
  apply keeps_bind; [typeclasses eauto|apply keeps_lift; typeclasses eauto|].
  intros r sC [= Hr <-]. cbn [s_disk] in Hr. rewrite Hload in Hr. injection Hr as <-.
  apply keeps_bind; [typeclasses eauto|apply keeps_lift; typeclasses eauto|intros _ sC' [= _ <-]].
  apply keeps_bind; [typeclasses eauto| |intros u sD HD].
  { apply (keeps_on_world page_count). intros o w' [= _ <-]. reflexivity. }
  apply keeps_bind; [typeclasses eauto| |intros; repeat keeps_step; apply keeps_set_disk].
  apply (keeps_on_world page_count). intros o w' Hrun.
  destruct (recorded_texts_pages _ _ Hrec) as (pages & H2 & Hps).
  rewrite (main_loop_files_parsed _ _ _ _ H2) in Hrun.
  unfold on_world, zoom, modify in HD. injection HD as _ <-. cbn [s_world w_ledger] in *.
  eapply main_loop_recorded; [done| |exact Hrun]. exact Hps.
Qed.

(** A run that ends normally: what each step of [main] did. *)
Lemma main_Ok_inv s0 outs s1 :
  main fuel cwd cfg s0 = (Ok outs, s1) ->
  exists icons e1 records w2 text,
    loadOrFetchSvgMedia fuel (d_icons (s_disk s0)) (set_hdr (getAuthHeader cfg) (w_env (s_world s0)))
      = (Ok icons, e1) /\
    loadJSON (d_ledger (s_disk s0)) = Ok records /\
    main_loop_files (loadIconLibrary icons) (loadImagePool (cwd +:+ "/images") (d_images (s_disk s0)))
      (page_texts (d_pages (s_disk s0))) (mkWorld e1 records (w_rng (s_world s0)) (w_rpos (s_world s0)))
      = (Ok outs, w2) /\
    writeJSON (w_ledger w2) = Ok text /\
    s1 = mkState w2 (mkDisk icons (Some text) (d_pages (s_disk s0)) (d_images (s_disk s0))).
Proof.
  unfold main, main_body. intros H. destruct (negb (stagingCredentialsPresent cfg)); [discriminate|].
  bind_ok H u0 st0 H0. cbv [on_world zoom net modify] in H0. injection H0 as H0. subst st0.
  bind_ok H a st1 Ha. injection Ha as <- <-.
  bind_ok H icons st2 Hb. unfold on_world, net, zoom in Hb. cbn [s_world s_disk] in Hb.
  destruct (loadOrFetchSvgMedia _ _ _) as [o1 e1] eqn:E1.
  injection Hb as -> <-.
  bind_ok H u st3 Hc. injection Hc as <- <-.
  bind_ok H records st4 Hd. injection Hd as -> <-.
  bind_ok H len st4' Hd'. injection Hd' as _ <-.
  bind_ok H u' st5 He. injection He as <- <-.
  bind_ok H results st6 Hf. unfold on_world, zoom in Hf. cbn [s_world s_disk w_env w_rng w_rpos] in Hf.
  destruct (main_loop_files _ _ _ _) as [o2 w2] eqn:E2. injection Hf as -> <-.
  bind_ok H s2 st7 Hg. injection Hg as <- <-.
  bind_ok H text st8 Hh. injection Hh as Hw <-. cbn [s_world] in Hw.
  bind_ok H u'' st9 Hi. injection Hi as <- <-. injection H as -> <-.
  exists icons, e1, records, w2, text. split_and!; [reflexivity|done|exact E2|exact Hw|reflexivity].
Qed.

(** A run from a well-formed ledger file in which every page file
    succeeds leaves a disk on which the next run creates no page. *)
Lemma rerun_keeps_pages s0 records0 outs1 s1 o2 s2 :
  loadJSON (d_ledger (s_disk s0)) = Ok records0 -> ledger_wf records0 ->
  main fuel cwd cfg s0 = (Ok outs1, s1) -> Forall (fun r => is_success r = true) outs1 ->
  main fuel cwd cfg s1 = (o2, s2) -> page_count (s_world s2) = page_count (s_world s1).
Proof.
  intros Hl0 Hwf0 Hrun1 Hall Hrun2.
  destruct (main_Ok_inv _ _ _ Hrun1) as (icons & e1 & records & w2 & text & _ & Hl & Hloop & Hw & ->).
  rewrite Hl0 in Hl. injection Hl as <-.
  assert (Hwf0' : ledger_wf (w_ledger (mkWorld e1 records0 (w_rng (s_world s0)) (w_rpos (s_world s0)))))
    by exact Hwf0.
  destruct (main_loop_files_success _ _ _ _ _ _ Hwf0' Hloop Hall) as [Hwf2 Hrec].
  destruct (ledger_file _ Hwf2) as (text' & r2 & Hw' & Hl2 & Hwf2' & Ho2).
  rewrite Hw in Hw'. injection Hw' as <-.
  apply (main_recorded_keeps_pages _ r2) in Hrun2; [exact Hrun2|exact Hl2|apply Hwf2'|].
  cbn [s_disk d_pages]. unfold recorded_texts. rewrite Ho2. exact Hrec.
Qed.

(** A ledger file that is not JSON ends the run with the [SyntaxError]
    (or an earlier error) before any page is processed: the file is
    left as it was and no page is created. *)
Lemma corrupt_ledger_run s0 text o s1 :
  d_ledger (s_disk s0) = Some text -> json_parse text = None ->
  main fuel cwd cfg s0 = (o, s1) ->
  (exists e, o = Throw e) /\ d_ledger (s_disk s1) = Some text /\
  page_count (s_world s1) = page_count (s_world s0).
Proof.
  intros Hd Hp. unfold main, main_body. destruct (negb _); [intros [= <- <-]; eauto|]. intros H.
  bind_ok H u0 sh H0. cbv [on_world zoom net modify] in H0. injection H0 as H0.
  assert (Hdh : d_ledger (s_disk sh) = Some text) by (by subst sh).
  assert (Hph : page_count (s_world sh) = page_count (s_world s0)) by (by subst sh).
  rewrite <- Hph. clear - Hdh Hp H. rename sh into s0, Hdh into Hd.
  apply bind_inv in H as [(e & Hg & _)|(a & sa & Hg & H)]; [discriminate|]. injection Hg as <- <-.
  assert (Hcat : forall o' s', on_world (net (loadOrFetchSvgMedia fuel (d_icons (s_disk s0)))) s0 = (o', s') ->
            d_ledger (s_disk s') = Some text /\ page_count (s_world s') = page_count (s_world s0)).
  { intros o' s' Hs. split; [unfold on_world, zoom in Hs; destruct (net _ _); by injection Hs as _ <-|].
    revert Hs. apply (keeps_on_world page_count).
    apply (keeps_net_env (fun e => length (wp_pages (srv e)))). apply keeps_catalogue_pages. }
  apply bind_inv in H as [(e & Hc & ->)|(icons & sb & Hc & H)]; [destruct (Hcat _ _ Hc); eauto|].
  destruct (Hcat _ _ Hc) as [Hd1 Hc1].
  apply bind_inv in H as [(e & Hs & _)|(u & sc & Hs & H)]; [discriminate|]. injection Hs as <- <-.
  apply bind_inv in H as [(e & Hl & ->)|(r & sd & Hl & _)].
  - unfold lift in Hl. injection Hl as _ <-. eauto.
  - unfold lift, loadJSON, JSON_parse in Hl. cbn [s_disk d_ledger] in Hl. rewrite Hd, Hp in Hl. discriminate.
Qed.

(** A run against a staging site that rejects the header of the
    configured credentials: the site is untouched; when the run ends
    normally every page file failed, and a missing [icon_files.csv] is
    written with no icon in it. *)
Lemma main_rejected s0 o s1 :
  rejects (set_hdr (getAuthHeader cfg) (w_env (s_world s0))) -> main fuel cwd cfg s0 = (o, s1) ->
  srv (w_env (s_world s1)) = srv (w_env (s_world s0)) /\
  forall outs, o = Ok outs ->
    Forall (fun r => is_success r = false) outs /\
    (d_icons (s_disk s0) = None ->
     exists csv, d_icons (s_disk s1) = Some csv /\ loadIconLibrary (Some csv) = []).
Proof.
  intros Hr H. split.
  - revert H. unfold main. destruct (negb _); [by intros [= _ <-]|]. intros H.
    bind_ok H u0 sh H0. cbv [on_world zoom net modify] in H0. injection H0 as H0. subst sh.
    destruct (keeps_main_body_frozen fuel cwd _ _ _ H Hr) as [Hs _]. exact Hs.
  - intros outs ->. destruct (main_Ok_inv _ _ _ H) as (icons & e1 & records & w2 & text & E1 & _ & Hloop & _ & ->).
    pose proof (rejects_frozen _ _ Hr (keeps_loadOrFetchSvgMedia_frozen _ _ _ _ _ E1)) as Hr1.
    change (rejects (w_env (mkWorld e1 records (w_rng (s_world s0)) (w_rpos (s_world s0))))) in Hr1.
    split; [exact (proj2 (main_loop_files_rejected _ _ _ _ _ _ Hr1 Hloop) outs eq_refl)|].
    intros Hnone. rewrite Hnone in E1. destruct fuel as [|f]; [discriminate E1|].
    destruct (loadOrFetchSvgMedia_rejected f _ Hr) as (csv & e' & Ecsv & Hlib & _).
    rewrite Ecsv in E1. injection E1 as <- _. by exists csv.
Qed.

(** [TEST_MODE]: at most one page file is listed. *)
Lemma page_texts_test_mode d : (length (page_texts d) <= 1)%nat.
Proof.
  unfold page_texts, json_files. change TEST_MODE with true. cbv iota zeta.
  rewrite length_map, length_take. lia.
Qed.

Lemma main_test_mode s0 outs s1 : main fuel cwd cfg s0 = (Ok outs, s1) -> (length outs <= 1)%nat.
Proof.
  intros (icons & e1 & records & w2 & text & _ & _ & Hloop & _)%main_Ok_inv.
  rewrite (main_loop_files_length _ _ _ _ _ _ Hloop). apply page_texts_test_mode.
Qed.

End Runs.

(** ** Step 1 then step 2 *)

Lemma json_files_lookup d x : x ∈ json_files d -> is_Some (d !! x).
Proof.
  unfold json_files, readdir. change TEST_MODE with true. cbv iota zeta.
  intros (i & Hi & _)%elem_of_take. apply list_elem_of_lookup_2, list_elem_of_In, filter_In in Hi as [Hi _].
  apply list_elem_of_In in Hi. rewrite merge_sort_Permutation in Hi.
  apply list_elem_of_In, in_map_iff in Hi as ([k v] & <- & Hkv). apply list_elem_of_In in Hkv.
  apply elem_of_map_to_list in Hkv. eauto.
Qed.

(** The page files step 1 writes on a reliable network, with
    credentials the old site accepts, are read by step 2 as the pages of
    the old site, normalised by the JSON round trip. *)
Lemma pipeline_texts `{UrlParser} cwd s cfg urlsFile n sl h :
  pages_are_objects s -> wpCredentialsPresent cfg = true -> wp_authenticate (wpAuthHeader cfg) s = None ->
  Forall (fun t => exists id p v, (id, p) ∈ wp_pages s /\ jnorm (page_json (id, p)) = Some v /\ JSON_parse t = Ok v)
    (page_texts (fs_files (snd (step1 cwd cfg urlsFile (mkFetchState (mkEnv s reliable n sl h) ∅ ∅))))).
Proof.
  intros Hobj Hcfg Ha. rewrite step1_run by done. unfold set_hdr. cbn [fs_env fs_files fs_elsewhere srv RemoteApi.net sent slept].
  set (urls := urls_of urlsFile). rewrite fetch_pages_expected by done.
  pose proof (expected_files_pages s urls ∅ (map_Forall_empty _) Hobj) as Hall.
  unfold page_texts. apply Forall_forall. intros t Ht.
  apply list_elem_of_In, in_map_iff in Ht as (x & <- & Hx). apply list_elem_of_In in Hx.
  destruct (json_files_lookup _ x Hx) as [t Ht]. rewrite Ht. change (default "" (Some t)) with t.
  destruct (Hall x t Ht) as (id & p & Hin & Hs).
  destruct (proj1 (jprint_is_Some 0 (page_json (id, p)))) as [v Hv]; [unfold stringify in Hs; by rewrite Hs|].
  exists id, p, v. split_and!; [done|done|]. unfold JSON_parse. by rewrite (stringify_parse _ _ Hs), Hv.
Qed.


(** ** Properties of a run *)

Section Claims.
Context (fuel : nat) (cwd : string) (cfg : env_vars).

(** C34: a run that starts from a well-formed ledger file and in which
    every page file succeeds leaves a disk on which the next run of
    [main] creates no page: the ledger written by [writeJSON] and read
    back by [loadJSON] records every page file of [pages/]. *)
Theorem rerun_creates_no_page s0 records0 outs1 s1 o2 s2 :
  loadJSON (d_ledger (s_disk s0)) = Ok records0 -> ledger_wf records0 ->
  main fuel cwd cfg s0 = (Ok outs1, s1) -> Forall (fun r => is_success r = true) outs1 ->
  main fuel cwd cfg s1 = (o2, s2) -> page_count (s_world s2) = page_count (s_world s1).
Proof. apply rerun_keeps_pages. Qed.

(** C35: a [created_pages.json] whose text [JSON.parse] rejects (it is
    not in the JSON grammar [json_valid]) makes [main] throw before any
    page is processed; the file keeps its text and no page is created. *)
Theorem corrupt_ledger_aborts s0 text o s1 :
  d_ledger (s_disk s0) = Some text -> json_valid text = false ->
  main fuel cwd cfg s0 = (o, s1) ->
  (exists e, o = Throw e) /\ d_ledger (s_disk s1) = Some text /\
  page_count (s_world s1) = page_count (s_world s0).
Proof. intros Hl Hv. apply corrupt_ledger_run; [exact Hl|exact (json_invalid_parse text Hv)]. Qed.

(** C37: with [TEST_MODE] on, a run processes at most one page file,
    however many [pages/] holds. *)
Theorem main_test_mode_one_page s0 outs s1 :
  main fuel cwd cfg s0 = (Ok outs, s1) -> (length outs <= 1)%nat.
Proof. apply main_test_mode. Qed.

(** C16: wrong credentials are not fatal and poison the icon catalogue.
    Against a staging site that rejects the header built from the
    configured user and password, a run of [main] that ends normally
    reports every page file as failed; when [icon_files.csv] was missing
    it has been written with no icon in it, and every later run of
    [main], whatever its configuration and fuel, keeps that file as it
    is (spec section 7: only configuration errors are fatal). *)
Theorem rejected_credentials_run s0 outs s1 :
  wp_authenticate (getAuthHeader cfg) (srv (w_env (s_world s0))) <> None ->
  main fuel cwd cfg s0 = (Ok outs, s1) ->
  Forall (fun r => is_success r = false) outs /\
  (d_icons (s_disk s0) = None ->
   exists csv, d_icons (s_disk s1) = Some csv /\ loadIconLibrary (Some csv) = [] /\
     forall fuel' cfg' s2 o3 s3, d_icons (s_disk s2) = Some csv ->
       main fuel' cwd cfg' s2 = (o3, s3) -> d_icons (s_disk s3) = Some csv).
Proof.
  intros Hw H.
  destruct (main_rejected fuel cwd cfg s0 _ s1 (wp_rejects (set_hdr (getAuthHeader cfg) (w_env (s_world s0))) Hw) H)
    as [_ Hout].
  destruct (Hout outs eq_refl) as [Hf Hc]. split; [done|].
  intros Hn. destruct (Hc Hn) as (csv & Hd & Hl). exists csv. split_and!; [done|done|].
  intros. by eapply main_keeps_icons.
Qed.

End Claims.

(** C36: composition of the two steps.  Every page file step 1 writes
    from a site whose pages are objects, with credentials the site
    accepts and on a reliable network, is read by step 2 as a page of
    the old site: [JSON.parse] of the file is the page normalised by the
    JSON round trip. *)
Theorem pipeline_pages `{UrlParser} cwd s cfg urlsFile n sl h :
  pages_are_objects s -> wpCredentialsPresent cfg = true -> wp_authenticate (wpAuthHeader cfg) s = None ->
  Forall (fun t => exists id p v, (id, p) ∈ wp_pages s /\ jnorm (page_json (id, p)) = Some v /\ JSON_parse t = Ok v)
    (page_texts (fs_files (snd (step1 cwd cfg urlsFile (mkFetchState (mkEnv s reliable n sl h) ∅ ∅))))).
Proof. apply pipeline_texts. Qed.

(** ** Samples *)

Section Samples.

(** The [.env] of step 2 for the staging site. *)
Definition staging_cfg : env_vars :=
  mkEnvVars (Some "https://staging.example.com") (Some staging_user) (Some staging_password) None None.

(** The disk step 1 leaves from the sample site and URL list, with no
    icon file, no ledger file and one image. *)
Definition sample_disk : disk :=
  mkDisk None None (fs_files (snd (step1 sample_cwd old_cfg sample_urls_file sample_start))) ["office.webp"].

Definition sample_state : state (St:=wp) := mkState sample_world sample_disk.

Definition run1 := main 2 "/srv" staging_cfg sample_state.
Definition run2 := main 2 "/srv" staging_cfg (snd run1).

Lemma rerun_creates_no_page_witness :
  page_count (s_world (snd run1)) = 1%nat /\
  page_count (s_world (snd run2)) = page_count (s_world (snd run1)).
Proof.
  split; [vm_compute; reflexivity|].
  apply (rerun_creates_no_page 2 "/srv" staging_cfg sample_state (VArr []) (ok_or [] (fst run1)) (snd run1)
           (fst run2) (snd run2)).
  - reflexivity.
  - split; [split; constructor|constructor].
  - apply run_eq. vm_compute. reflexivity.
  - vm_compute. repeat constructor.
  - apply surjective_pairing.
Defined.

Definition corrupt_state : state (St:=wp) :=
  mkState sample_world (mkDisk None (Some "{oops") (d_pages sample_disk) []).

Lemma corrupt_ledger_aborts_witness :
  d_ledger (s_disk (snd (main 2 "/srv" staging_cfg corrupt_state))) = Some "{oops".
Proof.
  apply (corrupt_ledger_aborts 2 "/srv" staging_cfg corrupt_state "{oops" (fst (main 2 "/srv" staging_cfg corrupt_state))
           (snd (main 2 "/srv" staging_cfg corrupt_state))); [reflexivity|vm_compute; reflexivity|apply surjective_pairing].
Defined.

Lemma main_test_mode_one_page_witness :
  length (readdir (d_pages sample_disk)) = 2%nat /\ (length (ok_or [] (fst run1)) <= 1)%nat.
Proof.
  split; [vm_compute; reflexivity|].
  apply (main_test_mode_one_page 2 "/srv" staging_cfg sample_state _ (snd run1)). apply run_eq. vm_compute. reflexivity.
Defined.

Lemma pipeline_pages_witness :
  Forall (fun t => exists id p v, (id, p) ∈ wp_pages old_site /\ jnorm (page_json (id, p)) = Some v /\ JSON_parse t = Ok v)
    (page_texts (d_pages sample_disk)).
Proof.
  apply (pipeline_pages sample_cwd old_site old_cfg sample_urls_file 0 [] (wpAuthHeader old_cfg));
    [repeat constructor; eexists; reflexivity|reflexivity|vm_compute; reflexivity].
Defined.

(** The [.env] of step 2 with a wrong password. *)
Definition wrong_cfg : env_vars :=
  mkEnvVars (Some "https://staging.example.com") (Some staging_user) (Some "wrong password") None None.

Definition rejected_run := main 2 "/srv" wrong_cfg sample_state.

Lemma rejected_credentials_run_witness :
  let outs := ok_or [] (fst rejected_run) in
  length outs = 1%nat /\
  Forall (fun r => is_success r = false) outs /\
  (d_icons (s_disk sample_state) = None ->
   exists csv, d_icons (s_disk (snd rejected_run)) = Some csv /\ loadIconLibrary (Some csv) = [] /\
     forall fuel' cfg' s2 o3 s3, d_icons (s_disk s2) = Some csv ->
       main fuel' "/srv" cfg' s2 = (o3, s3) -> d_icons (s_disk s3) = Some csv).
Proof.
  intros outs. split; [vm_compute; reflexivity|].
  assert (E : fst rejected_run = Ok outs) by (vm_compute; reflexivity).
  apply (rejected_credentials_run 2 "/srv" wrong_cfg sample_state outs (snd rejected_run));
    [intros Hc; vm_compute in Hc; discriminate|].
  rewrite <- E. apply surjective_pairing.
Defined.

End Samples.

End Migration.
